(** * Ad Lib Gold adapter common object: register arbitration and interrupt dispatch

    A shallow embedding of [CAdapterCommon] (the part of adapter.cpp that the
    sources call common.cpp) and of the constants of common.h.  Port I/O is
    recorded in a chronological trace; the card answers reads through an
    arbitrary deterministic function of the I/O history, so every theorem
    holds for every behaviour of the hardware. *)

From Stdlib Require Import ZArith Lia Bool String.
From stdpp Require Import base list gmap strings.

Local Open Scope Z_scope.

(** ** Constants of common.h *)

Module Reg.
(** Port offsets relative to the I/O base. *)
Definition ALG_REG_FM0_ADDR : Z := 0x00.
Definition ALG_REG_FM0_DATA : Z := 0x01.
Definition ALG_REG_FM1_ADDR : Z := 0x02.
Definition ALG_REG_FM1_DATA : Z := 0x03.
Definition ALG_REG_MMA0_ADDR : Z := 0x04.
Definition ALG_REG_MMA0_DATA : Z := 0x05.

(** Bank switching values, written to base+2. *)
Definition ALG_BANK_CONTROL : Z := 0xFF.
Definition ALG_BANK_OPL3 : Z := 0xFE.

(** Status register bits (read from base+2 in Control Chip mode). *)
Definition ALG_STATUS_BUSY_MASK : Z := 0xC0.
Definition ALG_STATUS_SMP_IRQ : Z := 0x02.
Definition ALG_STATUS_FM_IRQ : Z := 0x01.
Definition ALG_STATUS_IRQ_MASK : Z := 0x0F.

(** MMA status register bits (read from base+4). *)
Definition MMA_STATUS_RRQ : Z := 0x04.

(** Control Chip register indices. *)
Definition CTRL_REG_CONTROL_ID : Z := 0x00.
Definition CTRL_REG_MASTER_VOL_L : Z := 0x04.
Definition CTRL_REG_MASTER_VOL_R : Z := 0x05.
Definition CTRL_REG_BASS : Z := 0x06.
Definition CTRL_REG_TREBLE : Z := 0x07.
Definition CTRL_REG_OUTPUT_MODE : Z := 0x08.
Definition CTRL_REG_FM_VOL_L : Z := 0x09.
Definition CTRL_REG_FM_VOL_R : Z := 0x0A.
Definition CTRL_REG_SAMP_VOL_L : Z := 0x0B.
Definition CTRL_REG_SAMP_VOL_R : Z := 0x0C.
Definition CTRL_REG_AUX_VOL_L : Z := 0x0D.
Definition CTRL_REG_AUX_VOL_R : Z := 0x0E.
Definition CTRL_REG_MIC_VOL : Z := 0x0F.
Definition CTRL_REG_RESERVED : Z := 0x12.
Definition CTRL_REG_MAX : Z := 0x19.

Definition CTRL_MIXER_FIRST : Z := 0x04.
Definition CTRL_MIXER_LAST : Z := 0x0F.

(** Register 0x00 (Control/ID) bits. *)
Definition CTRL_ID_SAVE : Z := 0x02.
Definition CTRL_ID_RESTORE : Z := 0x01.
Definition CTRL_ID_MODEL_MASK : Z := 0x0F.

Definition ALG_MODEL_GOLD1000 : Z := 0x00.
Definition ALG_MODEL_GOLD2000 : Z := 0x01.
Definition ALG_MODEL_GOLD2000MC : Z := 0x02.
End Reg.
Export Reg.

(** ** Platform types: NTSTATUS and DEVICE_POWER_STATE

    These come from the DDK headers, not from the driver.  An NTSTATUS is a
    signed 32-bit value and [NT_SUCCESS] is the test [status >= 0]. *)

Definition NTSTATUS := Z.

Definition ntstatus_of_ulong (u : Z) : NTSTATUS :=
  if u <? 2 ^ 31 then u else u - 2 ^ 32.

Definition STATUS_SUCCESS : NTSTATUS := 0.
Definition STATUS_UNSUCCESSFUL : NTSTATUS := ntstatus_of_ulong 0xC0000001.
Definition STATUS_INSUFFICIENT_RESOURCES : NTSTATUS := ntstatus_of_ulong 0xC000009A.
Definition STATUS_DEVICE_DOES_NOT_EXIST : NTSTATUS := ntstatus_of_ulong 0xC00000C0.
Definition STATUS_DEVICE_POWERED_OFF : NTSTATUS := ntstatus_of_ulong 0xC000028A.

Definition NT_SUCCESS (s : NTSTATUS) : bool := 0 <=? s.

Inductive DEVICE_POWER_STATE : Type :=
| PowerDeviceUnspecified
| PowerDeviceD0
| PowerDeviceD1
| PowerDeviceD2
| PowerDeviceD3
| PowerDeviceMaximum.

(** The enumerators' integer values, which the driver compares with [<=]
    and [>]. *)
Definition power_rank (p : DEVICE_POWER_STATE) : Z :=
  match p with
  | PowerDeviceUnspecified => 0
  | PowerDeviceD0 => 1
  | PowerDeviceD1 => 2
  | PowerDeviceD2 => 3
  | PowerDeviceD3 => 4
  | PowerDeviceMaximum => 5
  end.

#[global] Instance DEVICE_POWER_STATE_eq_dec : EqDecision DEVICE_POWER_STATE.
Proof. solve_decision. Defined.

(** [m_PowerState <= PowerDeviceD1]: the hardware may be touched. *)
Definition operative (p : DEVICE_POWER_STATE) : bool :=
  power_rank p <=? power_rank PowerDeviceD1.

(** ** The adapter object and the I/O trace *)

(** What the driver does to the outside world, oldest event first.  Ports
    are offsets from [m_pPortBase].  The two ISR events mark a call into the
    registered miniport; what the miniport does in that call is its own
    business and is not part of this model. *)
Inductive event : Type :=
| PortWrite (port value : Z)        (* WRITE_PORT_UCHAR(m_pPortBase + port, value) *)
| PortRead (port value : Z)         (* READ_PORT_UCHAR(m_pPortBase + port) gave value *)
| Stall (microseconds : Z)          (* KeStallExecutionProcessor *)
| ServiceWaveISR (miniport : nat)   (* m_pWaveMiniport->ServiceWaveISR() *)
| ServiceMidiISR (miniport : nat).  (* m_pMidiMiniport->ServiceMidiISR() *)

#[global] Instance event_eq_dec : EqDecision event.
Proof. solve_decision. Defined.

(** The data members of [CAdapterCommon].  A miniport pointer is [None] when
    NULL and [Some h] when it points to miniport [h]; of the interrupt sync
    object only whether it exists is kept. *)
Record CAdapterCommon : Type := mkAdapter {
  m_pInterruptSync : bool;
  m_PowerState : DEVICE_POWER_STATE;
  m_ControlRegs : list Z;            (* BYTE m_ControlRegs[CTRL_REG_MAX] *)
  m_CardModel : Z;
  m_CardOptions : Z;
  m_pWaveMiniport : option nat;
  m_pMidiMiniport : option nat
}.

Record World : Type := mkWorld {
  that : CAdapterCommon;
  trace : list event
}.

(** The shadow cache has the size its declaration gives it. *)
Definition cache_sized (w : World) : Prop :=
  length (m_ControlRegs (that w)) = Z.to_nat CTRL_REG_MAX.

(** ** Everything the driver takes from its environment *)

Record MIXERSETTING : Type := mkSetting {
  KeyName : string;
  RegisterIndex : Z;
  RegisterSetting : Z
}.

Record Platform : Type := mkPlatform {
  (** The card: the byte a read of [port] returns after the I/O history
      [history].  Only its low eight bits are used. *)
  port_in : list event -> Z -> Z;
  (** PcNewInterruptSync: status and whether an object was produced. *)
  PcNewInterruptSync : NTSTATUS * bool;
  RegisterServiceRoutine : NTSTATUS;
  Connect : NTSTATUS;
  (** The registry: PcNewRegistryKey, NewSubKey (status, disposition),
      ExAllocatePool (did it succeed) and QueryValueKey per value name
      (status, DataLength, the DWORD stored). *)
  PcNewRegistryKey : NTSTATUS;
  NewSubKey : NTSTATUS * Z;
  ExAllocatePool : bool;
  QueryValueKey : string -> NTSTATUS * Z * Z
}.

Record RESOURCELIST : Type := mkResources {
  NumberOfPorts : Z;
  NumberOfInterrupts : Z
}.

(** ** A state monad with one failure: indexing outside [m_ControlRegs] *)

Inductive Outcome (A : Type) : Type :=
| Done (a : A) (w : World)
| Fault.
Arguments Done {A} a w.
Arguments Fault {A}.

Definition M (A : Type) : Type := World -> Outcome A.

Definition ret {A} (a : A) : M A := fun w => Done a w.

Definition bind {A B} (c : M A) (k : A -> M B) : M B :=
  fun w => match c w with
           | Done a w' => k a w'
           | Fault => Fault
           end.

Notation "'let*' x ':=' c 'in' k" := (bind c (fun x => k))
  (at level 10, x name, c at level 100, k at level 200).
Notation "c '>>' k" := (bind c (fun _ => k))
  (at level 199, right associativity).

Definition when (b : bool) (c : M unit) : M unit := if b then c else ret tt.

(** [for (i = first; ...; i++) body(i)] running [count] times. *)
Fixpoint for_range (first : Z) (count : nat) (body : Z -> M unit) : M unit :=
  match count with
  | O => ret tt
  | S n => body first >> for_range (first + 1) n body
  end.

Definition get {A} (f : CAdapterCommon -> A) : M A :=
  fun w => Done (f (that w)) w.

Definition modify (f : CAdapterCommon -> CAdapterCommon) : M unit :=
  fun w => Done tt (mkWorld (f (that w)) (trace w)).

Definition emit (e : event) : M unit :=
  fun w => Done tt (mkWorld (that w) (trace w ++ [e])).

Definition set_PowerState (p : DEVICE_POWER_STATE) (a : CAdapterCommon) :=
  mkAdapter (m_pInterruptSync a) p (m_ControlRegs a) (m_CardModel a)
            (m_CardOptions a) (m_pWaveMiniport a) (m_pMidiMiniport a).

Definition set_ControlRegs (regs : list Z) (a : CAdapterCommon) :=
  mkAdapter (m_pInterruptSync a) (m_PowerState a) regs (m_CardModel a)
            (m_CardOptions a) (m_pWaveMiniport a) (m_pMidiMiniport a).

Definition set_CardIdentity (model options : Z) (a : CAdapterCommon) :=
  mkAdapter (m_pInterruptSync a) (m_PowerState a) (m_ControlRegs a) model
            options (m_pWaveMiniport a) (m_pMidiMiniport a).

Definition set_InterruptSync (present : bool) (a : CAdapterCommon) :=
  mkAdapter present (m_PowerState a) (m_ControlRegs a) (m_CardModel a)
            (m_CardOptions a) (m_pWaveMiniport a) (m_pMidiMiniport a).

Definition set_Miniports (wave midi : option nat) (a : CAdapterCommon) :=
  mkAdapter (m_pInterruptSync a) (m_PowerState a) (m_ControlRegs a)
            (m_CardModel a) (m_CardOptions a) wave midi.

(** [m_ControlRegs[i]] as an rvalue and as an lvalue.  An index outside
    the array is undefined behaviour in the source and [Fault] here. *)
Definition load_ControlRegs (i : Z) : M Z :=
  fun w => if (0 <=? i) && (i <? Z.of_nat (length (m_ControlRegs (that w))))
           then Done (default 0 (m_ControlRegs (that w) !! Z.to_nat i)) w
           else Fault.

Definition store_ControlRegs (i v : Z) : M unit :=
  fun w => if (0 <=? i) && (i <? Z.of_nat (length (m_ControlRegs (that w))))
           then Done tt (mkWorld (set_ControlRegs
                                    (<[Z.to_nat i := v]> (m_ControlRegs (that w)))
                                    (that w))
                                 (trace w))
           else Fault.

Section Driver.

Variable plat : Platform.

Definition WRITE_PORT_UCHAR (port value : Z) : M unit :=
  emit (PortWrite port value).

Definition READ_PORT_UCHAR (port : Z) : M Z :=
  fun w => let v := port_in plat (trace w) port mod 256 in
           Done v (mkWorld (that w) (trace w ++ [PortRead port v])).

Definition KeStallExecutionProcessor (us : Z) : M unit := emit (Stall us).

(** *** CAdapterCommon::WaitForReady

    [do { status = READ } while ((status & BUSY_MASK) && --timeout);]
    The loop is entered with [timeout = S n]; the result is the value of
    [timeout] when the loop is left. *)
Fixpoint WaitForReady_loop (n : nat) : M nat :=
  let* status := READ_PORT_UCHAR ALG_REG_FM1_ADDR in
  if Z.land status ALG_STATUS_BUSY_MASK =? 0
  then ret (S n)
  else match n with
       | O => ret O
       | S n' => WaitForReady_loop n'
       end.

Definition WaitForReady : M bool :=
  let* timeout := WaitForReady_loop 999 in
  ret (negb (Nat.eqb timeout 0)).

(** *** CAdapterCommon::ControlRegWrite *)
Definition ControlRegWrite (Register Value : Z) : M unit :=
  let* power := get m_PowerState in
  when (operative power)
    (WRITE_PORT_UCHAR ALG_REG_FM1_ADDR ALG_BANK_CONTROL >>
     WaitForReady >>
     WRITE_PORT_UCHAR ALG_REG_FM1_ADDR Register >>
     WRITE_PORT_UCHAR ALG_REG_FM1_DATA Value >>
     (if (0x04 <=? Register) && (Register <=? 0x08)
      then WaitForReady >> ret tt
      else if (0x09 <=? Register) && (Register <=? 0x16)
           then KeStallExecutionProcessor 5
           else ret tt) >>
     WRITE_PORT_UCHAR ALG_REG_FM1_ADDR ALG_BANK_OPL3) >>
  when (Register <? CTRL_REG_MAX) (store_ControlRegs Register Value).

(** *** CAdapterCommon::ControlRegRead *)
Definition ControlRegRead (Register : Z) : M Z :=
  if Register <? CTRL_REG_MAX
  then load_ControlRegs Register
  else ret 0.

(** *** SetWaveMiniport, SetMidiMiniport *)
Definition SetWaveMiniport (Miniport : option nat) : M unit :=
  modify (fun a => set_Miniports Miniport (m_pMidiMiniport a) a).

Definition SetMidiMiniport (Miniport : option nat) : M unit :=
  modify (fun a => set_Miniports (m_pWaveMiniport a) Miniport a).

(** *** InterruptServiceRoutine *)
Definition InterruptServiceRoutine : M NTSTATUS :=
  WRITE_PORT_UCHAR ALG_REG_FM1_ADDR ALG_BANK_CONTROL >>
  let* status := READ_PORT_UCHAR ALG_REG_FM1_ADDR in
  WRITE_PORT_UCHAR ALG_REG_FM1_ADDR ALG_BANK_OPL3 >>
  if Z.land status ALG_STATUS_IRQ_MASK =? ALG_STATUS_IRQ_MASK
  then ret STATUS_UNSUCCESSFUL
  else
    when (Z.land status ALG_STATUS_SMP_IRQ =? 0)
      (let* mmaStatus := READ_PORT_UCHAR ALG_REG_MMA0_ADDR in
       let* wave := get m_pWaveMiniport in
       match wave with
       | Some h => emit (ServiceWaveISR h)
       | None => ret tt
       end >>
       let* midi := get m_pMidiMiniport in
       if negb (Z.land mmaStatus MMA_STATUS_RRQ =? 0)
       then match midi with
            | Some h => emit (ServiceMidiISR h)
            | None => ret tt
            end
       else ret tt) >>
    when (Z.land status ALG_STATUS_FM_IRQ =? 0)
      (READ_PORT_UCHAR ALG_REG_FM0_ADDR >> ret tt) >>
    ret STATUS_SUCCESS.

(** *** Registry persistence *)

Definition DefaultMixerSettings : list MIXERSETTING :=
  [ mkSetting "LeftMasterVol" CTRL_REG_MASTER_VOL_L 0xD8;
    mkSetting "RightMasterVol" CTRL_REG_MASTER_VOL_R 0xD8;
    mkSetting "Bass" CTRL_REG_BASS 0xF6;
    mkSetting "Treble" CTRL_REG_TREBLE 0xF6;
    mkSetting "OutputMode" CTRL_REG_OUTPUT_MODE 0xC4;
    mkSetting "LeftFMVol" CTRL_REG_FM_VOL_L 0xC0;
    mkSetting "RightFMVol" CTRL_REG_FM_VOL_R 0xC0;
    mkSetting "LeftSampVol" CTRL_REG_SAMP_VOL_L 0xC0;
    mkSetting "RightSampVol" CTRL_REG_SAMP_VOL_R 0xC0;
    mkSetting "LeftAuxVol" CTRL_REG_AUX_VOL_L 0xC0;
    mkSetting "RightAuxVol" CTRL_REG_AUX_VOL_R 0xC0;
    mkSetting "MicVol" CTRL_REG_MIC_VOL 0x80 ].

(** [for (i = 0; i < SIZEOF_ARRAY(DefaultMixerSettings); i++)
       ControlRegWrite(RegisterIndex, RegisterSetting);] *)
Fixpoint write_defaults (settings : list MIXERSETTING) : M unit :=
  match settings with
  | [] => ret tt
  | s :: rest =>
      ControlRegWrite (RegisterIndex s) (RegisterSetting s) >>
      write_defaults rest
  end.

Definition REG_CREATED_NEW_KEY : Z := 1.
Definition sizeof_DWORD : Z := 4.

(** The loop over an existing settings key; [ntStatus] is the variable the
    loop keeps overwriting with the result of QueryValueKey. *)
Fixpoint read_saved_values (settings : list MIXERSETTING) (ntStatus : NTSTATUS)
  : M NTSTATUS :=
  match settings with
  | [] => ret ntStatus
  | s :: rest =>
      let '(queried, DataLength, Data) := QueryValueKey plat (KeyName s) in
      (if NT_SUCCESS queried
       then when (DataLength =? sizeof_DWORD)
              (ControlRegWrite (RegisterIndex s) (Data mod 256))
       else ControlRegWrite (RegisterIndex s) (RegisterSetting s)) >>
      read_saved_values rest queried
  end.

Definition RestoreMixerSettingsFromRegistry : M NTSTATUS :=
  let ntStatus := PcNewRegistryKey plat in
  if NT_SUCCESS ntStatus
  then
    let '(ntStatus, Disposition) := NewSubKey plat in
    if NT_SUCCESS ntStatus
    then
      if Disposition =? REG_CREATED_NEW_KEY
      then write_defaults DefaultMixerSettings >> ret ntStatus
      else if ExAllocatePool plat
           then read_saved_values DefaultMixerSettings ntStatus
           else write_defaults DefaultMixerSettings >>
                ret STATUS_INSUFFICIENT_RESOURCES
    else ret ntStatus
  else ret ntStatus.

(** *** CAdapterCommon::ControlRegReset *)
Definition ControlRegReset : M unit :=
  let* ntStatus := RestoreMixerSettingsFromRegistry in
  when (negb (NT_SUCCESS ntStatus)) (write_defaults DefaultMixerSettings) >>
  ControlRegWrite CTRL_REG_RESERVED 0x00.

(** *** CAdapterCommon::Init *)

(** The block "Detect card via Control Chip register 0", entered when the
    busy poll succeeded. *)
Definition Init_detect_card : M NTSTATUS :=
  WRITE_PORT_UCHAR ALG_REG_FM1_ADDR CTRL_REG_CONTROL_ID >>
  let* idByte := READ_PORT_UCHAR ALG_REG_FM1_DATA in
  WRITE_PORT_UCHAR ALG_REG_FM1_ADDR ALG_BANK_OPL3 >>
  modify (set_CardIdentity (Z.land idByte CTRL_ID_MODEL_MASK) idByte) >>
  store_ControlRegs CTRL_REG_CONTROL_ID idByte >>
  let* model := get m_CardModel in
  if ALG_MODEL_GOLD2000MC <? model
  then ret STATUS_DEVICE_DOES_NOT_EXIST
  else ret STATUS_SUCCESS.

(** The block "Set up interrupt synchronization". *)
Definition Init_interrupt_sync : M NTSTATUS :=
  let '(ntStatus, created) := PcNewInterruptSync plat in
  modify (set_InterruptSync created) >>
  if NT_SUCCESS ntStatus && created
  then
    let ntStatus := RegisterServiceRoutine plat in
    let ntStatus := if NT_SUCCESS ntStatus then Connect plat else ntStatus in
    when (negb (NT_SUCCESS ntStatus)) (modify (set_InterruptSync false)) >>
    ret ntStatus
  else ret ntStatus.

Definition Init (ResourceList : RESOURCELIST) : M NTSTATUS :=
  if (NumberOfPorts ResourceList <? 1) || (NumberOfInterrupts ResourceList <? 1)
  then ret STATUS_INSUFFICIENT_RESOURCES
  else
    modify (set_Miniports None None) >>
    modify (set_InterruptSync false) >>
    modify (set_PowerState PowerDeviceD0) >>
    modify (set_ControlRegs (replicate (Z.to_nat CTRL_REG_MAX) 0)) >>
    WRITE_PORT_UCHAR ALG_REG_FM1_ADDR ALG_BANK_CONTROL >>
    let* ready := WaitForReady in
    let ntStatus := if ready then STATUS_SUCCESS else STATUS_DEVICE_DOES_NOT_EXIST in
    let* ntStatus := (if NT_SUCCESS ntStatus then Init_detect_card else ret ntStatus) in
    let* ntStatus := (if NT_SUCCESS ntStatus then Init_interrupt_sync else ret ntStatus) in
    when (NT_SUCCESS ntStatus) ControlRegReset >>
    ret ntStatus.

(** *** CAdapterCommon::RestoreFromEEPROM *)
Definition RestoreFromEEPROM : M NTSTATUS :=
  let* power := get m_PowerState in
  if negb (operative power)
  then ret STATUS_DEVICE_POWERED_OFF
  else
    WRITE_PORT_UCHAR ALG_REG_FM1_ADDR ALG_BANK_CONTROL >>
    WaitForReady >>
    WRITE_PORT_UCHAR ALG_REG_FM1_ADDR CTRL_REG_CONTROL_ID >>
    WRITE_PORT_UCHAR ALG_REG_FM1_DATA CTRL_ID_RESTORE >>
    KeStallExecutionProcessor 2500 >>
    WaitForReady >>
    for_range 0 (Z.to_nat CTRL_REG_MAX)
      (fun reg =>
         WRITE_PORT_UCHAR ALG_REG_FM1_ADDR reg >>
         let* value := READ_PORT_UCHAR ALG_REG_FM1_DATA in
         store_ControlRegs reg value) >>
    WRITE_PORT_UCHAR ALG_REG_FM1_ADDR ALG_BANK_OPL3 >>
    let* id := load_ControlRegs CTRL_REG_CONTROL_ID in
    modify (set_CardIdentity (Z.land id CTRL_ID_MODEL_MASK) id) >>
    ret STATUS_SUCCESS.

(** *** CAdapterCommon::PowerChangeState *)
Definition PowerChangeState (NewState : DEVICE_POWER_STATE) : M unit :=
  let* current := get m_PowerState in
  if bool_decide (NewState = current)
  then ret tt
  else
    match NewState with
    | PowerDeviceD0 =>
        modify (set_PowerState NewState) >>
        for_range CTRL_MIXER_FIRST
          (Z.to_nat (CTRL_MIXER_LAST - CTRL_MIXER_FIRST + 1))
          (fun i =>
             let* cached := load_ControlRegs i in
             ControlRegWrite i cached)
    | PowerDeviceD1 | PowerDeviceD2 | PowerDeviceD3 =>
        modify (set_PowerState NewState)
    | _ => ret tt
    end.

End Driver.

(** ** The rest of the adapter common object *)

Section Peripherals.

Variable plat : Platform.

(** *** CAdapterCommon::EnableControlBank, EnableOPL3Bank1 *)
Definition EnableControlBank : M unit :=
  WRITE_PORT_UCHAR ALG_REG_FM1_ADDR ALG_BANK_CONTROL.

Definition EnableOPL3Bank1 : M unit :=
  WRITE_PORT_UCHAR ALG_REG_FM1_ADDR ALG_BANK_OPL3.

(** *** CAdapterCommon::WriteOPL3

    [Address] is a ULONG; [(UCHAR)Address] and [(UCHAR)(Address & 0xFF)]
    keep its low byte. *)
Definition WriteOPL3 (Address Data : Z) : M unit :=
  let* power := get m_PowerState in
  if negb (operative power)
  then ret tt
  else if Address <? 0x100
       then
         WRITE_PORT_UCHAR ALG_REG_FM0_ADDR (Address mod 256) >>
         KeStallExecutionProcessor 23 >>
         WRITE_PORT_UCHAR ALG_REG_FM0_DATA Data >>
         KeStallExecutionProcessor 23
       else
         WRITE_PORT_UCHAR ALG_REG_FM1_ADDR ALG_BANK_OPL3 >>
         WRITE_PORT_UCHAR ALG_REG_FM1_ADDR (Z.land Address 0xFF mod 256) >>
         KeStallExecutionProcessor 23 >>
         WRITE_PORT_UCHAR ALG_REG_FM1_DATA Data >>
         KeStallExecutionProcessor 23.

(** *** CAdapterCommon::WriteMMA, ReadMMA *)
Definition WriteMMA (Register Value : Z) : M unit :=
  let* power := get m_PowerState in
  if negb (operative power)
  then ret tt
  else
    WRITE_PORT_UCHAR ALG_REG_MMA0_ADDR Register >>
    KeStallExecutionProcessor 1 >>
    WRITE_PORT_UCHAR ALG_REG_MMA0_DATA Value >>
    KeStallExecutionProcessor 1.

Definition ReadMMA (Register : Z) : M Z :=
  let* power := get m_PowerState in
  if negb (operative power)
  then ret 0
  else
    WRITE_PORT_UCHAR ALG_REG_MMA0_ADDR Register >>
    KeStallExecutionProcessor 1 >>
    READ_PORT_UCHAR plat ALG_REG_MMA0_DATA.

(** *** CAdapterCommon::GetCardModel *)
Definition GetCardModel : M Z := get m_CardModel.

(** *** CAdapterCommon::SaveToEEPROM *)
Definition SaveToEEPROM : M NTSTATUS :=
  let* power := get m_PowerState in
  if negb (operative power)
  then ret STATUS_DEVICE_POWERED_OFF
  else
    WRITE_PORT_UCHAR ALG_REG_FM1_ADDR ALG_BANK_CONTROL >>
    WaitForReady plat >>
    WRITE_PORT_UCHAR ALG_REG_FM1_ADDR CTRL_REG_CONTROL_ID >>
    WRITE_PORT_UCHAR ALG_REG_FM1_DATA CTRL_ID_SAVE >>
    WaitForReady plat >>
    WRITE_PORT_UCHAR ALG_REG_FM1_ADDR ALG_BANK_OPL3 >>
    ret STATUS_SUCCESS.

(** *** CAdapterCommon::SaveMixerSettingsToRegistry

    The settings key is a finite map from value names to DWORDs.
    [SetValueKey] gives the status of storing one value; a value is in the
    key afterwards when that status is a success.  The function returns its
    status together with the key as it leaves it. *)
Variable SetValueKey : string -> Z -> NTSTATUS.

(** The loop body from index [i] on; it breaks at the first failure. *)
Fixpoint save_values (settings : list MIXERSETTING) (ntStatus : NTSTATUS)
    (key : gmap string Z) : M (NTSTATUS * gmap string Z) :=
  match settings with
  | [] => ret (ntStatus, key)
  | s :: rest =>
      let* KeyValue := load_ControlRegs (RegisterIndex s) in
      let stored := SetValueKey (KeyName s) KeyValue in
      if NT_SUCCESS stored
      then save_values rest stored (<[KeyName s := KeyValue]> key)
      else ret (stored, key)
  end.

Definition SaveMixerSettingsToRegistry (key : gmap string Z)
  : M (NTSTATUS * gmap string Z) :=
  let ntStatus := PcNewRegistryKey plat in
  if NT_SUCCESS ntStatus
  then
    let '(ntStatus, _) := NewSubKey plat in
    if NT_SUCCESS ntStatus
    then save_values DefaultMixerSettings ntStatus key
    else ret (ntStatus, key)
  else ret (ntStatus, key).

End Peripherals.

(** ** Sequences of calls on the adapter

    The calls the miniports and the platform make on the adapter common
    object, so that statements can speak of any sequence of them.  Results
    are dropped. *)
Inductive AdapterCall : Type :=
| Call_ControlRegWrite (Register Value : Z)
| Call_ControlRegRead (Register : Z)
| Call_ControlRegReset
| Call_WriteOPL3 (Address Data : Z)
| Call_WriteMMA (Register Value : Z)
| Call_ReadMMA (Register : Z)
| Call_SaveToEEPROM
| Call_RestoreFromEEPROM
| Call_PowerChangeState (NewState : DEVICE_POWER_STATE)
| Call_InterruptServiceRoutine.

Definition perform (plat : Platform) (call : AdapterCall) : M unit :=
  match call with
  | Call_ControlRegWrite r v => ControlRegWrite plat r v
  | Call_ControlRegRead r => ControlRegRead r >> ret tt
  | Call_ControlRegReset => ControlRegReset plat
  | Call_WriteOPL3 a d => WriteOPL3 a d
  | Call_WriteMMA r v => WriteMMA r v
  | Call_ReadMMA r => ReadMMA plat r >> ret tt
  | Call_SaveToEEPROM => SaveToEEPROM plat >> ret tt
  | Call_RestoreFromEEPROM => RestoreFromEEPROM plat >> ret tt
  | Call_PowerChangeState p => PowerChangeState plat p
  | Call_InterruptServiceRoutine => InterruptServiceRoutine plat >> ret tt
  end.

Fixpoint perform_all (plat : Platform) (calls : list AdapterCall) : M unit :=
  match calls with
  | [] => ret tt
  | call :: rest => perform plat call >> perform_all plat rest
  end.

(** Register arguments are BYTEs, so not negative; an OPL3 address whose low
    byte is 0xFF would be taken for the control-bank sentinel. *)
Definition proper_call (call : AdapterCall) : Prop :=
  match call with
  | Call_ControlRegWrite r _ => 0 <= r
  | Call_ControlRegRead r => 0 <= r
  | Call_WriteOPL3 a _ => 0 <= a /\ Z.land a 0xFF <> ALG_BANK_CONTROL
  | _ => True
  end.

(** The calls that look at the power state before touching a port. *)
Definition power_gated (call : AdapterCall) : Prop :=
  match call with
  | Call_PowerChangeState _ | Call_InterruptServiceRoutine => False
  | _ => True
  end.

(** ** The topology miniport's property handlers (algtopo.cpp)

    The handlers turn KS property requests into reads and writes of the
    Control Chip registers through the adapter common object. *)

Definition CHAN_LEFT : Z := 0.
Definition CHAN_RIGHT : Z := 1.
Definition CHAN_MASTER : Z := -1.

Definition NODE_SAMP_VOLUME : Z := 0.
Definition NODE_FM_VOLUME : Z := 1.
Definition NODE_AUX_VOLUME : Z := 2.
Definition NODE_MIC_VOLUME : Z := 3.
Definition NODE_MASTER_VOLUME : Z := 4.
Definition NODE_BASS : Z := 5.
Definition NODE_TREBLE : Z := 6.
Definition NODE_MUTE : Z := 7.

Definition CTRL_MODE_FORCED_BITS : Z := 0xC0.
Definition CTRL_MODE_MUTE : Z := 0x20.
Definition CTRL_TONE_FORCED_BITS : Z := 0xF0.
Definition CTRL_TONE_MASK : Z := 0x0F.

Definition STATUS_INVALID_PARAMETER : NTSTATUS := ntstatus_of_ulong 0xC000000D.
Definition STATUS_BUFFER_TOO_SMALL : NTSTATUS := ntstatus_of_ulong 0xC0000023.

Definition sizeof_LONG : Z := 4.
Definition sizeof_BOOL : Z := 4.
Definition sizeof_ULONG : Z := 4.
Definition ULONG_MINUS_1 : Z := 0xFFFFFFFF.

(** Node ID -> Control Chip register pair; [RegRight = 0] for a mono node. *)
Record NODE_REG_MAP : Type := mkRegMap {
  RegLeft : Z;
  RegRight : Z;
  MinVal : Z;
  MaxVal : Z
}.

Definition NodeRegMap : list NODE_REG_MAP :=
  [ mkRegMap CTRL_REG_SAMP_VOL_L CTRL_REG_SAMP_VOL_R 0x80 0xFF;
    mkRegMap CTRL_REG_FM_VOL_L CTRL_REG_FM_VOL_R 0x80 0xFF;
    mkRegMap CTRL_REG_AUX_VOL_L CTRL_REG_AUX_VOL_R 0x80 0xFF;
    mkRegMap CTRL_REG_MIC_VOL 0 0x80 0xFF;
    mkRegMap CTRL_REG_MASTER_VOL_L CTRL_REG_MASTER_VOL_R 0xC0 0xFF ].

Definition SIZEOF_NodeRegMap : Z := Z.of_nat (length NodeRegMap).

(** What the handlers take from ks.h and ksmedia.h: flag bits, property
    ids and structure sizes. *)
Record KS : Type := mkKS {
  KSPROPERTY_TYPE_GET : Z;
  KSPROPERTY_TYPE_SET : Z;
  KSPROPERTY_TYPE_BASICSUPPORT : Z;
  KSPROPERTY_AUDIO_BASS : Z;
  KSPROPERTY_AUDIO_TREBLE : Z;
  KSAUDIO_CPU_RESOURCES_NOT_HOST_CPU : Z;
  KSPROPERTY_MEMBER_STEPPEDRANGES : Z;
  VT_I4 : Z;
  sizeof_KSPROPERTY_DESCRIPTION : Z;
  sizeof_KSPROPERTY_MEMBERSHEADER : Z;
  sizeof_KSPROPERTY_STEPPING_LONG : Z
}.

(** The structures a BASICSUPPORT reply is made of. *)
Record KSPROPERTY_DESCRIPTION : Type := mkDescription {
  AccessFlags : Z;
  DescriptionSize : Z;
  PropTypeSet_Set : string;
  PropTypeSet_Id : Z;
  PropTypeSet_Flags : Z;
  MembersListCount : Z;
  Description_Reserved : Z
}.

Record KSPROPERTY_MEMBERSHEADER : Type := mkMembersHeader {
  MembersFlags : Z;
  MembersSize : Z;
  MembersCount : Z;
  Members_Flags : Z
}.

Record KSPROPERTY_STEPPING_LONG : Type := mkStepping {
  SignedMinimum : Z;
  SignedMaximum : Z;
  SteppingDelta : Z;
  Stepping_Reserved : Z
}.

(** The value buffer of a request: a LONG (also a BOOL or a ULONG), or what
    BASICSUPPORT writes into it. *)
Inductive PropertyValue : Type :=
| Value_LONG (v : Z)
| Value_Description (desc : KSPROPERTY_DESCRIPTION)
| Value_SteppedRange (desc : KSPROPERTY_DESCRIPTION)
    (members : KSPROPERTY_MEMBERSHEADER) (range : KSPROPERTY_STEPPING_LONG).

(** [*(PLONG(PropertyRequest->Value))]: the first four bytes of the
    buffer. *)
Definition LONG_of (v : PropertyValue) : Z :=
  match v with
  | Value_LONG x => x
  | Value_Description desc => AccessFlags desc
  | Value_SteppedRange desc _ _ => AccessFlags desc
  end.

(** The fields of PCPROPERTY_REQUEST the handlers look at.  [Instance] is
    the LONG the instance buffer starts with, looked at only when
    [InstanceSize] allows. *)
Record PCPROPERTY_REQUEST : Type := mkRequest {
  Node : Z;
  PropertyItem_Id : Z;
  Verb : Z;
  InstanceSize : Z;
  Instance : Z;
  ValueSize : Z;
  Value : PropertyValue
}.

Definition set_Value (v : PropertyValue) (size : Z) (r : PCPROPERTY_REQUEST) :=
  mkRequest (Node r) (PropertyItem_Id r) (Verb r) (InstanceSize r) (Instance r)
            size v.

Section Topology.

Variable plat : Platform.
Variable ks : KS.

(** [Verb & flag] as a condition. *)
Definition verb_has (verb flag : Z) : bool := negb (Z.land verb flag =? 0).

Definition full_access : Z :=
  Z.lor (Z.lor (KSPROPERTY_TYPE_GET ks) (KSPROPERTY_TYPE_SET ks))
        (KSPROPERTY_TYPE_BASICSUPPORT ks).

Definition sizeof_stepped_description : Z :=
  sizeof_KSPROPERTY_DESCRIPTION ks + sizeof_KSPROPERTY_MEMBERSHEADER ks
  + sizeof_KSPROPERTY_STEPPING_LONG ks.

Definition stepped_description : KSPROPERTY_DESCRIPTION :=
  mkDescription full_access sizeof_stepped_description
                "KSPROPTYPESETID_General" (VT_I4 ks) 0 1 0.

(** The BASICSUPPORT branch of PropertyHandler_Level and
    PropertyHandler_Tone, which differ in the range they report. *)
Definition basic_support_range (ntStatus : NTSTATUS)
    (minimum maximum delta : Z) (PropertyRequest : PCPROPERTY_REQUEST)
  : NTSTATUS * PCPROPERTY_REQUEST :=
  if sizeof_stepped_description <=? ValueSize PropertyRequest
  then (STATUS_SUCCESS,
        set_Value
          (Value_SteppedRange stepped_description
             (mkMembersHeader (KSPROPERTY_MEMBER_STEPPEDRANGES ks)
                              (sizeof_KSPROPERTY_STEPPING_LONG ks) 1 0)
             (mkStepping minimum maximum delta 0))
          sizeof_stepped_description PropertyRequest)
  else if sizeof_KSPROPERTY_DESCRIPTION ks <=? ValueSize PropertyRequest
  then (STATUS_SUCCESS,
        set_Value (Value_Description stepped_description)
                  (sizeof_KSPROPERTY_DESCRIPTION ks) PropertyRequest)
  else if sizeof_ULONG <=? ValueSize PropertyRequest
  then (STATUS_SUCCESS,
        set_Value (Value_LONG full_access) sizeof_ULONG PropertyRequest)
  else (ntStatus, PropertyRequest).

(** *** PropertyHandler_Level *)
Definition PropertyHandler_Level (PropertyRequest : PCPROPERTY_REQUEST)
  : M (NTSTATUS * PCPROPERTY_REQUEST) :=
  let ntStatus := STATUS_INVALID_PARAMETER in
  if Node PropertyRequest =? ULONG_MINUS_1
  then ret (ntStatus, PropertyRequest)
  else if SIZEOF_NodeRegMap <=? Node PropertyRequest
  then ret (ntStatus, PropertyRequest)
  else if ValueSize PropertyRequest <? sizeof_LONG
  then ret (STATUS_BUFFER_TOO_SMALL, PropertyRequest)
  else
    let channel := if sizeof_LONG <=? InstanceSize PropertyRequest
                   then Instance PropertyRequest
                   else CHAN_MASTER in
    match NodeRegMap !! Z.to_nat (Node PropertyRequest) with
    | None => fun _ => Fault
    | Some map =>
        if verb_has (Verb PropertyRequest) (KSPROPERTY_TYPE_GET ks)
        then
          let reg := if (channel =? CHAN_RIGHT) && negb (RegRight map =? 0)
                     then RegRight map
                     else RegLeft map in
          let* val := ControlRegRead reg in
          ret (STATUS_SUCCESS, set_Value (Value_LONG val) sizeof_LONG PropertyRequest)
        else if verb_has (Verb PropertyRequest) (KSPROPERTY_TYPE_SET ks)
        then
          let val := LONG_of (Value PropertyRequest) mod 256 in
          let val := if val <? MinVal map then MinVal map else val in
          let val := if MaxVal map <? val then MaxVal map else val in
          (if (channel =? CHAN_RIGHT) && negb (RegRight map =? 0)
           then ControlRegWrite plat (RegRight map) val
           else if (channel =? CHAN_LEFT) || (RegRight map =? 0)
           then ControlRegWrite plat (RegLeft map) val
           else
             ControlRegWrite plat (RegLeft map) val >>
             when (negb (RegRight map =? 0))
               (ControlRegWrite plat (RegRight map) val)) >>
          ret (STATUS_SUCCESS, PropertyRequest)
        else if verb_has (Verb PropertyRequest) (KSPROPERTY_TYPE_BASICSUPPORT ks)
        then ret (basic_support_range ntStatus (MinVal map) (MaxVal map) 1
                    PropertyRequest)
        else ret (ntStatus, PropertyRequest)
    end.

(** *** PropertyHandler_OnOff

    [mode] is a BYTE: [mode &= ~CTRL_MODE_MUTE] clears bit 5 and keeps the
    value in a byte. *)
Definition PropertyHandler_OnOff (PropertyRequest : PCPROPERTY_REQUEST)
  : M (NTSTATUS * PCPROPERTY_REQUEST) :=
  let ntStatus := STATUS_INVALID_PARAMETER in
  if Node PropertyRequest =? ULONG_MINUS_1
  then ret (ntStatus, PropertyRequest)
  else if ValueSize PropertyRequest <? sizeof_BOOL
  then ret (STATUS_BUFFER_TOO_SMALL, PropertyRequest)
  else if verb_has (Verb PropertyRequest) (KSPROPERTY_TYPE_GET ks)
  then
    let* mode := ControlRegRead CTRL_REG_OUTPUT_MODE in
    ret (STATUS_SUCCESS,
         set_Value (Value_LONG (if Z.land mode CTRL_MODE_MUTE =? 0 then 0 else 1))
                   sizeof_BOOL PropertyRequest)
  else if verb_has (Verb PropertyRequest) (KSPROPERTY_TYPE_SET ks)
  then
    let mute := LONG_of (Value PropertyRequest) in
    let* mode := ControlRegRead CTRL_REG_OUTPUT_MODE in
    let mode := if mute =? 0
                then Z.land mode (Z.lnot CTRL_MODE_MUTE) mod 256
                else Z.lor mode CTRL_MODE_MUTE mod 256 in
    let mode := Z.lor mode CTRL_MODE_FORCED_BITS mod 256 in
    ControlRegWrite plat CTRL_REG_OUTPUT_MODE mode >>
    ret (STATUS_SUCCESS, PropertyRequest)
  else if verb_has (Verb PropertyRequest) (KSPROPERTY_TYPE_BASICSUPPORT ks)
  then
    if sizeof_ULONG <=? ValueSize PropertyRequest
    then ret (STATUS_SUCCESS,
              set_Value (Value_LONG full_access) sizeof_ULONG PropertyRequest)
    else ret (ntStatus, PropertyRequest)
  else ret (ntStatus, PropertyRequest).

(** *** PropertyHandler_Tone

    [LONG]s stay far from their limits here: [dB] is clamped to -12..15
    before it is shifted.  [ksValue >> 16] is the arithmetic shift the
    compiler gives a signed operand, [dB / 3] truncates towards zero. *)
Definition clamp_LONG (lo hi x : Z) : Z :=
  let x := if x <? lo then lo else x in
  if hi <? x then hi else x.

Definition PropertyHandler_Tone (PropertyRequest : PCPROPERTY_REQUEST)
  : M (NTSTATUS * PCPROPERTY_REQUEST) :=
  let ntStatus := STATUS_INVALID_PARAMETER in
  if Node PropertyRequest =? ULONG_MINUS_1
  then ret (ntStatus, PropertyRequest)
  else
    let node_parameters :=
      if (Node PropertyRequest =? NODE_BASS)
         && (PropertyItem_Id PropertyRequest =? KSPROPERTY_AUDIO_BASS ks)
      then Some (CTRL_REG_BASS, -12, 15)
      else if (Node PropertyRequest =? NODE_TREBLE)
              && (PropertyItem_Id PropertyRequest =? KSPROPERTY_AUDIO_TREBLE ks)
      then Some (CTRL_REG_TREBLE, -12, 12)
      else None in
    match node_parameters with
    | None => ret (ntStatus, PropertyRequest)
    | Some (reg, dBMin, dBMax) =>
        if verb_has (Verb PropertyRequest) (KSPROPERTY_TYPE_GET ks)
        then
          if ValueSize PropertyRequest <? sizeof_LONG
          then ret (STATUS_BUFFER_TOO_SMALL, PropertyRequest)
          else
            let* val := ControlRegRead reg in
            let nibble := Z.land val CTRL_TONE_MASK in
            let dB := (nibble - 6) * 3 in
            let dB := clamp_LONG dBMin dBMax dB in
            ret (STATUS_SUCCESS,
                 set_Value (Value_LONG (Z.shiftl dB 16)) sizeof_LONG PropertyRequest)
        else if verb_has (Verb PropertyRequest) (KSPROPERTY_TYPE_SET ks)
        then
          if ValueSize PropertyRequest <? sizeof_LONG
          then ret (STATUS_BUFFER_TOO_SMALL, PropertyRequest)
          else
            let ksValue := LONG_of (Value PropertyRequest) in
            let dB := Z.shiftr ksValue 16 in
            let dB := clamp_LONG dBMin dBMax dB in
            let nibble := Z.quot dB 3 + 6 in
            let nibble := clamp_LONG 0 0xF nibble in
            let regVal := Z.lor CTRL_TONE_FORCED_BITS
                                (Z.land nibble CTRL_TONE_MASK mod 256) in
            ControlRegWrite plat reg regVal >>
            ret (STATUS_SUCCESS, PropertyRequest)
        else if verb_has (Verb PropertyRequest) (KSPROPERTY_TYPE_BASICSUPPORT ks)
        then ret (basic_support_range ntStatus (Z.shiftl dBMin 16)
                    (Z.shiftl dBMax 16) (Z.shiftl 3 16) PropertyRequest)
        else ret (ntStatus, PropertyRequest)
    end.

(** *** PropertyHandler_CpuResources *)
Definition PropertyHandler_CpuResources (PropertyRequest : PCPROPERTY_REQUEST)
  : M (NTSTATUS * PCPROPERTY_REQUEST) :=
  if ValueSize PropertyRequest <? sizeof_LONG
  then ret (STATUS_BUFFER_TOO_SMALL, PropertyRequest)
  else if verb_has (Verb PropertyRequest) (KSPROPERTY_TYPE_GET ks)
  then ret (STATUS_SUCCESS,
            set_Value (Value_LONG (KSAUDIO_CPU_RESOURCES_NOT_HOST_CPU ks))
                      sizeof_LONG PropertyRequest)
  else if verb_has (Verb PropertyRequest) (KSPROPERTY_TYPE_BASICSUPPORT ks)
          && (sizeof_ULONG <=? ValueSize PropertyRequest)
  then ret (STATUS_SUCCESS,
            set_Value
              (Value_LONG (Z.lor (KSPROPERTY_TYPE_GET ks)
                                 (KSPROPERTY_TYPE_BASICSUPPORT ks)))
              sizeof_ULONG PropertyRequest)
  else ret (STATUS_INVALID_PARAMETER, PropertyRequest).

End Topology.

(** A set of values for the ks.h side, with GET, SET and BASICSUPPORT on
    distinct bits, used to exercise the statements. *)
Definition ks_sample : KS :=
  mkKS 0x1 0x2 0x200 14 16 0 0x2 3 40 16 16.

(** The channel a request is for: the LONG of its instance data when there
    is one, else all channels. *)
Definition channel_of (r : PCPROPERTY_REQUEST) : Z :=
  if sizeof_LONG <=? InstanceSize r then Instance r else CHAN_MASTER.

(** A request like [r] for another channel. *)
Definition for_channel (channel : Z) (r : PCPROPERTY_REQUEST) : PCPROPERTY_REQUEST :=
  mkRequest (Node r) (PropertyItem_Id r) (Verb r) sizeof_LONG channel
            (ValueSize r) (Value r).

(** A GET request and a SET request, as the handlers tell them apart: GET
    is tested first. *)
Definition is_GET (ks : KS) (r : PCPROPERTY_REQUEST) : Prop :=
  verb_has (Verb r) (KSPROPERTY_TYPE_GET ks) = true.

Definition is_SET (ks : KS) (r : PCPROPERTY_REQUEST) : Prop :=
  verb_has (Verb r) (KSPROPERTY_TYPE_GET ks) = false /\
  verb_has (Verb r) (KSPROPERTY_TYPE_SET ks) = true.

(** The reply to a GET: the request with a LONG in its value buffer. *)
Definition reply_LONG (v : Z) (r : PCPROPERTY_REQUEST) : PCPROPERTY_REQUEST :=
  set_Value (Value_LONG v) sizeof_LONG r.

(** ** The MIDI UART miniport (midi.cpp)

    The miniport reaches the YMZ263 only through ReadMMA and WriteMMA of the
    adapter common object.  Its own members are passed explicitly; the
    adapter and the ports stay in the monad. *)

Definition MMA_REG_STATUS : Z := 0x00.
Definition MMA_REG_MIDI_CTRL : Z := 0x0D.
Definition MMA_REG_MIDI_DATA : Z := 0x0E.

Definition MMA_MIDI_MSK_POV : Z := 0x80.
Definition MMA_MIDI_MSK_MOV : Z := 0x40.
Definition MMA_MIDI_TRS_RST : Z := 0x20.
Definition MMA_MIDI_MSK_TRQ : Z := 0x10.
Definition MMA_MIDI_RCV_RST : Z := 0x08.
Definition MMA_MIDI_MSK_RRQ : Z := 0x04.

Definition MMA_MIDI_CTRL_DEFAULT : Z :=
  Z.lor (Z.lor MMA_MIDI_MSK_POV MMA_MIDI_MSK_MOV) MMA_MIDI_MSK_TRQ.

Definition MIDI_INPUT_BUFFER_SIZE : Z := 256.

Definition STATUS_INVALID_DEVICE_REQUEST : NTSTATUS := ntstatus_of_ulong 0xC0000010.
Definition STATUS_IO_DEVICE_ERROR : NTSTATUS := ntstatus_of_ulong 0xC0000185.

Inductive KSSTATE : Type :=
| KSSTATE_STOP
| KSSTATE_ACQUIRE
| KSSTATE_PAUSE
| KSSTATE_RUN.

#[global] Instance KSSTATE_eq_dec : EqDecision KSSTATE.
Proof. solve_decision. Defined.

Module Midi.

(** The members of CMiniportMidiUartAdLibGold the code below uses; [m_Port]
    is whether the port pointer is set. *)
Record CMiniportMidiUartAdLibGold : Type := mkMidi {
  m_Port : bool;
  m_NumCaptureStreams : Z;
  m_NumRenderStreams : Z;
  m_KSStateInput : KSSTATE;
  m_InputBuffer : list Z;
  m_InputBufferHead : Z;
  m_InputBufferTail : Z;
  m_PowerState : DEVICE_POWER_STATE
}.

Definition set_InputBufferHead (head : Z) (this : CMiniportMidiUartAdLibGold) :=
  mkMidi (m_Port this) (m_NumCaptureStreams this) (m_NumRenderStreams this)
         (m_KSStateInput this) (m_InputBuffer this) head
         (m_InputBufferTail this) (m_PowerState this).

Definition set_InputBufferTail (tail : Z) (this : CMiniportMidiUartAdLibGold) :=
  mkMidi (m_Port this) (m_NumCaptureStreams this) (m_NumRenderStreams this)
         (m_KSStateInput this) (m_InputBuffer this) (m_InputBufferHead this)
         tail (m_PowerState this).

Definition set_InputBuffer (buffer : list Z) (this : CMiniportMidiUartAdLibGold) :=
  mkMidi (m_Port this) (m_NumCaptureStreams this) (m_NumRenderStreams this)
         (m_KSStateInput this) buffer (m_InputBufferHead this)
         (m_InputBufferTail this) (m_PowerState this).

Definition set_KSStateInput (state : KSSTATE) (this : CMiniportMidiUartAdLibGold) :=
  mkMidi (m_Port this) (m_NumCaptureStreams this) (m_NumRenderStreams this)
         state (m_InputBuffer this) (m_InputBufferHead this)
         (m_InputBufferTail this) (m_PowerState this).

Definition set_PowerState (state : DEVICE_POWER_STATE)
    (this : CMiniportMidiUartAdLibGold) :=
  mkMidi (m_Port this) (m_NumCaptureStreams this) (m_NumRenderStreams this)
         (m_KSStateInput this) (m_InputBuffer this) (m_InputBufferHead this)
         (m_InputBufferTail this) state.

(** [m_InputBuffer[i] = value]; an index outside the array is a [Fault]. *)
Definition store_InputBuffer (i value : Z) (this : CMiniportMidiUartAdLibGold)
  : M CMiniportMidiUartAdLibGold :=
  if (0 <=? i) && (i <? Z.of_nat (length (m_InputBuffer this)))
  then ret (set_InputBuffer (<[Z.to_nat i := value]> (m_InputBuffer this)) this)
  else fun _ => Fault.

Section Miniport.

Variable plat : Platform.

(** *** CMiniportMidiUartAdLibGold::Service *)
Definition Service (this : CMiniportMidiUartAdLibGold) : CMiniportMidiUartAdLibGold :=
  if m_NumCaptureStreams this =? 0
  then set_InputBufferTail 0 (set_InputBufferHead 0 this)
  else this.

(** *** CMiniportMidiUartAdLibGold::ServiceMidiISR

    The loop [while (bytesDrained < 16)]: every pass that does not break
    counts one byte, so [remaining] is [16 - bytesDrained].  The result is
    the miniport and [newBytesAvailable]. *)
Fixpoint ServiceMidiISR_loop (remaining : nat) (this : CMiniportMidiUartAdLibGold)
    (newBytesAvailable : bool) : M (CMiniportMidiUartAdLibGold * bool) :=
  match remaining with
  | O => ret (this, newBytesAvailable)
  | S remaining =>
      let* mmaStatus := ReadMMA plat MMA_REG_STATUS in
      if Z.land mmaStatus MMA_STATUS_RRQ =? 0
      then ret (this, newBytesAvailable)
      else
        let* dataByte := ReadMMA plat MMA_REG_MIDI_DATA in
        if negb (bool_decide (m_KSStateInput this = KSSTATE_RUN))
           || (m_NumCaptureStreams this =? 0)
        then ServiceMidiISR_loop remaining this newBytesAvailable
        else
          let nextTail := (m_InputBufferTail this + 1) mod MIDI_INPUT_BUFFER_SIZE in
          if nextTail =? m_InputBufferHead this
          then ServiceMidiISR_loop remaining this newBytesAvailable
          else
            let* this := store_InputBuffer (m_InputBufferTail this) dataByte this in
            ServiceMidiISR_loop remaining (set_InputBufferTail nextTail this) true
  end.

(** The second component tells whether [m_Port->Notify] was called. *)
Definition ServiceMidiISR (this : CMiniportMidiUartAdLibGold)
  : M (CMiniportMidiUartAdLibGold * bool) :=
  let* result := ServiceMidiISR_loop 16 this false in
  ret (fst result, snd result && m_Port (fst result)).

(** *** CMiniportMidiUartAdLibGold::PowerChangeState *)
Definition PowerChangeState (NewState : DEVICE_POWER_STATE)
    (this : CMiniportMidiUartAdLibGold) : M CMiniportMidiUartAdLibGold :=
  (if bool_decide (NewState = PowerDeviceD0)
   then
     when (negb (bool_decide (m_PowerState this = PowerDeviceD0)))
       (WriteMMA MMA_REG_MIDI_CTRL
          (Z.lor (Z.lor (Z.lor (Z.lor (Z.lor MMA_MIDI_MSK_POV MMA_MIDI_MSK_MOV)
                                      MMA_MIDI_TRS_RST) MMA_MIDI_MSK_TRQ)
                        MMA_MIDI_RCV_RST) MMA_MIDI_MSK_RRQ) >>
        WriteMMA MMA_REG_MIDI_CTRL MMA_MIDI_CTRL_DEFAULT)
   else
     when (bool_decide (m_PowerState this = PowerDeviceD0))
       (WriteMMA MMA_REG_MIDI_CTRL
          (Z.lor (Z.lor (Z.lor MMA_MIDI_MSK_POV MMA_MIDI_MSK_MOV)
                        MMA_MIDI_MSK_TRQ) MMA_MIDI_MSK_RRQ))) >>
  ret (set_PowerState NewState this).

(** *** SynchronizedMidiWrite

    [pMidiData] is the caller's buffer, [Length] what the caller says it
    holds; reading past the buffer is a [Fault].  The loop
    [while (count < Length && count < 16)] is entered with [remaining] equal
    to [16 - count].  The result is the status and [*BytesWritten]. *)
Fixpoint SynchronizedMidiWrite_loop (remaining : nat) (pMidiData : list Z)
    (Length count : Z) : M Z :=
  match remaining with
  | O => ret count
  | S remaining =>
      if count <? Length
      then
        match pMidiData !! Z.to_nat count with
        | None => fun _ => Fault
        | Some data =>
            WriteMMA MMA_REG_MIDI_DATA data >>
            SynchronizedMidiWrite_loop remaining pMidiData Length (count + 1)
        end
      else ret count
  end.

Definition SynchronizedMidiWrite (pMidiData : list Z) (Length : Z)
  : M (NTSTATUS * Z) :=
  let* count := SynchronizedMidiWrite_loop 16 pMidiData Length 0 in
  ret (STATUS_SUCCESS, count).

(** *** CMiniportMidiStreamUartAdLibGold

    A stream has [m_fCapture] and [m_NumFailedTries]; its miniport is passed
    along. *)
Record CMiniportMidiStreamUartAdLibGold : Type := mkStream {
  m_fCapture : bool;
  m_NumFailedTries : Z
}.

(** *** CMiniportMidiStreamUartAdLibGold::SetState *)
Definition SetState (stream : CMiniportMidiStreamUartAdLibGold) (NewState : KSSTATE)
    (this : CMiniportMidiUartAdLibGold) : NTSTATUS * CMiniportMidiUartAdLibGold :=
  if m_fCapture stream
  then
    let this := set_KSStateInput NewState this in
    (STATUS_SUCCESS,
     if bool_decide (NewState = KSSTATE_STOP)
     then set_InputBufferTail 0 (set_InputBufferHead 0 this)
     else this)
  else (STATUS_SUCCESS, this).

(** *** CMiniportMidiStreamUartAdLibGold::Read

    The loop [while (head != tail && count < Length)], entered with
    [remaining] equal to [Length - count]; [None] stands for reading outside
    [m_InputBuffer].  The result is the bytes copied to the caller, in
    order, and the miniport. *)
Fixpoint Read_loop (remaining : nat) (this : CMiniportMidiUartAdLibGold)
  : option (list Z * CMiniportMidiUartAdLibGold) :=
  match remaining with
  | O => Some ([], this)
  | S remaining =>
      if m_InputBufferHead this =? m_InputBufferTail this
      then Some ([], this)
      else
        if (0 <=? m_InputBufferHead this)
        then
          match m_InputBuffer this !! Z.to_nat (m_InputBufferHead this) with
          | None => None
          | Some data =>
              let this :=
                set_InputBufferHead
                  ((m_InputBufferHead this + 1) mod MIDI_INPUT_BUFFER_SIZE) this in
              match Read_loop remaining this with
              | Some (rest, this) => Some (data :: rest, this)
              | None => None
              end
          end
        else None
  end.

Definition Read (stream : CMiniportMidiStreamUartAdLibGold) (Length : Z)
    (this : CMiniportMidiUartAdLibGold)
  : option (NTSTATUS * list Z * CMiniportMidiUartAdLibGold) :=
  if negb (m_fCapture stream)
  then Some (STATUS_INVALID_DEVICE_REQUEST, [], this)
  else
    match Read_loop (Z.to_nat Length) this with
    | Some (bytes, this) => Some (STATUS_SUCCESS, bytes, this)
    | None => None
    end.

(** *** CMiniportMidiStreamUartAdLibGold::Write

    [BufferAddress] is [None] for a null pointer.  CallSynchronizedRoutine
    runs the routine under the interrupt lock and returns its status, so both
    branches come to a call of SynchronizedMidiWrite.  The result is the
    status, what [*BytesWritten] was set to ([None] when the function returns
    before setting it) and the stream. *)
Definition Write (stream : CMiniportMidiStreamUartAdLibGold)
    (BufferAddress : option (list Z)) (Length : Z)
  : M (NTSTATUS * option Z * CMiniportMidiStreamUartAdLibGold) :=
  let Length := match BufferAddress with None => 0 | Some _ => Length end in
  if m_fCapture stream
  then ret (STATUS_INVALID_DEVICE_REQUEST, None, stream)
  else
    if negb (Length =? 0)
    then
      let* pInterruptSync := get m_pInterruptSync in
      let* result :=
        (if pInterruptSync
         then SynchronizedMidiWrite (default [] BufferAddress) Length
         else SynchronizedMidiWrite (default [] BufferAddress) Length) in
      let '(ntStatus, count) := result in
      if count =? 0
      then
        let tries := m_NumFailedTries stream + 1 in
        if 100 <=? tries
        then ret (STATUS_IO_DEVICE_ERROR, Some count, mkStream (m_fCapture stream) 0)
        else ret (ntStatus, Some count, mkStream (m_fCapture stream) tries)
      else ret (ntStatus, Some count, mkStream (m_fCapture stream) 0)
    else ret (STATUS_SUCCESS, Some 0, stream).

End Miniport.

End Midi.

(** ** The wave miniport (minwave.h, minwave.cpp) *)

Definition MMA_REG_PLAYBACK : Z := 0x09.
Definition MMA_REG_VOLUME : Z := 0x0A.
Definition MMA_REG_PCM_DATA : Z := 0x0B.
Definition MMA_REG_FORMAT : Z := 0x0C.

Definition MMA_PB_RST : Z := 0x80.
Definition MMA_PB_RIGHT : Z := 0x40.
Definition MMA_PB_LEFT : Z := 0x20.
Definition MMA_PB_FREQ_SHIFT : Z := 3.
Definition MMA_PB_FREQ_MASK : Z := 0x18.
Definition MMA_PB_PCM : Z := 0x04.
Definition MMA_PB_PLAYBACK : Z := 0x02.
Definition MMA_PB_GO : Z := 0x01.

Definition MMA_FREQ_44100 : Z := 0.
Definition MMA_FREQ_22050 : Z := 1.
Definition MMA_FREQ_11025 : Z := 2.
Definition MMA_FREQ_7350 : Z := 3.

Definition MMA_FMT_DATA_SHIFT : Z := 5.
Definition MMA_FMT_FIFO_SHIFT : Z := 2.
Definition MMA_FMT_MSK : Z := 0x02.
Definition MMA_FMT_ENB : Z := 0x01.
Definition MMA_DATA_FMT_8BIT : Z := 0.
Definition MMA_DATA_FMT_12B_2 : Z := 2.
Definition MMA_FIFO_THR_DEFAULT : Z := 5.
Definition MMA_FIFO_SIZE : Z := 128.

Definition CTRL_REG_IRQ_DMA0 : Z := 0x13.
Definition CTRL_DMA0_ENABLE : Z := 0x80.
Definition CTRL_DMA0_SEL_SHIFT : Z := 5.
Definition CTRL_IRQ_ENABLE : Z := 0x10.
Definition CTRL_IRQ_SEL_MASK : Z := 0x07.
Definition CTRL_IRQ_SEL_3 : Z := 0x00.
Definition CTRL_IRQ_SEL_4 : Z := 0x01.
Definition CTRL_IRQ_SEL_5 : Z := 0x02.
Definition CTRL_IRQ_SEL_7 : Z := 0x03.
Definition CTRL_IRQ_SEL_10 : Z := 0x04.
Definition CTRL_IRQ_SEL_11 : Z := 0x05.
Definition CTRL_IRQ_SEL_12 : Z := 0x06.
Definition CTRL_IRQ_SEL_15 : Z := 0x07.

Definition WAVE_FORMAT_PCM : Z := 1.

(** [(USHORT)x] and [(SHORT)x]. *)
Definition to_USHORT (x : Z) : Z := x mod 65536.

(** Conversion to ULONG (32 bits) and to LONGLONG (64 bits, two's
    complement). *)
Definition to_ULONG (x : Z) : Z := x mod 2 ^ 32.

Definition to_LONGLONG (x : Z) : Z :=
  let r := x mod 2 ^ 64 in
  if r <? 2 ^ 63 then r else r - 2 ^ 64.

Definition _100NS_UNITS_PER_SECOND : Z := 10000000.

Definition to_SHORT (x : Z) : Z :=
  let u := x mod 65536 in
  if u <? 32768 then u else u - 65536.

Module Wave.

Definition SupportedSampleRates : list Z := [44100; 22050; 11025; 7350].

(** *** LfsrNext (minwave.h) *)
Definition LfsrNext (State : Z) : Z :=
  let bit := Z.land (Z.lxor (Z.lxor (Z.lxor (Z.shiftr State 0) (Z.shiftr State 2))
                                    (Z.shiftr State 3))
                            (Z.shiftr State 5)) 1 in
  to_USHORT (Z.lor (Z.shiftr State 1) (Z.shiftl bit 15)).

(** *** DitherSample (minwave.h)

    The result is the returned sample and the LFSR state left in
    [*pLfsr]. *)
Definition DitherSample (Sample16 Lfsr : Z) : Z * Z :=
  let r1 := Z.land Lfsr 0x0F - 8 in
  let Lfsr := LfsrNext Lfsr in
  let r2 := Z.land Lfsr 0x0F - 8 in
  let Lfsr := LfsrNext Lfsr in
  let dithered := Sample16 + r1 + r2 in
  let dithered := if 32767 <? dithered then 32767 else dithered in
  let dithered := if dithered <? -32768 then -32768 else dithered in
  (to_SHORT (Z.land dithered 0xFFF0), Lfsr).

(** *** CMiniportWaveCyclicAdLibGold::SampleRateToFreqBits *)
Definition SampleRateToFreqBits (SampleRate : Z) : Z :=
  if SampleRate =? 44100 then MMA_FREQ_44100
  else if SampleRate =? 22050 then MMA_FREQ_22050
  else if SampleRate =? 11025 then MMA_FREQ_11025
  else if SampleRate =? 7350 then MMA_FREQ_7350
  else MMA_FREQ_22050.

(** *** CMiniportWaveCyclicAdLibGold::ValidateFormat

    A KSDATAFORMAT followed by a WAVEFORMATEX; the three format GUIDs are
    kept by name. *)
Record KSDATAFORMAT_WAVEFORMATEX : Type := mkFormat {
  FormatSize : Z;
  MajorFormat : string;
  SubFormat : string;
  Specifier : string;
  wFormatTag : Z;
  nChannels : Z;
  nSamplesPerSec : Z;
  wBitsPerSample : Z
}.

(** The loop over SupportedSampleRates, which leaves [rateValid]. *)
Fixpoint rate_listed (rates : list Z) (nSamplesPerSec : Z) : bool :=
  match rates with
  | [] => false
  | rate :: rest =>
      if nSamplesPerSec =? rate then true else rate_listed rest nSamplesPerSec
  end.

Definition ValidateFormat (sizeof_KSDATAFORMAT_WAVEFORMATEX : Z)
    (Format : KSDATAFORMAT_WAVEFORMATEX) : NTSTATUS :=
  if (FormatSize Format <? sizeof_KSDATAFORMAT_WAVEFORMATEX)
     || negb (String.eqb (MajorFormat Format) "KSDATAFORMAT_TYPE_AUDIO")
     || negb (String.eqb (SubFormat Format) "KSDATAFORMAT_SUBTYPE_PCM")
     || negb (String.eqb (Specifier Format) "KSDATAFORMAT_SPECIFIER_WAVEFORMATEX")
  then STATUS_INVALID_PARAMETER
  else if negb (wFormatTag Format =? WAVE_FORMAT_PCM)
  then STATUS_INVALID_PARAMETER
  else if (nChannels Format <? 1) || (2 <? nChannels Format)
  then STATUS_INVALID_PARAMETER
  else if negb (wBitsPerSample Format =? 8) && negb (wBitsPerSample Format =? 16)
  then STATUS_INVALID_PARAMETER
  else if negb (rate_listed SupportedSampleRates (nSamplesPerSec Format))
  then STATUS_INVALID_PARAMETER
  else STATUS_SUCCESS.

Section Miniport.

Variable plat : Platform.

(** *** CMiniportWaveCyclicAdLibGold::ConfigureDmaAndIrq

    [irqLine] and [dmaChan] are what the resource list gives for interrupt 0
    and DMA 0. *)
Definition ConfigureDmaAndIrq (irqLine dmaChan : Z) : M unit :=
  let irqSel :=
    if irqLine =? 3 then CTRL_IRQ_SEL_3
    else if irqLine =? 4 then CTRL_IRQ_SEL_4
    else if irqLine =? 5 then CTRL_IRQ_SEL_5
    else if irqLine =? 7 then CTRL_IRQ_SEL_7
    else if irqLine =? 10 then CTRL_IRQ_SEL_10
    else if irqLine =? 11 then CTRL_IRQ_SEL_11
    else if irqLine =? 12 then CTRL_IRQ_SEL_12
    else if irqLine =? 15 then CTRL_IRQ_SEL_15
    else CTRL_IRQ_SEL_7 in
  let dmaSel := Z.shiftl (Z.land dmaChan 0x03) CTRL_DMA0_SEL_SHIFT mod 256 in
  let reg13 := Z.lor (Z.lor (Z.lor CTRL_DMA0_ENABLE dmaSel) CTRL_IRQ_ENABLE) irqSel
               mod 256 in
  ControlRegWrite plat CTRL_REG_IRQ_DMA0 reg13.

End Miniport.

(** *** CMiniportWaveCyclicStreamAdLibGold: the PIO members *)
Record PioState : Type := mkPio {
  m_SoftwarePosition : Z;
  m_DmaBufferSize : Z;
  m_LfsrState : Z
}.

(** [*((SHORT * )(pBuffer + position))]: two bytes, low byte first; reading
    outside the buffer is a [Fault]. *)
Definition load_sample (pBuffer : list Z) (position : Z) : M Z :=
  if 0 <=? position
  then
    match pBuffer !! Z.to_nat position, pBuffer !! Z.to_nat (position + 1) with
    | Some lo, Some hi => ret (to_SHORT (lo + 256 * hi))
    | _, _ => fun _ => Fault
    end
  else fun _ => Fault.

(** *** CMiniportWaveCyclicStreamAdLibGold::FillFifo

    The loop [while (bytesWritten < bytesToWrite)] adds 2 every pass, so
    [remaining] is [(MMA_FIFO_SIZE - bytesWritten) / 2]. *)
Fixpoint FillFifo_loop (remaining : nat) (pBuffer : list Z) (this : PioState)
  : M PioState :=
  match remaining with
  | O => ret this
  | S remaining =>
      let* sample := load_sample pBuffer (m_SoftwarePosition this) in
      let '(dithered, lfsr) := DitherSample sample (m_LfsrState this) in
      WriteMMA MMA_REG_PCM_DATA (Z.land dithered 0xFF) >>
      WriteMMA MMA_REG_PCM_DATA (Z.land (Z.shiftr dithered 8) 0xFF) >>
      let position := m_SoftwarePosition this + 2 in
      let position := if m_DmaBufferSize this <=? position then 0 else position in
      FillFifo_loop remaining pBuffer (mkPio position (m_DmaBufferSize this) lfsr)
  end.

Definition FillFifo (pBuffer : option (list Z)) (this : PioState) : M PioState :=
  match pBuffer with
  | None => ret this
  | Some pBuffer => FillFifo_loop (Z.to_nat (MMA_FIFO_SIZE / 2)) pBuffer this
  end.

(** [pBuffer[position] = lo; pBuffer[position + 1] = hi]; writing outside
    the buffer is a [Fault]. *)
Definition store_pair (pBuffer : list Z) (position lo hi : Z) : M (list Z) :=
  if (0 <=? position) && (position + 1 <? Z.of_nat (length pBuffer))
  then ret (<[Z.to_nat (position + 1) := hi]> (<[Z.to_nat position := lo]> pBuffer))
  else fun _ => Fault.

(** *** CMiniportWaveCyclicStreamAdLibGold::DrainFifo

    The loop [while (bytesRead < bytesToRead)] adds 2 every pass, so
    [remaining] is [(MMA_FIFO_SIZE - bytesRead) / 2].  The result is the
    buffer and the stream's PIO state. *)
Fixpoint DrainFifo_loop (plat : Platform) (remaining : nat) (pBuffer : list Z)
    (this : PioState) : M (list Z * PioState) :=
  match remaining with
  | O => ret (pBuffer, this)
  | S remaining =>
      let* lo := ReadMMA plat MMA_REG_PCM_DATA in
      let* hi := ReadMMA plat MMA_REG_PCM_DATA in
      let* pBuffer := store_pair pBuffer (m_SoftwarePosition this) lo hi in
      let position := m_SoftwarePosition this + 2 in
      let position := if m_DmaBufferSize this <=? position then 0 else position in
      DrainFifo_loop plat remaining pBuffer
        (mkPio position (m_DmaBufferSize this) (m_LfsrState this))
  end.

Definition DrainFifo (plat : Platform) (pBuffer : option (list Z)) (this : PioState)
  : M (option (list Z) * PioState) :=
  match pBuffer with
  | None => ret (None, this)
  | Some pBuffer =>
      let* result := DrainFifo_loop plat (Z.to_nat (MMA_FIFO_SIZE / 2)) pBuffer this in
      ret (Some (fst result), snd result)
  end.

End Wave.

(** ** The wave stream (minwave.cpp)

    What the stream takes from its miniport: the DMA channel (buffer size
    and system address; [Start] and [Stop] are reported in the result) and
    the sampling frequency. *)

Inductive DmaAction : Type :=
| Dma_Start (MapSize : Z) (WriteToDevice : bool)
| Dma_Stop.

Record DMACHANNEL : Type := mkDma {
  BufferSize : Z;
  SystemAddress : option (list Z)
}.

Module WaveStream.

Record CMiniportWaveCyclicStreamAdLibGold : Type := mkStream {
  m_Capture : bool;
  m_16Bit : bool;
  m_Stereo : bool;
  m_State : KSSTATE;
  pio : Wave.PioState
}.

Definition set_State (state : KSSTATE) (this : CMiniportWaveCyclicStreamAdLibGold) :=
  mkStream (m_Capture this) (m_16Bit this) (m_Stereo this) state (pio this).

Definition set_pio (p : Wave.PioState) (this : CMiniportWaveCyclicStreamAdLibGold) :=
  mkStream (m_Capture this) (m_16Bit this) (m_Stereo this) (m_State this) p.

Section Stream.

Variable m_DmaChannel : DMACHANNEL.
Variable m_SamplingFrequency : Z.

(** *** CMiniportWaveCyclicStreamAdLibGold::ProgramMmaStart *)
Definition ProgramMmaStart (this : CMiniportWaveCyclicStreamAdLibGold)
  : M (CMiniportWaveCyclicStreamAdLibGold * list DmaAction) :=
  WriteMMA MMA_REG_PLAYBACK MMA_PB_RST >>
  KeStallExecutionProcessor 1 >>
  WriteMMA MMA_REG_PLAYBACK 0x00 >>
  let fmtReg := Z.shiftl MMA_FIFO_THR_DEFAULT MMA_FMT_FIFO_SHIFT mod 256 in
  let fmtReg :=
    if m_16Bit this
    then Z.lor fmtReg (Z.shiftl MMA_DATA_FMT_12B_2 MMA_FMT_DATA_SHIFT) mod 256
    else Z.lor (Z.lor (Z.lor fmtReg (Z.shiftl MMA_DATA_FMT_8BIT MMA_FMT_DATA_SHIFT)
                       mod 256) MMA_FMT_ENB mod 256) MMA_FMT_MSK mod 256 in
  WriteMMA MMA_REG_FORMAT fmtReg >>
  let* this :=
    (if m_16Bit this
     then
       let this :=
         set_pio (Wave.mkPio 0 (BufferSize m_DmaChannel)
                             (Wave.m_LfsrState (pio this))) this in
       if negb (m_Capture this)
       then
         let* filled := Wave.FillFifo (SystemAddress m_DmaChannel) (pio this) in
         ret (set_pio filled this)
       else ret this
     else ret this) in
  let started :=
    if negb (m_16Bit this)
    then [Dma_Start (BufferSize m_DmaChannel) (negb (m_Capture this))]
    else [] in
  let pbReg := Z.lor MMA_PB_PCM MMA_PB_GO in
  let pbReg := Z.lor pbReg (Z.lor MMA_PB_LEFT MMA_PB_RIGHT) mod 256 in
  let freqBits := Wave.SampleRateToFreqBits m_SamplingFrequency in
  let pbReg := Z.lor pbReg (Z.shiftl freqBits MMA_PB_FREQ_SHIFT) mod 256 in
  let pbReg := if negb (m_Capture this)
               then Z.lor pbReg MMA_PB_PLAYBACK mod 256
               else pbReg in
  WriteMMA MMA_REG_PLAYBACK pbReg >>
  ret (this, started).

(** *** CMiniportWaveCyclicStreamAdLibGold::ProgramMmaStop *)
Definition ProgramMmaStop (this : CMiniportWaveCyclicStreamAdLibGold)
  : M (CMiniportWaveCyclicStreamAdLibGold * list DmaAction) :=
  WriteMMA MMA_REG_PLAYBACK MMA_PB_RST >>
  KeStallExecutionProcessor 1 >>
  WriteMMA MMA_REG_PLAYBACK 0x00 >>
  WriteMMA MMA_REG_FORMAT MMA_FMT_MSK >>
  ret (set_pio (Wave.mkPio 0 (Wave.m_DmaBufferSize (pio this))
                           (Wave.m_LfsrState (pio this))) this,
       if negb (m_16Bit this) then [Dma_Stop] else []).

(** *** CMiniportWaveCyclicStreamAdLibGold::SetState *)
Definition SetState (NewState : KSSTATE) (this : CMiniportWaveCyclicStreamAdLibGold)
  : M (NTSTATUS * CMiniportWaveCyclicStreamAdLibGold * list DmaAction) :=
  let ntStatus := STATUS_SUCCESS in
  let NewState := if bool_decide (NewState = KSSTATE_ACQUIRE)
                  then KSSTATE_PAUSE
                  else NewState in
  if negb (bool_decide (m_State this = NewState))
  then
    let* result :=
      match NewState with
      | KSSTATE_PAUSE =>
          if bool_decide (m_State this = KSSTATE_RUN)
          then
            WriteMMA MMA_REG_PLAYBACK 0x00 >>
            let stopped := if negb (m_16Bit this) then [Dma_Stop] else [] in
            let fmtReg :=
              Z.lor (Z.lor (Z.shiftl (if m_16Bit this
                                      then MMA_DATA_FMT_12B_2
                                      else MMA_DATA_FMT_8BIT) MMA_FMT_DATA_SHIFT)
                           (Z.shiftl MMA_FIFO_THR_DEFAULT MMA_FMT_FIFO_SHIFT))
                    MMA_FMT_MSK mod 256 in
            let fmtReg := if negb (m_16Bit this)
                          then Z.lor fmtReg MMA_FMT_ENB mod 256
                          else fmtReg in
            WriteMMA MMA_REG_FORMAT fmtReg >>
            ret (this, stopped)
          else ret (this, [])
      | KSSTATE_RUN => ProgramMmaStart this
      | KSSTATE_STOP => ProgramMmaStop this
      | KSSTATE_ACQUIRE => ret (this, [])
      end in
    ret (ntStatus, set_State NewState (fst result), snd result)
  else ret (ntStatus, this, []).

(** *** CMiniportWaveCyclicStreamAdLibGold::NormalizePhysicalPosition

    [bytesPerFrame] is a ULONG, the quotient by it is taken in ULONG, the
    product with the LONGLONG position in LONGLONG, and the division by the
    ULONG sampling frequency is the truncating one of LONGLONG; dividing by
    zero gives [None].  The result is the status and [*PhysicalPosition]. *)
Definition NormalizePhysicalPosition (PhysicalPosition : Z)
    (this : CMiniportWaveCyclicStreamAdLibGold) : option (NTSTATUS * Z) :=
  let bytesPerFrame :=
    to_ULONG (Z.shiftl 1 (Z.b2z (m_Stereo this) + Z.b2z (m_16Bit this))) in
  if (bytesPerFrame =? 0) || (m_SamplingFrequency =? 0)
  then None
  else
    Some (STATUS_SUCCESS,
          Z.quot (to_LONGLONG (to_ULONG (_100NS_UNITS_PER_SECOND / bytesPerFrame)
                               * PhysicalPosition))
                 m_SamplingFrequency).

(** *** CMiniportWaveCyclicStreamAdLibGold::SetNotificationFreq

    All arithmetic is in ULONG.  The result is the value returned, which is
    what [m_NotificationInterval] was set to, and [*FramingSize]. *)
Definition SetNotificationFreq (Interval : Z)
    (this : CMiniportWaveCyclicStreamAdLibGold) : Z * Z :=
  let m_NotificationInterval := Interval in
  let bytesPerFrame :=
    to_ULONG (Z.shiftl 1 (Z.b2z (m_Stereo this) + Z.b2z (m_16Bit this))) in
  (m_NotificationInterval,
   to_ULONG (bytesPerFrame * (to_ULONG (m_SamplingFrequency * Interval) / 1000))).

(** Requests in sequence; the DMA actions are collected in order. *)
Fixpoint SetStates (requests : list KSSTATE) (this : CMiniportWaveCyclicStreamAdLibGold)
  : M (CMiniportWaveCyclicStreamAdLibGold * list DmaAction) :=
  match requests with
  | [] => ret (this, [])
  | NewState :: rest =>
      let* result := SetState NewState this in
      let* others := SetStates rest (snd (fst result)) in
      ret (fst others, snd result ++ snd others)
  end.

End Stream.

End WaveStream.

(** ** The wave miniport and its streams (minwave.cpp)

    Of the miniport: whether a capture and a render stream exist, and the
    sampling frequency, which both streams share. *)

Module WaveMiniport.

Record CMiniportWaveCyclicAdLibGold : Type := mkMiniport {
  m_CaptureAllocated : bool;
  m_RenderAllocated : bool;
  m_SamplingFrequency : Z
}.

Section Streams.

Variable sizeof_KSDATAFORMAT_WAVEFORMATEX : Z.
Variable m_DmaChannel : DMACHANNEL.

(** *** CMiniportWaveCyclicStreamAdLibGold::Init *)
Definition Init (Capture : bool) (DataFormat : Wave.KSDATAFORMAT_WAVEFORMATEX)
  : NTSTATUS * WaveStream.CMiniportWaveCyclicStreamAdLibGold :=
  (STATUS_SUCCESS,
   WaveStream.mkStream Capture
     (Wave.wBitsPerSample DataFormat =? 16)
     (Wave.nChannels DataFormat =? 2)
     KSSTATE_STOP
     (Wave.mkPio 0 (BufferSize m_DmaChannel) 0xACE1)).

(** *** CMiniportWaveCyclicAdLibGold::NewStream

    [allocated] tells whether [new] produced a stream object.  The result is
    the status, [*OutStream] if it was set, and the miniport. *)
Definition NewStream (allocated : bool) (Capture : bool)
    (DataFormat : Wave.KSDATAFORMAT_WAVEFORMATEX)
    (this : CMiniportWaveCyclicAdLibGold)
  : NTSTATUS * option WaveStream.CMiniportWaveCyclicStreamAdLibGold
    * CMiniportWaveCyclicAdLibGold :=
  let ntStatus := STATUS_SUCCESS in
  let ntStatus :=
    if Capture
    then if m_CaptureAllocated this then STATUS_INVALID_DEVICE_REQUEST else ntStatus
    else if m_RenderAllocated this then STATUS_INVALID_DEVICE_REQUEST else ntStatus in
  let ntStatus :=
    if NT_SUCCESS ntStatus
    then Wave.ValidateFormat sizeof_KSDATAFORMAT_WAVEFORMATEX DataFormat
    else ntStatus in
  let ntStatus :=
    if NT_SUCCESS ntStatus
    then
      if m_CaptureAllocated this || m_RenderAllocated this
      then
        if negb (m_SamplingFrequency this =? Wave.nSamplesPerSec DataFormat)
        then STATUS_INVALID_PARAMETER
        else ntStatus
      else ntStatus
    else ntStatus in
  if NT_SUCCESS ntStatus
  then
    if allocated
    then
      let '(ntStatus, stream) := Init Capture DataFormat in
      if NT_SUCCESS ntStatus
      then
        let this :=
          if Capture
          then mkMiniport true (m_RenderAllocated this) (m_SamplingFrequency this)
          else mkMiniport (m_CaptureAllocated this) true (m_SamplingFrequency this) in
        (ntStatus, Some stream,
         mkMiniport (m_CaptureAllocated this) (m_RenderAllocated this)
                    (Wave.nSamplesPerSec DataFormat))
      else (ntStatus, None, this)
    else (STATUS_INSUFFICIENT_RESOURCES, None, this)
  else (ntStatus, None, this).

(** *** CMiniportWaveCyclicStreamAdLibGold::SetFormat *)
Definition SetFormat (Format : Wave.KSDATAFORMAT_WAVEFORMATEX)
    (stream : WaveStream.CMiniportWaveCyclicStreamAdLibGold)
    (this : CMiniportWaveCyclicAdLibGold)
  : NTSTATUS * WaveStream.CMiniportWaveCyclicStreamAdLibGold
    * CMiniportWaveCyclicAdLibGold :=
  let ntStatus := Wave.ValidateFormat sizeof_KSDATAFORMAT_WAVEFORMATEX Format in
  if NT_SUCCESS ntStatus
  then
    if (m_CaptureAllocated this && m_RenderAllocated this)
       && negb (m_SamplingFrequency this =? Wave.nSamplesPerSec Format)
    then (STATUS_INVALID_PARAMETER, stream, this)
    else
      (ntStatus,
       WaveStream.mkStream (WaveStream.m_Capture stream)
         (Wave.wBitsPerSample Format =? 16)
         (Wave.nChannels Format =? 2)
         (WaveStream.m_State stream) (WaveStream.pio stream),
       mkMiniport (m_CaptureAllocated this) (m_RenderAllocated this)
                  (Wave.nSamplesPerSec Format))
  else (ntStatus, stream, this).

(** *** CMiniportWaveCyclicStreamAdLibGold::~CMiniportWaveCyclicStreamAdLibGold

    The destructor of a stream that went through Init, so that [m_Miniport]
    is set.  The result is the miniport and what was done to the DMA
    channel. *)
Definition destroy (stream : WaveStream.CMiniportWaveCyclicStreamAdLibGold)
    (this : CMiniportWaveCyclicAdLibGold)
  : M (CMiniportWaveCyclicAdLibGold * list DmaAction) :=
  let* stopped :=
    (if negb (bool_decide (WaveStream.m_State stream = KSSTATE_STOP))
     then WaveStream.ProgramMmaStop stream
     else ret (stream, [])) in
  ret (if WaveStream.m_Capture stream
       then mkMiniport false (m_RenderAllocated this) (m_SamplingFrequency this)
       else mkMiniport (m_CaptureAllocated this) false (m_SamplingFrequency this),
       snd stopped).

End Streams.

End WaveMiniport.

(** ** Trace vocabulary used by the statements *)

(** The port writes of a trace, in order. *)
Fixpoint writes_of (tr : list event) : list event :=
  match tr with
  | [] => []
  | PortWrite p v :: rest => PortWrite p v :: writes_of rest
  | _ :: rest => writes_of rest
  end.

(** The values written to one port, in order. *)
Fixpoint written_to (port : Z) (tr : list event) : list Z :=
  match tr with
  | [] => []
  | PortWrite p v :: rest =>
      if p =? port then v :: written_to port rest else written_to port rest
  | _ :: rest => written_to port rest
  end.

(** The values read from one port, in order. *)
Fixpoint read_from (port : Z) (tr : list event) : list Z :=
  match tr with
  | [] => []
  | PortRead p v :: rest =>
      if p =? port then v :: read_from port rest else read_from port rest
  | _ :: rest => read_from port rest
  end.

Definition wave_calls (tr : list event) : list nat :=
  omap (fun e => match e with ServiceWaveISR h => Some h | _ => None end) tr.

Definition midi_calls (tr : list event) : list nat :=
  omap (fun e => match e with ServiceMidiISR h => Some h | _ => None end) tr.

(** One busy poll: between 1 and 1000 reads of the status port, nothing
    else. *)
Definition status_read (e : event) : Prop :=
  exists status, e = PortRead ALG_REG_FM1_ADDR status.

Definition busy_poll (tr : list event) : Prop :=
  Forall status_read tr /\ (1 <= length tr <= 1000)%nat.

(** The settle step of ControlRegWrite for register [r]. *)
Definition settle_delay (r : Z) (tr : list event) : Prop :=
  if (0x04 <=? r) && (r <=? 0x08) then busy_poll tr
  else if (0x09 <=? r) && (r <=? 0x16) then tr = [Stall 5]
  else tr = [].

(** The whole select/poll/access/settle/restore sequence for one write. *)
Definition arbitrated_write (r v : Z) (tr : list event) : Prop :=
  exists poll settle,
    busy_poll poll /\ settle_delay r settle /\
    tr = PortWrite ALG_REG_FM1_ADDR ALG_BANK_CONTROL :: poll
         ++ [PortWrite ALG_REG_FM1_ADDR r; PortWrite ALG_REG_FM1_DATA v]
         ++ settle ++ [PortWrite ALG_REG_FM1_ADDR ALG_BANK_OPL3].

(** The four port writes of one arbitrated register write. *)
Definition register_write (r v : Z) : list event :=
  [ PortWrite ALG_REG_FM1_ADDR ALG_BANK_CONTROL;
    PortWrite ALG_REG_FM1_ADDR r;
    PortWrite ALG_REG_FM1_DATA v;
    PortWrite ALG_REG_FM1_ADDR ALG_BANK_OPL3 ].

(** [m_ControlRegs[i]] for an index known to be in range. *)
Definition cached (a : CAdapterCommon) (i : Z) : Z :=
  default 0 (m_ControlRegs a !! Z.to_nat i).

(** The mixer range 0x04..0x0F, and what replaying a list of registers from
    the shadow cache writes to the ports. *)
Definition mixer_range : list Z :=
  seqZ CTRL_MIXER_FIRST (CTRL_MIXER_LAST - CTRL_MIXER_FIRST + 1).

Definition replayed (a : CAdapterCommon) (indices : list Z) : list event :=
  concat (map (fun i => register_write i (cached a i)) indices).

(** A full register readback into the cache [regs]: for each index, select
    the register and read the data port, which returned what [regs] holds
    for that index. *)
Definition readback (regs : list Z) (indices : list Z) : list event :=
  concat (map (fun r => [ PortWrite ALG_REG_FM1_ADDR r;
                          PortRead ALG_REG_FM1_DATA (default 0 (regs !! Z.to_nat r)) ])
              indices).

(** From [w] to [w'] only the shadow cache changed (and perhaps the trace),
    and it still has its size. *)
Definition only_cache (w w' : World) : Prop :=
  that w' = set_ControlRegs (m_ControlRegs (that w')) (that w) /\
  cache_sized w'.

(** The status the block "Set up interrupt synchronization" of Init ends
    with: that of the first platform call that fails, else that of
    Connect. *)
Definition interrupt_sync_status (plat : Platform) : NTSTATUS :=
  let '(created_status, created) := PcNewInterruptSync plat in
  if NT_SUCCESS created_status && created
  then if NT_SUCCESS (RegisterServiceRoutine plat)
       then Connect plat
       else RegisterServiceRoutine plat
  else created_status.

(** The model codes Init accepts. *)
Definition recognized_model (model : Z) : bool :=
  (model =? ALG_MODEL_GOLD1000) || (model =? ALG_MODEL_GOLD2000)
  || (model =? ALG_MODEL_GOLD2000MC).

(** The bank sentinels (0xFF, 0xFE) written to the bank-select port, in
    order; the bank the port pair is left in is the last of them. *)
Fixpoint bank_selects (tr : list event) : list Z :=
  match tr with
  | [] => []
  | PortWrite p v :: rest =>
      if (p =? ALG_REG_FM1_ADDR)
         && ((v =? ALG_BANK_CONTROL) || (v =? ALG_BANK_OPL3))
      then v :: bank_selects rest
      else bank_selects rest
  | _ :: rest => bank_selects rest
  end.

Definition rests_in_OPL3 (tr : list event) : Prop :=
  last (bank_selects tr) <> Some ALG_BANK_CONTROL.

(** The default of every mixer register, in register order 0x04..0x0F. *)
Definition default_values : list Z := map RegisterSetting DefaultMixerSettings.

(** A cache with the mixer range overwritten by [values]. *)
Definition with_mixer_range (values regs : list Z) : list Z :=
  take (Z.to_nat CTRL_MIXER_FIRST) regs ++ values
  ++ drop (Z.to_nat (CTRL_MIXER_LAST + 1)) regs.

(** A platform like [plat] but whose settings key exists and holds [key]:
    a stored value is returned as a DWORD, a missing one is an error. *)
Definition STATUS_OBJECT_NAME_NOT_FOUND : NTSTATUS := ntstatus_of_ulong 0xC0000034.
Definition REG_OPENED_EXISTING_KEY : Z := 2.

Definition with_settings_key (plat : Platform) (key : gmap string Z) : Platform :=
  mkPlatform (port_in plat) (PcNewInterruptSync plat)
    (RegisterServiceRoutine plat) (Connect plat)
    STATUS_SUCCESS (STATUS_SUCCESS, REG_OPENED_EXISTING_KEY) true
    (fun name => match key !! name with
                 | Some value => (STATUS_SUCCESS, sizeof_DWORD, value)
                 | None => (STATUS_OBJECT_NAME_NOT_FOUND, 0, 0)
                 end).

(** From [w] to [w'] only the shadow cache changed, and the I/O done in
    between satisfies [P]. *)
Definition changes_cache_with (P : list event -> Prop) (w w' : World) : Prop :=
  only_cache w w' /\ exists added, trace w' = trace w ++ added /\ P added.

(** The value the loop over an existing settings key leaves in the register
    of setting [s], whose cache entry was [old]: the low byte of a stored
    DWORD, [old] when the stored value has another size, the default when
    the value cannot be read. *)
Definition restored_value (plat : Platform) (s : MIXERSETTING) (old : Z) : Z :=
  let '(queried, DataLength, Data) := QueryValueKey plat (KeyName s) in
  if NT_SUCCESS queried
  then if DataLength =? sizeof_DWORD then Data mod 256 else old
  else RegisterSetting s.

(** The status that loop ends with: that of its last QueryValueKey. *)
Definition last_query (plat : Platform) (settings : list MIXERSETTING)
    (ntStatus : NTSTATUS) : NTSTATUS :=
  match last settings with
  | Some s => fst (fst (QueryValueKey plat (KeyName s)))
  | None => ntStatus
  end.

(** Whether the values read from the settings key survive ControlRegReset:
    the key opened, was not new, the buffer was allocated and the last query
    succeeded. *)
Definition saved_settings_kept (plat : Platform) : bool :=
  NT_SUCCESS (PcNewRegistryKey plat)
  && NT_SUCCESS (fst (NewSubKey plat))
  && negb (snd (NewSubKey plat) =? REG_CREATED_NEW_KEY)
  && ExAllocatePool plat
  && NT_SUCCESS (last_query plat DefaultMixerSettings (fst (NewSubKey plat))).

(** Indices ControlRegReset may write. *)
Definition reset_range (i : Z) : bool :=
  ((CTRL_MIXER_FIRST <=? i) && (i <=? CTRL_MIXER_LAST)) || (i =? CTRL_REG_RESERVED).

(** A property request was handled without harm: only the shadow cache may
    have changed, a request that was turned down left no trace at all, and
    the status is one of three. *)
Definition handled_cleanly (request : PCPROPERTY_REQUEST) (w : World)
    (result : NTSTATUS * PCPROPERTY_REQUEST) (w' : World) : Prop :=
  only_cache w w' /\
  (fst result <> STATUS_SUCCESS -> snd result = request /\ w' = w) /\
  (fst result = STATUS_SUCCESS \/ fst result = STATUS_INVALID_PARAMETER \/
   fst result = STATUS_BUFFER_TOO_SMALL).

(** What one ReadMMA and one WriteMMA do at the ports of an operative
    adapter. *)
Definition mma_read_events (reg value : Z) : list event :=
  [ PortWrite ALG_REG_MMA0_ADDR reg; Stall 1; PortRead ALG_REG_MMA0_DATA value ].

Definition mma_write_events (reg value : Z) : list event :=
  [ PortWrite ALG_REG_MMA0_ADDR reg; Stall 1;
    PortWrite ALG_REG_MMA0_DATA value; Stall 1 ].

(** The MIDI input ring buffer: [count] bytes from index [head] on, wrapping
    at the end of the array; the bytes waiting between head and tail, oldest
    first; and the shape the indices must have. *)
Fixpoint ring_from (buffer : list Z) (head : Z) (count : nat) : list Z :=
  match count with
  | O => []
  | S count =>
      default 0 (buffer !! Z.to_nat head)
      :: ring_from buffer ((head + 1) mod MIDI_INPUT_BUFFER_SIZE) count
  end.

Definition pending (this : Midi.CMiniportMidiUartAdLibGold) : list Z :=
  ring_from (Midi.m_InputBuffer this) (Midi.m_InputBufferHead this)
    (Z.to_nat ((Midi.m_InputBufferTail this - Midi.m_InputBufferHead this)
               mod MIDI_INPUT_BUFFER_SIZE)).

Definition ring_ok (this : Midi.CMiniportMidiUartAdLibGold) : Prop :=
  length (Midi.m_InputBuffer this) = Z.to_nat MIDI_INPUT_BUFFER_SIZE /\
  0 <= Midi.m_InputBufferHead this < MIDI_INPUT_BUFFER_SIZE /\
  0 <= Midi.m_InputBufferTail this < MIDI_INPUT_BUFFER_SIZE.

(** The miniport keeps received bytes only while its capture stream runs. *)
Definition capturing (this : Midi.CMiniportMidiUartAdLibGold) : bool :=
  bool_decide (Midi.m_KSStateInput this = KSSTATE_RUN)
  && negb (Midi.m_NumCaptureStreams this =? 0).

(** The port I/O of one run of ServiceMidiISR that found the bytes [polls]
    (each with the status read before it) and stopped on the status
    [closing], if it read one. *)
Definition isr_events (polls : list (Z * Z)) (closing : option Z) : list event :=
  flat_map (fun poll => mma_read_events MMA_REG_STATUS (fst poll)
                        ++ mma_read_events MMA_REG_MIDI_DATA (snd poll)) polls
  ++ match closing with
     | Some status => mma_read_events MMA_REG_STATUS status
     | None => []
     end.

(** How one run of the receive loop, given the data bytes [received],
    leaves the miniport [this'] and the flag [newBytesAvailable]: the bytes
    [accepted] are queued behind those waiting, nothing else changes. *)
Definition accepted_bytes (this : Midi.CMiniportMidiUartAdLibGold)
    (received : list Z) : list Z :=
  if capturing this
  then take (Z.to_nat (MIDI_INPUT_BUFFER_SIZE - 1) - length (pending this)) received
  else [].

Definition queued (this : Midi.CMiniportMidiUartAdLibGold) (accepted : list Z)
    (this' : Midi.CMiniportMidiUartAdLibGold) : Prop :=
  ring_ok this' /\
  pending this' = pending this ++ accepted /\
  exists buffer tail,
    this' = Midi.set_InputBufferTail tail (Midi.set_InputBuffer buffer this).

(** A miniport whose buffer holds [i] at index [i], with the given capture
    state, number of capture streams, head and tail. *)
Definition midi_with (state : KSSTATE) (streams head tail : Z)
  : Midi.CMiniportMidiUartAdLibGold :=
  Midi.mkMidi true streams 0 state (seqZ 0 MIDI_INPUT_BUFFER_SIZE) head tail
              PowerDeviceD0.

(** [check] holds on [count] consecutive integers from [first] on; used to
    settle facts about 16-bit values by running through all of them. *)
Fixpoint holds_from (check : Z -> bool) (first : Z) (count : nat) : bool :=
  match count with
  | O => true
  | S count => check first && holds_from check (first + 1) count
  end.

(** The port I/O that sends one 16-bit sample to the FIFO: low byte, then
    high byte, to the PCM data register. *)
Definition fifo_pair (sample : Z) : list event :=
  mma_write_events MMA_REG_PCM_DATA (Z.land sample 0xFF)
  ++ mma_write_events MMA_REG_PCM_DATA (Z.land (Z.shiftr sample 8) 0xFF).

(** What the MMA was last told in register [reg], read off the port I/O: the
    address port selects a register, the data port writes it.  The state is
    the register selected and the last value written to [reg]. *)
Definition mma_step (reg : Z) (state : option Z * option Z) (e : event)
  : option Z * option Z :=
  match e with
  | PortWrite port value =>
      if port =? ALG_REG_MMA0_ADDR then (Some value, snd state)
      else if (port =? ALG_REG_MMA0_DATA) && bool_decide (fst state = Some reg)
           then (fst state, Some value)
           else state
  | _ => state
  end.

Definition mma_state (reg : Z) (tr : list event) : option Z * option Z :=
  fold_left (mma_step reg) tr (None, None).

(** The sampling engine runs when the last value written to the playback
    register has the GO bit. *)
Definition engine_running (tr : list event) : bool :=
  match snd (mma_state MMA_REG_PLAYBACK tr) with
  | Some value => Z.testbit value 0
  | None => false
  end.

(** A DMA channel a 16-bit render stream can be filled from. *)
Definition pio_ready (dma : DMACHANNEL) : Prop :=
  match SystemAddress dma with
  | Some pBuffer =>
      length pBuffer = Z.to_nat (BufferSize dma) /\
      BufferSize dma mod 2 = 0 /\ 0 < BufferSize dma
  | None => True
  end.

(** Whether the DMA channel transfers, read off the actions of the stream:
    the last of them decides, and [before] when there is none. *)
Definition dma_transferring (before : bool) (actions : list DmaAction) : bool :=
  match last actions with
  | Some (Dma_Start _ _) => true
  | Some Dma_Stop => false
  | None => before
  end.

(** The state a stream is left in by the requests: ACQUIRE counts as
    PAUSE. *)
Definition settled_state (initial : KSSTATE) (requests : list KSSTATE) : KSSTATE :=
  fold_left (fun _ request =>
               if bool_decide (request = KSSTATE_ACQUIRE)
               then KSSTATE_PAUSE
               else request)
            requests initial.

(** The calls a MIDI capture stream and its miniport receive: the interrupt
    service, Read with the caller's length, SetState and the port's
    Service. *)
Inductive MidiCall : Type :=
| Call_ServiceMidiISR
| Call_Read (Length : Z)
| Call_SetState (NewState : KSSTATE)
| Call_Service.

(** The calls made in order on one stream; the result is the bytes Read has
    handed out, in order, and the miniport. *)
Fixpoint capture_session (plat : Platform)
    (stream : Midi.CMiniportMidiStreamUartAdLibGold) (calls : list MidiCall)
    (this : Midi.CMiniportMidiUartAdLibGold)
  : M (list Z * Midi.CMiniportMidiUartAdLibGold) :=
  match calls with
  | [] => ret ([], this)
  | call :: rest =>
      let* step :=
        match call with
        | Call_ServiceMidiISR =>
            let* result := Midi.ServiceMidiISR plat this in
            ret ([], fst result)
        | Call_Read Length =>
            match Midi.Read stream Length this with
            | Some (_, bytes, this) => ret (bytes, this)
            | None => fun _ => Fault
            end
        | Call_SetState NewState => ret ([], snd (Midi.SetState stream NewState this))
        | Call_Service => ret ([], Midi.Service this)
        end in
      let* others := capture_session plat stream rest (snd step) in
      ret (fst step ++ fst others, snd others)
  end.

(** The port I/O of several runs of ServiceMidiISR, and the data bytes they
    read. *)
Definition isr_runs_events (isr_runs : list (list (Z * Z) * option Z)) : list event :=
  flat_map (fun isr_run => isr_events (fst isr_run) (snd isr_run)) isr_runs.

Definition isr_runs_received (isr_runs : list (list (Z * Z) * option Z)) : list Z :=
  flat_map (fun isr_run => map snd (fst isr_run)) isr_runs.

(** The wave device as its clients see it: the miniport and the streams
    that exist, one per direction at most. *)
Record WaveDevice : Type := mkDevice {
  miniport : WaveMiniport.CMiniportWaveCyclicAdLibGold;
  capture_stream : option WaveStream.CMiniportWaveCyclicStreamAdLibGold;
  render_stream : option WaveStream.CMiniportWaveCyclicStreamAdLibGold
}.

Definition stream_of (Capture : bool) (device : WaveDevice) :=
  if Capture then capture_stream device else render_stream device.

Definition with_stream (Capture : bool)
    (stream : option WaveStream.CMiniportWaveCyclicStreamAdLibGold)
    (this : WaveMiniport.CMiniportWaveCyclicAdLibGold) (device : WaveDevice) :=
  if Capture
  then mkDevice this stream (render_stream device)
  else mkDevice this (capture_stream device) stream.

(** The calls of the clients: NewStream (with whether the stream object can
    be allocated), and SetFormat, SetState and the final Release on the
    stream of one direction. *)
Inductive WaveCall : Type :=
| Wave_NewStream (allocated Capture : bool) (DataFormat : Wave.KSDATAFORMAT_WAVEFORMATEX)
| Wave_SetFormat (Capture : bool) (Format : Wave.KSDATAFORMAT_WAVEFORMATEX)
| Wave_SetState (Capture : bool) (NewState : KSSTATE)
| Wave_Release (Capture : bool).

(** One call on the device.  The status is [None] for a call on a stream
    that does not exist, which changes nothing. *)
Definition wave_call (size : Z) (dma : DMACHANNEL) (call : WaveCall)
    (device : WaveDevice) : M (option NTSTATUS * WaveDevice) :=
  match call with
  | Wave_NewStream allocated Capture DataFormat =>
      let '(ntStatus, stream, this) :=
        WaveMiniport.NewStream size dma allocated Capture DataFormat (miniport device) in
      ret (Some ntStatus,
           match stream with
           | Some stream => with_stream Capture (Some stream) this device
           | None => device
           end)
  | Wave_SetFormat Capture Format =>
      match stream_of Capture device with
      | Some stream =>
          let '(ntStatus, stream, this) :=
            WaveMiniport.SetFormat size Format stream (miniport device) in
          ret (Some ntStatus, with_stream Capture (Some stream) this device)
      | None => ret (None, device)
      end
  | Wave_SetState Capture NewState =>
      match stream_of Capture device with
      | Some stream =>
          let* result :=
            WaveStream.SetState dma
              (WaveMiniport.m_SamplingFrequency (miniport device)) NewState stream in
          ret (Some (fst (fst result)),
               with_stream Capture (Some (snd (fst result))) (miniport device) device)
      | None => ret (None, device)
      end
  | Wave_Release Capture =>
      match stream_of Capture device with
      | Some stream =>
          let* result := WaveMiniport.destroy stream (miniport device) in
          ret (Some STATUS_SUCCESS, with_stream Capture None (fst result) device)
      | None => ret (None, device)
      end
  end.

Fixpoint wave_session (size : Z) (dma : DMACHANNEL) (calls : list WaveCall)
    (device : WaveDevice) : M (list (option NTSTATUS) * WaveDevice) :=
  match calls with
  | [] => ret ([], device)
  | call :: rest =>
      let* result := wave_call size dma call device in
      let* others := wave_session size dma rest (snd result) in
      ret (fst result :: fst others, snd others)
  end.

(** The miniport's flags tell which streams exist, each stream knows its
    direction, and the sampling frequency is one the hardware has. *)
Definition device_consistent (device : WaveDevice) : Prop :=
  WaveMiniport.m_CaptureAllocated (miniport device)
  = bool_decide (is_Some (capture_stream device)) /\
  WaveMiniport.m_RenderAllocated (miniport device)
  = bool_decide (is_Some (render_stream device)) /\
  (forall stream, capture_stream device = Some stream ->
                  WaveStream.m_Capture stream = true) /\
  (forall stream, render_stream device = Some stream ->
                  WaveStream.m_Capture stream = false) /\
  In (WaveMiniport.m_SamplingFrequency (miniport device)) Wave.SupportedSampleRates.

(** The device as the miniport's Init leaves it. *)
Definition fresh_device : WaveDevice :=
  mkDevice (WaveMiniport.mkMiniport false false 44100) None None.

(** What the MIDI control register was last told, read off the port I/O. *)
Definition midi_control (tr : list event) : option Z :=
  snd (mma_state MMA_REG_MIDI_CTRL tr).

(** All four MIDI interrupt sources masked, no circuit in reset. *)
Definition MMA_MIDI_CTRL_MASKED : Z :=
  Z.lor (Z.lor (Z.lor MMA_MIDI_MSK_POV MMA_MIDI_MSK_MOV) MMA_MIDI_MSK_TRQ)
        MMA_MIDI_MSK_RRQ.

(** The MIDI control register agrees with the power state of the miniport:
    the default control in D0, everything masked otherwise. *)
Definition midi_control_settled (this : Midi.CMiniportMidiUartAdLibGold)
    (tr : list event) : Prop :=
  midi_control tr
  = Some (if bool_decide (Midi.m_PowerState this = PowerDeviceD0)
          then MMA_MIDI_CTRL_DEFAULT
          else MMA_MIDI_CTRL_MASKED).

(** Power requests to the MIDI miniport, in sequence. *)
Fixpoint midi_power_requests (requests : list DEVICE_POWER_STATE)
    (this : Midi.CMiniportMidiUartAdLibGold) : M Midi.CMiniportMidiUartAdLibGold :=
  match requests with
  | [] => ret this
  | NewState :: rest =>
      let* this := Midi.PowerChangeState NewState this in
      midi_power_requests rest this
  end.

(** The port I/O that takes one 16-bit sample from the FIFO: low byte, then
    high byte, from the PCM data register. *)
Definition fifo_read_pair (pair : Z * Z) : list event :=
  mma_read_events MMA_REG_PCM_DATA (fst pair)
  ++ mma_read_events MMA_REG_PCM_DATA (snd pair).

(** ** Sample cards and adapters, used to exercise the statements *)

(** A card whose status port always reads [status], whose MMA status port
    reads [mma], and whose Control Chip data port reads [0x21 + r] after
    register [r] was selected (so register 0 identifies as model 1), on
    a platform where interrupt setup returns [sync] and the settings key is
    freshly created. *)
Definition sample_card (status mma : Z) (sync : NTSTATUS) : Platform :=
  mkPlatform
    (fun history port =>
       if port =? ALG_REG_FM1_ADDR then status
       else if port =? ALG_REG_MMA0_ADDR then mma
       else match last history with
            | Some (PortWrite _ r) => 0x21 + r
            | _ => 0
            end)
    (sync, true) STATUS_SUCCESS STATUS_SUCCESS
    STATUS_SUCCESS (STATUS_SUCCESS, REG_CREATED_NEW_KEY) true
    (fun _ => (STATUS_SUCCESS, sizeof_DWORD, 0xC0)).

(** A card like [idle_card] whose MIDI receive FIFO never runs dry: the MMA
    status register reads RRQ, every other MMA register reads [0x90]. *)
Definition midi_card : Platform :=
  mkPlatform
    (fun history port =>
       match reverse history with
       | Stall _ :: PortWrite _ reg :: _ =>
           if reg =? MMA_REG_STATUS then MMA_STATUS_RRQ else 0x90
       | _ => 0
       end)
    (STATUS_SUCCESS, true) STATUS_SUCCESS STATUS_SUCCESS
    STATUS_SUCCESS (STATUS_SUCCESS, REG_CREATED_NEW_KEY) true
    (fun _ => (STATUS_SUCCESS, sizeof_DWORD, 0xC0)).

(** A stereo PCM format of the given rate and sample width, in a structure
    of 82 bytes. *)
Definition pcm_format (rate bits : Z) : Wave.KSDATAFORMAT_WAVEFORMATEX :=
  Wave.mkFormat 82 "KSDATAFORMAT_TYPE_AUDIO" "KSDATAFORMAT_SUBTYPE_PCM"
                "KSDATAFORMAT_SPECIFIER_WAVEFORMATEX" 1 2 rate bits.

(** Status [0x0F]: not busy, no interrupt source pending. *)
Definition idle_card : Platform := sample_card 0x0F 0x00 STATUS_SUCCESS.

(** Status [0xCF]: both busy bits stuck. *)
Definition stuck_card : Platform := sample_card 0xCF 0x00 STATUS_SUCCESS.

(** An adapter in power state [p] whose shadow cache holds [0x80 + i] for
    register [i], with the given miniports registered and no I/O done so
    far. *)
Definition adapter_in (p : DEVICE_POWER_STATE) (wave midi : option nat) : World :=
  mkWorld (mkAdapter true p (seqZ 0x80 CTRL_REG_MAX) 0 0 wave midi) [].

(** ** Running a computation: a small weakest-precondition calculus *)

Definition runs {A} (c : M A) (w : World) (Q : A -> World -> Prop) : Prop :=
  exists a w', c w = Done a w' /\ Q a w'.

Lemma runs_ret {A} (a : A) w (Q : A -> World -> Prop) :
  Q a w -> runs (ret a) w Q.
Proof. intros HQ. exists a, w. split; [reflexivity | exact HQ]. Qed.

Lemma runs_bind {A B} (c : M A) (k : A -> M B) w (Q : B -> World -> Prop) :
  runs c w (fun a w' => runs (k a) w' Q) -> runs (bind c k) w Q.
Proof.
  intros (a & w1 & Hc & b & w2 & Hk & HQ).
  exists b, w2. unfold bind. rewrite Hc. split; assumption.
Qed.

Lemma runs_weaken {A} (c : M A) w (P Q : A -> World -> Prop) :
  runs c w P -> (forall a w', P a w' -> Q a w') -> runs c w Q.
Proof. intros (a & w' & Hc & HP) HPQ. exists a, w'. split; auto. Qed.

Lemma runs_get {A} (f : CAdapterCommon -> A) w (Q : A -> World -> Prop) :
  Q (f (that w)) w -> runs (get f) w Q.
Proof. intros HQ. exists (f (that w)), w. split; [reflexivity | exact HQ]. Qed.

Lemma runs_modify f w (Q : unit -> World -> Prop) :
  Q tt (mkWorld (f (that w)) (trace w)) -> runs (modify f) w Q.
Proof. intros HQ. eexists _, _. split; [reflexivity | exact HQ]. Qed.

Lemma runs_emit e w (Q : unit -> World -> Prop) :
  Q tt (mkWorld (that w) (trace w ++ [e])) -> runs (emit e) w Q.
Proof. intros HQ. eexists _, _. split; [reflexivity | exact HQ]. Qed.

Lemma runs_when (b : bool) c w (Q : unit -> World -> Prop) :
  (b = true -> runs c w Q) -> (b = false -> Q tt w) -> runs (when b c) w Q.
Proof.
  intros Ht Hf. destruct b; simpl.
  - apply Ht; reflexivity.
  - apply runs_ret, Hf; reflexivity.
Qed.

Lemma runs_store i v w (Q : unit -> World -> Prop) :
  0 <= i < Z.of_nat (length (m_ControlRegs (that w))) ->
  Q tt (mkWorld (set_ControlRegs (<[Z.to_nat i := v]> (m_ControlRegs (that w)))
                                 (that w))
                (trace w)) ->
  runs (store_ControlRegs i v) w Q.
Proof.
  intros Hi HQ. eexists _, _. split; [| exact HQ].
  unfold store_ControlRegs.
  replace (0 <=? i) with true by (symmetry; apply Z.leb_le; lia).
  replace (i <? _) with true by (symmetry; apply Z.ltb_lt; lia).
  reflexivity.
Qed.

Lemma runs_load i w (Q : Z -> World -> Prop) :
  0 <= i < Z.of_nat (length (m_ControlRegs (that w))) ->
  Q (cached (that w) i) w ->
  runs (load_ControlRegs i) w Q.
Proof.
  intros Hi HQ. eexists _, _. split; [| exact HQ].
  unfold load_ControlRegs.
  replace (0 <=? i) with true by (symmetry; apply Z.leb_le; lia).
  replace (i <? _) with true by (symmetry; apply Z.ltb_lt; lia).
  reflexivity.
Qed.

(** An outcome already known can be used as it is. *)
Lemma runs_known {A} (c : M A) w (Q : A -> World -> Prop) a w' :
  c w = Done a w' -> Q a w' -> runs c w Q.
Proof. intros Hc HQ. exists a, w'. split; assumption. Qed.

Lemma set_ControlRegs_same a : set_ControlRegs (m_ControlRegs a) a = a.
Proof. destruct a; reflexivity. Qed.

Section DriverFacts.

Variable plat : Platform.

Lemma runs_READ port w (Q : Z -> World -> Prop) :
  (forall v, v = port_in plat (trace w) port mod 256 ->
             Q v (mkWorld (that w) (trace w ++ [PortRead port v]))) ->
  runs (READ_PORT_UCHAR plat port) w Q.
Proof. intros HQ. eexists _, _. split; [reflexivity | apply HQ; reflexivity]. Qed.

(** *** The busy poll *)

Lemma WaitForReady_loop_runs n w :
  runs (WaitForReady_loop plat n) w
    (fun timeout w' =>
       that w' = that w /\
       exists reads, trace w' = trace w ++ reads /\
                     Forall status_read reads /\
                     (1 <= length reads <= S n)%nat /\
                     (timeout = O -> length reads = S n)).
Proof.
  revert w. induction n as [| n IH]; intros w; simpl.
  - apply runs_bind, runs_READ. intros status _.
    destruct (Z.land status ALG_STATUS_BUSY_MASK =? 0); apply runs_ret; simpl;
      (split; [reflexivity |]); exists [PortRead ALG_REG_FM1_ADDR status];
      repeat split; simpl; try lia; try discriminate;
      repeat constructor; eexists; reflexivity.
  - apply runs_bind, runs_READ. intros status _.
    destruct (Z.land status ALG_STATUS_BUSY_MASK =? 0).
    + apply runs_ret; simpl. split; [reflexivity |].
      exists [PortRead ALG_REG_FM1_ADDR status].
      repeat split; simpl; try lia; try discriminate.
      repeat constructor; eexists; reflexivity.
    + eapply runs_weaken; [apply IH |].
      simpl. intros timeout w' (Hthat & reads & Htr & Hall & Hlen & Hzero).
      split; [exact Hthat |].
      exists (PortRead ALG_REG_FM1_ADDR status :: reads).
      rewrite Htr, <- app_assoc. simpl.
      repeat split; try lia.
      constructor; [eexists; reflexivity | exact Hall].
Qed.

Lemma WaitForReady_runs w :
  runs (WaitForReady plat) w
    (fun ready w' =>
       that w' = that w /\
       exists reads, trace w' = trace w ++ reads /\ busy_poll reads /\
                     (ready = false -> length reads = 1000%nat)).
Proof.
  unfold WaitForReady. apply runs_bind.
  eapply runs_weaken; [apply WaitForReady_loop_runs |].
  simpl. intros timeout w' (Hthat & reads & Htr & Hall & Hlen & Hzero).
  apply runs_ret. split; [exact Hthat |].
  exists reads. split; [exact Htr |]. split; [split; [exact Hall | exact Hlen] |].
  intros Hready. apply Hzero.
  destruct timeout; [reflexivity | discriminate].
Qed.

(** *** ControlRegWrite and ControlRegRead *)

Lemma settle_runs r w :
  runs (if (0x04 <=? r) && (r <=? 0x08)
        then WaitForReady plat >> ret tt
        else if (0x09 <=? r) && (r <=? 0x16)
             then KeStallExecutionProcessor 5
             else ret tt) w
    (fun _ w' =>
       that w' = that w /\
       exists settle, trace w' = trace w ++ settle /\ settle_delay r settle).
Proof.
  unfold settle_delay.
  destruct ((0x04 <=? r) && (r <=? 0x08)).
  - apply runs_bind. eapply runs_weaken; [apply WaitForReady_runs |].
    simpl. intros ready w' (Hthat & reads & Htr & Hpoll & _).
    apply runs_ret. split; [exact Hthat |]. exists reads. split; assumption.
  - destruct ((0x09 <=? r) && (r <=? 0x16)).
    + apply runs_emit. simpl. split; [reflexivity |].
      exists [Stall 5]. split; reflexivity.
    + apply runs_ret. split; [reflexivity |].
      exists []. split; [symmetry; apply app_nil_r | reflexivity].
Qed.

Lemma ControlRegWrite_runs r v w :
  0 <= r -> (r < CTRL_REG_MAX -> cache_sized w) ->
  runs (ControlRegWrite plat r v) w
    (fun _ w' =>
       that w' = (if r <? CTRL_REG_MAX
                  then set_ControlRegs
                         (<[Z.to_nat r := v]> (m_ControlRegs (that w))) (that w)
                  else that w) /\
       exists added,
         trace w' = trace w ++ added /\
         if operative (m_PowerState (that w))
         then arbitrated_write r v added
         else added = []).
Proof.
  intros Hr Hsized. unfold ControlRegWrite.
  apply runs_bind, runs_get. apply runs_bind.
  apply runs_weaken with
    (P := fun _ w1 =>
            that w1 = that w /\
            exists added,
              trace w1 = trace w ++ added /\
              if operative (m_PowerState (that w))
              then arbitrated_write r v added
              else added = []).
  - apply runs_when; intros Hop; rewrite Hop.
    + apply runs_bind, runs_emit. apply runs_bind.
      eapply runs_weaken; [apply WaitForReady_runs |].
      simpl. intros ready w1 (Hthat1 & poll & Htr1 & Hpoll & _).
      apply runs_bind, runs_emit. apply runs_bind, runs_emit. apply runs_bind.
      eapply runs_weaken; [apply settle_runs |].
      simpl. intros _ w2 (Hthat2 & settle & Htr2 & Hsettle).
      apply runs_emit. simpl. split; [congruence |].
      eexists. split;
        [| exists poll, settle; split; [exact Hpoll | split; [exact Hsettle | reflexivity]]].
      rewrite Htr2, Htr1. rewrite <- !app_assoc. reflexivity.
    + split; [reflexivity |]. exists []. split; [symmetry; apply app_nil_r | reflexivity].
  - intros _ w1 (Hthat1 & added & Htr1 & Hadded).
    apply runs_when; intros Hlt; rewrite Hlt.
    + apply Z.ltb_lt in Hlt. apply runs_store.
      * rewrite Hthat1. specialize (Hsized Hlt). unfold cache_sized in Hsized.
        rewrite Hsized. unfold CTRL_REG_MAX in *. lia.
      * simpl. rewrite Hthat1. split; [reflexivity |]. exists added. split; assumption.
    + split; [exact Hthat1 |]. exists added. split; assumption.
Qed.

Lemma ControlRegRead_runs r w :
  0 <= r -> (r < CTRL_REG_MAX -> cache_sized w) ->
  runs (ControlRegRead r) w
    (fun value w' =>
       w' = w /\
       value = if r <? CTRL_REG_MAX then cached (that w) r else 0).
Proof.
  intros Hr Hsized. unfold ControlRegRead.
  destruct (r <? CTRL_REG_MAX) eqn:Hlt.
  - apply Z.ltb_lt in Hlt. apply runs_load.
    + specialize (Hsized Hlt). unfold cache_sized in Hsized.
      rewrite Hsized. unfold CTRL_REG_MAX in *. lia.
    + split; reflexivity.
  - apply runs_ret. split; reflexivity.
Qed.

Lemma ControlRegRead_after_store r v a w' :
  0 <= r < CTRL_REG_MAX ->
  length (m_ControlRegs a) = Z.to_nat CTRL_REG_MAX ->
  that w' = set_ControlRegs (<[Z.to_nat r := v]> (m_ControlRegs a)) a ->
  ControlRegRead r w' = Done v w'.
Proof.
  intros [Hr0 Hr] Hlen Hthat.
  assert (Hsized' : cache_sized w').
  { unfold cache_sized. rewrite Hthat. simpl. rewrite length_insert. exact Hlen. }
  destruct (ControlRegRead_runs r w' Hr0 (fun _ => Hsized'))
    as (value & w'' & Hread & -> & ->).
  rewrite Hread. f_equal.
  apply Z.ltb_lt in Hr. rewrite Hr. unfold cached. rewrite Hthat. simpl.
  rewrite list_lookup_insert_eq; [reflexivity |].
  rewrite Hlen. apply Z.ltb_lt in Hr. unfold CTRL_REG_MAX in *. lia.
Qed.

End DriverFacts.

(** ** Facts about traces *)

Lemma written_to_app port tr1 tr2 :
  written_to port (tr1 ++ tr2) = written_to port tr1 ++ written_to port tr2.
Proof.
  induction tr1 as [| e tr1 IH]; simpl; [reflexivity |].
  destruct e; simpl; try exact IH.
  destruct (port0 =? port); simpl; [f_equal |]; exact IH.
Qed.

Lemma writes_of_app tr1 tr2 :
  writes_of (tr1 ++ tr2) = writes_of tr1 ++ writes_of tr2.
Proof.
  induction tr1 as [| e tr1 IH]; simpl; [reflexivity |].
  destruct e; simpl; try exact IH. f_equal. exact IH.
Qed.

Lemma written_to_reads port tr : Forall status_read tr -> written_to port tr = [].
Proof.
  induction 1 as [| e tr [status ->] _ IH]; simpl; [reflexivity | exact IH].
Qed.

Lemma writes_of_reads tr : Forall status_read tr -> writes_of tr = [].
Proof.
  induction 1 as [| e tr [status ->] _ IH]; simpl; [reflexivity | exact IH].
Qed.

Lemma written_to_settle port r tr : settle_delay r tr -> written_to port tr = [].
Proof.
  unfold settle_delay.
  destruct ((0x04 <=? r) && (r <=? 0x08)).
  - intros [Hall _]. apply written_to_reads, Hall.
  - destruct ((0x09 <=? r) && (r <=? 0x16)); intros ->; reflexivity.
Qed.

Lemma writes_of_settle r tr : settle_delay r tr -> writes_of tr = [].
Proof.
  unfold settle_delay.
  destruct ((0x04 <=? r) && (r <=? 0x08)).
  - intros [Hall _]. apply writes_of_reads, Hall.
  - destruct ((0x09 <=? r) && (r <=? 0x16)); intros ->; reflexivity.
Qed.

Lemma writes_of_arbitrated r v tr :
  arbitrated_write r v tr -> writes_of tr = register_write r v.
Proof.
  intros (poll & settle & [Hpoll _] & Hsettle & ->).
  simpl. rewrite writes_of_app, (writes_of_reads _ Hpoll). simpl.
  rewrite writes_of_app, (writes_of_settle _ _ Hsettle). reflexivity.
Qed.

Lemma bank_writes_of_arbitrated r v tr :
  arbitrated_write r v tr ->
  written_to ALG_REG_FM1_ADDR tr = [ALG_BANK_CONTROL; r; ALG_BANK_OPL3].
Proof.
  intros (poll & settle & [Hpoll _] & Hsettle & ->).
  simpl. rewrite written_to_app, (written_to_reads _ _ Hpoll). simpl.
  rewrite written_to_app, (written_to_settle _ _ _ Hsettle). reflexivity.
Qed.

Lemma last_of_arbitrated r v tr :
  arbitrated_write r v tr ->
  last tr = Some (PortWrite ALG_REG_FM1_ADDR ALG_BANK_OPL3).
Proof.
  intros (poll & settle & _ & _ & ->).
  rewrite app_comm_cons, !app_assoc. apply last_snoc.
Qed.

(** ** The shadow cache: write then read *)

(** C1: for every register index [i] (0x00..0x18) and every value [v],
    ControlRegWrite(i, v) followed by ControlRegRead(i) returns [v], whatever
    the power state and whatever the card does: the shadow cache is updated
    even when the hardware access is skipped. *)
Theorem ControlRegWrite_then_ControlRegRead
    (plat : Platform) (w : World) (i v : Z) :
  cache_sized w -> 0 <= i < CTRL_REG_MAX ->
  exists w', ControlRegWrite plat i v w = Done tt w' /\
             cache_sized w' /\
             ControlRegRead i w' = Done v w'.
Proof.
  intros Hsized [Hi0 Hi].
  destruct (ControlRegWrite_runs plat i v w Hi0 (fun _ => Hsized))
    as ([] & w' & Hwrite & Hthat & _).
  apply Z.ltb_lt in Hi. rewrite Hi in Hthat. apply Z.ltb_lt in Hi.
  exists w'. split; [exact Hwrite |]. split.
  - unfold cache_sized. rewrite Hthat. simpl. rewrite length_insert. exact Hsized.
  - apply (ControlRegRead_after_store i v (that w)); [lia | exact Hsized | exact Hthat].
Qed.

Lemma ControlRegWrite_then_ControlRegRead_witness :
  cache_sized (adapter_in PowerDeviceD3 None None) /\
  0 <= CTRL_REG_BASS < CTRL_REG_MAX /\
  exists w', ControlRegWrite stuck_card CTRL_REG_BASS 0xF9
               (adapter_in PowerDeviceD3 None None) = Done tt w' /\
             cache_sized w' /\
             ControlRegRead CTRL_REG_BASS w' = Done 0xF9 w'.
Proof.
  split; [reflexivity |]. split; [unfold CTRL_REG_BASS, CTRL_REG_MAX; lia |].
  apply (ControlRegWrite_then_ControlRegRead stuck_card
           (adapter_in PowerDeviceD3 None None) CTRL_REG_BASS 0xF9).
  - reflexivity.
  - unfold CTRL_REG_BASS, CTRL_REG_MAX; lia.
Defined.

(** ** The bank arbitrator *)

(** C2: on every exit path of ControlRegWrite the shared port pair is left
    in the OPL3 bank.  Either the call is power-gated and performs no I/O at
    all, or its last I/O is the write of 0xFE to the bank-select port; in
    both cases the last value it wrote to that port, if any, is 0xFE.  The
    card is arbitrary, so this covers the busy-poll timeout too. *)
Theorem ControlRegWrite_leaves_OPL3_bank
    (plat : Platform) (w : World) (r v : Z) :
  cache_sized w -> 0 <= r ->
  exists w' added,
    ControlRegWrite plat r v w = Done tt w' /\
    trace w' = trace w ++ added /\
    (if operative (m_PowerState (that w))
     then last added = Some (PortWrite ALG_REG_FM1_ADDR ALG_BANK_OPL3)
     else added = []) /\
    (last (written_to ALG_REG_FM1_ADDR added) = None \/
     last (written_to ALG_REG_FM1_ADDR added) = Some ALG_BANK_OPL3).
Proof.
  intros Hsized Hr.
  destruct (ControlRegWrite_runs plat r v w Hr (fun _ => Hsized))
    as ([] & w' & Hwrite & _ & added & Htrace & Hadded).
  exists w', added. split; [exact Hwrite |]. split; [exact Htrace |].
  destruct (operative (m_PowerState (that w))).
  - split; [eapply last_of_arbitrated; exact Hadded |].
    right. rewrite (bank_writes_of_arbitrated _ _ _ Hadded). reflexivity.
  - subst added. split; [reflexivity |]. left. reflexivity.
Qed.

Lemma ControlRegWrite_leaves_OPL3_bank_witness :
  exists w' added,
    ControlRegWrite stuck_card CTRL_REG_TREBLE 0xF3
      (adapter_in PowerDeviceD0 None None) = Done tt w' /\
    trace w' = [] ++ added /\
    last added = Some (PortWrite ALG_REG_FM1_ADDR ALG_BANK_OPL3) /\
    (last (written_to ALG_REG_FM1_ADDR added) = None \/
     last (written_to ALG_REG_FM1_ADDR added) = Some ALG_BANK_OPL3).
Proof.
  apply (ControlRegWrite_leaves_OPL3_bank stuck_card
           (adapter_in PowerDeviceD0 None None) CTRL_REG_TREBLE 0xF3).
  - reflexivity.
  - unfold CTRL_REG_TREBLE; lia.
Defined.

(** C10: the shadow cache is never indexed out of bounds.  With the cache at
    its declared size neither ControlRegWrite nor ControlRegRead faults for
    any index; and for an index of 0x19 or more they do not touch the array
    at all (the statement holds for an array of any size): the write still
    performs the whole hardware sequence when powered and leaves the adapter
    object unchanged, and the read returns 0. *)
Theorem ControlRegs_access_in_bounds
    (plat : Platform) (w : World) (r v : Z) :
  0 <= r ->
  (cache_sized w ->
   ControlRegWrite plat r v w <> Fault /\ ControlRegRead r w <> Fault) /\
  (CTRL_REG_MAX <= r ->
   (exists w' added,
      ControlRegWrite plat r v w = Done tt w' /\
      that w' = that w /\
      trace w' = trace w ++ added /\
      if operative (m_PowerState (that w))
      then arbitrated_write r v added
      else added = []) /\
   ControlRegRead r w = Done 0 w).
Proof.
  intros Hr. split.
  - intros Hsized. split.
    + destruct (ControlRegWrite_runs plat r v w Hr (fun _ => Hsized))
        as (a & w' & Hwrite & _). congruence.
    + destruct (ControlRegRead_runs r w Hr (fun _ => Hsized))
        as (a & w' & Hread & _). congruence.
  - intros Hmax.
    assert (Hnone : r < CTRL_REG_MAX -> cache_sized w) by lia.
    assert (Hge : (r <? CTRL_REG_MAX) = false) by (apply Z.ltb_ge; exact Hmax).
    split.
    + destruct (ControlRegWrite_runs plat r v w Hr Hnone)
        as ([] & w' & Hwrite & Hthat & added & Htrace & Hadded).
      rewrite Hge in Hthat. exists w', added. auto.
    + destruct (ControlRegRead_runs r w Hr Hnone)
        as (a & w' & Hread & -> & ->).
      rewrite Hge in Hread. exact Hread.
Qed.

Lemma ControlRegs_access_in_bounds_witness :
  (ControlRegWrite idle_card 0xFF 0x55 (adapter_in PowerDeviceD0 None None) <> Fault /\
   ControlRegRead 0xFF (adapter_in PowerDeviceD0 None None) <> Fault) /\
  (exists w' added,
     ControlRegWrite idle_card 0xFF 0x55 (adapter_in PowerDeviceD0 None None)
       = Done tt w' /\
     that w' = that (adapter_in PowerDeviceD0 None None) /\
     trace w' = [] ++ added /\
     arbitrated_write 0xFF 0x55 added) /\
  ControlRegRead 0xFF (adapter_in PowerDeviceD0 None None)
    = Done 0 (adapter_in PowerDeviceD0 None None).
Proof.
  destruct (ControlRegs_access_in_bounds idle_card
              (adapter_in PowerDeviceD0 None None) 0xFF 0x55 ltac:(lia))
    as [Hsafe Hout].
  split; [apply Hsafe; reflexivity |].
  apply Hout. unfold CTRL_REG_MAX; lia.
Defined.

(** C8: ControlRegWrite has no error result (it returns [tt], never a
    status) and never faults; every busy poll reads the status port at most
    1000 times; and when the first poll of a powered write exhausts that
    budget (WaitForReady returns FALSE after exactly 1000 reads) the write
    goes on all the same: register index, data, settle delay, bank restore,
    and the shadow cache holds the value afterwards. *)
Theorem ControlRegWrite_proceeds_after_busy_timeout
    (plat : Platform) (w : World) (r v : Z) :
  cache_sized w -> 0 <= r ->
  (exists w', ControlRegWrite plat r v w = Done tt w') /\
  (forall w0, exists ready w1 reads,
      WaitForReady plat w0 = Done ready w1 /\
      trace w1 = trace w0 ++ reads /\
      Forall status_read reads /\ (length reads <= 1000)%nat) /\
  (operative (m_PowerState (that w)) = true ->
   forall w1,
     WaitForReady plat
       (mkWorld (that w)
                (trace w ++ [PortWrite ALG_REG_FM1_ADDR ALG_BANK_CONTROL]))
       = Done false w1 ->
     exists reads settle w',
       trace w1 = trace w ++ PortWrite ALG_REG_FM1_ADDR ALG_BANK_CONTROL :: reads /\
       Forall status_read reads /\ length reads = 1000%nat /\
       ControlRegWrite plat r v w = Done tt w' /\
       trace w' = trace w1
                  ++ [PortWrite ALG_REG_FM1_ADDR r; PortWrite ALG_REG_FM1_DATA v]
                  ++ settle ++ [PortWrite ALG_REG_FM1_ADDR ALG_BANK_OPL3] /\
       settle_delay r settle /\
       (r < CTRL_REG_MAX -> ControlRegRead r w' = Done v w')).
Proof.
  intros Hsized Hr. split; [| split].
  - destruct (ControlRegWrite_runs plat r v w Hr (fun _ => Hsized))
      as ([] & w' & Hwrite & _). exists w'. exact Hwrite.
  - intros w0.
    destruct (WaitForReady_runs plat w0)
      as (ready & w1 & Hwait & _ & reads & Htrace & [Hall Hlen] & _).
    exists ready, w1, reads. repeat split; try assumption; lia.
  - intros Hop w1 Hwait.
    destruct (WaitForReady_runs plat
                (mkWorld (that w)
                   (trace w ++ [PortWrite ALG_REG_FM1_ADDR ALG_BANK_CONTROL])))
      as (ready & w1' & Hwait' & Hthat1 & reads & Htrace1 & [Hall _] & Hexhausted).
    rewrite Hwait in Hwait'. injection Hwait' as <- <-.
    simpl in Hthat1, Htrace1.
    assert (Hrun : runs (ControlRegWrite plat r v) w
              (fun _ w' =>
                 that w' = (if r <? CTRL_REG_MAX
                            then set_ControlRegs
                                   (<[Z.to_nat r := v]> (m_ControlRegs (that w)))
                                   (that w)
                            else that w) /\
                 exists settle,
                   trace w' = trace w1
                     ++ [PortWrite ALG_REG_FM1_ADDR r; PortWrite ALG_REG_FM1_DATA v]
                     ++ settle ++ [PortWrite ALG_REG_FM1_ADDR ALG_BANK_OPL3] /\
                   settle_delay r settle)).
    { unfold ControlRegWrite. apply runs_bind, runs_get. rewrite Hop. simpl.
      apply runs_bind, runs_bind, runs_emit, runs_bind.
      eapply runs_known; [exact Hwait |].
      apply runs_bind, runs_emit, runs_bind, runs_emit, runs_bind.
      eapply runs_weaken; [apply settle_runs |].
      simpl. intros _ w2 (Hthat2 & settle & Htrace2 & Hdelay).
      apply runs_emit. simpl.
      assert (Htrace : trace w2 ++ [PortWrite ALG_REG_FM1_ADDR ALG_BANK_OPL3]
                = trace w1
                  ++ [PortWrite ALG_REG_FM1_ADDR r; PortWrite ALG_REG_FM1_DATA v]
                  ++ settle ++ [PortWrite ALG_REG_FM1_ADDR ALG_BANK_OPL3]).
      { rewrite Htrace2, <- !app_assoc. reflexivity. }
      apply runs_when; intros Hlt; rewrite Hlt.
      - apply Z.ltb_lt in Hlt. apply runs_store.
        + simpl. rewrite Hthat2, Hthat1. unfold cache_sized in Hsized.
          rewrite Hsized. unfold CTRL_REG_MAX in *. lia.
        + simpl. rewrite Hthat2, Hthat1. split; [reflexivity |].
          exists settle. split; assumption.
      - simpl. split; [congruence |]. exists settle. split; assumption. }
    destruct Hrun as ([] & w' & Hwrite & Hthat & settle & Htrace & Hdelay).
    exists reads, settle, w'.
    split; [rewrite Htrace1, <- app_assoc; reflexivity |].
    split; [exact Hall |]. split; [apply Hexhausted; reflexivity |].
    split; [exact Hwrite |]. split; [exact Htrace |]. split; [exact Hdelay |].
    intros Hlt. apply (ControlRegRead_after_store r v (that w)); try assumption.
    + lia.
    + apply Z.ltb_lt in Hlt. rewrite Hlt in Hthat. exact Hthat.
Qed.

Lemma ControlRegWrite_proceeds_after_busy_timeout_witness :
  exists reads settle w',
    Forall status_read reads /\ length reads = 1000%nat /\
    ControlRegWrite stuck_card CTRL_REG_MIC_VOL 0x80
      (adapter_in PowerDeviceD0 None None) = Done tt w' /\
    trace w' = (PortWrite ALG_REG_FM1_ADDR ALG_BANK_CONTROL :: reads)
               ++ [PortWrite ALG_REG_FM1_ADDR CTRL_REG_MIC_VOL;
                   PortWrite ALG_REG_FM1_DATA 0x80]
               ++ settle ++ [PortWrite ALG_REG_FM1_ADDR ALG_BANK_OPL3] /\
    settle_delay CTRL_REG_MIC_VOL settle /\
    ControlRegRead CTRL_REG_MIC_VOL w' = Done 0x80 w'.
Proof.
  destruct (ControlRegWrite_proceeds_after_busy_timeout stuck_card
              (adapter_in PowerDeviceD0 None None) CTRL_REG_MIC_VOL 0x80)
    as (_ & _ & Htimeout); [reflexivity | unfold CTRL_REG_MIC_VOL; lia |].
  destruct (WaitForReady stuck_card
              (mkWorld (that (adapter_in PowerDeviceD0 None None))
                 (trace (adapter_in PowerDeviceD0 None None)
                  ++ [PortWrite ALG_REG_FM1_ADDR ALG_BANK_CONTROL])))
    as [ready w1 |] eqn:Hwait; [| vm_compute in Hwait; discriminate].
  assert (Hready : ready = false).
  { vm_compute in Hwait. injection Hwait as <- _. reflexivity. }
  subst ready.
  destruct (Htimeout eq_refl w1 eq_refl)
    as (reads & settle & w' & Htrace1 & Hall & Hlen & Hwrite & Htrace & Hdelay & Hread).
  exists reads, settle, w'.
  split; [exact Hall |]. split; [exact Hlen |]. split; [exact Hwrite |].
  split; [rewrite Htrace, Htrace1; reflexivity |].
  split; [exact Hdelay |].
  apply Hread. unfold CTRL_REG_MIC_VOL, CTRL_REG_MAX; lia.
Defined.

(** ** The interrupt dispatcher *)

Ltac run :=
  repeat (cbv beta;
          first [ apply runs_ret | apply runs_bind | apply runs_emit
                | apply runs_get | apply runs_modify ]).

(** A status byte with the sampling bit low cannot have all four source
    bits high. *)
Lemma sampling_pending_is_ours status :
  Z.land status ALG_STATUS_SMP_IRQ = 0 ->
  (Z.land status ALG_STATUS_IRQ_MASK =? ALG_STATUS_IRQ_MASK) = false.
Proof.
  intros Hsmp. apply Z.eqb_neq. intros Hall.
  assert (H : Z.land (Z.land status ALG_STATUS_IRQ_MASK) ALG_STATUS_SMP_IRQ
              = Z.land status ALG_STATUS_SMP_IRQ).
  { rewrite <- Z.land_assoc. reflexivity. }
  rewrite Hall, Hsmp in H. discriminate H.
Qed.

(** C6: when the four interrupt-source bits of the status byte are all 1 the
    interrupt is not ours.  The routine does its bank round trip (select
    control bank, read status, restore OPL3 bank), returns
    STATUS_UNSUCCESSFUL, and does nothing else: no miniport is called and
    neither the MMA status port nor the FM status port is read. *)
Theorem InterruptServiceRoutine_not_mine
    (plat : Platform) (w : World) (status : Z) :
  status = port_in plat
             (trace w ++ [PortWrite ALG_REG_FM1_ADDR ALG_BANK_CONTROL])
             ALG_REG_FM1_ADDR mod 256 ->
  Z.land status ALG_STATUS_IRQ_MASK = ALG_STATUS_IRQ_MASK ->
  exists added,
    InterruptServiceRoutine plat w
      = Done STATUS_UNSUCCESSFUL (mkWorld (that w) (trace w ++ added)) /\
    NT_SUCCESS STATUS_UNSUCCESSFUL = false /\
    added = [ PortWrite ALG_REG_FM1_ADDR ALG_BANK_CONTROL;
              PortRead ALG_REG_FM1_ADDR status;
              PortWrite ALG_REG_FM1_ADDR ALG_BANK_OPL3 ] /\
    wave_calls added = [] /\ midi_calls added = [] /\
    read_from ALG_REG_MMA0_ADDR added = [] /\
    read_from ALG_REG_FM0_ADDR added = [].
Proof.
  intros Hstatus Hidle. eexists. split; [| repeat split].
  unfold InterruptServiceRoutine, bind, WRITE_PORT_UCHAR, READ_PORT_UCHAR, emit.
  cbn [that trace]. rewrite <- Hstatus, Hidle, Z.eqb_refl.
  unfold ret. rewrite <- !app_assoc. reflexivity.
Qed.

Lemma InterruptServiceRoutine_not_mine_witness :
  exists added,
    InterruptServiceRoutine idle_card (adapter_in PowerDeviceD0 (Some 1%nat) (Some 2%nat))
      = Done STATUS_UNSUCCESSFUL
          (mkWorld (that (adapter_in PowerDeviceD0 (Some 1%nat) (Some 2%nat)))
                   ([] ++ added)) /\
    NT_SUCCESS STATUS_UNSUCCESSFUL = false /\
    added = [ PortWrite ALG_REG_FM1_ADDR ALG_BANK_CONTROL;
              PortRead ALG_REG_FM1_ADDR 0x0F;
              PortWrite ALG_REG_FM1_ADDR ALG_BANK_OPL3 ] /\
    wave_calls added = [] /\ midi_calls added = [] /\
    read_from ALG_REG_MMA0_ADDR added = [] /\
    read_from ALG_REG_FM0_ADDR added = [].
Proof.
  apply (InterruptServiceRoutine_not_mine idle_card
           (adapter_in PowerDeviceD0 (Some 1%nat) (Some 2%nat)) 0x0F);
    reflexivity.
Defined.

(** C3: when the sampling bit (D1) of the status byte is 0, one run of the
    interrupt service routine reads the MMA status port exactly once, calls
    the wave miniport exactly once if one is registered (whatever the MMA
    status says), and calls the MIDI miniport exactly once if the RRQ flag
    is set in that one MMA status byte and a MIDI miniport is registered,
    and not at all otherwise.  It returns STATUS_SUCCESS. *)
Theorem InterruptServiceRoutine_sampling
    (plat : Platform) (w : World) (status mmaStatus : Z) :
  status = port_in plat
             (trace w ++ [PortWrite ALG_REG_FM1_ADDR ALG_BANK_CONTROL])
             ALG_REG_FM1_ADDR mod 256 ->
  mmaStatus = port_in plat
                (trace w ++ [ PortWrite ALG_REG_FM1_ADDR ALG_BANK_CONTROL;
                              PortRead ALG_REG_FM1_ADDR status;
                              PortWrite ALG_REG_FM1_ADDR ALG_BANK_OPL3 ])
                ALG_REG_MMA0_ADDR mod 256 ->
  Z.land status ALG_STATUS_SMP_IRQ = 0 ->
  exists added,
    InterruptServiceRoutine plat w
      = Done STATUS_SUCCESS (mkWorld (that w) (trace w ++ added)) /\
    read_from ALG_REG_MMA0_ADDR added = [mmaStatus] /\
    wave_calls added = match m_pWaveMiniport (that w) with
                       | Some h => [h]
                       | None => []
                       end /\
    midi_calls added = if Z.land mmaStatus MMA_STATUS_RRQ =? 0
                       then []
                       else match m_pMidiMiniport (that w) with
                            | Some h => [h]
                            | None => []
                            end.
Proof.
  intros Hstatus Hmma Hsmp.
  assert (Hrun : runs (InterruptServiceRoutine plat) w
            (fun result w' =>
               result = STATUS_SUCCESS /\ that w' = that w /\
               exists added,
                 trace w' = trace w ++ added /\
                 read_from ALG_REG_MMA0_ADDR added = [mmaStatus] /\
                 wave_calls added = match m_pWaveMiniport (that w) with
                                    | Some h => [h]
                                    | None => []
                                    end /\
                 midi_calls added = if Z.land mmaStatus MMA_STATUS_RRQ =? 0
                                    then []
                                    else match m_pMidiMiniport (that w) with
                                         | Some h => [h]
                                         | None => []
                                         end)).
  { unfold InterruptServiceRoutine.
    apply runs_bind, runs_emit, runs_bind, runs_READ.
    cbn [that trace]. intros status' Hstatus'.
    rewrite <- Hstatus in Hstatus'. subst status'.
    apply runs_bind, runs_emit. cbn [that trace].
    rewrite (sampling_pending_is_ours status Hsmp), Hsmp, Z.eqb_refl.
    unfold when at 1.
    apply runs_bind, runs_bind, runs_READ.
    cbn [that trace]. intros mma' Hmma'.
    rewrite <- !app_assoc in Hmma'. cbn [app] in Hmma'.
    rewrite <- Hmma in Hmma'. subst mma'.
    apply runs_bind, runs_get. cbn [that trace].
    destruct (m_pWaveMiniport (that w)) as [wave |];
      destruct (m_pMidiMiniport (that w)) as [midi |] eqn:Hmidi;
      destruct (Z.land mmaStatus MMA_STATUS_RRQ =? 0);
      destruct (Z.land status ALG_STATUS_FM_IRQ =? 0);
      unfold when; cbn [negb];
      run; try (apply runs_READ; intros fm _); run;
      cbn [that trace]; rewrite ?Hmidi; run;
      try (apply runs_READ; intros fm _); run;
      cbn [that trace];
      (split; [reflexivity |]); (split; [reflexivity |]);
      rewrite <- !app_assoc; cbn [app];
      (eexists; split; [reflexivity |]);
      cbn; rewrite ?Z.eqb_refl; repeat split; reflexivity. }
  destruct Hrun as (result & [that' trace'] & Hisr & -> & Hthat & added & Htrace & Hfacts).
  cbn [that trace] in Hthat, Htrace. subst that' trace'.
  exists added. split; [exact Hisr | exact Hfacts].
Qed.

Lemma InterruptServiceRoutine_sampling_witness :
  exists added,
    InterruptServiceRoutine (sample_card 0x0D 0x04 STATUS_SUCCESS)
      (adapter_in PowerDeviceD0 (Some 1%nat) None)
      = Done STATUS_SUCCESS
          (mkWorld (that (adapter_in PowerDeviceD0 (Some 1%nat) None))
                   ([] ++ added)) /\
    read_from ALG_REG_MMA0_ADDR added = [0x04] /\
    wave_calls added = [1%nat] /\
    midi_calls added = [].
Proof.
  apply (InterruptServiceRoutine_sampling (sample_card 0x0D 0x04 STATUS_SUCCESS)
           (adapter_in PowerDeviceD0 (Some 1%nat) None) 0x0D 0x04);
    reflexivity.
Defined.

(** ** The power state machine *)

Lemma written_to_writes_of port tr :
  written_to port (writes_of tr) = written_to port tr.
Proof.
  induction tr as [| e tr IH]; simpl; [reflexivity |].
  destruct e; simpl; try exact IH. rewrite IH. reflexivity.
Qed.

Lemma cached_insert_same a i :
  (Z.to_nat i < length (m_ControlRegs a))%nat ->
  set_ControlRegs (<[Z.to_nat i := cached a i]> (m_ControlRegs a)) a = a.
Proof.
  intros Hi. unfold cached.
  destruct (lookup_lt_is_Some_2 _ _ Hi) as [x Hx].
  rewrite Hx. simpl. rewrite (list_insert_id _ _ _ Hx).
  apply set_ControlRegs_same.
Qed.

Lemma replay_runs (plat : Platform) (count : nat) :
  forall first w,
    cache_sized w -> operative (m_PowerState (that w)) = true ->
    0 <= first -> first + Z.of_nat count <= CTRL_REG_MAX ->
    runs (for_range first count
            (fun i => let* value := load_ControlRegs i in
                      ControlRegWrite plat i value)) w
      (fun _ w' =>
         that w' = that w /\
         exists added,
           trace w' = trace w ++ added /\
           writes_of added = replayed (that w) (seqZ first (Z.of_nat count))).
Proof.
  induction count as [| count IH]; intros first w Hsized Hop Hfirst Hlast.
  - apply runs_ret. split; [reflexivity |].
    exists []. split; [symmetry; apply app_nil_r | reflexivity].
  - assert (Hin : 0 <= first < Z.of_nat (length (m_ControlRegs (that w)))).
    { unfold cache_sized in Hsized. rewrite Hsized. lia. }
    cbn [for_range]. apply runs_bind, runs_bind, runs_load; [exact Hin |].
    eapply runs_weaken;
      [apply ControlRegWrite_runs; [lia | intros _; exact Hsized] |].
    cbv beta. intros _ w1 (Hthat1 & added1 & Htrace1 & Hadded1).
    rewrite Hop in Hadded1.
    replace (first <? CTRL_REG_MAX) with true in Hthat1
      by (symmetry; apply Z.ltb_lt; lia).
    rewrite cached_insert_same in Hthat1 by lia.
    eapply runs_weaken; [apply (IH (first + 1) w1) |].
    + unfold cache_sized. rewrite Hthat1. exact Hsized.
    + rewrite Hthat1. exact Hop.
    + lia.
    + lia.
    + cbv beta. intros _ w2 (Hthat2 & added2 & Htrace2 & Hadded2).
      split; [congruence |].
      exists (added1 ++ added2).
      split; [rewrite Htrace2, Htrace1, app_assoc; reflexivity |].
      rewrite writes_of_app, (writes_of_arbitrated _ _ _ Hadded1), Hadded2.
      rewrite Hthat1.
      rewrite (seqZ_cons first (Z.of_nat (S count))) by lia.
      replace (Z.pred (Z.of_nat (S count))) with (Z.of_nat count) by lia.
      reflexivity.
Qed.

(** C4: a transition to D0 from any other power state stores D0 first and
    then replays the mixer range: the port writes of the call are exactly
    the arbitrated writes of registers 0x04, 0x05, ..., 0x0F in this order,
    each carrying the value the shadow cache holds for it, and the cache is
    left as it was.  (That the writes reach the ports at all, also when
    coming from D2 or D3, is what shows the state was stored first.)  A
    transition from D0 to D1, D2 or D3 stores the new state and does no
    I/O. *)
Theorem PowerChangeState_replays_mixer_range
    (plat : Platform) (w : World) (NewState : DEVICE_POWER_STATE) :
  cache_sized w ->
  NewState <> m_PowerState (that w) ->
  (NewState = PowerDeviceD0 ->
   exists w' added,
     PowerChangeState plat NewState w = Done tt w' /\
     that w' = set_PowerState PowerDeviceD0 (that w) /\
     trace w' = trace w ++ added /\
     writes_of added = replayed (that w) mixer_range /\
     written_to ALG_REG_FM1_ADDR added
       = concat (map (fun i => [ALG_BANK_CONTROL; i; ALG_BANK_OPL3]) mixer_range) /\
     written_to ALG_REG_FM1_DATA added = map (cached (that w)) mixer_range) /\
  (m_PowerState (that w) = PowerDeviceD0 ->
   NewState = PowerDeviceD1 \/ NewState = PowerDeviceD2 \/ NewState = PowerDeviceD3 ->
   PowerChangeState plat NewState w
     = Done tt (mkWorld (set_PowerState NewState (that w)) (trace w))).
Proof.
  intros Hsized Hchange. split.
  - intros ->.
    assert (Hrun : runs (PowerChangeState plat PowerDeviceD0) w
              (fun _ w' =>
                 that w' = set_PowerState PowerDeviceD0 (that w) /\
                 exists added,
                   trace w' = trace w ++ added /\
                   writes_of added = replayed (that w) mixer_range)).
    { unfold PowerChangeState. apply runs_bind, runs_get.
      rewrite bool_decide_eq_false_2 by exact Hchange.
      apply runs_bind, runs_modify.
      eapply runs_weaken; [apply replay_runs |].
      - exact Hsized.
      - reflexivity.
      - unfold CTRL_MIXER_FIRST; lia.
      - unfold CTRL_MIXER_FIRST, CTRL_MIXER_LAST, CTRL_REG_MAX; lia.
      - cbn [that trace]. intros _ w' (Hthat & added & Htrace & Hwrites).
        split; [exact Hthat |]. exists added. split; [exact Htrace |].
        rewrite Hwrites. reflexivity. }
    destruct Hrun as ([] & w' & Hrun & Hthat & added & Htrace & Hwrites).
    exists w', added. repeat (split; [assumption |]). split.
    + rewrite <- written_to_writes_of, Hwrites. reflexivity.
    + rewrite <- written_to_writes_of, Hwrites. reflexivity.
  - intros Hfull Hlower. unfold PowerChangeState, bind, get.
    rewrite bool_decide_eq_false_2 by exact Hchange.
    destruct Hlower as [-> | [-> | ->]]; reflexivity.
Qed.

Lemma PowerChangeState_replays_mixer_range_witness :
  (exists w' added,
     PowerChangeState idle_card PowerDeviceD0 (adapter_in PowerDeviceD3 None None)
       = Done tt w' /\
     that w' = that (adapter_in PowerDeviceD0 None None) /\
     trace w' = [] ++ added /\
     writes_of added
       = replayed (that (adapter_in PowerDeviceD3 None None)) mixer_range /\
     written_to ALG_REG_FM1_ADDR added
       = concat (map (fun i => [ALG_BANK_CONTROL; i; ALG_BANK_OPL3]) mixer_range) /\
     written_to ALG_REG_FM1_DATA added
       = [0x84; 0x85; 0x86; 0x87; 0x88; 0x89; 0x8A; 0x8B; 0x8C; 0x8D; 0x8E; 0x8F]) /\
  PowerChangeState idle_card PowerDeviceD2 (adapter_in PowerDeviceD0 None None)
    = Done tt (adapter_in PowerDeviceD2 None None).
Proof.
  split.
  - apply (PowerChangeState_replays_mixer_range idle_card
             (adapter_in PowerDeviceD3 None None) PowerDeviceD0);
      [reflexivity | discriminate | reflexivity].
  - apply (PowerChangeState_replays_mixer_range idle_card
             (adapter_in PowerDeviceD0 None None) PowerDeviceD2);
      [reflexivity | discriminate | reflexivity | right; left; reflexivity].
Defined.

(** ** Non-volatile persistence *)

Lemma readback_runs (plat : Platform) (count : nat) :
  forall first w,
    cache_sized w ->
    0 <= first -> first + Z.of_nat count <= CTRL_REG_MAX ->
    runs (for_range first count
            (fun reg =>
               WRITE_PORT_UCHAR ALG_REG_FM1_ADDR reg >>
               let* value := READ_PORT_UCHAR plat ALG_REG_FM1_DATA in
               store_ControlRegs reg value)) w
      (fun _ w' =>
         that w' = set_ControlRegs (m_ControlRegs (that w')) (that w) /\
         cache_sized w' /\
         (forall j, (j < Z.to_nat first)%nat ->
                    m_ControlRegs (that w') !! j = m_ControlRegs (that w) !! j) /\
         trace w' = trace w
                    ++ readback (m_ControlRegs (that w'))
                                (seqZ first (Z.of_nat count))).
Proof.
  induction count as [| count IH]; intros first w Hsized Hfirst Hlast.
  - apply runs_ret. split; [symmetry; apply set_ControlRegs_same |].
    split; [exact Hsized |]. split; [reflexivity |].
    symmetry; apply app_nil_r.
  - assert (Hlen : (Z.to_nat first < length (m_ControlRegs (that w)))%nat).
    { unfold cache_sized in Hsized. rewrite Hsized. lia. }
    cbn [for_range].
    apply runs_bind, runs_bind, runs_emit, runs_bind, runs_READ.
    intros value _. apply runs_store; [cbn [that trace]; lia |].
    cbn [that trace].
    eapply runs_weaken; [apply (IH (first + 1)) |].
    + unfold cache_sized. cbn [that m_ControlRegs set_ControlRegs].
      rewrite length_insert. exact Hsized.
    + lia.
    + lia.
    + cbn [that trace m_ControlRegs set_ControlRegs].
      intros _ w' (Hthat & Hsized' & Hbelow & Htrace).
      assert (Hkept : m_ControlRegs (that w') !! Z.to_nat first = Some value).
      { rewrite Hbelow by lia. apply list_lookup_insert_eq. exact Hlen. }
      split; [exact Hthat |]. split; [exact Hsized' |]. split.
      * intros j Hj. rewrite Hbelow by lia.
        apply list_lookup_insert_ne. lia.
      * rewrite Htrace, <- !app_assoc.
        rewrite (seqZ_cons first (Z.of_nat (S count))) by lia.
        replace (Z.pred (Z.of_nat (S count))) with (Z.of_nat count) by lia.
        unfold readback at 2. cbn [map concat]. rewrite Hkept. reflexivity.
Qed.

(** C7: in an operative power state RestoreFromEEPROM issues the restore
    command, stalls 2500 microseconds, polls, and then reads every register
    0x00..0x18 back from the card into the shadow cache: the trace shows,
    for each index in ascending order, the register select followed by the
    data-port read whose result is what the cache holds for that index
    afterwards; the card model and options are taken from the new cache
    entry 0; the result is STATUS_SUCCESS.  Below operative level it returns
    STATUS_DEVICE_POWERED_OFF and changes nothing. *)
Theorem RestoreFromEEPROM_resynchronises
    (plat : Platform) (w : World) :
  cache_sized w ->
  (operative (m_PowerState (that w)) = true ->
   exists w' poll1 poll2,
     RestoreFromEEPROM plat w = Done STATUS_SUCCESS w' /\
     busy_poll poll1 /\ busy_poll poll2 /\
     trace w' = trace w
                ++ PortWrite ALG_REG_FM1_ADDR ALG_BANK_CONTROL :: poll1
                ++ [ PortWrite ALG_REG_FM1_ADDR CTRL_REG_CONTROL_ID;
                     PortWrite ALG_REG_FM1_DATA CTRL_ID_RESTORE;
                     Stall 2500 ]
                ++ poll2
                ++ readback (m_ControlRegs (that w')) (seqZ 0 CTRL_REG_MAX)
                ++ [PortWrite ALG_REG_FM1_ADDR ALG_BANK_OPL3] /\
     cache_sized w' /\
     m_CardModel (that w')
       = Z.land (cached (that w') CTRL_REG_CONTROL_ID) CTRL_ID_MODEL_MASK /\
     m_CardOptions (that w') = cached (that w') CTRL_REG_CONTROL_ID /\
     m_PowerState (that w') = m_PowerState (that w)) /\
  (operative (m_PowerState (that w)) = false ->
   RestoreFromEEPROM plat w = Done STATUS_DEVICE_POWERED_OFF w).
Proof.
  intros Hsized. split; intros Hop.
  - assert (Hrun : runs (RestoreFromEEPROM plat) w
              (fun result w' =>
                 result = STATUS_SUCCESS /\
                 exists poll1 poll2 regs,
                   busy_poll poll1 /\ busy_poll poll2 /\
                   length regs = Z.to_nat CTRL_REG_MAX /\
                   that w' = set_CardIdentity
                               (Z.land (default 0 (regs !! 0%nat)) CTRL_ID_MODEL_MASK)
                               (default 0 (regs !! 0%nat))
                               (set_ControlRegs regs (that w)) /\
                   trace w' = trace w
                     ++ PortWrite ALG_REG_FM1_ADDR ALG_BANK_CONTROL :: poll1
                     ++ [ PortWrite ALG_REG_FM1_ADDR CTRL_REG_CONTROL_ID;
                          PortWrite ALG_REG_FM1_DATA CTRL_ID_RESTORE;
                          Stall 2500 ]
                     ++ poll2
                     ++ readback regs (seqZ 0 CTRL_REG_MAX)
                     ++ [PortWrite ALG_REG_FM1_ADDR ALG_BANK_OPL3])).
    { unfold RestoreFromEEPROM. apply runs_bind, runs_get.
      rewrite Hop. cbn [negb].
      apply runs_bind, runs_emit, runs_bind.
      eapply runs_weaken; [apply WaitForReady_runs |].
      cbn [that trace]. intros _ w1 (Hthat1 & poll1 & Htrace1 & Hpoll1 & _).
      apply runs_bind, runs_emit, runs_bind, runs_emit, runs_bind, runs_emit, runs_bind.
      eapply runs_weaken; [apply WaitForReady_runs |].
      cbn [that trace]. intros _ w2 (Hthat2 & poll2 & Htrace2 & Hpoll2 & _).
      apply runs_bind.
      eapply runs_weaken; [apply readback_runs |].
      + unfold cache_sized. rewrite Hthat2, Hthat1. exact Hsized.
      + lia.
      + unfold CTRL_REG_MAX; lia.
      + cbv beta. intros _ w3 (Hthat3 & Hsized3 & _ & Htrace3).
        apply runs_bind, runs_emit, runs_bind, runs_load.
        { cbn [that trace]. unfold cache_sized in Hsized3. rewrite Hsized3.
          unfold CTRL_REG_CONTROL_ID, CTRL_REG_MAX; lia. }
        apply runs_bind, runs_modify, runs_ret.
        split; [reflexivity |].
        exists poll1, poll2, (m_ControlRegs (that w3)).
        split; [exact Hpoll1 |]. split; [exact Hpoll2 |].
        split; [exact Hsized3 |]. cbn [that trace]. split.
        * rewrite Hthat3 at 3. rewrite Hthat2, Hthat1. reflexivity.
        * rewrite Htrace3, Htrace2, Htrace1, <- !app_assoc. reflexivity. }
    destruct Hrun as (result & w' & Hrun & -> & poll1 & poll2 & regs
                      & Hpoll1 & Hpoll2 & Hlen & Hthat & Htrace).
    exists w', poll1, poll2.
    split; [exact Hrun |]. split; [exact Hpoll1 |]. split; [exact Hpoll2 |].
    rewrite Hthat. cbn [m_ControlRegs set_CardIdentity set_ControlRegs].
    split; [exact Htrace |].
    unfold cache_sized, cached. rewrite Hthat. repeat split; assumption.
  - unfold RestoreFromEEPROM, bind, get. rewrite Hop. reflexivity.
Qed.

Lemma RestoreFromEEPROM_resynchronises_witness :
  (exists w' poll1 poll2,
     RestoreFromEEPROM idle_card (adapter_in PowerDeviceD1 None None)
       = Done STATUS_SUCCESS w' /\
     busy_poll poll1 /\ busy_poll poll2 /\
     trace w' = []
                ++ PortWrite ALG_REG_FM1_ADDR ALG_BANK_CONTROL :: poll1
                ++ [ PortWrite ALG_REG_FM1_ADDR CTRL_REG_CONTROL_ID;
                     PortWrite ALG_REG_FM1_DATA CTRL_ID_RESTORE;
                     Stall 2500 ]
                ++ poll2
                ++ readback (m_ControlRegs (that w')) (seqZ 0 CTRL_REG_MAX)
                ++ [PortWrite ALG_REG_FM1_ADDR ALG_BANK_OPL3] /\
     cache_sized w' /\
     m_CardModel (that w')
       = Z.land (cached (that w') CTRL_REG_CONTROL_ID) CTRL_ID_MODEL_MASK /\
     m_CardOptions (that w') = cached (that w') CTRL_REG_CONTROL_ID /\
     m_PowerState (that w') = PowerDeviceD1) /\
  RestoreFromEEPROM idle_card (adapter_in PowerDeviceD2 None None)
    = Done STATUS_DEVICE_POWERED_OFF (adapter_in PowerDeviceD2 None None).
Proof.
  split.
  - apply (RestoreFromEEPROM_resynchronises idle_card
             (adapter_in PowerDeviceD1 None None)); reflexivity.
  - apply (RestoreFromEEPROM_resynchronises idle_card
             (adapter_in PowerDeviceD2 None None)); reflexivity.
Defined.

(** ** Register defaults and the reserved register *)

Lemma only_cache_refl w : cache_sized w -> only_cache w w.
Proof. intros H. split; [symmetry; apply set_ControlRegs_same | exact H]. Qed.

Lemma only_cache_trans w1 w2 w3 :
  only_cache w1 w2 -> only_cache w2 w3 -> only_cache w1 w3.
Proof.
  intros [H12 _] [H23 Hsized]. split; [| exact Hsized].
  rewrite H23 at 1. rewrite H12. reflexivity.
Qed.

Lemma ControlRegWrite_only_cache plat r v w :
  0 <= r -> cache_sized w ->
  runs (ControlRegWrite plat r v) w (fun _ w' => only_cache w w').
Proof.
  intros Hr Hsized.
  eapply runs_weaken; [apply ControlRegWrite_runs; [exact Hr | intros _; exact Hsized] |].
  cbv beta. intros _ w' (Hthat & _).
  destruct (r <? CTRL_REG_MAX).
  - split.
    + rewrite Hthat at 1. rewrite Hthat. reflexivity.
    + unfold cache_sized. rewrite Hthat.
      cbn [m_ControlRegs set_ControlRegs]. rewrite length_insert. exact Hsized.
  - unfold only_cache, cache_sized. rewrite Hthat.
    split; [symmetry; apply set_ControlRegs_same | exact Hsized].
Qed.

Lemma write_defaults_only_cache plat settings :
  Forall (fun s => 0 <= RegisterIndex s) settings ->
  forall w, cache_sized w ->
            runs (write_defaults plat settings) w (fun _ w' => only_cache w w').
Proof.
  induction 1 as [| s settings Hs _ IH]; intros w Hsized; cbn [write_defaults].
  - apply runs_ret, only_cache_refl, Hsized.
  - apply runs_bind.
    eapply runs_weaken; [apply ControlRegWrite_only_cache; assumption |].
    cbv beta. intros _ w1 H1.
    eapply runs_weaken; [apply IH, H1 |].
    cbv beta. intros _ w2 H2. exact (only_cache_trans _ _ _ H1 H2).
Qed.

Lemma read_saved_values_only_cache plat settings :
  Forall (fun s => 0 <= RegisterIndex s) settings ->
  forall ntStatus w,
    cache_sized w ->
    runs (read_saved_values plat settings ntStatus) w (fun _ w' => only_cache w w').
Proof.
  induction 1 as [| s settings Hs _ IH]; intros ntStatus w Hsized;
    cbn [read_saved_values].
  - apply runs_ret, only_cache_refl, Hsized.
  - destruct (QueryValueKey plat (KeyName s)) as [[queried DataLength] Data].
    apply runs_bind.
    apply runs_weaken with (P := fun _ w1 => only_cache w w1).
    + destruct (NT_SUCCESS queried).
      * apply runs_when; intros _.
        -- apply ControlRegWrite_only_cache; assumption.
        -- apply only_cache_refl, Hsized.
      * apply ControlRegWrite_only_cache; assumption.
    + intros _ w1 H1.
      eapply runs_weaken; [apply IH, H1 |].
      cbv beta. intros _ w2 H2. exact (only_cache_trans _ _ _ H1 H2).
Qed.

Lemma DefaultMixerSettings_indices :
  Forall (fun s => 0 <= RegisterIndex s) DefaultMixerSettings.
Proof. repeat constructor; discriminate. Qed.

Lemma RestoreMixerSettingsFromRegistry_only_cache plat w :
  cache_sized w ->
  runs (RestoreMixerSettingsFromRegistry plat) w (fun _ w' => only_cache w w').
Proof.
  intros Hsized. unfold RestoreMixerSettingsFromRegistry.
  destruct (NT_SUCCESS (PcNewRegistryKey plat));
    [| apply runs_ret, only_cache_refl, Hsized].
  destruct (NewSubKey plat) as [ntStatus Disposition].
  destruct (NT_SUCCESS ntStatus);
    [| apply runs_ret, only_cache_refl, Hsized].
  destruct (Disposition =? REG_CREATED_NEW_KEY); [| destruct (ExAllocatePool plat)].
  - apply runs_bind.
    eapply runs_weaken;
      [apply write_defaults_only_cache; [apply DefaultMixerSettings_indices | exact Hsized] |].
    cbv beta. intros _ w1 H1. apply runs_ret, H1.
  - apply read_saved_values_only_cache;
      [apply DefaultMixerSettings_indices | exact Hsized].
  - apply runs_bind.
    eapply runs_weaken;
      [apply write_defaults_only_cache; [apply DefaultMixerSettings_indices | exact Hsized] |].
    cbv beta. intros _ w1 H1. apply runs_ret, H1.
Qed.

Lemma ControlRegReset_runs plat w :
  cache_sized w ->
  runs (ControlRegReset plat) w
    (fun _ w' =>
       only_cache w w' /\ ControlRegRead CTRL_REG_RESERVED w' = Done 0 w').
Proof.
  intros Hsized. unfold ControlRegReset. apply runs_bind.
  eapply runs_weaken; [apply RestoreMixerSettingsFromRegistry_only_cache, Hsized |].
  cbv beta. intros ntStatus w1 H1. apply runs_bind.
  apply runs_weaken with (P := fun _ w2 => only_cache w w2).
  - apply runs_when; intros _; [| exact H1].
    eapply runs_weaken;
      [apply write_defaults_only_cache;
       [apply DefaultMixerSettings_indices | apply H1] |].
    cbv beta. intros _ w2 H2. exact (only_cache_trans _ _ _ H1 H2).
  - intros _ w2 H2.
    pose proof (ControlRegWrite_only_cache plat CTRL_REG_RESERVED 0 w2
                  ltac:(discriminate) (proj2 H2)) as (a & w3 & Hwrite & H3).
    destruct (ControlRegWrite_runs plat CTRL_REG_RESERVED 0 w2
                ltac:(discriminate) (fun _ => proj2 H2))
      as (a' & w3' & Hwrite' & Hthat & _).
    rewrite Hwrite in Hwrite'. injection Hwrite' as <- <-.
    exists a, w3. split; [exact Hwrite |].
    split; [exact (only_cache_trans _ _ _ H2 H3) |].
    apply (ControlRegRead_after_store CTRL_REG_RESERVED 0 (that w2));
      [unfold CTRL_REG_RESERVED, CTRL_REG_MAX; lia | apply H2 | exact Hthat].
Qed.

(** C5, as the code has it: ControlRegWrite treats index 0x12 like any other
    register, so after ControlRegWrite(0x12, v) the cache entry is [v] and
    ControlRegRead(0x12) returns [v].  The reserved register is zeroed by
    ControlRegReset, whose last step is ControlRegWrite(0x12, 0): after it,
    whatever the registry held, the cache entry is 0 and ControlRegRead(0x12)
    returns 0. *)
Theorem reserved_register_zeroed_by_reset
    (plat : Platform) (w : World) (v : Z) :
  cache_sized w ->
  (exists w', ControlRegWrite plat CTRL_REG_RESERVED v w = Done tt w' /\
              cached (that w') CTRL_REG_RESERVED = v /\
              ControlRegRead CTRL_REG_RESERVED w' = Done v w') /\
  (exists w', ControlRegReset plat w = Done tt w' /\
              cache_sized w' /\
              cached (that w') CTRL_REG_RESERVED = 0 /\
              ControlRegRead CTRL_REG_RESERVED w' = Done 0 w').
Proof.
  intros Hsized.
  assert (Hcached : forall x w',
             ControlRegRead CTRL_REG_RESERVED w' = Done x w' ->
             cache_sized w' -> cached (that w') CTRL_REG_RESERVED = x).
  { intros x w' Hread Hsized'.
    destruct (ControlRegRead_runs CTRL_REG_RESERVED w' ltac:(discriminate)
                (fun _ => Hsized')) as (x' & w'' & Hread' & _ & ->).
    rewrite Hread in Hread'. injection Hread' as -> _. reflexivity. }
  split.
  - destruct (ControlRegWrite_runs plat CTRL_REG_RESERVED v w
                ltac:(discriminate) (fun _ => Hsized))
      as ([] & w' & Hwrite & Hthat & _).
    destruct (ControlRegWrite_only_cache plat CTRL_REG_RESERVED v w
                ltac:(discriminate) Hsized)
      as ([] & w'' & Hwrite' & _ & Hsized').
    rewrite Hwrite in Hwrite'. injection Hwrite' as <-.
    assert (Hread : ControlRegRead CTRL_REG_RESERVED w' = Done v w').
    { apply (ControlRegRead_after_store CTRL_REG_RESERVED v (that w));
        [unfold CTRL_REG_RESERVED, CTRL_REG_MAX; lia | exact Hsized | exact Hthat]. }
    exists w'. split; [exact Hwrite |]. split; [| exact Hread].
    apply Hcached; assumption.
  - destruct (ControlRegReset_runs plat w Hsized)
      as ([] & w' & Hreset & [_ Hsized'] & Hread).
    exists w'. split; [exact Hreset |]. split; [exact Hsized' |].
    split; [| exact Hread]. apply Hcached; assumption.
Qed.

Lemma reserved_register_zeroed_by_reset_witness :
  (exists w', ControlRegWrite idle_card CTRL_REG_RESERVED 0x5A
                (adapter_in PowerDeviceD0 None None) = Done tt w' /\
              cached (that w') CTRL_REG_RESERVED = 0x5A /\
              ControlRegRead CTRL_REG_RESERVED w' = Done 0x5A w') /\
  (exists w', ControlRegReset idle_card (adapter_in PowerDeviceD0 None None)
                = Done tt w' /\
              cache_sized w' /\
              cached (that w') CTRL_REG_RESERVED = 0 /\
              ControlRegRead CTRL_REG_RESERVED w' = Done 0 w').
Proof.
  apply (reserved_register_zeroed_by_reset idle_card
           (adapter_in PowerDeviceD0 None None) 0x5A).
  reflexivity.
Defined.

(** C5 as the spec states it fails: ControlRegWrite(0x12, 1) leaves 1 in the
    cache entry of the reserved register, and ControlRegRead(0x12) returns 1,
    not 0. *)
Lemma ControlRegWrite_reserved_not_forced_to_zero :
  exists w',
    ControlRegWrite idle_card CTRL_REG_RESERVED 0x01
      (adapter_in PowerDeviceD0 None None) = Done tt w' /\
    cached (that w') CTRL_REG_RESERVED = 0x01 /\
    ControlRegRead CTRL_REG_RESERVED w' = Done 0x01 w' /\
    ControlRegRead CTRL_REG_RESERVED w' <> Done 0 w'.
Proof.
  eexists. split; [vm_compute; reflexivity |].
  split; [reflexivity |]. split; [reflexivity |]. discriminate.
Qed.

(** ** Initialization and the identity probe *)

(** The busy poll looks at the ports only: its result and its I/O do not
    depend on the adapter object. *)
Lemma WaitForReady_loop_frame plat n :
  forall a a' tr timeout w1,
    WaitForReady_loop plat n (mkWorld a tr) = Done timeout w1 ->
    WaitForReady_loop plat n (mkWorld a' tr) = Done timeout (mkWorld a' (trace w1)).
Proof.
  induction n as [| n IH]; intros a a' tr timeout w1;
    cbn [WaitForReady_loop]; unfold bind, READ_PORT_UCHAR; cbn [that trace];
    destruct (Z.land (port_in plat tr ALG_REG_FM1_ADDR mod 256)
                     ALG_STATUS_BUSY_MASK =? 0);
    unfold ret; try (intros [= <- <-]; reflexivity).
  apply IH.
Qed.

Lemma WaitForReady_frame plat a a' tr ready w1 :
  WaitForReady plat (mkWorld a tr) = Done ready w1 ->
  WaitForReady plat (mkWorld a' tr) = Done ready (mkWorld a' (trace w1)).
Proof.
  unfold WaitForReady, bind.
  destruct (WaitForReady_loop plat 999 (mkWorld a tr)) as [timeout w0 |] eqn:Hloop;
    [| discriminate].
  rewrite (WaitForReady_loop_frame _ _ _ a' _ _ _ Hloop).
  unfold ret. intros [= <- <-]. reflexivity.
Qed.

Lemma recognized_model_spec idByte :
  (ALG_MODEL_GOLD2000MC <? Z.land idByte CTRL_ID_MODEL_MASK)
  = negb (recognized_model (Z.land idByte CTRL_ID_MODEL_MASK)).
Proof.
  assert (H : 0 <= Z.land idByte CTRL_ID_MODEL_MASK).
  { apply Z.land_nonneg. right. discriminate. }
  unfold recognized_model, ALG_MODEL_GOLD1000, ALG_MODEL_GOLD2000,
    ALG_MODEL_GOLD2000MC.
  destruct (2 <? _) eqn:Hgt;
    [apply Z.ltb_lt in Hgt | apply Z.ltb_ge in Hgt].
  - repeat (replace (_ =? _) with false by (symmetry; apply Z.eqb_neq; lia)).
    reflexivity.
  - assert (Hcases : Z.land idByte CTRL_ID_MODEL_MASK = 0
                     \/ Z.land idByte CTRL_ID_MODEL_MASK = 1
                     \/ Z.land idByte CTRL_ID_MODEL_MASK = 2) by lia.
    destruct Hcases as [-> | [-> | ->]]; reflexivity.
Qed.

Lemma Init_detect_card_runs plat w idByte :
  cache_sized w ->
  idByte = port_in plat
             (trace w ++ [PortWrite ALG_REG_FM1_ADDR CTRL_REG_CONTROL_ID])
             ALG_REG_FM1_DATA mod 256 ->
  runs (Init_detect_card plat) w
    (fun status w' =>
       status = (if recognized_model (Z.land idByte CTRL_ID_MODEL_MASK)
                 then STATUS_SUCCESS
                 else STATUS_DEVICE_DOES_NOT_EXIST) /\
       m_CardModel (that w') = Z.land idByte CTRL_ID_MODEL_MASK /\
       m_CardOptions (that w') = idByte /\
       cache_sized w').
Proof.
  intros Hsized HidByte. unfold Init_detect_card.
  apply runs_bind, runs_emit, runs_bind, runs_READ.
  cbn [that trace]. intros value Hvalue. rewrite <- HidByte in Hvalue. subst value.
  apply runs_bind, runs_emit, runs_bind, runs_modify, runs_bind, runs_store.
  { cbn [that trace m_ControlRegs set_CardIdentity].
    unfold cache_sized in Hsized. rewrite Hsized.
    unfold CTRL_REG_CONTROL_ID, CTRL_REG_MAX; lia. }
  apply runs_bind, runs_get.
  cbn [that trace m_ControlRegs m_CardModel set_CardIdentity set_ControlRegs].
  rewrite recognized_model_spec.
  assert (Hsized' : forall tr,
             cache_sized
               (mkWorld
                  (set_ControlRegs
                     (<[Z.to_nat CTRL_REG_CONTROL_ID := idByte]> (m_ControlRegs (that w)))
                     (set_CardIdentity (Z.land idByte CTRL_ID_MODEL_MASK) idByte (that w)))
                  tr)).
  { intros tr. unfold cache_sized. cbn [that m_ControlRegs set_ControlRegs].
    rewrite length_insert. exact Hsized. }
  destruct (recognized_model (Z.land idByte CTRL_ID_MODEL_MASK));
    apply runs_ret; repeat split; try reflexivity; apply Hsized'.
Qed.

Lemma Init_interrupt_sync_runs plat w :
  runs (Init_interrupt_sync plat) w
    (fun status w' =>
       status = interrupt_sync_status plat /\
       m_CardModel (that w') = m_CardModel (that w) /\
       m_CardOptions (that w') = m_CardOptions (that w) /\
       m_ControlRegs (that w') = m_ControlRegs (that w)).
Proof.
  unfold Init_interrupt_sync, interrupt_sync_status.
  destruct (PcNewInterruptSync plat) as [ntStatus created].
  apply runs_bind, runs_modify.
  destruct (NT_SUCCESS ntStatus && created);
    [| apply runs_ret; repeat split; reflexivity].
  destruct (NT_SUCCESS (RegisterServiceRoutine plat)).
  - apply runs_bind, runs_when; intros _;
      [apply runs_modify |]; apply runs_ret; repeat split; reflexivity.
  - apply runs_bind, runs_when; intros _;
      [apply runs_modify |]; apply runs_ret; repeat split; reflexivity.
Qed.

(** C9, as the code has it.  When the resource list has a port and an
    interrupt and the first busy poll does not time out, Init reads the
    identity byte and caches its low four bits as the card model.  If that
    model is not 0x00, 0x01 or 0x02, Init fails with
    STATUS_DEVICE_DOES_NOT_EXIST.  If it is, Init returns the status of the
    interrupt-synchronisation setup; so Init succeeds exactly when the model
    is recognized and that setup succeeds. *)
Theorem Init_identity_probe
    (plat : Platform) (ResourceList : RESOURCELIST) (w w1 : World) (idByte : Z) :
  1 <= NumberOfPorts ResourceList ->
  1 <= NumberOfInterrupts ResourceList ->
  WaitForReady plat
    (mkWorld (that w) (trace w ++ [PortWrite ALG_REG_FM1_ADDR ALG_BANK_CONTROL]))
    = Done true w1 ->
  idByte = port_in plat
             (trace w1 ++ [PortWrite ALG_REG_FM1_ADDR CTRL_REG_CONTROL_ID])
             ALG_REG_FM1_DATA mod 256 ->
  exists status w',
    Init plat ResourceList w = Done status w' /\
    m_CardModel (that w') = Z.land idByte CTRL_ID_MODEL_MASK /\
    status = (if recognized_model (Z.land idByte CTRL_ID_MODEL_MASK)
              then interrupt_sync_status plat
              else STATUS_DEVICE_DOES_NOT_EXIST) /\
    (NT_SUCCESS status = true <->
     recognized_model (Z.land idByte CTRL_ID_MODEL_MASK) = true /\
     NT_SUCCESS (interrupt_sync_status plat) = true).
Proof.
  intros Hports Hirqs Hwait HidByte.
  assert (Hrun : runs (Init plat ResourceList) w
            (fun status w' =>
               m_CardModel (that w') = Z.land idByte CTRL_ID_MODEL_MASK /\
               status = (if recognized_model (Z.land idByte CTRL_ID_MODEL_MASK)
                         then interrupt_sync_status plat
                         else STATUS_DEVICE_DOES_NOT_EXIST))).
  { unfold Init.
    replace (NumberOfPorts ResourceList <? 1) with false
      by (symmetry; apply Z.ltb_ge; lia).
    replace (NumberOfInterrupts ResourceList <? 1) with false
      by (symmetry; apply Z.ltb_ge; lia).
    cbn [orb].
    apply runs_bind, runs_modify, runs_bind, runs_modify, runs_bind, runs_modify,
      runs_bind, runs_modify, runs_bind, runs_emit, runs_bind.
    cbn [that trace].
    eapply runs_known; [apply (WaitForReady_frame _ _ _ _ _ _ Hwait) |].
    change (NT_SUCCESS STATUS_SUCCESS) with true. cbv iota.
    apply runs_bind.
    eapply runs_weaken;
      [apply (Init_detect_card_runs plat _ idByte); [reflexivity | exact HidByte] |].
    cbv beta. intros status w2 (-> & Hmodel & _ & Hsized2).
    destruct (recognized_model (Z.land idByte CTRL_ID_MODEL_MASK)).
    - change (NT_SUCCESS STATUS_SUCCESS) with true. cbv iota.
      apply runs_bind.
      eapply runs_weaken; [apply Init_interrupt_sync_runs |].
      cbv beta. intros status w3 (-> & Hmodel3 & _ & Hregs3).
      apply runs_bind.
      apply runs_weaken with
        (P := fun _ w4 => m_CardModel (that w4) = m_CardModel (that w3)).
      + apply runs_when; intros _; [| reflexivity].
        eapply runs_weaken; [apply ControlRegReset_runs |].
        * unfold cache_sized. rewrite Hregs3. exact Hsized2.
        * cbv beta. intros _ w4 [[Hthat4 _] _]. rewrite Hthat4. reflexivity.
      + intros _ w4 Hmodel4. apply runs_ret.
        split; [congruence | reflexivity].
    - change (NT_SUCCESS STATUS_DEVICE_DOES_NOT_EXIST) with false. cbv iota.
      apply runs_bind, runs_ret, runs_bind, runs_ret, runs_ret.
      split; [exact Hmodel | reflexivity]. }
  destruct Hrun as (status & w' & Hinit & Hmodel & ->).
  eexists _, w'. split; [exact Hinit |]. split; [exact Hmodel |].
  split; [reflexivity |].
  destruct (recognized_model (Z.land idByte CTRL_ID_MODEL_MASK)).
  - split; [intros H; split; [reflexivity | exact H] | intros [_ H]; exact H].
  - change (NT_SUCCESS STATUS_DEVICE_DOES_NOT_EXIST) with false.
    split; [discriminate | intros [H _]; discriminate].
Qed.

Lemma Init_identity_probe_witness :
  exists status w',
    Init idle_card (mkResources 1 1) (adapter_in PowerDeviceD3 None None)
      = Done status w' /\
    m_CardModel (that w') = ALG_MODEL_GOLD2000 /\
    status = STATUS_SUCCESS /\
    (NT_SUCCESS status = true <->
     recognized_model ALG_MODEL_GOLD2000 = true /\
     NT_SUCCESS (interrupt_sync_status idle_card) = true).
Proof.
  apply (Init_identity_probe idle_card (mkResources 1 1)
           (adapter_in PowerDeviceD3 None None)
           (mkWorld (that (adapter_in PowerDeviceD3 None None))
                    [ PortWrite ALG_REG_FM1_ADDR ALG_BANK_CONTROL;
                      PortRead ALG_REG_FM1_ADDR 0x0F ])
           0x21).
  - cbn; lia.
  - cbn; lia.
  - reflexivity.
  - reflexivity.
Defined.

(** C9 as the spec states it fails in the "if" direction: on a card that
    identifies as model 0x01, with a port and an interrupt in the resource
    list, Init still fails when the platform cannot create the interrupt
    synchronisation object. *)
Lemma Init_fails_with_recognized_model :
  exists w',
    Init (sample_card 0x0F 0x00 STATUS_INSUFFICIENT_RESOURCES) (mkResources 1 1)
      (adapter_in PowerDeviceD0 None None)
      = Done STATUS_INSUFFICIENT_RESOURCES w' /\
    read_from ALG_REG_FM1_DATA (trace w') = [0x21] /\
    Z.land 0x21 CTRL_ID_MODEL_MASK = ALG_MODEL_GOLD2000 /\
    m_CardModel (that w') = ALG_MODEL_GOLD2000 /\
    recognized_model (m_CardModel (that w')) = true /\
    NT_SUCCESS STATUS_INSUFFICIENT_RESOURCES = false.
Proof.
  eexists. split; [vm_compute; reflexivity |].
  repeat split; reflexivity.
Qed.

(** ** Worked runs *)

(** Bass set to nibble 9 on an idle card at full power: the whole port
    sequence, and the value comes back from the cache. *)
Example write_bass_at_full_power :
  ControlRegWrite idle_card CTRL_REG_BASS 0xF9 (adapter_in PowerDeviceD0 None None)
  = Done tt
      (mkWorld
         (set_ControlRegs
            (<[6%nat := 0xF9]> (seqZ 0x80 CTRL_REG_MAX))
            (that (adapter_in PowerDeviceD0 None None)))
         [ PortWrite 2 0xFF; PortRead 2 0x0F; PortWrite 2 0x06; PortWrite 3 0xF9;
           PortRead 2 0x0F; PortWrite 2 0xFE ]).
Proof. reflexivity. Qed.

(** The same write in D3 touches no port and still updates the cache. *)
Example write_bass_powered_down :
  ControlRegWrite idle_card CTRL_REG_BASS 0xF9 (adapter_in PowerDeviceD3 None None)
  = Done tt
      (mkWorld
         (set_ControlRegs
            (<[6%nat := 0xF9]> (seqZ 0x80 CTRL_REG_MAX))
            (that (adapter_in PowerDeviceD3 None None)))
         []).
Proof. reflexivity. Qed.

(** A stuck card makes WaitForReady give up after 1000 reads. *)
Example stuck_card_times_out :
  match WaitForReady stuck_card (adapter_in PowerDeviceD0 None None) with
  | Done ready w' => ready = false /\ length (trace w') = 1000%nat
  | Fault => False
  end.
Proof. vm_compute. split; reflexivity. Qed.

(** Sampling and FM timer both pending, RRQ set, both miniports registered
    through SetWaveMiniport and SetMidiMiniport. *)
Example dispatch_to_both_miniports :
  (SetWaveMiniport (Some 1%nat) >> SetMidiMiniport (Some 2%nat) >>
   InterruptServiceRoutine (sample_card 0x0C 0x06 STATUS_SUCCESS))
    (adapter_in PowerDeviceD0 None None)
  = Done STATUS_SUCCESS
      (mkWorld (that (adapter_in PowerDeviceD0 (Some 1%nat) (Some 2%nat)))
         [ PortWrite 2 0xFF; PortRead 2 0x0C; PortWrite 2 0xFE;
           PortRead 4 0x06; ServiceWaveISR 1; ServiceMidiISR 2;
           PortRead 0 0x00 ]).
Proof. reflexivity. Qed.

(** After an EEPROM restore the cache holds what the card returned for each
    register, here [0x21 + r]. *)
Example restore_reads_back_all_registers :
  match RestoreFromEEPROM idle_card (adapter_in PowerDeviceD0 None None) with
  | Done status w' =>
      status = STATUS_SUCCESS /\
      m_ControlRegs (that w') = seqZ 0x21 CTRL_REG_MAX /\
      m_CardModel (that w') = ALG_MODEL_GOLD2000 /\
      m_CardOptions (that w') = 0x21
  | Fault => False
  end.
Proof. vm_compute. repeat split; reflexivity. Qed.

(** A card that identifies as model 7 is rejected. *)
Example unknown_model_is_rejected :
  match Init (mkPlatform (fun _ port => if port =? ALG_REG_FM1_DATA then 0x07 else 0x0F)
                (STATUS_SUCCESS, true) STATUS_SUCCESS STATUS_SUCCESS
                STATUS_SUCCESS (STATUS_SUCCESS, REG_CREATED_NEW_KEY) true
                (fun _ => (STATUS_SUCCESS, sizeof_DWORD, 0xC0)))
             (mkResources 1 1) (adapter_in PowerDeviceD0 None None) with
  | Done status w' =>
      status = STATUS_DEVICE_DOES_NOT_EXIST /\ m_CardModel (that w') = 0x07
  | Fault => False
  end.
Proof. vm_compute. split; reflexivity. Qed.

(** ** Register writes in sequence

    Whatever holds of the I/O of every single arbitrated write, of no I/O,
    and of concatenations, holds of the I/O of the loops that write
    registers.  [Allowed] is a condition on the adapter object that does not
    depend on the cache. *)
Section RegisterSequences.

Variable plat : Platform.
Variable P : list event -> Prop.
Variable Allowed : CAdapterCommon -> Prop.

Hypothesis P_nil : P [].
Hypothesis P_app : forall tr1 tr2, P tr1 -> P tr2 -> P (tr1 ++ tr2).
Hypothesis Allowed_cache :
  forall a regs, Allowed a -> Allowed (set_ControlRegs regs a).
Hypothesis P_write :
  forall a r v tr,
    Allowed a -> operative (m_PowerState a) = true ->
    arbitrated_write r v tr -> P tr.
Lemma changes_cache_with_refl w : cache_sized w -> changes_cache_with P w w.
Proof.
  intros Hsized. split; [apply only_cache_refl, Hsized |].
  exists []. split; [symmetry; apply app_nil_r | exact P_nil].
Qed.

Lemma changes_cache_with_trans w1 w2 w3 :
  changes_cache_with P w1 w2 -> changes_cache_with P w2 w3 ->
  changes_cache_with P w1 w3.
Proof.
  intros [H12 (tr1 & Htr1 & HP1)] [H23 (tr2 & Htr2 & HP2)].
  split; [exact (only_cache_trans _ _ _ H12 H23) |].
  exists (tr1 ++ tr2).
  split; [rewrite Htr2, Htr1, app_assoc; reflexivity | apply P_app; assumption].
Qed.

Lemma only_cache_Allowed w w' :
  only_cache w w' -> Allowed (that w) -> Allowed (that w').
Proof. intros [-> _] H. apply Allowed_cache, H. Qed.

Lemma ControlRegWrite_changes_cache r v w :
  0 <= r -> cache_sized w -> Allowed (that w) ->
  runs (ControlRegWrite plat r v) w (fun _ w' => changes_cache_with P w w').
Proof.
  intros Hr Hsized Hallowed.
  destruct (ControlRegWrite_only_cache plat r v w Hr Hsized)
    as ([] & w' & Hwrite & Honly).
  destruct (ControlRegWrite_runs plat r v w Hr (fun _ => Hsized))
    as ([] & w'' & Hwrite' & _ & added & Htrace & Hadded).
  rewrite Hwrite in Hwrite'. injection Hwrite' as <-.
  exists tt, w'. split; [exact Hwrite |]. split; [exact Honly |].
  exists added. split; [exact Htrace |].
  destruct (operative (m_PowerState (that w))) eqn:Hop.
  - exact (P_write _ _ _ _ Hallowed Hop Hadded).
  - subst added. exact P_nil.
Qed.

Lemma write_defaults_changes_cache settings :
  Forall (fun s => 0 <= RegisterIndex s) settings ->
  forall w, cache_sized w -> Allowed (that w) ->
            runs (write_defaults plat settings) w
              (fun _ w' => changes_cache_with P w w').
Proof.
  induction 1 as [| s settings Hs _ IH]; intros w Hsized Hallowed;
    cbn [write_defaults].
  - apply runs_ret, changes_cache_with_refl, Hsized.
  - apply runs_bind.
    eapply runs_weaken; [apply ControlRegWrite_changes_cache; assumption |].
    cbv beta. intros _ w1 H1.
    eapply runs_weaken;
      [apply IH; [apply H1 | exact (only_cache_Allowed _ _ (proj1 H1) Hallowed)] |].
    cbv beta. intros _ w2 H2. exact (changes_cache_with_trans _ _ _ H1 H2).
Qed.

Lemma read_saved_values_changes_cache settings :
  Forall (fun s => 0 <= RegisterIndex s) settings ->
  forall ntStatus w,
    cache_sized w -> Allowed (that w) ->
    runs (read_saved_values plat settings ntStatus) w
      (fun _ w' => changes_cache_with P w w').
Proof.
  induction 1 as [| s settings Hs _ IH]; intros ntStatus w Hsized Hallowed;
    cbn [read_saved_values].
  - apply runs_ret, changes_cache_with_refl, Hsized.
  - destruct (QueryValueKey plat (KeyName s)) as [[queried DataLength] Data].
    apply runs_bind.
    apply runs_weaken with (P := fun _ w1 => changes_cache_with P w w1).
    + destruct (NT_SUCCESS queried).
      * apply runs_when; intros _.
        -- apply ControlRegWrite_changes_cache; assumption.
        -- apply changes_cache_with_refl, Hsized.
      * apply ControlRegWrite_changes_cache; assumption.
    + intros _ w1 H1.
      eapply runs_weaken;
        [apply IH; [apply H1 | exact (only_cache_Allowed _ _ (proj1 H1) Hallowed)] |].
      cbv beta. intros _ w2 H2. exact (changes_cache_with_trans _ _ _ H1 H2).
Qed.

Lemma RestoreMixerSettingsFromRegistry_changes_cache w :
  cache_sized w -> Allowed (that w) ->
  runs (RestoreMixerSettingsFromRegistry plat) w
    (fun _ w' => changes_cache_with P w w').
Proof.
  intros Hsized Hallowed. unfold RestoreMixerSettingsFromRegistry.
  destruct (NT_SUCCESS (PcNewRegistryKey plat));
    [| apply runs_ret, changes_cache_with_refl, Hsized].
  destruct (NewSubKey plat) as [ntStatus Disposition].
  destruct (NT_SUCCESS ntStatus);
    [| apply runs_ret, changes_cache_with_refl, Hsized].
  destruct (Disposition =? REG_CREATED_NEW_KEY); [| destruct (ExAllocatePool plat)].
  - apply runs_bind.
    eapply runs_weaken;
      [apply write_defaults_changes_cache;
       [apply DefaultMixerSettings_indices | exact Hsized | exact Hallowed] |].
    cbv beta. intros _ w1 H1. apply runs_ret, H1.
  - apply read_saved_values_changes_cache;
      [apply DefaultMixerSettings_indices | exact Hsized | exact Hallowed].
  - apply runs_bind.
    eapply runs_weaken;
      [apply write_defaults_changes_cache;
       [apply DefaultMixerSettings_indices | exact Hsized | exact Hallowed] |].
    cbv beta. intros _ w1 H1. apply runs_ret, H1.
Qed.

Lemma ControlRegReset_changes_cache w :
  cache_sized w -> Allowed (that w) ->
  runs (ControlRegReset plat) w (fun _ w' => changes_cache_with P w w').
Proof.
  intros Hsized Hallowed. unfold ControlRegReset. apply runs_bind.
  eapply runs_weaken;
    [apply RestoreMixerSettingsFromRegistry_changes_cache; assumption |].
  cbv beta. intros ntStatus w1 H1. apply runs_bind.
  apply runs_weaken with (P := fun _ w2 => changes_cache_with P w w2).
  - apply runs_when; intros _; [| exact H1].
    eapply runs_weaken;
      [apply write_defaults_changes_cache;
       [apply DefaultMixerSettings_indices | apply H1
       | exact (only_cache_Allowed _ _ (proj1 H1) Hallowed)] |].
    cbv beta. intros _ w2 H2. exact (changes_cache_with_trans _ _ _ H1 H2).
  - intros _ w2 H2.
    eapply runs_weaken;
      [apply ControlRegWrite_changes_cache;
       [discriminate | apply H2
       | exact (only_cache_Allowed _ _ (proj1 H2) Hallowed)] |].
    cbv beta. intros _ w3 H3. exact (changes_cache_with_trans _ _ _ H2 H3).
Qed.

End RegisterSequences.

(** ** The remaining port operations *)

Lemma bank_selects_app tr1 tr2 :
  bank_selects (tr1 ++ tr2) = bank_selects tr1 ++ bank_selects tr2.
Proof.
  induction tr1 as [| e tr1 IH]; cbn [app bank_selects]; [reflexivity |].
  destruct e; try exact IH.
  destruct ((port =? ALG_REG_FM1_ADDR)
            && ((value =? ALG_BANK_CONTROL) || (value =? ALG_BANK_OPL3)));
    [cbn [app]; f_equal |]; exact IH.
Qed.

Lemma bank_selects_writes_of tr : bank_selects (writes_of tr) = bank_selects tr.
Proof.
  induction tr as [| e tr IH]; cbn [writes_of bank_selects]; [reflexivity |].
  destruct e; cbn [bank_selects]; try exact IH. rewrite IH. reflexivity.
Qed.

Lemma rests_in_OPL3_nil : rests_in_OPL3 [].
Proof. discriminate. Qed.

Lemma rests_in_OPL3_app tr1 tr2 :
  rests_in_OPL3 tr1 -> rests_in_OPL3 tr2 -> rests_in_OPL3 (tr1 ++ tr2).
Proof.
  unfold rests_in_OPL3. intros H1 H2. rewrite bank_selects_app, last_app.
  destruct (last (bank_selects tr2)); assumption.
Qed.

Lemma rests_in_OPL3_restored tr :
  rests_in_OPL3 (tr ++ [PortWrite ALG_REG_FM1_ADDR ALG_BANK_OPL3]).
Proof.
  unfold rests_in_OPL3. rewrite bank_selects_app.
  change (bank_selects [PortWrite ALG_REG_FM1_ADDR ALG_BANK_OPL3])
    with [ALG_BANK_OPL3].
  rewrite last_snoc. discriminate.
Qed.

Lemma rests_in_OPL3_arbitrated r v tr :
  arbitrated_write r v tr -> rests_in_OPL3 tr.
Proof.
  intros (poll & settle & _ & _ & ->).
  rewrite app_comm_cons, !app_assoc. apply rests_in_OPL3_restored.
Qed.

Lemma rests_in_OPL3_writes tr :
  rests_in_OPL3 (writes_of tr) -> rests_in_OPL3 tr.
Proof. unfold rests_in_OPL3. rewrite bank_selects_writes_of. exact id. Qed.

Lemma SaveToEEPROM_runs plat w :
  runs (SaveToEEPROM plat) w
    (fun status w' =>
       that w' = that w /\
       if operative (m_PowerState (that w))
       then status = STATUS_SUCCESS /\
            exists poll1 poll2,
              busy_poll poll1 /\ busy_poll poll2 /\
              trace w' = trace w
                ++ PortWrite ALG_REG_FM1_ADDR ALG_BANK_CONTROL :: poll1
                ++ [ PortWrite ALG_REG_FM1_ADDR CTRL_REG_CONTROL_ID;
                     PortWrite ALG_REG_FM1_DATA CTRL_ID_SAVE ]
                ++ poll2 ++ [PortWrite ALG_REG_FM1_ADDR ALG_BANK_OPL3]
       else status = STATUS_DEVICE_POWERED_OFF /\ trace w' = trace w).
Proof.
  unfold SaveToEEPROM. apply runs_bind, runs_get.
  destruct (operative (m_PowerState (that w))); cbn [negb].
  - apply runs_bind, runs_emit, runs_bind.
    eapply runs_weaken; [apply WaitForReady_runs |].
    cbn [that trace]. intros _ w1 (Hthat1 & poll1 & Htrace1 & Hpoll1 & _).
    apply runs_bind, runs_emit, runs_bind, runs_emit, runs_bind.
    eapply runs_weaken; [apply WaitForReady_runs |].
    cbn [that trace]. intros _ w2 (Hthat2 & poll2 & Htrace2 & Hpoll2 & _).
    apply runs_bind, runs_emit, runs_ret. cbn [that trace].
    split; [congruence |]. split; [reflexivity |].
    exists poll1, poll2. split; [exact Hpoll1 |]. split; [exact Hpoll2 |].
    rewrite Htrace2, Htrace1, <- !app_assoc. reflexivity.
  - apply runs_ret. repeat split; reflexivity.
Qed.

Lemma RestoreFromEEPROM_rests plat w :
  cache_sized w ->
  runs (RestoreFromEEPROM plat) w
    (fun _ w' =>
       cache_sized w' /\
       exists added,
         trace w' = trace w ++ added /\
         if operative (m_PowerState (that w))
         then exists before, added = before ++ [PortWrite ALG_REG_FM1_ADDR ALG_BANK_OPL3]
         else added = []).
Proof.
  intros Hsized. unfold RestoreFromEEPROM. apply runs_bind, runs_get.
  destruct (operative (m_PowerState (that w))); cbn [negb].
  - apply runs_bind, runs_emit, runs_bind.
    eapply runs_weaken; [apply WaitForReady_runs |].
    cbn [that trace]. intros _ w1 (Hthat1 & poll1 & Htrace1 & _).
    apply runs_bind, runs_emit, runs_bind, runs_emit, runs_bind, runs_emit, runs_bind.
    eapply runs_weaken; [apply WaitForReady_runs |].
    cbn [that trace]. intros _ w2 (Hthat2 & poll2 & Htrace2 & _).
    apply runs_bind.
    eapply runs_weaken; [apply readback_runs |].
    + unfold cache_sized. rewrite Hthat2, Hthat1. exact Hsized.
    + lia.
    + unfold CTRL_REG_MAX; lia.
    + cbv beta. intros _ w3 (Hthat3 & Hsized3 & _ & Htrace3).
      apply runs_bind, runs_emit, runs_bind, runs_load.
      { cbn [that trace]. unfold cache_sized in Hsized3. rewrite Hsized3.
        unfold CTRL_REG_CONTROL_ID, CTRL_REG_MAX; lia. }
      apply runs_bind, runs_modify, runs_ret. cbn [that trace].
      split; [exact Hsized3 |].
      exists (([PortWrite ALG_REG_FM1_ADDR ALG_BANK_CONTROL] ++ poll1
               ++ [PortWrite ALG_REG_FM1_ADDR CTRL_REG_CONTROL_ID]
               ++ [PortWrite ALG_REG_FM1_DATA CTRL_ID_RESTORE]
               ++ [Stall 2500]
               ++ poll2
               ++ readback (m_ControlRegs (that w3)) (seqZ 0 CTRL_REG_MAX))
              ++ [PortWrite ALG_REG_FM1_ADDR ALG_BANK_OPL3]).
      split; [| eexists; reflexivity].
      rewrite Htrace3, Htrace2, Htrace1, <- !app_assoc. reflexivity.
  - apply runs_ret. split; [exact Hsized |].
    exists []. split; [symmetry; apply app_nil_r | reflexivity].
Qed.

Lemma InterruptServiceRoutine_writes plat w :
  runs (InterruptServiceRoutine plat) w
    (fun _ w' =>
       that w' = that w /\
       exists added,
         trace w' = trace w ++ added /\
         writes_of added = [ PortWrite ALG_REG_FM1_ADDR ALG_BANK_CONTROL;
                             PortWrite ALG_REG_FM1_ADDR ALG_BANK_OPL3 ]).
Proof.
  unfold InterruptServiceRoutine.
  apply runs_bind, runs_emit, runs_bind, runs_READ.
  cbn [that trace]. intros status _.
  apply runs_bind, runs_emit. cbn [that trace].
  destruct (Z.land status ALG_STATUS_IRQ_MASK =? ALG_STATUS_IRQ_MASK).
  { apply runs_ret. split; [reflexivity |].
    eexists. split; [rewrite <- !app_assoc; reflexivity | reflexivity]. }
  destruct (m_pWaveMiniport (that w)) as [wave |] eqn:Hwave;
    destruct (m_pMidiMiniport (that w)) as [midi |] eqn:Hmidi;
    destruct (Z.land status ALG_STATUS_SMP_IRQ =? 0);
    destruct (Z.land status ALG_STATUS_FM_IRQ =? 0);
    unfold when;
    repeat (cbv beta; cbn [that trace negb];
            first [ apply runs_bind | apply runs_emit | apply runs_get
                  | apply runs_READ; intros ? _ | apply runs_ret
                  | rewrite Hwave | rewrite Hmidi
                  | match goal with
                    | |- runs (if negb (?c =? 0) then _ else _) _ _ =>
                        destruct (c =? 0)
                    end ]);
    cbn [that trace];
    (split; [reflexivity |]);
    (eexists; split; [rewrite <- ?app_assoc; reflexivity | reflexivity]).
Qed.

(** ** Any sequence of calls leaves the OPL3 bank selected *)

Lemma WriteOPL3_runs Address Data w :
  runs (WriteOPL3 Address Data) w
    (fun _ w' =>
       that w' = that w /\
       trace w' = trace w ++
         if operative (m_PowerState (that w))
         then if Address <? 0x100
              then [ PortWrite ALG_REG_FM0_ADDR (Address mod 256); Stall 23;
                     PortWrite ALG_REG_FM0_DATA Data; Stall 23 ]
              else [ PortWrite ALG_REG_FM1_ADDR ALG_BANK_OPL3;
                     PortWrite ALG_REG_FM1_ADDR (Z.land Address 0xFF mod 256);
                     Stall 23; PortWrite ALG_REG_FM1_DATA Data; Stall 23 ]
         else []).
Proof.
  unfold WriteOPL3. apply runs_bind, runs_get.
  destruct (operative (m_PowerState (that w))); cbn [negb];
    [destruct (Address <? 0x100) |].
  - apply runs_bind, runs_emit, runs_bind, runs_emit, runs_bind, runs_emit, runs_emit.
    cbn [that trace]. split; [reflexivity |]. rewrite <- !app_assoc. reflexivity.
  - apply runs_bind, runs_emit, runs_bind, runs_emit, runs_bind, runs_emit,
      runs_bind, runs_emit, runs_emit.
    cbn [that trace]. split; [reflexivity |]. rewrite <- !app_assoc. reflexivity.
  - apply runs_ret. split; [reflexivity | symmetry; apply app_nil_r].
Qed.

Lemma WriteMMA_runs Register Value w :
  runs (WriteMMA Register Value) w
    (fun _ w' =>
       that w' = that w /\
       trace w' = trace w ++
         if operative (m_PowerState (that w))
         then [ PortWrite ALG_REG_MMA0_ADDR Register; Stall 1;
                PortWrite ALG_REG_MMA0_DATA Value; Stall 1 ]
         else []).
Proof.
  unfold WriteMMA. apply runs_bind, runs_get.
  destruct (operative (m_PowerState (that w))); cbn [negb].
  - apply runs_bind, runs_emit, runs_bind, runs_emit, runs_bind, runs_emit, runs_emit.
    cbn [that trace]. split; [reflexivity |]. rewrite <- !app_assoc. reflexivity.
  - apply runs_ret. split; [reflexivity | symmetry; apply app_nil_r].
Qed.

Lemma ReadMMA_runs plat Register w :
  runs (ReadMMA plat Register) w
    (fun value w' =>
       that w' = that w /\ 0 <= value < 256 /\
       trace w' = trace w ++
         if operative (m_PowerState (that w))
         then [ PortWrite ALG_REG_MMA0_ADDR Register; Stall 1;
                PortRead ALG_REG_MMA0_DATA value ]
         else []).
Proof.
  unfold ReadMMA. apply runs_bind, runs_get.
  destruct (operative (m_PowerState (that w))); cbn [negb].
  - apply runs_bind, runs_emit, runs_bind, runs_emit, runs_READ.
    cbn [that trace]. intros value ->. split; [reflexivity |].
    split; [apply Z.mod_pos_bound; lia |]. rewrite <- !app_assoc. reflexivity.
  - apply runs_ret. split; [reflexivity |]. split; [lia |].
    symmetry; apply app_nil_r.
Qed.

Lemma ControlRegWrite_rests plat r v w :
  0 <= r -> cache_sized w ->
  runs (ControlRegWrite plat r v) w
    (fun _ w' => changes_cache_with rests_in_OPL3 w w').
Proof.
  intros Hr Hsized.
  apply (ControlRegWrite_changes_cache plat rests_in_OPL3 (fun _ => True));
    try assumption; try exact I.
  - exact rests_in_OPL3_nil.
  - intros a r' v' tr _ _. apply rests_in_OPL3_arbitrated.
Qed.

Lemma ControlRegReset_rests plat w :
  cache_sized w ->
  runs (ControlRegReset plat) w
    (fun _ w' => changes_cache_with rests_in_OPL3 w w').
Proof.
  intros Hsized.
  apply (ControlRegReset_changes_cache plat rests_in_OPL3 (fun _ => True));
    try assumption; try exact I.
  - exact rests_in_OPL3_nil.
  - exact rests_in_OPL3_app.
  - intros a regs _. exact I.
  - intros a r' v' tr _ _. apply rests_in_OPL3_arbitrated.
Qed.

Lemma perform_rests plat call w :
  proper_call call -> cache_sized w ->
  runs (perform plat call) w
    (fun _ w' =>
       cache_sized w' /\
       exists added, trace w' = trace w ++ added /\ rests_in_OPL3 added).
Proof.
  intros Hproper Hsized.
  assert (Hcache : forall w',
             changes_cache_with rests_in_OPL3 w w' ->
             cache_sized w' /\
             exists added, trace w' = trace w ++ added /\ rests_in_OPL3 added).
  { intros w' [[_ Hsized'] Hadded]. split; assumption. }
  assert (Hsame : forall w', that w' = that w -> cache_sized w').
  { intros w' Hthat. unfold cache_sized. rewrite Hthat. exact Hsized. }
  destruct call as [r v | r | | a d | r v | r | | | p |]; cbn [perform proper_call] in *.
  - eapply runs_weaken; [apply ControlRegWrite_rests; assumption |].
    cbv beta. intros _ w' H. apply Hcache, H.
  - apply runs_bind.
    eapply runs_weaken; [apply ControlRegRead_runs; [exact Hproper | auto] |].
    cbv beta. intros value w' [-> _]. apply runs_ret. split; [exact Hsized |].
    exists []. split; [symmetry; apply app_nil_r | apply rests_in_OPL3_nil].
  - eapply runs_weaken; [apply ControlRegReset_rests; assumption |].
    cbv beta. intros _ w' H. apply Hcache, H.
  - destruct Hproper as [Ha Hlow].
    eapply runs_weaken; [apply WriteOPL3_runs |].
    cbv beta. intros _ w' [Hthat Htrace]. split; [apply Hsame, Hthat |].
    eexists. split; [exact Htrace |].
    destruct (operative (m_PowerState (that w))); [| apply rests_in_OPL3_nil].
    destruct (a <? 0x100); [discriminate |].
    assert (Hbyte : Z.land a 0xFF mod 256 = Z.land a 0xFF).
    { apply Z.mod_small. change 0xFF with (Z.ones 8).
      rewrite Z.land_ones by lia. apply Z.mod_pos_bound. lia. }
    rewrite Hbyte. unfold rests_in_OPL3. cbn [bank_selects].
    change (ALG_REG_FM1_ADDR =? ALG_REG_FM1_ADDR) with true.
    change (ALG_REG_FM1_DATA =? ALG_REG_FM1_ADDR) with false.
    change ((ALG_BANK_OPL3 =? ALG_BANK_CONTROL) || (ALG_BANK_OPL3 =? ALG_BANK_OPL3))
      with true.
    replace (Z.land a 255 =? ALG_BANK_CONTROL) with false
      by (symmetry; apply Z.eqb_neq; exact Hlow).
    cbn [andb orb].
    destruct (Z.land a 255 =? ALG_BANK_OPL3) eqn:Hsame_bank;
      [apply Z.eqb_eq in Hsame_bank; rewrite Hsame_bank |]; discriminate.
  - eapply runs_weaken; [apply WriteMMA_runs |].
    cbv beta. intros _ w' [Hthat Htrace]. split; [apply Hsame, Hthat |].
    eexists. split; [exact Htrace |].
    destruct (operative (m_PowerState (that w))); discriminate.
  - apply runs_bind.
    eapply runs_weaken; [apply ReadMMA_runs |].
    cbv beta. intros value w' (Hthat & _ & Htrace). apply runs_ret.
    split; [apply Hsame, Hthat |].
    eexists. split; [exact Htrace |].
    destruct (operative (m_PowerState (that w))); discriminate.
  - apply runs_bind.
    eapply runs_weaken; [apply SaveToEEPROM_runs |].
    cbv beta. intros status w' [Hthat Hdone]. apply runs_ret.
    split; [apply Hsame, Hthat |].
    destruct (operative (m_PowerState (that w))).
    + destruct Hdone as (_ & poll1 & poll2 & _ & _ & ->).
      eexists. split; [reflexivity |].
      rewrite app_comm_cons, !app_assoc. apply rests_in_OPL3_restored.
    + destruct Hdone as [_ ->].
      exists []. split; [symmetry; apply app_nil_r | apply rests_in_OPL3_nil].
  - apply runs_bind.
    eapply runs_weaken; [apply RestoreFromEEPROM_rests, Hsized |].
    cbv beta. intros status w' (Hsized' & added & Htrace & Hadded). apply runs_ret.
    split; [exact Hsized' |]. exists added. split; [exact Htrace |].
    destruct (operative (m_PowerState (that w))).
    + destruct Hadded as [before ->]. apply rests_in_OPL3_restored.
    + subst added. apply rests_in_OPL3_nil.
  - unfold PowerChangeState. apply runs_bind, runs_get.
    destruct (bool_decide (p = m_PowerState (that w))).
    { apply runs_ret. split; [exact Hsized |].
      exists []. split; [symmetry; apply app_nil_r | apply rests_in_OPL3_nil]. }
    destruct p;
      try (apply runs_ret; split; [exact Hsized |];
           exists []; split; [symmetry; apply app_nil_r | apply rests_in_OPL3_nil]);
      try (apply runs_modify; cbn [that trace]; split; [exact Hsized |];
           exists []; split; [symmetry; apply app_nil_r | apply rests_in_OPL3_nil]).
    apply runs_bind, runs_modify.
    eapply runs_weaken; [apply replay_runs |].
    + exact Hsized.
    + reflexivity.
    + unfold CTRL_MIXER_FIRST; lia.
    + unfold CTRL_MIXER_FIRST, CTRL_MIXER_LAST, CTRL_REG_MAX; lia.
    + cbn [that trace]. intros _ w' (Hthat & added & Htrace & Hwrites).
      split; [unfold cache_sized; rewrite Hthat; exact Hsized |].
      exists added. split; [exact Htrace |].
      apply rests_in_OPL3_writes. rewrite Hwrites.
      unfold rests_in_OPL3. vm_compute. discriminate.
  - apply runs_bind.
    eapply runs_weaken; [apply InterruptServiceRoutine_writes |].
    cbv beta. intros status w' (Hthat & added & Htrace & Hwrites). apply runs_ret.
    split; [apply Hsame, Hthat |]. exists added. split; [exact Htrace |].
    apply rests_in_OPL3_writes. rewrite Hwrites. discriminate.
Qed.

(** X1: whatever sequence of calls is made on the adapter (register writes
    and reads, reset to defaults, OPL3 and MMA accesses, EEPROM save and
    restore, power transitions, interrupts), every call returns, the shadow
    cache keeps its size, and the last bank sentinel written to the
    bank-select port, if any was written, is the OPL3 one.  The only
    condition on the arguments is that an OPL3 address does not have 0xFF as
    its low byte. *)
Theorem adapter_calls_rest_in_OPL3
    (plat : Platform) (calls : list AdapterCall) (w : World) :
  cache_sized w -> Forall proper_call calls ->
  exists w' added,
    perform_all plat calls w = Done tt w' /\
    cache_sized w' /\
    trace w' = trace w ++ added /\
    rests_in_OPL3 added.
Proof.
  intros Hsized Hproper.
  assert (Hrun : runs (perform_all plat calls) w
            (fun _ w' =>
               cache_sized w' /\
               exists added, trace w' = trace w ++ added /\ rests_in_OPL3 added)).
  { revert w Hsized.
    induction Hproper as [| call calls Hcall _ IH]; intros w Hsized;
      cbn [perform_all].
    - apply runs_ret. split; [exact Hsized |].
      exists []. split; [symmetry; apply app_nil_r | apply rests_in_OPL3_nil].
    - apply runs_bind.
      eapply runs_weaken; [apply perform_rests; assumption |].
      cbv beta. intros _ w1 (Hsized1 & added1 & Htrace1 & Hrest1).
      eapply runs_weaken; [apply IH, Hsized1 |].
      cbv beta. intros _ w2 (Hsized2 & added2 & Htrace2 & Hrest2).
      split; [exact Hsized2 |]. exists (added1 ++ added2).
      split; [rewrite Htrace2, Htrace1, app_assoc; reflexivity |].
      apply rests_in_OPL3_app; assumption. }
  destruct Hrun as ([] & w' & Hrun & Hsized' & added & Htrace & Hrest).
  exists w', added. auto.
Qed.

Lemma adapter_calls_rest_in_OPL3_witness :
  exists w' added,
    perform_all idle_card
      [ Call_ControlRegWrite CTRL_REG_BASS 0xF9;
        Call_WriteOPL3 0x1B0 0x20;
        Call_InterruptServiceRoutine;
        Call_SaveToEEPROM;
        Call_PowerChangeState PowerDeviceD3;
        Call_ControlRegWrite 0xFF 0x01;
        Call_PowerChangeState PowerDeviceD0;
        Call_RestoreFromEEPROM ]
      (adapter_in PowerDeviceD0 None None) = Done tt w' /\
    cache_sized w' /\
    trace w' = [] ++ added /\
    rests_in_OPL3 added.
Proof.
  apply adapter_calls_rest_in_OPL3; [reflexivity |].
  repeat constructor; cbn; try lia; discriminate.
Defined.

(** ** A powered-down adapter *)

Lemma perform_gated plat call w :
  proper_call call -> power_gated call ->
  cache_sized w -> operative (m_PowerState (that w)) = false ->
  runs (perform plat call) w
    (fun _ w' => only_cache w w' /\ trace w' = trace w).
Proof.
  intros Hproper Hgated Hsized Hoff.
  assert (Hquiet : forall w',
             changes_cache_with (fun tr => tr = []) w w' ->
             only_cache w w' /\ trace w' = trace w).
  { intros w' [Honly (added & Htrace & ->)].
    split; [exact Honly | rewrite Htrace; apply app_nil_r]. }
  assert (Hsame : forall w',
             that w' = that w -> trace w' = trace w ++ [] ->
             only_cache w w' /\ trace w' = trace w).
  { intros w' Hthat Htrace. split; [| rewrite Htrace; apply app_nil_r].
    split; [rewrite Hthat; symmetry; apply set_ControlRegs_same |].
    unfold cache_sized; rewrite Hthat; exact Hsized. }
  destruct call as [r v | r | | a d | r v | r | | | p |];
    cbn [perform proper_call power_gated] in *; try contradiction.
  - eapply runs_weaken;
      [apply (ControlRegWrite_changes_cache plat (fun tr => tr = [])
                (fun a => operative (m_PowerState a) = false));
       try assumption; try reflexivity |].
    + intros a r' v' tr Hoff' Hon. congruence.
    + cbv beta. intros _ w' H. apply Hquiet, H.
  - apply runs_bind.
    eapply runs_weaken; [apply ControlRegRead_runs; [exact Hproper | auto] |].
    cbv beta. intros value w' [-> _]. apply runs_ret.
    split; [apply only_cache_refl, Hsized | reflexivity].
  - eapply runs_weaken;
      [apply (ControlRegReset_changes_cache plat (fun tr => tr = [])
                (fun a => operative (m_PowerState a) = false));
       try assumption; try reflexivity |].
    + intros tr1 tr2 -> ->. reflexivity.
    + intros a regs H. exact H.
    + intros a r' v' tr Hoff' Hon. congruence.
    + cbv beta. intros _ w' H. apply Hquiet, H.
  - eapply runs_weaken; [apply WriteOPL3_runs |].
    cbv beta. intros _ w' [Hthat Htrace]. rewrite Hoff in Htrace.
    apply Hsame; assumption.
  - eapply runs_weaken; [apply WriteMMA_runs |].
    cbv beta. intros _ w' [Hthat Htrace]. rewrite Hoff in Htrace.
    apply Hsame; assumption.
  - apply runs_bind.
    eapply runs_weaken; [apply ReadMMA_runs |].
    cbv beta. intros value w' (Hthat & _ & Htrace). rewrite Hoff in Htrace.
    apply runs_ret, Hsame; assumption.
  - apply runs_bind.
    eapply runs_weaken; [apply SaveToEEPROM_runs |].
    cbv beta. intros status w' [Hthat Hdone]. rewrite Hoff in Hdone.
    destruct Hdone as [_ Htrace].
    apply runs_ret, Hsame; [exact Hthat | rewrite Htrace; symmetry; apply app_nil_r].
  - apply runs_bind. unfold RestoreFromEEPROM.
    apply runs_bind, runs_get. rewrite Hoff. cbn [negb].
    apply runs_ret, runs_ret.
    split; [apply only_cache_refl, Hsized | reflexivity].
Qed.

(** X2: while the power state is below D1, no sequence of register writes,
    register reads, resets to defaults, OPL3 writes, MMA accesses and EEPROM
    requests touches a port: every call returns, the trace is unchanged, and
    nothing but the shadow cache changes in the adapter object. *)
Theorem powered_down_adapter_does_no_io
    (plat : Platform) (calls : list AdapterCall) (w : World) :
  cache_sized w ->
  operative (m_PowerState (that w)) = false ->
  Forall proper_call calls -> Forall power_gated calls ->
  exists w',
    perform_all plat calls w = Done tt w' /\
    trace w' = trace w /\
    only_cache w w'.
Proof.
  intros Hsized Hoff Hproper Hgated.
  assert (Hrun : runs (perform_all plat calls) w
            (fun _ w' => only_cache w w' /\ trace w' = trace w)).
  { revert w Hsized Hoff Hgated.
    induction Hproper as [| call calls Hcall _ IH]; intros w Hsized Hoff Hgated;
      cbn [perform_all].
    - apply runs_ret. split; [apply only_cache_refl, Hsized | reflexivity].
    - apply Forall_cons in Hgated as [Hgate Hgated].
      apply runs_bind.
      eapply runs_weaken; [apply perform_gated; assumption |].
      cbv beta. intros _ w1 [Honly1 Htrace1].
      eapply runs_weaken; [apply IH; [apply Honly1 | | exact Hgated] |].
      + destruct Honly1 as [-> _]. exact Hoff.
      + cbv beta. intros _ w2 [Honly2 Htrace2].
        split; [exact (only_cache_trans _ _ _ Honly1 Honly2) | congruence]. }
  destruct Hrun as ([] & w' & Hrun & Honly & Htrace).
  exists w'. auto.
Qed.

Lemma powered_down_adapter_does_no_io_witness :
  exists w',
    perform_all stuck_card
      [ Call_ControlRegWrite CTRL_REG_TREBLE 0xF3;
        Call_WriteOPL3 0x1B0 0x20;
        Call_WriteMMA 0x0D 0xD4;
        Call_ReadMMA 0x00;
        Call_ControlRegReset;
        Call_SaveToEEPROM;
        Call_RestoreFromEEPROM;
        Call_ControlRegRead CTRL_REG_TREBLE ]
      (adapter_in PowerDeviceD3 None None) = Done tt w' /\
    trace w' = [] /\
    only_cache (adapter_in PowerDeviceD3 None None) w'.
Proof.
  apply powered_down_adapter_does_no_io; [reflexivity | reflexivity | |];
    repeat constructor; cbn; try lia; discriminate.
Defined.

(** X3: a mixer register written while the adapter is powered down is not
    lost.  ControlRegWrite(i, v) for i in 0x04..0x0F below D1 does no I/O,
    and the next transition to D0 performs the arbitrated write of [v] to
    register [i] among its port writes. *)
Theorem deferred_write_reaches_hardware_on_resume
    (plat : Platform) (w : World) (i v : Z) :
  cache_sized w ->
  operative (m_PowerState (that w)) = false ->
  CTRL_MIXER_FIRST <= i <= CTRL_MIXER_LAST ->
  exists w1 w2 added before after,
    ControlRegWrite plat i v w = Done tt w1 /\
    trace w1 = trace w /\
    PowerChangeState plat PowerDeviceD0 w1 = Done tt w2 /\
    trace w2 = trace w ++ added /\
    writes_of added = before ++ register_write i v ++ after.
Proof.
  intros Hsized Hoff Hi.
  assert (Hi' : 0 <= i < CTRL_REG_MAX)
    by (unfold CTRL_MIXER_FIRST, CTRL_MIXER_LAST, CTRL_REG_MAX in *; lia).
  destruct (ControlRegWrite_runs plat i v w (proj1 Hi') (fun _ => Hsized))
    as ([] & w1 & Hwrite & Hthat1 & added1 & Htrace1 & Hadded1).
  rewrite Hoff in Hadded1. subst added1. rewrite app_nil_r in Htrace1.
  replace (i <? CTRL_REG_MAX) with true in Hthat1
    by (symmetry; apply Z.ltb_lt; lia).
  assert (Hsized1 : cache_sized w1).
  { unfold cache_sized. rewrite Hthat1. cbn [m_ControlRegs set_ControlRegs].
    rewrite length_insert. exact Hsized. }
  assert (Hcached : cached (that w1) i = v).
  { unfold cached. rewrite Hthat1. cbn [m_ControlRegs set_ControlRegs].
    rewrite list_lookup_insert_eq; [reflexivity |].
    unfold cache_sized in Hsized. rewrite Hsized. unfold CTRL_REG_MAX in *. lia. }
  assert (Hrun : runs (PowerChangeState plat PowerDeviceD0) w1
            (fun _ w2 =>
               exists added,
                 trace w2 = trace w1 ++ added /\
                 writes_of added = replayed (that w1) mixer_range)).
  { unfold PowerChangeState. apply runs_bind, runs_get.
    rewrite bool_decide_eq_false_2.
    2:{ rewrite Hthat1. cbn [m_PowerState set_ControlRegs]. intros Heq.
        rewrite <- Heq in Hoff. discriminate Hoff. }
    apply runs_bind, runs_modify.
    eapply runs_weaken; [apply replay_runs |].
    - exact Hsized1.
    - reflexivity.
    - unfold CTRL_MIXER_FIRST; lia.
    - unfold CTRL_MIXER_FIRST, CTRL_MIXER_LAST, CTRL_REG_MAX; lia.
    - cbn [that trace]. intros _ w2 (_ & added & Htrace & Hwrites).
      exists added. split; [exact Htrace |]. rewrite Hwrites. reflexivity. }
  destruct Hrun as ([] & w2 & Hresume & added & Htrace2 & Hwrites).
  assert (Hmember : i ∈ mixer_range).
  { unfold mixer_range. apply elem_of_seqZ.
    unfold CTRL_MIXER_FIRST, CTRL_MIXER_LAST in *. lia. }
  apply list_elem_of_split in Hmember as (l1 & l2 & Hsplit).
  exists w1, w2, added,
    (replayed (that w1) l1), (replayed (that w1) l2).
  split; [exact Hwrite |]. split; [exact Htrace1 |].
  split; [exact Hresume |]. split; [rewrite Htrace2, Htrace1; reflexivity |].
  rewrite Hwrites, Hsplit. unfold replayed.
  rewrite map_app, concat_app. cbn [map concat]. rewrite Hcached.
  reflexivity.
Qed.

Lemma deferred_write_reaches_hardware_on_resume_witness :
  exists w1 w2 added before after,
    ControlRegWrite idle_card CTRL_REG_FM_VOL_L 0xE0
      (adapter_in PowerDeviceD3 None None) = Done tt w1 /\
    trace w1 = [] /\
    PowerChangeState idle_card PowerDeviceD0 w1 = Done tt w2 /\
    trace w2 = [] ++ added /\
    writes_of added = before ++ register_write CTRL_REG_FM_VOL_L 0xE0 ++ after.
Proof.
  apply (deferred_write_reaches_hardware_on_resume idle_card
           (adapter_in PowerDeviceD3 None None) CTRL_REG_FM_VOL_L 0xE0);
    [reflexivity | reflexivity |].
  unfold CTRL_MIXER_FIRST, CTRL_MIXER_LAST, CTRL_REG_FM_VOL_L; lia.
Defined.

(** ** OPL3 writes and the EEPROM save *)

(** X4: in an operative power state WriteOPL3 leaves the adapter object
    alone; an address below 0x100 goes to the unshared port pair and never
    touches ports base+2/base+3; an address of 0x100 or more writes the OPL3
    sentinel first.  The OPL3 bank is still selected afterwards exactly when
    the address is below 0x100 or its low byte is not 0xFF: a low byte of
    0xFF is itself the control-bank sentinel, and the data byte then lands on
    the Control Chip. *)
Theorem WriteOPL3_bank_discipline (w : World) (Address Data : Z) :
  operative (m_PowerState (that w)) = true ->
  0 <= Address ->
  exists w' added,
    WriteOPL3 Address Data w = Done tt w' /\
    that w' = that w /\
    trace w' = trace w ++ added /\
    (Address < 0x100 ->
     written_to ALG_REG_FM1_ADDR added = [] /\
     written_to ALG_REG_FM1_DATA added = [] /\
     written_to ALG_REG_FM0_DATA added = [Data]) /\
    (0x100 <= Address ->
     head (written_to ALG_REG_FM1_ADDR added) = Some ALG_BANK_OPL3 /\
     written_to ALG_REG_FM1_DATA added = [Data]) /\
    (rests_in_OPL3 added <->
     Address < 0x100 \/ Z.land Address 0xFF <> ALG_BANK_CONTROL).
Proof.
  intros Hop Haddress.
  destruct (WriteOPL3_runs Address Data w) as ([] & w' & Hrun & Hthat & Htrace).
  rewrite Hop in Htrace.
  assert (Hbyte : Z.land Address 0xFF mod 256 = Z.land Address 0xFF).
  { apply Z.mod_small. change 0xFF with (Z.ones 8).
    rewrite Z.land_ones by lia. apply Z.mod_pos_bound. lia. }
  eexists w', _. split; [exact Hrun |]. split; [exact Hthat |].
  split; [exact Htrace |].
  destruct (Address <? 0x100) eqn:Hbank;
    [apply Z.ltb_lt in Hbank | apply Z.ltb_ge in Hbank].
  - split; [intros _; repeat split; reflexivity |].
    split; [intros Hge; lia |].
    split; [intros _; left; exact Hbank | intros _; discriminate].
  - split; [intros Hlt; lia |].
    split; [intros _; split; reflexivity |].
    rewrite Hbyte. unfold rests_in_OPL3. cbn [bank_selects].
    change (ALG_REG_FM1_ADDR =? ALG_REG_FM1_ADDR) with true.
    change (ALG_REG_FM1_DATA =? ALG_REG_FM1_ADDR) with false.
    change ((ALG_BANK_OPL3 =? ALG_BANK_CONTROL) || (ALG_BANK_OPL3 =? ALG_BANK_OPL3))
      with true.
    cbn [andb].
    destruct (Z.land Address 255 =? ALG_BANK_CONTROL) eqn:Hcontrol;
      [apply Z.eqb_eq in Hcontrol | apply Z.eqb_neq in Hcontrol]; cbn [orb].
    + rewrite Hcontrol.
      split; [intros H; exfalso; apply H; reflexivity |].
      intros [Hlt | Hne]; [lia | congruence].
    + split; [intros _; right; exact Hcontrol |]. intros _.
      destruct (Z.land Address 255 =? ALG_BANK_OPL3) eqn:Hsame_bank;
        [apply Z.eqb_eq in Hsame_bank; rewrite Hsame_bank |]; discriminate.
Qed.

Lemma WriteOPL3_bank_discipline_witness :
  exists w' added,
    WriteOPL3 0x1FF 0x42 (adapter_in PowerDeviceD0 None None) = Done tt w' /\
    that w' = that (adapter_in PowerDeviceD0 None None) /\
    trace w' = [] ++ added /\
    (0x1FF < 0x100 ->
     written_to ALG_REG_FM1_ADDR added = [] /\
     written_to ALG_REG_FM1_DATA added = [] /\
     written_to ALG_REG_FM0_DATA added = [0x42]) /\
    (0x100 <= 0x1FF ->
     head (written_to ALG_REG_FM1_ADDR added) = Some ALG_BANK_OPL3 /\
     written_to ALG_REG_FM1_DATA added = [0x42]) /\
    (rests_in_OPL3 added <->
     0x1FF < 0x100 \/ Z.land 0x1FF 0xFF <> ALG_BANK_CONTROL).
Proof.
  apply (WriteOPL3_bank_discipline (adapter_in PowerDeviceD0 None None) 0x1FF 0x42);
    [reflexivity | lia].
Defined.

(** X5: SaveToEEPROM in an operative power state issues the save command
    between two busy polls, restores the OPL3 bank and returns
    STATUS_SUCCESS whatever the card answers, so also when both polls run
    out; the adapter object, shadow cache included, is unchanged.  Below
    operative level it returns STATUS_DEVICE_POWERED_OFF and does
    nothing. *)
Theorem SaveToEEPROM_sequence (plat : Platform) (w : World) :
  (operative (m_PowerState (that w)) = true ->
   exists w' poll1 poll2,
     SaveToEEPROM plat w = Done STATUS_SUCCESS w' /\
     that w' = that w /\
     busy_poll poll1 /\ busy_poll poll2 /\
     trace w' = trace w
       ++ PortWrite ALG_REG_FM1_ADDR ALG_BANK_CONTROL :: poll1
       ++ [ PortWrite ALG_REG_FM1_ADDR CTRL_REG_CONTROL_ID;
            PortWrite ALG_REG_FM1_DATA CTRL_ID_SAVE ]
       ++ poll2 ++ [PortWrite ALG_REG_FM1_ADDR ALG_BANK_OPL3]) /\
  (operative (m_PowerState (that w)) = false ->
   SaveToEEPROM plat w = Done STATUS_DEVICE_POWERED_OFF w).
Proof.
  destruct (SaveToEEPROM_runs plat w) as (status & w' & Hrun & Hthat & Hdone).
  split; intros Hop; rewrite Hop in Hdone.
  - destruct Hdone as (-> & poll1 & poll2 & Hpoll1 & Hpoll2 & Htrace).
    exists w', poll1, poll2. auto.
  - destruct Hdone as [-> Htrace]. rewrite Hrun. f_equal.
    destruct w, w'; cbn [that trace] in *. congruence.
Qed.

Lemma SaveToEEPROM_sequence_witness :
  (exists w' poll1 poll2,
     SaveToEEPROM stuck_card (adapter_in PowerDeviceD0 None None)
       = Done STATUS_SUCCESS w' /\
     that w' = that (adapter_in PowerDeviceD0 None None) /\
     busy_poll poll1 /\ busy_poll poll2 /\
     trace w' = []
       ++ PortWrite ALG_REG_FM1_ADDR ALG_BANK_CONTROL :: poll1
       ++ [ PortWrite ALG_REG_FM1_ADDR CTRL_REG_CONTROL_ID;
            PortWrite ALG_REG_FM1_DATA CTRL_ID_SAVE ]
       ++ poll2 ++ [PortWrite ALG_REG_FM1_ADDR ALG_BANK_OPL3]) /\
  SaveToEEPROM stuck_card (adapter_in PowerDeviceD3 None None)
    = Done STATUS_DEVICE_POWERED_OFF (adapter_in PowerDeviceD3 None None).
Proof.
  split.
  - apply (SaveToEEPROM_sequence stuck_card (adapter_in PowerDeviceD0 None None)).
    reflexivity.
  - apply (SaveToEEPROM_sequence stuck_card (adapter_in PowerDeviceD3 None None)).
    reflexivity.
Defined.

(** ** Initialization: failure before the probe, and what success gives *)

Lemma runs_both {A} (c : M A) w (P Q : A -> World -> Prop) :
  runs c w P -> runs c w Q -> runs c w (fun a w' => P a w' /\ Q a w').
Proof.
  intros (a & w' & Hc & HP) (a' & w'' & Hc' & HQ).
  rewrite Hc in Hc'. injection Hc' as <- <-.
  exists a, w'. auto.
Qed.

Lemma Init_detect_card_frame plat w :
  cache_sized w ->
  runs (Init_detect_card plat) w
    (fun status w' =>
       exists idByte,
         status = (if recognized_model (Z.land idByte CTRL_ID_MODEL_MASK)
                   then STATUS_SUCCESS
                   else STATUS_DEVICE_DOES_NOT_EXIST) /\
         that w' = set_ControlRegs
                     (<[Z.to_nat CTRL_REG_CONTROL_ID := idByte]>
                        (m_ControlRegs (that w)))
                     (set_CardIdentity (Z.land idByte CTRL_ID_MODEL_MASK)
                                       idByte (that w)) /\
         trace w' = trace w
                    ++ [ PortWrite ALG_REG_FM1_ADDR CTRL_REG_CONTROL_ID;
                         PortRead ALG_REG_FM1_DATA idByte;
                         PortWrite ALG_REG_FM1_ADDR ALG_BANK_OPL3 ]).
Proof.
  intros Hsized. unfold Init_detect_card.
  apply runs_bind, runs_emit, runs_bind, runs_READ.
  cbn [that trace]. intros idByte _.
  apply runs_bind, runs_emit, runs_bind, runs_modify, runs_bind, runs_store.
  { cbn [that trace m_ControlRegs set_CardIdentity].
    unfold cache_sized in Hsized. rewrite Hsized.
    unfold CTRL_REG_CONTROL_ID, CTRL_REG_MAX; lia. }
  apply runs_bind, runs_get.
  cbn [that trace m_ControlRegs m_CardModel set_CardIdentity set_ControlRegs].
  rewrite recognized_model_spec.
  destruct (recognized_model (Z.land idByte CTRL_ID_MODEL_MASK)) eqn:Hmodel;
    apply runs_ret; exists idByte; rewrite Hmodel;
    (split; [reflexivity |]);
    (split; [reflexivity | rewrite <- !app_assoc; reflexivity]).
Qed.

Lemma Init_interrupt_sync_frame plat w :
  runs (Init_interrupt_sync plat) w
    (fun status w' =>
       that w' = set_InterruptSync (m_pInterruptSync (that w')) (that w) /\
       trace w' = trace w /\
       (NT_SUCCESS status = true ->
        m_pInterruptSync (that w') = snd (PcNewInterruptSync plat))).
Proof.
  unfold Init_interrupt_sync.
  destruct (PcNewInterruptSync plat) as [ntStatus created]. cbn [snd].
  apply runs_bind, runs_modify.
  destruct (NT_SUCCESS ntStatus && created);
    [| apply runs_ret; repeat split; reflexivity].
  destruct (NT_SUCCESS (RegisterServiceRoutine plat)).
  - apply runs_bind, runs_when; intros Hfailed;
      [apply runs_modify |]; apply runs_ret;
      (split; [reflexivity |]); (split; [reflexivity |]);
      intros Hok; rewrite Hok in Hfailed; [discriminate | reflexivity].
  - apply runs_bind, runs_when; intros Hfailed;
      [apply runs_modify |]; apply runs_ret;
      (split; [reflexivity |]); (split; [reflexivity |]);
      intros Hok; rewrite Hok in Hfailed; [discriminate | reflexivity].
Qed.

(** X6: Init gives up before the identity probe in two ways.  Without a port
    or an interrupt in the resource list it returns
    STATUS_INSUFFICIENT_RESOURCES and has done nothing.  When the first busy
    poll runs out it returns STATUS_DEVICE_DOES_NOT_EXIST after selecting the
    control bank and reading the status port 1000 times: the data port is
    never read, no interrupt object exists, the cache is zeroed, and the
    control bank is left selected (the OPL3 sentinel is not written on this
    path). *)
Theorem Init_fails_before_the_probe
    (plat : Platform) (ResourceList : RESOURCELIST) (w : World) :
  (NumberOfPorts ResourceList < 1 \/ NumberOfInterrupts ResourceList < 1 ->
   Init plat ResourceList w = Done STATUS_INSUFFICIENT_RESOURCES w) /\
  (1 <= NumberOfPorts ResourceList -> 1 <= NumberOfInterrupts ResourceList ->
   forall w1,
     WaitForReady plat
       (mkWorld (that w) (trace w ++ [PortWrite ALG_REG_FM1_ADDR ALG_BANK_CONTROL]))
       = Done false w1 ->
     exists w' polled,
       Init plat ResourceList w = Done STATUS_DEVICE_DOES_NOT_EXIST w' /\
       trace w' = trace w ++ PortWrite ALG_REG_FM1_ADDR ALG_BANK_CONTROL :: polled /\
       Forall status_read polled /\ length polled = 1000%nat /\
       ~ rests_in_OPL3 (PortWrite ALG_REG_FM1_ADDR ALG_BANK_CONTROL :: polled) /\
       m_ControlRegs (that w') = replicate (Z.to_nat CTRL_REG_MAX) 0 /\
       m_pInterruptSync (that w') = false /\
       m_PowerState (that w') = PowerDeviceD0).
Proof.
  split.
  - intros Hmissing. unfold Init.
    replace ((NumberOfPorts ResourceList <? 1) || (NumberOfInterrupts ResourceList <? 1))
      with true; [reflexivity |].
    symmetry. apply orb_true_iff.
    destruct Hmissing; [left | right]; apply Z.ltb_lt; assumption.
  - intros Hports Hirqs w1 Hwait.
    destruct (WaitForReady_runs plat
                (mkWorld (that w)
                   (trace w ++ [PortWrite ALG_REG_FM1_ADDR ALG_BANK_CONTROL])))
      as (ready & w1' & Hwait' & _ & polled & Htrace1 & [Hall _] & Hexhausted).
    rewrite Hwait in Hwait'. injection Hwait' as <- <-.
    cbn [that trace] in Htrace1.
    assert (Hrun : runs (Init plat ResourceList) w
              (fun status w' =>
                 status = STATUS_DEVICE_DOES_NOT_EXIST /\
                 trace w' = trace w1 /\
                 m_ControlRegs (that w') = replicate (Z.to_nat CTRL_REG_MAX) 0 /\
                 m_pInterruptSync (that w') = false /\
                 m_PowerState (that w') = PowerDeviceD0)).
    { unfold Init.
      replace (NumberOfPorts ResourceList <? 1) with false
        by (symmetry; apply Z.ltb_ge; lia).
      replace (NumberOfInterrupts ResourceList <? 1) with false
        by (symmetry; apply Z.ltb_ge; lia).
      cbn [orb].
      apply runs_bind, runs_modify, runs_bind, runs_modify, runs_bind, runs_modify,
        runs_bind, runs_modify, runs_bind, runs_emit, runs_bind.
      cbn [that trace].
      eapply runs_known; [apply (WaitForReady_frame _ _ _ _ _ _ Hwait) |].
      change (NT_SUCCESS STATUS_DEVICE_DOES_NOT_EXIST) with false. cbv iota.
      apply runs_bind, runs_ret, runs_bind, runs_ret, runs_bind, runs_ret, runs_ret.
      repeat split; reflexivity. }
    destruct Hrun as (status & w' & Hinit & -> & Htrace & Hregs & Hsync & Hpower).
    exists w', polled. split; [exact Hinit |].
    split; [rewrite Htrace, Htrace1, <- app_assoc; reflexivity |].
    split; [exact Hall |]. split; [apply Hexhausted; reflexivity |].
    split; [| auto].
    unfold rests_in_OPL3. intros Hrest. apply Hrest.
    change (PortWrite ALG_REG_FM1_ADDR ALG_BANK_CONTROL :: polled)
      with ([PortWrite ALG_REG_FM1_ADDR ALG_BANK_CONTROL] ++ polled).
    rewrite bank_selects_app.
    replace (bank_selects polled) with (@nil Z); [reflexivity |].
    clear -Hall. induction Hall as [| e tr [status ->] _ IH]; [reflexivity | exact IH].
Qed.

Lemma Init_fails_before_the_probe_witness :
  Init idle_card (mkResources 1 0) (adapter_in PowerDeviceD0 None None)
    = Done STATUS_INSUFFICIENT_RESOURCES (adapter_in PowerDeviceD0 None None) /\
  exists w' polled,
    Init stuck_card (mkResources 1 1) (adapter_in PowerDeviceD0 None None)
      = Done STATUS_DEVICE_DOES_NOT_EXIST w' /\
    trace w' = [] ++ PortWrite ALG_REG_FM1_ADDR ALG_BANK_CONTROL :: polled /\
    Forall status_read polled /\ length polled = 1000%nat /\
    ~ rests_in_OPL3 (PortWrite ALG_REG_FM1_ADDR ALG_BANK_CONTROL :: polled) /\
    m_ControlRegs (that w') = replicate (Z.to_nat CTRL_REG_MAX) 0 /\
    m_pInterruptSync (that w') = false /\
    m_PowerState (that w') = PowerDeviceD0.
Proof.
  split.
  - apply (Init_fails_before_the_probe idle_card (mkResources 1 0)
             (adapter_in PowerDeviceD0 None None)).
    right. cbn. lia.
  - destruct (WaitForReady stuck_card
                (mkWorld (that (adapter_in PowerDeviceD0 None None))
                   (trace (adapter_in PowerDeviceD0 None None)
                    ++ [PortWrite ALG_REG_FM1_ADDR ALG_BANK_CONTROL])))
      as [ready w1 |] eqn:Hwait; [| vm_compute in Hwait; discriminate].
    assert (Hready : ready = false).
    { vm_compute in Hwait. injection Hwait as <- _. reflexivity. }
    subst ready.
    apply (proj2 (Init_fails_before_the_probe stuck_card (mkResources 1 1)
                    (adapter_in PowerDeviceD0 None None))
             ltac:(cbn; lia) ltac:(cbn; lia) w1 Hwait).
Defined.

(** ** What ControlRegReset leaves in the cache *)

Lemma ControlRegWrite_cached plat r v w :
  0 <= r < CTRL_REG_MAX -> cache_sized w ->
  runs (ControlRegWrite plat r v) w
    (fun _ w' =>
       only_cache w w' /\ cached (that w') r = v /\
       forall i, 0 <= i -> i <> r -> cached (that w') i = cached (that w) i).
Proof.
  intros [Hr0 Hr] Hsized.
  eapply runs_weaken;
    [apply runs_both;
     [apply (ControlRegWrite_runs plat r v w Hr0 (fun _ => Hsized))
     | apply (ControlRegWrite_only_cache plat r v w Hr0 Hsized)] |].
  cbv beta. intros _ w' [[Hthat _] Honly].
  apply Z.ltb_lt in Hr. rewrite Hr in Hthat. apply Z.ltb_lt in Hr.
  split; [exact Honly |].
  unfold cached. rewrite Hthat. cbn [m_ControlRegs set_ControlRegs].
  split.
  - rewrite list_lookup_insert_eq; [reflexivity |].
    unfold cache_sized in Hsized. rewrite Hsized. unfold CTRL_REG_MAX in *. lia.
  - intros i Hi Hne. rewrite list_lookup_insert_ne; [reflexivity | lia].
Qed.

Lemma write_defaults_cached plat settings :
  NoDup (map RegisterIndex settings) ->
  Forall (fun s => 0 <= RegisterIndex s < CTRL_REG_MAX) settings ->
  forall w,
    cache_sized w ->
    runs (write_defaults plat settings) w
      (fun _ w' =>
         only_cache w w' /\
         (forall s, s ∈ settings -> cached (that w') (RegisterIndex s) = RegisterSetting s) /\
         (forall i, 0 <= i -> i ∉ map RegisterIndex settings ->
                    cached (that w') i = cached (that w) i)).
Proof.
  induction settings as [| s settings IH]; intros Hnodup Hrange w Hsized;
    cbn [write_defaults].
  - apply runs_ret. split; [apply only_cache_refl, Hsized |].
    split; [intros s Hs; inversion Hs | reflexivity].
  - cbn [map] in Hnodup. apply NoDup_cons in Hnodup as [Hfresh Hnodup].
    apply Forall_cons in Hrange as [Hs Hrange].
    apply runs_bind.
    eapply runs_weaken; [apply ControlRegWrite_cached; assumption |].
    cbv beta. intros _ w1 (H1 & Hval1 & Hframe1).
    eapply runs_weaken; [apply (IH Hnodup Hrange w1), H1 |].
    cbv beta. intros _ w2 (H2 & Hval2 & Hframe2).
    split; [exact (only_cache_trans _ _ _ H1 H2) |]. split.
    + intros s' Hs'. apply elem_of_cons in Hs' as [-> | Hs']; [| apply Hval2, Hs'].
      rewrite Hframe2; [exact Hval1 | lia | exact Hfresh].
    + intros i Hi Hout. cbn [map] in Hout. apply not_elem_of_cons in Hout as [Hne Hout].
      rewrite Hframe2 by assumption. apply Hframe1; assumption.
Qed.

Lemma read_saved_values_cached plat settings :
  NoDup (map RegisterIndex settings) ->
  Forall (fun s => 0 <= RegisterIndex s < CTRL_REG_MAX) settings ->
  forall ntStatus w,
    cache_sized w ->
    runs (read_saved_values plat settings ntStatus) w
      (fun status w' =>
         only_cache w w' /\
         status = last_query plat settings ntStatus /\
         (forall s, s ∈ settings ->
                    cached (that w') (RegisterIndex s)
                    = restored_value plat s (cached (that w) (RegisterIndex s))) /\
         (forall i, 0 <= i -> i ∉ map RegisterIndex settings ->
                    cached (that w') i = cached (that w) i)).
Proof.
  induction settings as [| s settings IH]; intros Hnodup Hrange ntStatus w Hsized;
    cbn [read_saved_values].
  - apply runs_ret. split; [apply only_cache_refl, Hsized |].
    split; [reflexivity |].
    split; [intros s Hs; inversion Hs | reflexivity].
  - cbn [map] in Hnodup. apply NoDup_cons in Hnodup as [Hfresh Hnodup].
    apply Forall_cons in Hrange as [Hs Hrange].
    assert (Hstatus :
               last_query plat (s :: settings) ntStatus
               = last_query plat settings (fst (fst (QueryValueKey plat (KeyName s))))).
    { unfold last_query. destruct settings as [| s' rest]; [reflexivity |].
      change (last (s :: s' :: rest)) with (last (s' :: rest)).
      destruct (last (s' :: rest)) eqn:Hlast; [reflexivity |].
      apply last_None in Hlast. discriminate. }
    assert (Hstep : runs
              (let '(queried, DataLength, Data) := QueryValueKey plat (KeyName s) in
               if NT_SUCCESS queried
               then when (DataLength =? sizeof_DWORD)
                      (ControlRegWrite plat (RegisterIndex s) (Data mod 256))
               else ControlRegWrite plat (RegisterIndex s) (RegisterSetting s)) w
              (fun _ w1 =>
                 only_cache w w1 /\
                 cached (that w1) (RegisterIndex s)
                 = restored_value plat s (cached (that w) (RegisterIndex s)) /\
                 forall i, 0 <= i -> i <> RegisterIndex s ->
                           cached (that w1) i = cached (that w) i)).
    { unfold restored_value.
      destruct (QueryValueKey plat (KeyName s)) as [[queried DataLength] Data].
      destruct (NT_SUCCESS queried).
      - apply runs_when; intros Hlen; rewrite Hlen.
        + apply ControlRegWrite_cached; assumption.
        + split; [apply only_cache_refl, Hsized |]. split; reflexivity.
      - apply ControlRegWrite_cached; assumption. }
    destruct (QueryValueKey plat (KeyName s)) as [[queried DataLength] Data] eqn:Hquery.
    cbn [fst] in Hstatus.
    apply runs_bind.
    eapply runs_weaken; [exact Hstep |].
    cbv beta. intros _ w1 (H1 & Hval1 & Hframe1).
    eapply runs_weaken; [apply (IH Hnodup Hrange queried w1), H1 |].
    cbv beta. intros status w2 (H2 & -> & Hval2 & Hframe2).
    split; [exact (only_cache_trans _ _ _ H1 H2) |].
    split; [symmetry; exact Hstatus |]. split.
    + intros s' Hs'. apply elem_of_cons in Hs' as [-> | Hs'].
      * rewrite Hframe2; [exact Hval1 | lia | exact Hfresh].
      * rewrite (Hval2 s' Hs'). f_equal. apply Hframe1.
        -- rewrite Forall_forall in Hrange. apply Hrange in Hs'. lia.
        -- intros Heq. apply Hfresh. rewrite <- Heq.
           apply list_elem_of_In, in_map, list_elem_of_In, Hs'.
    + intros i Hi Hout. cbn [map] in Hout. apply not_elem_of_cons in Hout as [Hne Hout].
      rewrite Hframe2 by assumption. apply Hframe1; assumption.
Qed.

Lemma DefaultMixerSettings_NoDup : NoDup (map RegisterIndex DefaultMixerSettings).
Proof. apply (bool_decide_unpack _). vm_compute. exact I. Qed.

Lemma DefaultMixerSettings_in_range :
  Forall (fun s => 0 <= RegisterIndex s < CTRL_REG_MAX) DefaultMixerSettings.
Proof. repeat constructor; discriminate. Qed.

Lemma outside_mixer_settings i :
  (CTRL_MIXER_FIRST <=? i) && (i <=? CTRL_MIXER_LAST) = false ->
  i ∉ map RegisterIndex DefaultMixerSettings.
Proof.
  intros Hout Hin. apply andb_false_iff in Hout.
  assert (Hrange : CTRL_MIXER_FIRST <= i <= CTRL_MIXER_LAST).
  { cbn in Hin. unfold CTRL_MIXER_FIRST, CTRL_MIXER_LAST.
    repeat (apply elem_of_cons in Hin as [-> | Hin]; [vm_compute; split; discriminate |]).
    inversion Hin. }
  destruct Hout as [Hout | Hout]; [apply Z.leb_gt in Hout | apply Z.leb_gt in Hout]; lia.
Qed.

Lemma RestoreMixerSettingsFromRegistry_cached plat w :
  cache_sized w ->
  runs (RestoreMixerSettingsFromRegistry plat) w
    (fun status w' =>
       only_cache w w' /\
       (forall i, 0 <= i -> i ∉ map RegisterIndex DefaultMixerSettings ->
                  cached (that w') i = cached (that w) i) /\
       (NT_SUCCESS status = true ->
        forall s, s ∈ DefaultMixerSettings ->
                  cached (that w') (RegisterIndex s)
                  = if saved_settings_kept plat
                    then restored_value plat s (cached (that w) (RegisterIndex s))
                    else RegisterSetting s) /\
       (NT_SUCCESS status = false -> saved_settings_kept plat = false)).
Proof.
  intros Hsized. unfold RestoreMixerSettingsFromRegistry, saved_settings_kept.
  assert (Hnothing : forall status,
             NT_SUCCESS status = false ->
             only_cache w w /\
             (forall i, 0 <= i -> i ∉ map RegisterIndex DefaultMixerSettings ->
                        cached (that w) i = cached (that w) i) /\
             (NT_SUCCESS status = true ->
              forall s, s ∈ DefaultMixerSettings ->
                        cached (that w) (RegisterIndex s)
                        = if false
                          then restored_value plat s (cached (that w) (RegisterIndex s))
                          else RegisterSetting s) /\
             (NT_SUCCESS status = false -> false = false)).
  { intros status Hfailed. split; [apply only_cache_refl, Hsized |].
    split; [reflexivity |]. split; [congruence | reflexivity]. }
  destruct (NT_SUCCESS (PcNewRegistryKey plat)) eqn:Hdriver_key;
    [| apply runs_ret, Hnothing, Hdriver_key].
  destruct (NewSubKey plat) as [ntStatus Disposition]. cbn [fst snd andb].
  destruct (NT_SUCCESS ntStatus) eqn:Hsettings_key;
    [| apply runs_ret, Hnothing, Hsettings_key].
  cbn [andb].
  destruct (Disposition =? REG_CREATED_NEW_KEY); cbn [negb andb];
    [| destruct (ExAllocatePool plat); cbn [andb]].
  - apply runs_bind.
    eapply runs_weaken;
      [apply (write_defaults_cached plat _ DefaultMixerSettings_NoDup
                DefaultMixerSettings_in_range w Hsized) |].
    cbv beta. intros _ w1 (H1 & Hval1 & Hframe1). apply runs_ret.
    split; [exact H1 |]. split; [exact Hframe1 |].
    split; [intros _; exact Hval1 | reflexivity].
  - eapply runs_weaken;
      [apply (read_saved_values_cached plat _ DefaultMixerSettings_NoDup
                DefaultMixerSettings_in_range ntStatus w Hsized) |].
    cbv beta. intros status w1 (H1 & -> & Hval1 & Hframe1).
    split; [exact H1 |]. split; [exact Hframe1 |].
    split; [intros Hok; rewrite Hok; exact Hval1 | intros Hfailed; exact Hfailed].
  - apply runs_bind.
    eapply runs_weaken;
      [apply (write_defaults_cached plat _ DefaultMixerSettings_NoDup
                DefaultMixerSettings_in_range w Hsized) |].
    cbv beta. intros _ w1 (H1 & Hval1 & Hframe1). apply runs_ret.
    split; [exact H1 |]. split; [exact Hframe1 |].
    split; [intros _; exact Hval1 | reflexivity].
Qed.

Lemma ControlRegReset_cached plat w :
  cache_sized w ->
  runs (ControlRegReset plat) w
    (fun _ w' =>
       only_cache w w' /\
       cached (that w') CTRL_REG_RESERVED = 0 /\
       (forall s, s ∈ DefaultMixerSettings ->
                  cached (that w') (RegisterIndex s)
                  = if saved_settings_kept plat
                    then restored_value plat s (cached (that w) (RegisterIndex s))
                    else RegisterSetting s) /\
       (forall i, 0 <= i -> reset_range i = false ->
                  cached (that w') i = cached (that w) i)).
Proof.
  intros Hsized. unfold ControlRegReset. apply runs_bind.
  eapply runs_weaken; [apply RestoreMixerSettingsFromRegistry_cached, Hsized |].
  cbv beta. intros ntStatus w1 (H1 & Hframe1 & Hkept1 & Hfailed1). apply runs_bind.
  apply runs_weaken with
    (P := fun _ w2 =>
            only_cache w w2 /\
            (forall s, s ∈ DefaultMixerSettings ->
                       cached (that w2) (RegisterIndex s)
                       = if saved_settings_kept plat
                         then restored_value plat s (cached (that w) (RegisterIndex s))
                         else RegisterSetting s) /\
            (forall i, 0 <= i -> i ∉ map RegisterIndex DefaultMixerSettings ->
                       cached (that w2) i = cached (that w) i)).
  - apply runs_when; intros Hstatus.
    + apply negb_true_iff in Hstatus. rewrite (Hfailed1 Hstatus).
      eapply runs_weaken;
        [apply (write_defaults_cached plat _ DefaultMixerSettings_NoDup
                  DefaultMixerSettings_in_range w1), H1 |].
      cbv beta. intros _ w2 (H2 & Hval2 & Hframe2).
      split; [exact (only_cache_trans _ _ _ H1 H2) |].
      split; [exact Hval2 |].
      intros i Hi Hout. rewrite Hframe2 by assumption. apply Hframe1; assumption.
    + apply negb_false_iff in Hstatus.
      split; [exact H1 |]. split; [exact (Hkept1 Hstatus) | exact Hframe1].
  - intros _ w2 (H2 & Hval2 & Hframe2).
    eapply runs_weaken;
      [apply (ControlRegWrite_cached plat CTRL_REG_RESERVED 0 w2);
       [unfold CTRL_REG_RESERVED, CTRL_REG_MAX; lia | apply H2] |].
    cbv beta. intros _ w3 (H3 & Hval3 & Hframe3).
    split; [exact (only_cache_trans _ _ _ H2 H3) |].
    split; [exact Hval3 |]. split.
    + intros s Hs. rewrite Hframe3; [apply Hval2, Hs | |].
      * pose proof DefaultMixerSettings_in_range as Hrange.
        rewrite Forall_forall in Hrange. apply Hrange in Hs. lia.
      * intros Heq.
        apply (outside_mixer_settings CTRL_REG_RESERVED); [reflexivity |].
        rewrite <- Heq. apply list_elem_of_In, in_map, list_elem_of_In, Hs.
    + intros i Hi Hout. unfold reset_range in Hout.
      apply orb_false_iff in Hout as [Hmixer Hreserved].
      apply Z.eqb_neq in Hreserved.
      rewrite Hframe3 by assumption.
      apply Hframe2; [exact Hi | apply outside_mixer_settings, Hmixer].
Qed.

Lemma restored_value_with_settings_key plat key s old :
  restored_value (with_settings_key plat key) s old
  = match key !! KeyName s with
    | Some value => value mod 256
    | None => RegisterSetting s
    end.
Proof.
  unfold restored_value, with_settings_key. cbn [QueryValueKey].
  destruct (key !! KeyName s); reflexivity.
Qed.

Lemma saved_settings_kept_with_settings_key plat key :
  saved_settings_kept (with_settings_key plat key)
  = bool_decide (is_Some (key !! "MicVol"%string)).
Proof.
  unfold saved_settings_kept, last_query, with_settings_key.
  cbn [PcNewRegistryKey NewSubKey ExAllocatePool QueryValueKey fst snd].
  change (last DefaultMixerSettings)
    with (Some (mkSetting "MicVol" CTRL_REG_MIC_VOL 0x80)).
  cbn [KeyName].
  destruct (key !! "MicVol"%string) as [value |] eqn:Hmic.
  - rewrite bool_decide_eq_true_2 by (exists value; reflexivity). reflexivity.
  - rewrite bool_decide_eq_false_2 by (intros [value Hvalue]; discriminate). reflexivity.
Qed.

(** X7: ControlRegReset never faults and touches nothing but the shadow
    cache entries 0x04..0x0F and 0x12; the reserved register ends as 0.
    Whenever the saved settings cannot be used (the driver key or the
    settings key does not open, the settings key is new, the buffer cannot be
    allocated, or the last value, MicVol, cannot be read) every mixer
    register ends at its default, whatever the other values in the registry
    were. *)
Theorem ControlRegReset_falls_back_to_defaults (plat : Platform) (w : World) :
  cache_sized w ->
  exists w',
    ControlRegReset plat w = Done tt w' /\
    only_cache w w' /\
    cached (that w') CTRL_REG_RESERVED = 0 /\
    (forall i, 0 <= i -> reset_range i = false ->
               cached (that w') i = cached (that w) i) /\
    (NT_SUCCESS (PcNewRegistryKey plat) = false \/
     NT_SUCCESS (fst (NewSubKey plat)) = false \/
     snd (NewSubKey plat) = REG_CREATED_NEW_KEY \/
     ExAllocatePool plat = false \/
     NT_SUCCESS (fst (fst (QueryValueKey plat "MicVol"))) = false ->
     forall s, s ∈ DefaultMixerSettings ->
               cached (that w') (RegisterIndex s) = RegisterSetting s).
Proof.
  intros Hsized.
  destruct (ControlRegReset_cached plat w Hsized)
    as ([] & w' & Hreset & Honly & Hreserved & Hmixer & Hframe).
  exists w'. split; [exact Hreset |]. split; [exact Honly |].
  split; [exact Hreserved |]. split; [exact Hframe |].
  intros Hunusable s Hs. rewrite (Hmixer s Hs).
  replace (saved_settings_kept plat) with false; [reflexivity |].
  symmetry. unfold saved_settings_kept, last_query.
  change (last DefaultMixerSettings)
    with (Some (mkSetting "MicVol" CTRL_REG_MIC_VOL 0x80)).
  cbn [KeyName].
  destruct Hunusable as [H | [H | [H | [H | H]]]]; rewrite ?H.
  - reflexivity.
  - apply andb_false_iff. left. apply andb_false_iff. left.
    apply andb_false_iff. left. apply andb_false_iff. right. reflexivity.
  - rewrite Z.eqb_refl. cbn [negb].
    apply andb_false_iff. left. apply andb_false_iff. left.
    apply andb_false_iff. right. reflexivity.
  - apply andb_false_iff. left. apply andb_false_iff. right. reflexivity.
  - apply andb_false_iff. right. reflexivity.
Qed.

Lemma ControlRegReset_falls_back_to_defaults_witness :
  exists w',
    ControlRegReset idle_card (adapter_in PowerDeviceD0 None None) = Done tt w' /\
    only_cache (adapter_in PowerDeviceD0 None None) w' /\
    cached (that w') CTRL_REG_RESERVED = 0 /\
    (forall i, 0 <= i -> reset_range i = false ->
               cached (that w') i
               = cached (that (adapter_in PowerDeviceD0 None None)) i) /\
    forall s, s ∈ DefaultMixerSettings ->
              cached (that w') (RegisterIndex s) = RegisterSetting s.
Proof.
  destruct (ControlRegReset_falls_back_to_defaults idle_card
              (adapter_in PowerDeviceD0 None None) eq_refl)
    as (w' & Hreset & Honly & Hreserved & Hframe & Hdefaults).
  exists w'. repeat (split; [assumption |]).
  apply Hdefaults. right. right. left. reflexivity.
Defined.

(** X8: when the settings key exists, ControlRegReset loads every mixer
    register from it: the low byte of the stored value, or the default for a
    value that is missing.  That holds as long as the last value, MicVol, is
    stored; when MicVol is missing, every register ends at its default and
    the values read from the key are lost. *)
Theorem ControlRegReset_restores_saved_settings
    (plat : Platform) (key : gmap string Z) (w : World) :
  cache_sized w ->
  exists w',
    ControlRegReset (with_settings_key plat key) w = Done tt w' /\
    (is_Some (key !! "MicVol"%string) ->
     forall s, s ∈ DefaultMixerSettings ->
               cached (that w') (RegisterIndex s)
               = match key !! KeyName s with
                 | Some value => value mod 256
                 | None => RegisterSetting s
                 end) /\
    (key !! "MicVol"%string = None ->
     forall s, s ∈ DefaultMixerSettings ->
               cached (that w') (RegisterIndex s) = RegisterSetting s).
Proof.
  intros Hsized.
  destruct (ControlRegReset_cached (with_settings_key plat key) w Hsized)
    as ([] & w' & Hreset & _ & _ & Hmixer & _).
  exists w'. split; [exact Hreset |].
  rewrite saved_settings_kept_with_settings_key in Hmixer.
  split.
  - intros Hmic s Hs. rewrite (Hmixer s Hs).
    rewrite bool_decide_eq_true_2 by exact Hmic.
    apply restored_value_with_settings_key.
  - intros Hmic s Hs. rewrite (Hmixer s Hs).
    rewrite bool_decide_eq_false_2; [reflexivity |].
    rewrite Hmic. intros [value Hvalue]. discriminate.
Qed.

Lemma ControlRegReset_restores_saved_settings_witness :
  exists w',
    ControlRegReset
      (with_settings_key idle_card
         (<["Bass"%string := 0x1F3]> (<["MicVol"%string := 0x90]> ∅)))
      (adapter_in PowerDeviceD0 None None) = Done tt w' /\
    cached (that w') CTRL_REG_BASS = 0xF3 /\
    cached (that w') CTRL_REG_MIC_VOL = 0x90 /\
    cached (that w') CTRL_REG_TREBLE = 0xF6.
Proof.
  destruct (ControlRegReset_restores_saved_settings idle_card
              (<["Bass"%string := 0x1F3]> (<["MicVol"%string := 0x90]> ∅))
              (adapter_in PowerDeviceD0 None None) eq_refl)
    as (w' & Hreset & Hstored & _).
  assert (Hmic : is_Some
            ((<["Bass"%string := 0x1F3]> (<["MicVol"%string := 0x90]> ∅) : gmap string Z)
               !! "MicVol"%string)).
  { exists 0x90. vm_compute. reflexivity. }
  exists w'. split; [exact Hreset |].
  split; [| split].
  - apply (Hstored Hmic (mkSetting "Bass" CTRL_REG_BASS 0xF6)).
    apply list_elem_of_In. vm_compute. tauto.
  - apply (Hstored Hmic (mkSetting "MicVol" CTRL_REG_MIC_VOL 0x80)).
    apply list_elem_of_In. vm_compute. tauto.
  - apply (Hstored Hmic (mkSetting "Treble" CTRL_REG_TREBLE 0xF6)).
    apply list_elem_of_In. vm_compute. tauto.
Defined.

(** ** Saving the mixer settings and loading them again *)

Lemma save_values_stored SetValueKey settings :
  NoDup (map KeyName settings) ->
  Forall (fun s => 0 <= RegisterIndex s < CTRL_REG_MAX) settings ->
  forall ntStatus key w,
    cache_sized w ->
    runs (save_values SetValueKey settings ntStatus key) w
      (fun result w' =>
         w' = w /\
         (NT_SUCCESS (fst result) = true ->
          forall s, s ∈ settings ->
                    snd result !! KeyName s = Some (cached (that w) (RegisterIndex s))) /\
         (forall name, name ∉ map KeyName settings -> snd result !! name = key !! name) /\
         ((forall name value, NT_SUCCESS (SetValueKey name value) = true) ->
          NT_SUCCESS ntStatus = true -> NT_SUCCESS (fst result) = true)).
Proof.
  induction settings as [| s settings IH]; intros Hnodup Hrange ntStatus key w Hsized;
    cbn [save_values].
  - apply runs_ret. split; [reflexivity |].
    split; [intros _ s Hs; inversion Hs |]. split; [reflexivity | auto].
  - cbn [map] in Hnodup. apply NoDup_cons in Hnodup as [Hfresh Hnodup].
    apply Forall_cons in Hrange as [Hs Hrange].
    apply runs_bind, runs_load.
    { unfold cache_sized in Hsized. rewrite Hsized. unfold CTRL_REG_MAX in *. lia. }
    destruct (NT_SUCCESS (SetValueKey (KeyName s) (cached (that w) (RegisterIndex s))))
      eqn:Hstored.
    + eapply runs_weaken; [apply (IH Hnodup Hrange _ _ w Hsized) |].
      cbv beta. intros result w' (-> & Hall & Hframe & Hgood).
      split; [reflexivity |]. split; [| split].
      * intros Hok s' Hs'. apply elem_of_cons in Hs' as [-> | Hs'].
        -- rewrite (Hframe _ Hfresh). apply lookup_insert_eq.
        -- apply Hall; assumption.
      * intros name Hout. cbn [map] in Hout.
        apply not_elem_of_cons in Hout as [Hne Hout].
        rewrite (Hframe _ Hout). apply lookup_insert_ne. congruence.
      * intros Halways _. apply Hgood; [exact Halways | exact Hstored].
    + apply runs_ret. cbn [fst snd]. split; [reflexivity |].
      split; [rewrite Hstored; discriminate |]. split; [reflexivity |].
      intros Halways _. rewrite Halways in Hstored. discriminate.
Qed.

Lemma DefaultMixerSettings_names_NoDup : NoDup (map KeyName DefaultMixerSettings).
Proof. apply (bool_decide_unpack _). vm_compute. exact I. Qed.

Lemma mixer_setting_of i :
  CTRL_MIXER_FIRST <= i <= CTRL_MIXER_LAST ->
  exists s, s ∈ DefaultMixerSettings /\ RegisterIndex s = i.
Proof.
  unfold CTRL_MIXER_FIRST, CTRL_MIXER_LAST. intros Hi.
  destruct (DefaultMixerSettings !! Z.to_nat (i - 4)) as [s |] eqn:Hlookup.
  - exists s. split; [apply list_elem_of_lookup; eexists; exact Hlookup |].
    assert (Hcases : i = 4 \/ i = 5 \/ i = 6 \/ i = 7 \/ i = 8 \/ i = 9 \/ i = 10
                     \/ i = 11 \/ i = 12 \/ i = 13 \/ i = 14 \/ i = 15) by lia.
    repeat (destruct Hcases as [-> | Hcases];
            [injection Hlookup as <-; reflexivity |]).
    subst i. injection Hlookup as <-. reflexivity.
  - apply lookup_ge_None in Hlookup. cbn [length DefaultMixerSettings] in Hlookup. lia.
Qed.

(** X9: SaveMixerSettingsToRegistry only reads the shadow cache (no port I/O,
    adapter unchanged).  When it returns a success, every mixer register
    0x04..0x0F is in the settings key, so that a later ControlRegReset over
    that key, from any cache contents, brings each of them back to the low
    byte of the value that was saved. *)
Theorem saved_mixer_settings_survive_reset
    (plat : Platform) (SetValueKey : string -> Z -> NTSTATUS)
    (key : gmap string Z) (w : World) :
  cache_sized w ->
  exists status key',
    SaveMixerSettingsToRegistry plat SetValueKey key w = Done (status, key') w /\
    (NT_SUCCESS (PcNewRegistryKey plat) = true ->
     NT_SUCCESS (fst (NewSubKey plat)) = true ->
     (forall name value, NT_SUCCESS (SetValueKey name value) = true) ->
     NT_SUCCESS status = true) /\
    (NT_SUCCESS status = true ->
     forall (plat' : Platform) (w2 : World),
       cache_sized w2 ->
       exists w',
         ControlRegReset (with_settings_key plat' key') w2 = Done tt w' /\
         forall i, CTRL_MIXER_FIRST <= i <= CTRL_MIXER_LAST ->
                   cached (that w') i = cached (that w) i mod 256).
Proof.
  intros Hsized.
  assert (Hsave : runs (SaveMixerSettingsToRegistry plat SetValueKey key) w
            (fun result w' =>
               w' = w /\
               (NT_SUCCESS (fst result) = true ->
                forall s, s ∈ DefaultMixerSettings ->
                          snd result !! KeyName s
                          = Some (cached (that w) (RegisterIndex s))) /\
               (NT_SUCCESS (PcNewRegistryKey plat) = true ->
                NT_SUCCESS (fst (NewSubKey plat)) = true ->
                (forall name value, NT_SUCCESS (SetValueKey name value) = true) ->
                NT_SUCCESS (fst result) = true))).
  { unfold SaveMixerSettingsToRegistry.
    destruct (NT_SUCCESS (PcNewRegistryKey plat)) eqn:Hdriver_key.
    - destruct (NewSubKey plat) as [ntStatus Disposition].
      destruct (NT_SUCCESS ntStatus) eqn:Hsettings_key.
      + eapply runs_weaken;
          [apply (save_values_stored SetValueKey _ DefaultMixerSettings_names_NoDup
                    DefaultMixerSettings_in_range ntStatus key w Hsized) |].
        cbv beta. intros result w' (-> & Hall & _ & Hgood).
        split; [reflexivity |]. split; [exact Hall |].
        intros _ _ Halways. apply Hgood; [exact Halways | exact Hsettings_key].
      + apply runs_ret. cbn [fst]. split; [reflexivity |].
        rewrite Hsettings_key. split; discriminate.
    - apply runs_ret. cbn [fst]. split; [reflexivity |].
      rewrite ?Hdriver_key. split; discriminate. }
  destruct Hsave as ([status key'] & w' & Hrun & -> & Hall & Hgood).
  cbn [fst snd] in Hall, Hgood.
  exists status, key'. split; [exact Hrun |]. split; [exact Hgood |].
  intros Hok plat' w2 Hsized2. specialize (Hall Hok).
  destruct (ControlRegReset_cached (with_settings_key plat' key') w2 Hsized2)
    as ([] & w3 & Hreset & _ & _ & Hmixer & _).
  exists w3. split; [exact Hreset |].
  intros i Hi. destruct (mixer_setting_of i Hi) as (s & Hs & <-).
  rewrite (Hmixer s Hs), saved_settings_kept_with_settings_key.
  rewrite bool_decide_eq_true_2.
  - rewrite restored_value_with_settings_key, (Hall s Hs). reflexivity.
  - exists (cached (that w) CTRL_REG_MIC_VOL).
    apply (Hall (mkSetting "MicVol" CTRL_REG_MIC_VOL 0x80)).
    apply list_elem_of_In. cbn. tauto.
Qed.

Lemma saved_mixer_settings_survive_reset_witness :
  exists status key',
    SaveMixerSettingsToRegistry idle_card (fun _ _ => STATUS_SUCCESS) ∅
      (adapter_in PowerDeviceD3 None None)
      = Done (status, key') (adapter_in PowerDeviceD3 None None) /\
    NT_SUCCESS status = true /\
    exists w',
      ControlRegReset (with_settings_key idle_card key')
        (mkWorld (mkAdapter true PowerDeviceD0 (replicate 25 0) 0 0 None None) [])
        = Done tt w' /\
      forall i, CTRL_MIXER_FIRST <= i <= CTRL_MIXER_LAST ->
                cached (that w') i
                = cached (that (adapter_in PowerDeviceD3 None None)) i mod 256.
Proof.
  destruct (saved_mixer_settings_survive_reset idle_card (fun _ _ => STATUS_SUCCESS) ∅
              (adapter_in PowerDeviceD3 None None) eq_refl)
    as (status & key' & Hsave & Hgood & Hreset).
  assert (Hok : NT_SUCCESS status = true).
  { apply Hgood; reflexivity. }
  exists status, key'. split; [exact Hsave |]. split; [exact Hok |].
  apply (Hreset Hok idle_card
           (mkWorld (mkAdapter true PowerDeviceD0 (replicate 25 0) 0 0 None None) [])
           eq_refl).
Defined.

(** ** What a successful Init establishes *)

Lemma cached_fresh_cache idByte i :
  0 < i ->
  default 0 (<[Z.to_nat CTRL_REG_CONTROL_ID := idByte]>
               (replicate (Z.to_nat CTRL_REG_MAX) 0) !! Z.to_nat i) = 0.
Proof.
  intros Hi. rewrite list_lookup_insert_ne by (unfold CTRL_REG_CONTROL_ID; lia).
  destruct (replicate (Z.to_nat CTRL_REG_MAX) 0 !! Z.to_nat i) as [value |] eqn:Hlookup;
    [| reflexivity].
  apply lookup_replicate in Hlookup as [-> _]. reflexivity.
Qed.

(** X10: Init returns for every resource list, card and prior contents of
    the object (it never indexes outside the cache).  When it returns a
    success, the adapter is in D0 with no miniport registered, the interrupt
    object is the one PcNewInterruptSync gave, the card model is one of the
    three known ones and is the low nibble of the identity byte, which is
    also cache entry 0; every cache entry outside 0, 0x04..0x0F is 0; and
    the I/O done leaves the OPL3 bank selected. *)
Theorem Init_success_state
    (plat : Platform) (ResourceList : RESOURCELIST) (w : World) :
  exists status w',
    Init plat ResourceList w = Done status w' /\
    (NT_SUCCESS status = true ->
     cache_sized w' /\
     m_PowerState (that w') = PowerDeviceD0 /\
     m_pWaveMiniport (that w') = None /\
     m_pMidiMiniport (that w') = None /\
     m_pInterruptSync (that w') = snd (PcNewInterruptSync plat) /\
     recognized_model (m_CardModel (that w')) = true /\
     m_CardModel (that w') = Z.land (m_CardOptions (that w')) CTRL_ID_MODEL_MASK /\
     cached (that w') CTRL_REG_CONTROL_ID = m_CardOptions (that w') /\
     (forall i, 0 < i ->
                (CTRL_MIXER_FIRST <=? i) && (i <=? CTRL_MIXER_LAST) = false ->
                cached (that w') i = 0) /\
     exists added, trace w' = trace w ++ added /\ rests_in_OPL3 added).
Proof.
  unfold Init.
  destruct ((NumberOfPorts ResourceList <? 1) || (NumberOfInterrupts ResourceList <? 1)).
  { eexists _, _. split; [reflexivity |]. intros Hok. vm_compute in Hok. discriminate. }
  apply runs_bind, runs_modify, runs_bind, runs_modify, runs_bind, runs_modify,
    runs_bind, runs_modify, runs_bind, runs_emit, runs_bind.
  cbn [that trace].
  eapply runs_weaken; [apply WaitForReady_runs |].
  cbv beta. cbn [that trace]. intros ready w1 (Hthat1 & polled & Htrace1 & Hpoll & _).
  destruct ready.
  2: { change (NT_SUCCESS STATUS_DEVICE_DOES_NOT_EXIST) with false. cbv iota.
       apply runs_bind, runs_ret, runs_bind, runs_ret, runs_bind, runs_ret, runs_ret.
       discriminate. }
  change (NT_SUCCESS STATUS_SUCCESS) with true. cbv iota.
  assert (Hsized1 : cache_sized w1).
  { unfold cache_sized. rewrite Hthat1. reflexivity. }
  apply runs_bind.
  eapply runs_weaken; [apply Init_detect_card_frame, Hsized1 |].
  cbv beta. intros status w2 (idByte & -> & Hthat2 & Htrace2).
  destruct (recognized_model (Z.land idByte CTRL_ID_MODEL_MASK)) eqn:Hmodel.
  2: { change (NT_SUCCESS STATUS_DEVICE_DOES_NOT_EXIST) with false. cbv iota.
       apply runs_bind, runs_ret, runs_bind, runs_ret, runs_ret.
       discriminate. }
  change (NT_SUCCESS STATUS_SUCCESS) with true. cbv iota.
  apply runs_bind.
  eapply runs_weaken; [apply Init_interrupt_sync_frame |].
  cbv beta. intros status w3 (Hthat3 & Htrace3 & Hsync3).
  destruct (NT_SUCCESS status) eqn:Hok.
  2: { apply runs_bind, runs_ret, runs_ret. congruence. }
  cbn [when]. apply runs_bind.
  assert (Hregs3 : m_ControlRegs (that w3)
                   = <[Z.to_nat CTRL_REG_CONTROL_ID := idByte]>
                       (replicate (Z.to_nat CTRL_REG_MAX) 0)).
  { rewrite Hthat3, Hthat2, Hthat1. reflexivity. }
  assert (Hsized3 : cache_sized w3).
  { unfold cache_sized. rewrite Hregs3, length_insert. reflexivity. }
  eapply runs_weaken;
    [apply runs_both;
     [apply (ControlRegReset_rests plat w3 Hsized3)
     | apply (ControlRegReset_cached plat w3 Hsized3)] |].
  cbv beta.
  intros _ w4 [[[Hthat4 Hsized4] (reset & Htrace4 & Hrests)]
                 (_ & Hzero & _ & Hframe)].
  apply runs_ret. intros _.
  assert (Hthat : that w4
                  = set_ControlRegs (m_ControlRegs (that w4))
                      (set_InterruptSync (m_pInterruptSync (that w3))
                         (set_CardIdentity (Z.land idByte CTRL_ID_MODEL_MASK) idByte
                            (set_ControlRegs (replicate (Z.to_nat CTRL_REG_MAX) 0)
                               (set_PowerState PowerDeviceD0
                                  (set_InterruptSync false
                                     (set_Miniports None None (that w)))))))).
  { rewrite Hthat4 at 1. rewrite Hthat3 at 1. rewrite Hthat2, Hthat1. reflexivity. }
  split; [exact Hsized4 |].
  split; [rewrite Hthat; reflexivity |].
  split; [rewrite Hthat; reflexivity |].
  split; [rewrite Hthat; reflexivity |].
  split; [rewrite Hthat; cbn; apply Hsync3; reflexivity |].
  split; [rewrite Hthat; exact Hmodel |].
  split; [rewrite Hthat; reflexivity |].
  split; [| split].
  - rewrite (Hframe CTRL_REG_CONTROL_ID ltac:(discriminate) eq_refl).
    unfold cached. rewrite Hregs3. rewrite Hthat. reflexivity.
  - intros i Hi Hmixer.
    destruct (Z.eq_dec i CTRL_REG_RESERVED) as [-> | Hreserved]; [exact Hzero |].
    rewrite Hframe.
    + unfold cached. rewrite Hregs3. apply cached_fresh_cache, Hi.
    + lia.
    + unfold reset_range. rewrite Hmixer. apply Z.eqb_neq in Hreserved.
      rewrite Hreserved. reflexivity.
  - exists ([PortWrite ALG_REG_FM1_ADDR ALG_BANK_CONTROL] ++ polled
            ++ [ PortWrite ALG_REG_FM1_ADDR CTRL_REG_CONTROL_ID;
                 PortRead ALG_REG_FM1_DATA idByte;
                 PortWrite ALG_REG_FM1_ADDR ALG_BANK_OPL3 ] ++ reset).
    split.
    + rewrite Htrace4, Htrace3, Htrace2, Htrace1, <- !app_assoc. reflexivity.
    + rewrite !app_assoc. apply rests_in_OPL3_app; [| exact Hrests].
      rewrite <- !app_assoc.
      change [ PortWrite ALG_REG_FM1_ADDR CTRL_REG_CONTROL_ID;
               PortRead ALG_REG_FM1_DATA idByte;
               PortWrite ALG_REG_FM1_ADDR ALG_BANK_OPL3 ]
        with ([ PortWrite ALG_REG_FM1_ADDR CTRL_REG_CONTROL_ID;
                PortRead ALG_REG_FM1_DATA idByte ]
              ++ [PortWrite ALG_REG_FM1_ADDR ALG_BANK_OPL3]).
      rewrite !app_assoc. apply rests_in_OPL3_restored.
Qed.

Lemma Init_success_state_witness :
  exists status w',
    Init idle_card (mkResources 1 1) (adapter_in PowerDeviceD3 (Some 1%nat) None)
      = Done status w' /\
    NT_SUCCESS status = true /\
    cache_sized w' /\
    m_PowerState (that w') = PowerDeviceD0 /\
    m_pWaveMiniport (that w') = None /\
    m_pMidiMiniport (that w') = None /\
    m_pInterruptSync (that w') = true /\
    recognized_model (m_CardModel (that w')) = true /\
    m_CardModel (that w') = Z.land (m_CardOptions (that w')) CTRL_ID_MODEL_MASK /\
    cached (that w') CTRL_REG_CONTROL_ID = m_CardOptions (that w') /\
    (forall i, 0 < i ->
               (CTRL_MIXER_FIRST <=? i) && (i <=? CTRL_MIXER_LAST) = false ->
               cached (that w') i = 0) /\
    exists added, trace w' = [] ++ added /\ rests_in_OPL3 added.
Proof.
  destruct (Init_success_state idle_card (mkResources 1 1)
              (adapter_in PowerDeviceD3 (Some 1%nat) None))
    as (status & w' & Hinit & Hpost).
  assert (Hok : NT_SUCCESS status = true).
  { vm_compute in Hinit. injection Hinit as <- _. reflexivity. }
  exists status, w'. split; [exact Hinit |]. split; [exact Hok |].
  exact (Hpost Hok).
Defined.

(** ** The topology miniport: volume levels *)

Lemma ControlRegWrite_stores plat r v w :
  0 <= r < CTRL_REG_MAX -> cache_sized w ->
  runs (ControlRegWrite plat r v) w
    (fun _ w' =>
       only_cache w w' /\ cached (that w') r = v /\
       (forall i, 0 <= i -> i <> r -> cached (that w') i = cached (that w) i) /\
       (operative (m_PowerState (that w)) = false -> trace w' = trace w)).
Proof.
  intros Hr Hsized.
  eapply runs_weaken;
    [apply runs_both;
     [apply (ControlRegWrite_cached plat r v w Hr Hsized)
     | apply (ControlRegWrite_runs plat r v w (proj1 Hr) (fun _ => Hsized))] |].
  cbv beta. intros _ w' [(Honly & Hval & Hframe) (_ & added & Htrace & Hadded)].
  split; [exact Honly |]. split; [exact Hval |]. split; [exact Hframe |].
  intros Hoff. rewrite Hoff in Hadded. subst added. rewrite Htrace. apply app_nil_r.
Qed.

Lemma only_cache_power w w' :
  only_cache w w' -> m_PowerState (that w') = m_PowerState (that w).
Proof. intros [Hthat _]. rewrite Hthat. reflexivity. Qed.

Lemma ControlRegRead_cached r w :
  0 <= r < CTRL_REG_MAX -> cache_sized w ->
  ControlRegRead r w = Done (cached (that w) r) w.
Proof.
  intros [Hr0 Hr] Hsized.
  destruct (ControlRegRead_runs r w Hr0 (fun _ => Hsized))
    as (value & w' & Hread & -> & ->).
  apply Z.ltb_lt in Hr. rewrite Hr in Hread. exact Hread.
Qed.

Lemma NodeRegMap_registers n map :
  NodeRegMap !! n = Some map ->
  0 <= RegLeft map < CTRL_REG_MAX /\ 0 <= RegRight map < CTRL_REG_MAX /\
  RegLeft map <> RegRight map /\
  0x80 <= MinVal map <= MaxVal map /\ MaxVal map = 0xFF.
Proof.
  intros Hlookup.
  do 5 (destruct n as [| n];
        [injection Hlookup as <-; vm_compute; repeat split; congruence |]).
  discriminate.
Qed.

Lemma NodeRegMap_lookup n :
  0 <= n < SIZEOF_NodeRegMap -> exists map, NodeRegMap !! Z.to_nat n = Some map.
Proof.
  intros Hn. apply lookup_lt_is_Some_2.
  unfold SIZEOF_NodeRegMap in Hn. lia.
Qed.

(** X11: a level written through PropertyHandler_Level is the level read
    back.  A SET on a volume node (0..4) with a buffer of at least a LONG
    succeeds; the value stored is the low byte of the requested LONG brought
    into the node's range, so it is between 0x80 and 0xFF (from 0xC0 for the
    master node).  A GET for the same channel then returns it, and when the
    SET was for neither the left nor the right channel a GET for any channel
    returns it.  With the adapter powered down the SET does no port I/O. *)
Theorem PropertyHandler_Level_set_then_get
    (plat : Platform) (ks : KS) (setRequest getRequest : PCPROPERTY_REQUEST)
    (w : World) :
  cache_sized w ->
  0 <= Node setRequest < SIZEOF_NodeRegMap ->
  sizeof_LONG <= ValueSize setRequest ->
  is_SET ks setRequest ->
  is_GET ks getRequest ->
  Node getRequest = Node setRequest ->
  sizeof_LONG <= ValueSize getRequest ->
  exists w1 map level,
    NodeRegMap !! Z.to_nat (Node setRequest) = Some map /\
    PropertyHandler_Level plat ks setRequest w = Done (STATUS_SUCCESS, setRequest) w1 /\
    only_cache w w1 /\
    (operative (m_PowerState (that w)) = false -> trace w1 = trace w) /\
    level = Z.min (MaxVal map)
                  (Z.max (MinVal map) (LONG_of (Value setRequest) mod 256)) /\
    0x80 <= MinVal map <= level /\ level <= 0xFF /\
    (channel_of getRequest = channel_of setRequest ->
     PropertyHandler_Level plat ks getRequest w1
     = Done (STATUS_SUCCESS, reply_LONG level getRequest) w1) /\
    (channel_of setRequest <> CHAN_LEFT -> channel_of setRequest <> CHAN_RIGHT ->
     PropertyHandler_Level plat ks getRequest w1
     = Done (STATUS_SUCCESS, reply_LONG level getRequest) w1).
Proof.
  intros Hsized Hnode Hsize [Hnot_get Hset] Hget Hsame_node Hsize_get.
  destruct (NodeRegMap_lookup _ Hnode) as [map Hmap].
  destruct (NodeRegMap_registers _ _ Hmap)
    as (Hleft & Hright & Hdistinct & Hrange & Hmax).
  set (requested := LONG_of (Value setRequest) mod 256).
  set (level := Z.min (MaxVal map) (Z.max (MinVal map) requested)).
  assert (Hlevel : (if MaxVal map <? (if requested <? MinVal map
                                       then MinVal map else requested)
                    then MaxVal map
                    else if requested <? MinVal map then MinVal map else requested)
                   = level).
  { unfold level.
    destruct (requested <? MinVal map) eqn:Hlow;
      [apply Z.ltb_lt in Hlow | apply Z.ltb_ge in Hlow];
      match goal with |- context [?a <? ?b] => destruct (a <? b) eqn:Hhigh end;
      [apply Z.ltb_lt in Hhigh | apply Z.ltb_ge in Hhigh
       | apply Z.ltb_lt in Hhigh | apply Z.ltb_ge in Hhigh]; lia. }
  assert (Hwrites : runs
            (if (channel_of setRequest =? CHAN_RIGHT) && negb (RegRight map =? 0)
             then ControlRegWrite plat (RegRight map) level
             else if (channel_of setRequest =? CHAN_LEFT) || (RegRight map =? 0)
             then ControlRegWrite plat (RegLeft map) level
             else
               ControlRegWrite plat (RegLeft map) level >>
               when (negb (RegRight map =? 0))
                 (ControlRegWrite plat (RegRight map) level)) w
            (fun _ w1 =>
               only_cache w w1 /\
               (operative (m_PowerState (that w)) = false -> trace w1 = trace w) /\
               (forall channel,
                   channel = channel_of setRequest \/
                   (channel_of setRequest <> CHAN_LEFT /\
                    channel_of setRequest <> CHAN_RIGHT) ->
                   cached (that w1)
                     (if (channel =? CHAN_RIGHT) && negb (RegRight map =? 0)
                      then RegRight map else RegLeft map) = level))).
  { destruct (channel_of setRequest =? CHAN_RIGHT) eqn:Hchan_right;
      [destruct (RegRight map =? 0) eqn:Hmono |]; cbn [andb negb].
    - (* right channel of a mono node: the one register *)
      rewrite orb_true_r.
      eapply runs_weaken; [apply ControlRegWrite_stores; assumption |].
      cbv beta. intros _ w1 (Honly & Hval & _ & Hquiet).
      split; [exact Honly |]. split; [exact Hquiet |].
      intros channel _. rewrite andb_false_r. exact Hval.
    - eapply runs_weaken; [apply ControlRegWrite_stores; assumption |].
      cbv beta. intros _ w1 (Honly & Hval & _ & Hquiet).
      split; [exact Honly |]. split; [exact Hquiet |].
      apply Z.eqb_eq in Hchan_right.
      intros channel [-> | [_ Hnot_right]]; [| contradiction].
      rewrite Hchan_right. exact Hval.
    - apply Z.eqb_neq in Hchan_right.
      destruct (channel_of setRequest =? CHAN_LEFT) eqn:Hchan_left;
        [| destruct (RegRight map =? 0) eqn:Hmono]; cbn [orb negb].
      + eapply runs_weaken; [apply ControlRegWrite_stores; assumption |].
        cbv beta. intros _ w1 (Honly & Hval & _ & Hquiet).
        split; [exact Honly |]. split; [exact Hquiet |].
        apply Z.eqb_eq in Hchan_left.
        intros channel [-> | [Hnot_left _]]; [| contradiction].
        rewrite Hchan_left. exact Hval.
      + eapply runs_weaken; [apply ControlRegWrite_stores; assumption |].
        cbv beta. intros _ w1 (Honly & Hval & _ & Hquiet).
        split; [exact Honly |]. split; [exact Hquiet |].
        intros channel _. rewrite andb_false_r. exact Hval.
      + apply runs_bind.
        eapply runs_weaken; [apply ControlRegWrite_stores; assumption |].
        cbv beta. intros _ w1 (Honly1 & Hval1 & _ & Hquiet1).
        cbn [when].
        eapply runs_weaken; [apply ControlRegWrite_stores; [assumption | apply Honly1] |].
        cbv beta. intros _ w2 (Honly2 & Hval2 & Hframe2 & Hquiet2).
        split; [exact (only_cache_trans _ _ _ Honly1 Honly2) |].
        split.
        * intros Hoff. rewrite Hquiet2; [apply Hquiet1, Hoff |].
          rewrite (only_cache_power _ _ Honly1). exact Hoff.
        * intros channel _. rewrite andb_true_r.
          destruct (channel =? CHAN_RIGHT); [exact Hval2 |].
          rewrite Hframe2; [exact Hval1 | lia | exact Hdistinct]. }
  assert (Hnot_sentinel : (Node setRequest =? ULONG_MINUS_1) = false).
  { apply Z.eqb_neq. unfold SIZEOF_NodeRegMap, ULONG_MINUS_1 in *. cbn in Hnode. lia. }
  assert (Hin_table : (SIZEOF_NodeRegMap <=? Node setRequest) = false).
  { apply Z.leb_gt. lia. }
  assert (Hrun : runs (PropertyHandler_Level plat ks setRequest) w
            (fun result w1 =>
               result = (STATUS_SUCCESS, setRequest) /\
               only_cache w w1 /\
               (operative (m_PowerState (that w)) = false -> trace w1 = trace w) /\
               (forall channel,
                   channel = channel_of setRequest \/
                   (channel_of setRequest <> CHAN_LEFT /\
                    channel_of setRequest <> CHAN_RIGHT) ->
                   cached (that w1)
                     (if (channel =? CHAN_RIGHT) && negb (RegRight map =? 0)
                      then RegRight map else RegLeft map) = level))).
  { unfold PropertyHandler_Level.
    rewrite Hnot_sentinel, Hin_table.
    replace (ValueSize setRequest <? sizeof_LONG) with false
      by (symmetry; apply Z.ltb_ge; lia).
    rewrite Hmap, Hnot_get, Hset.
    fold (channel_of setRequest). fold requested. rewrite Hlevel.
    apply runs_bind.
    eapply runs_weaken; [exact Hwrites |].
    cbv beta. intros _ w1 Hpost. apply runs_ret. split; [reflexivity | exact Hpost]. }
  destruct Hrun as (result & w1 & Hdone & -> & Honly & Hquiet & Hstored).
  assert (Hread : forall channel,
             channel = channel_of setRequest \/
             (channel_of setRequest <> CHAN_LEFT /\ channel_of setRequest <> CHAN_RIGHT) ->
             channel_of getRequest = channel ->
             PropertyHandler_Level plat ks getRequest w1
             = Done (STATUS_SUCCESS, reply_LONG level getRequest) w1).
  { intros channel Hchannel Hget_channel.
    unfold PropertyHandler_Level.
    rewrite Hsame_node, Hnot_sentinel, Hin_table.
    replace (ValueSize getRequest <? sizeof_LONG) with false
      by (symmetry; apply Z.ltb_ge; lia).
    rewrite Hmap. unfold is_GET in Hget. rewrite Hget.
    fold (channel_of getRequest). rewrite Hget_channel.
    unfold bind.
    rewrite ControlRegRead_cached; [| | apply Honly].
    - rewrite (Hstored channel Hchannel). reflexivity.
    - destruct ((channel =? CHAN_RIGHT) && negb (RegRight map =? 0)); assumption. }
  exists w1, map, level.
  split; [exact Hmap |]. split; [exact Hdone |]. split; [exact Honly |].
  split; [exact Hquiet |]. split; [reflexivity |].
  split; [unfold level; lia |]. split; [unfold level; lia |].
  split.
  - intros Hsame. apply (Hread (channel_of setRequest)); [left; reflexivity | exact Hsame].
  - intros Hnot_left Hnot_right.
    apply (Hread (channel_of getRequest)); [right; split; assumption | reflexivity].
Qed.

Lemma PropertyHandler_Level_set_then_get_witness :
  exists w1 level,
    PropertyHandler_Level idle_card ks_sample
      (mkRequest NODE_MASTER_VOLUME 4 0x2 0 0 4 (Value_LONG 0x1A0))
      (adapter_in PowerDeviceD3 None None)
    = Done (STATUS_SUCCESS,
            mkRequest NODE_MASTER_VOLUME 4 0x2 0 0 4 (Value_LONG 0x1A0)) w1 /\
    trace w1 = [] /\
    level = 0xC0 /\
    PropertyHandler_Level idle_card ks_sample
      (mkRequest NODE_MASTER_VOLUME 4 0x1 4 CHAN_RIGHT 4 (Value_LONG 0)) w1
    = Done (STATUS_SUCCESS,
            mkRequest NODE_MASTER_VOLUME 4 0x1 4 CHAN_RIGHT 4 (Value_LONG level)) w1.
Proof.
  destruct (PropertyHandler_Level_set_then_get idle_card ks_sample
              (mkRequest NODE_MASTER_VOLUME 4 0x2 0 0 4 (Value_LONG 0x1A0))
              (mkRequest NODE_MASTER_VOLUME 4 0x1 4 CHAN_RIGHT 4 (Value_LONG 0))
              (adapter_in PowerDeviceD3 None None))
    as (w1 & map & level & Hmap & Hset & _ & Hquiet & Hlevel & _ & _ & _ & Hget);
    try reflexivity; try (split; reflexivity);
    try (unfold SIZEOF_NodeRegMap, NODE_MASTER_VOLUME, sizeof_LONG; cbn; lia).
  injection Hmap as <-.
  exists w1, level. split; [exact Hset |]. split; [apply Hquiet; reflexivity |].
  split; [exact Hlevel |].
  apply Hget; discriminate.
Defined.

(** ** The topology miniport: bass and treble *)

Lemma clamp_LONG_spec lo hi x :
  lo <= hi -> clamp_LONG lo hi x = Z.min hi (Z.max lo x).
Proof.
  intros Hle. unfold clamp_LONG.
  destruct (x <? lo) eqn:Hlow; [apply Z.ltb_lt in Hlow | apply Z.ltb_ge in Hlow];
    match goal with |- context [?a <? ?b] => destruct (a <? b) eqn:Hhigh end;
    [apply Z.ltb_lt in Hhigh | apply Z.ltb_ge in Hhigh
     | apply Z.ltb_lt in Hhigh | apply Z.ltb_ge in Hhigh]; lia.
Qed.

(** The register encoding of a tone setting, for every dB value the clamp
    lets through: the nibble clamp never acts, the forced bits and the nibble
    do not overlap, and decoding gives the dB value truncated to a multiple
    of three. *)
Lemma tone_encoding dBMax dB :
  dBMax = 15 \/ dBMax = 12 -> -12 <= dB <= dBMax ->
  let regVal := Z.lor CTRL_TONE_FORCED_BITS
                  (Z.land (clamp_LONG 0 0xF (Z.quot dB 3 + 6)) CTRL_TONE_MASK mod 256) in
  regVal = 0xF0 + (Z.quot dB 3 + 6) /\
  clamp_LONG (-12) dBMax ((Z.land regVal CTRL_TONE_MASK - 6) * 3) = 3 * Z.quot dB 3.
Proof.
  intros HdBMax Hrange.
  assert (Hall : forallb
            (fun dB =>
               let regVal := Z.lor CTRL_TONE_FORCED_BITS
                               (Z.land (clamp_LONG 0 0xF (Z.quot dB 3 + 6))
                                       CTRL_TONE_MASK mod 256) in
               (regVal =? 0xF0 + (Z.quot dB 3 + 6))
               && ((clamp_LONG (-12) 15 ((Z.land regVal CTRL_TONE_MASK - 6) * 3)
                    =? 3 * Z.quot dB 3))
               && ((12 <? dB)
                   || (clamp_LONG (-12) 12 ((Z.land regVal CTRL_TONE_MASK - 6) * 3)
                       =? 3 * Z.quot dB 3)))
            (seqZ (-12) 28) = true) by (vm_compute; reflexivity).
  rewrite forallb_forall in Hall.
  specialize (Hall dB). cbv zeta in Hall |- *.
  assert (Hin : In dB (seqZ (-12) 28)).
  { apply list_elem_of_In, elem_of_seqZ. lia. }
  specialize (Hall Hin).
  apply andb_prop in Hall as [Hall Htreble].
  apply andb_prop in Hall as [Hreg Hbass].
  apply Z.eqb_eq in Hreg, Hbass.
  split; [exact Hreg |].
  destruct HdBMax as [-> | ->]; [exact Hbass |].
  apply orb_prop in Htreble as [Hhigh | Hok];
    [apply Z.ltb_lt in Hhigh; lia | apply Z.eqb_eq in Hok; exact Hok].
Qed.

(** X12: bass and treble written through PropertyHandler_Tone.  A SET on the
    bass node (range -12..15 dB) or the treble node (-12..12 dB) takes the
    dB value from the upper 16 bits of the LONG, brings it into the range,
    and stores 0xF0 + dB/3 + 6 (division truncating towards zero): the forced
    bits D7..D4 are set and the nibble is between 2 and 11.  A following GET
    returns that setting as a multiple of 3 dB in 1/65536 dB units, less than
    3 dB from the value that was asked for (after the clamp) and never
    further from 0 dB than it. *)
Theorem PropertyHandler_Tone_set_then_get
    (plat : Platform) (ks : KS) (setRequest getRequest : PCPROPERTY_REQUEST)
    (reg dBMax : Z) (w : World) :
  cache_sized w ->
  (Node setRequest = NODE_BASS /\
   PropertyItem_Id setRequest = KSPROPERTY_AUDIO_BASS ks /\
   reg = CTRL_REG_BASS /\ dBMax = 15) \/
  (Node setRequest = NODE_TREBLE /\
   PropertyItem_Id setRequest = KSPROPERTY_AUDIO_TREBLE ks /\
   reg = CTRL_REG_TREBLE /\ dBMax = 12) ->
  sizeof_LONG <= ValueSize setRequest ->
  is_SET ks setRequest ->
  is_GET ks getRequest ->
  Node getRequest = Node setRequest ->
  PropertyItem_Id getRequest = PropertyItem_Id setRequest ->
  sizeof_LONG <= ValueSize getRequest ->
  exists w1 dB,
    dB = Z.min dBMax (Z.max (-12) (Z.shiftr (LONG_of (Value setRequest)) 16)) /\
    PropertyHandler_Tone plat ks setRequest w = Done (STATUS_SUCCESS, setRequest) w1 /\
    only_cache w w1 /\
    cached (that w1) reg = 0xF0 + (Z.quot dB 3 + 6) /\
    0xF2 <= cached (that w1) reg <= 0xFB /\
    PropertyHandler_Tone plat ks getRequest w1
    = Done (STATUS_SUCCESS, reply_LONG (3 * Z.quot dB 3 * 65536) getRequest) w1 /\
    -12 <= 3 * Z.quot dB 3 <= dBMax /\
    Z.abs (3 * Z.quot dB 3) <= Z.abs dB < Z.abs (3 * Z.quot dB 3) + 3.
Proof.
  intros Hsized Hnode Hsize [Hnot_get Hset] Hget Hsame_node Hsame_id Hsize_get.
  set (dB := Z.min dBMax (Z.max (-12) (Z.shiftr (LONG_of (Value setRequest)) 16))).
  assert (HdBMax : dBMax = 15 \/ dBMax = 12).
  { destruct Hnode as [(_ & _ & _ & ->) | (_ & _ & _ & ->)]; [left | right]; reflexivity. }
  assert (Hrange : -12 <= dB <= dBMax) by (unfold dB; lia).
  destruct (tone_encoding dBMax dB HdBMax Hrange) as [Hreg Hdecode].
  assert (Hreg_range : 0 <= reg < CTRL_REG_MAX).
  { destruct Hnode as [(_ & _ & -> & _) | (_ & _ & -> & _)];
      unfold CTRL_REG_BASS, CTRL_REG_TREBLE, CTRL_REG_MAX; lia. }
  assert (Hparameters : forall r,
             Node r = Node setRequest ->
             PropertyItem_Id r = PropertyItem_Id setRequest ->
             (Node r =? ULONG_MINUS_1) = false /\
             (if (Node r =? NODE_BASS) && (PropertyItem_Id r =? KSPROPERTY_AUDIO_BASS ks)
              then Some (CTRL_REG_BASS, -12, 15)
              else if (Node r =? NODE_TREBLE)
                      && (PropertyItem_Id r =? KSPROPERTY_AUDIO_TREBLE ks)
              then Some (CTRL_REG_TREBLE, -12, 12)
              else None) = Some (reg, -12, dBMax)).
  { intros r -> ->.
    destruct Hnode as [(-> & -> & -> & ->) | (-> & -> & -> & ->)].
    - rewrite !Z.eqb_refl. split; reflexivity.
    - change (NODE_TREBLE =? NODE_BASS) with false.
      rewrite !Z.eqb_refl. split; reflexivity. }
  destruct (Hparameters setRequest eq_refl eq_refl) as [Hset_node Hset_parameters].
  destruct (Hparameters getRequest Hsame_node Hsame_id) as [Hget_node Hget_parameters].
  assert (Hrun : runs (PropertyHandler_Tone plat ks setRequest) w
            (fun result w1 =>
               result = (STATUS_SUCCESS, setRequest) /\
               only_cache w w1 /\
               cached (that w1) reg = 0xF0 + (Z.quot dB 3 + 6))).
  { unfold PropertyHandler_Tone.
    rewrite Hset_node, Hset_parameters, Hnot_get, Hset.
    replace (ValueSize setRequest <? sizeof_LONG) with false
      by (symmetry; apply Z.ltb_ge; lia).
    rewrite (clamp_LONG_spec (-12) dBMax) by lia. fold dB.
    cbv zeta in Hreg. rewrite Hreg.
    apply runs_bind.
    eapply runs_weaken; [apply ControlRegWrite_stores; assumption |].
    cbv beta. intros _ w1 (Honly & Hval & _). apply runs_ret.
    split; [reflexivity |]. split; assumption. }
  destruct Hrun as (result & w1 & Hdone & -> & Honly & Hstored).
  exists w1, dB. split; [reflexivity |]. split; [exact Hdone |].
  split; [exact Honly |]. split; [exact Hstored |].
  assert (Hquot : -4 <= Z.quot dB 3 <= 5).
  { split; [apply Z.quot_le_lower_bound | apply Z.quot_le_upper_bound]; lia. }
  split; [rewrite Hstored; lia |].
  split.
  - unfold PropertyHandler_Tone.
    rewrite Hget_node, Hget_parameters. unfold is_GET in Hget. rewrite Hget.
    replace (ValueSize getRequest <? sizeof_LONG) with false
      by (symmetry; apply Z.ltb_ge; lia).
    unfold bind. rewrite ControlRegRead_cached; [| assumption | apply Honly].
    rewrite Hstored. cbv zeta in Hreg, Hdecode. rewrite <- Hreg, Hdecode.
    rewrite Z.shiftl_mul_pow2 by lia. reflexivity.
  - pose proof (Z.quot_rem dB 3 ltac:(lia)) as Hsplit.
    pose proof (Z.rem_bound_pos dB 3) as Hpos.
    pose proof (Z.rem_bound_pos_neg dB 3) as Hneg.
    destruct (Z_le_gt_dec 0 dB) as [Hsign | Hsign].
    + specialize (Hpos Hsign ltac:(lia)).
      assert (0 <= Z.quot dB 3) by (apply Z.quot_pos; lia).
      destruct HdBMax as [-> | ->]; lia.
    + assert (Z.quot dB 3 <= 0) by (apply Z.quot_le_upper_bound; lia).
      specialize (Hneg ltac:(lia) ltac:(lia)).
      destruct HdBMax as [-> | ->]; lia.
Qed.

Lemma PropertyHandler_Tone_set_then_get_witness :
  exists w1,
    PropertyHandler_Tone idle_card ks_sample
      (mkRequest NODE_BASS 14 0x2 0 0 4 (Value_LONG (-5 * 65536)))
      (adapter_in PowerDeviceD0 None None)
    = Done (STATUS_SUCCESS,
            mkRequest NODE_BASS 14 0x2 0 0 4 (Value_LONG (-5 * 65536))) w1 /\
    cached (that w1) CTRL_REG_BASS = 0xF5 /\
    PropertyHandler_Tone idle_card ks_sample
      (mkRequest NODE_BASS 14 0x1 0 0 4 (Value_LONG 0)) w1
    = Done (STATUS_SUCCESS,
            mkRequest NODE_BASS 14 0x1 0 0 4 (Value_LONG (-3 * 65536))) w1.
Proof.
  destruct (PropertyHandler_Tone_set_then_get idle_card ks_sample
              (mkRequest NODE_BASS 14 0x2 0 0 4 (Value_LONG (-5 * 65536)))
              (mkRequest NODE_BASS 14 0x1 0 0 4 (Value_LONG 0))
              CTRL_REG_BASS 15 (adapter_in PowerDeviceD0 None None))
    as (w1 & dB & HdB & Hset & _ & Hstored & _ & Hget & _);
    try reflexivity; try (split; reflexivity);
    try (unfold sizeof_LONG; cbn; lia).
  subst dB. exists w1. split; [exact Hset |]. split; [exact Hstored | exact Hget].
Defined.

(** ** The topology miniport: mute *)

Lemma mute_bit_update mode :
  0 <= mode < 256 ->
  let muted := Z.lor (Z.lor mode CTRL_MODE_MUTE mod 256) CTRL_MODE_FORCED_BITS mod 256 in
  let unmuted := Z.lor (Z.land mode (Z.lnot CTRL_MODE_MUTE) mod 256)
                       CTRL_MODE_FORCED_BITS mod 256 in
  (Z.land muted CTRL_MODE_MUTE = CTRL_MODE_MUTE /\
   Z.land muted CTRL_MODE_FORCED_BITS = CTRL_MODE_FORCED_BITS /\
   Z.land muted 0x1F = Z.land mode 0x1F /\
   muted = Z.lor (Z.lor mode CTRL_MODE_MUTE) CTRL_MODE_FORCED_BITS) /\
  (Z.land unmuted CTRL_MODE_MUTE = 0 /\
   Z.land unmuted CTRL_MODE_FORCED_BITS = CTRL_MODE_FORCED_BITS /\
   Z.land unmuted 0x1F = Z.land mode 0x1F /\
   unmuted = Z.lor (Z.land mode (Z.lnot CTRL_MODE_MUTE)) CTRL_MODE_FORCED_BITS).
Proof.
  intros Hbyte.
  assert (Hall : forallb
            (fun mode =>
               let muted := Z.lor (Z.lor mode CTRL_MODE_MUTE mod 256)
                                  CTRL_MODE_FORCED_BITS mod 256 in
               let unmuted := Z.lor (Z.land mode (Z.lnot CTRL_MODE_MUTE) mod 256)
                                    CTRL_MODE_FORCED_BITS mod 256 in
               (Z.land muted CTRL_MODE_MUTE =? CTRL_MODE_MUTE)
               && (Z.land muted CTRL_MODE_FORCED_BITS =? CTRL_MODE_FORCED_BITS)
               && (Z.land muted 0x1F =? Z.land mode 0x1F)
               && (muted =? Z.lor (Z.lor mode CTRL_MODE_MUTE) CTRL_MODE_FORCED_BITS)
               && (Z.land unmuted CTRL_MODE_MUTE =? 0)
               && (Z.land unmuted CTRL_MODE_FORCED_BITS =? CTRL_MODE_FORCED_BITS)
               && (Z.land unmuted 0x1F =? Z.land mode 0x1F)
               && (unmuted =? Z.lor (Z.land mode (Z.lnot CTRL_MODE_MUTE))
                                    CTRL_MODE_FORCED_BITS))
            (seqZ 0 256) = true) by (vm_compute; reflexivity).
  rewrite forallb_forall in Hall.
  assert (Hin : In mode (seqZ 0 256)).
  { apply list_elem_of_In, elem_of_seqZ. lia. }
  specialize (Hall mode Hin). cbv zeta in Hall |- *.
  repeat (apply andb_prop in Hall as [Hall ?]).
  repeat match goal with H : (_ =? _) = true |- _ => apply Z.eqb_eq in H end.
  repeat split; assumption.
Qed.

(** X13: mute written through PropertyHandler_OnOff.  A SET with a buffer
    of at least a BOOL reads the output-mode register from the cache, sets
    bit D5 for a non-zero BOOL and clears it for zero, forces D7..D6 to 1 and
    keeps D4..D0 (stereo mode and source select) as they were.  A following
    GET returns 1 for a non-zero BOOL and 0 for zero. *)
Theorem PropertyHandler_OnOff_set_then_get
    (plat : Platform) (ks : KS) (setRequest getRequest : PCPROPERTY_REQUEST)
    (w : World) :
  cache_sized w ->
  0 <= cached (that w) CTRL_REG_OUTPUT_MODE < 256 ->
  Node setRequest <> ULONG_MINUS_1 ->
  Node getRequest <> ULONG_MINUS_1 ->
  sizeof_BOOL <= ValueSize setRequest ->
  sizeof_BOOL <= ValueSize getRequest ->
  is_SET ks setRequest ->
  is_GET ks getRequest ->
  exists w1 mode,
    PropertyHandler_OnOff plat ks setRequest w = Done (STATUS_SUCCESS, setRequest) w1 /\
    only_cache w w1 /\
    cached (that w1) CTRL_REG_OUTPUT_MODE = mode /\
    mode = Z.lor (if LONG_of (Value setRequest) =? 0
                  then Z.land (cached (that w) CTRL_REG_OUTPUT_MODE)
                              (Z.lnot CTRL_MODE_MUTE)
                  else Z.lor (cached (that w) CTRL_REG_OUTPUT_MODE) CTRL_MODE_MUTE)
                 CTRL_MODE_FORCED_BITS /\
    Z.land mode CTRL_MODE_MUTE
    = (if LONG_of (Value setRequest) =? 0 then 0 else CTRL_MODE_MUTE) /\
    Z.land mode CTRL_MODE_FORCED_BITS = CTRL_MODE_FORCED_BITS /\
    Z.land mode 0x1F = Z.land (cached (that w) CTRL_REG_OUTPUT_MODE) 0x1F /\
    PropertyHandler_OnOff plat ks getRequest w1
    = Done (STATUS_SUCCESS,
            reply_LONG (if LONG_of (Value setRequest) =? 0 then 0 else 1) getRequest)
           w1.
Proof.
  intros Hsized Hbyte Hset_node Hget_node Hsize Hsize_get [Hnot_get Hset] Hget.
  assert (Hreg : 0 <= CTRL_REG_OUTPUT_MODE < CTRL_REG_MAX)
    by (unfold CTRL_REG_OUTPUT_MODE, CTRL_REG_MAX; lia).
  destruct (mute_bit_update _ Hbyte) as [(Hon & Hon_forced & Hon_low & Hon_value)
                                           (Hoff & Hoff_forced & Hoff_low & Hoff_value)].
  cbv zeta in Hon, Hon_forced, Hon_low, Hon_value,
              Hoff, Hoff_forced, Hoff_low, Hoff_value.
  set (old := cached (that w) CTRL_REG_OUTPUT_MODE) in *.
  set (mode := Z.lor (if LONG_of (Value setRequest) =? 0
                      then Z.land old (Z.lnot CTRL_MODE_MUTE) mod 256
                      else Z.lor old CTRL_MODE_MUTE mod 256)
                     CTRL_MODE_FORCED_BITS mod 256).
  assert (Hrun : runs (PropertyHandler_OnOff plat ks setRequest) w
            (fun result w1 =>
               result = (STATUS_SUCCESS, setRequest) /\
               only_cache w w1 /\
               cached (that w1) CTRL_REG_OUTPUT_MODE = mode)).
  { unfold PropertyHandler_OnOff.
    replace (Node setRequest =? ULONG_MINUS_1) with false
      by (symmetry; apply Z.eqb_neq; exact Hset_node).
    replace (ValueSize setRequest <? sizeof_BOOL) with false
      by (symmetry; apply Z.ltb_ge; lia).
    rewrite Hnot_get, Hset.
    apply runs_bind.
    eapply runs_known; [apply ControlRegRead_cached; assumption |].
    fold old. fold mode.
    apply runs_bind.
    eapply runs_weaken; [apply ControlRegWrite_stores; assumption |].
    cbv beta. intros _ w1 (Honly & Hval & _). apply runs_ret.
    split; [reflexivity |]. split; assumption. }
  destruct Hrun as (result & w1 & Hdone & -> & Honly & Hstored).
  assert (Hmute : Z.land mode CTRL_MODE_MUTE
                  = (if LONG_of (Value setRequest) =? 0 then 0 else CTRL_MODE_MUTE)).
  { unfold mode. destruct (LONG_of (Value setRequest) =? 0); assumption. }
  exists w1, mode. split; [exact Hdone |]. split; [exact Honly |].
  split; [exact Hstored |].
  split; [unfold mode; destruct (LONG_of (Value setRequest) =? 0); assumption |].
  split; [exact Hmute |].
  split; [unfold mode; destruct (LONG_of (Value setRequest) =? 0); assumption |].
  split; [unfold mode; destruct (LONG_of (Value setRequest) =? 0); assumption |].
  unfold PropertyHandler_OnOff.
  replace (Node getRequest =? ULONG_MINUS_1) with false
    by (symmetry; apply Z.eqb_neq; exact Hget_node).
  replace (ValueSize getRequest <? sizeof_BOOL) with false
    by (symmetry; apply Z.ltb_ge; lia).
  unfold is_GET in Hget. rewrite Hget.
  unfold bind. rewrite ControlRegRead_cached; [| assumption | apply Honly].
  rewrite Hstored, Hmute.
  destruct (LONG_of (Value setRequest) =? 0); reflexivity.
Qed.

Lemma PropertyHandler_OnOff_set_then_get_witness :
  exists w1,
    PropertyHandler_OnOff idle_card ks_sample
      (mkRequest NODE_MUTE 13 0x2 0 0 4 (Value_LONG 1))
      (adapter_in PowerDeviceD0 None None)
    = Done (STATUS_SUCCESS, mkRequest NODE_MUTE 13 0x2 0 0 4 (Value_LONG 1)) w1 /\
    cached (that w1) CTRL_REG_OUTPUT_MODE = 0xE8 /\
    PropertyHandler_OnOff idle_card ks_sample
      (mkRequest NODE_MUTE 13 0x1 0 0 4 (Value_LONG 0)) w1
    = Done (STATUS_SUCCESS, mkRequest NODE_MUTE 13 0x1 0 0 4 (Value_LONG 1)) w1.
Proof.
  destruct (PropertyHandler_OnOff_set_then_get idle_card ks_sample
              (mkRequest NODE_MUTE 13 0x2 0 0 4 (Value_LONG 1))
              (mkRequest NODE_MUTE 13 0x1 0 0 4 (Value_LONG 0))
              (adapter_in PowerDeviceD0 None None))
    as (w1 & mode & Hset & Honly & Hstored & Hmode & Hmute & Hforced & Hlow & Hget);
    try reflexivity; try (split; reflexivity); try discriminate;
    try (unfold sizeof_BOOL; cbn; lia);
    try (vm_compute; split; [discriminate | reflexivity]).
  exists w1. split; [exact Hset |]. split; [| exact Hget].
  rewrite Hstored, Hmode. reflexivity.
Defined.

(** ** The topology miniport: requests that are turned down *)

Lemma handled_cleanly_rejected request w status :
  cache_sized w ->
  status = STATUS_INVALID_PARAMETER \/ status = STATUS_BUFFER_TOO_SMALL ->
  handled_cleanly request w (status, request) w.
Proof.
  intros Hsized Hstatus. split; [apply only_cache_refl, Hsized |].
  split; [intros _; split; reflexivity |]. right. exact Hstatus.
Qed.

Lemma handled_cleanly_done request w reply w' :
  only_cache w w' -> handled_cleanly request w (STATUS_SUCCESS, reply) w'.
Proof.
  intros Honly. split; [exact Honly |].
  split; [intros Hfailed; contradiction Hfailed; reflexivity | left; reflexivity].
Qed.

Lemma basic_support_range_cleanly ks minimum maximum delta request w :
  cache_sized w ->
  handled_cleanly request w
    (basic_support_range ks STATUS_INVALID_PARAMETER minimum maximum delta request) w.
Proof.
  intros Hsized. unfold basic_support_range.
  destruct (sizeof_stepped_description ks <=? ValueSize request);
    [apply handled_cleanly_done, only_cache_refl, Hsized |].
  destruct (sizeof_KSPROPERTY_DESCRIPTION ks <=? ValueSize request);
    [apply handled_cleanly_done, only_cache_refl, Hsized |].
  destruct (sizeof_ULONG <=? ValueSize request);
    [apply handled_cleanly_done, only_cache_refl, Hsized |].
  apply handled_cleanly_rejected; [exact Hsized | left; reflexivity].
Qed.

(** X14: no property handler of the topology miniport faults, whatever the
    request (node, verb, sizes, buffer contents) and the power state.  Each
    returns STATUS_SUCCESS, STATUS_INVALID_PARAMETER or
    STATUS_BUFFER_TOO_SMALL, changes nothing of the adapter but the shadow
    cache, and when it does not succeed leaves the request, the adapter and
    the ports exactly as they were.  PropertyHandler_Level turns down every
    node outside its table of five with STATUS_INVALID_PARAMETER before it
    looks at the buffer size. *)
Theorem property_handlers_reject_cleanly
    (plat : Platform) (ks : KS) (request : PCPROPERTY_REQUEST) (w : World) :
  cache_sized w ->
  0 <= Node request ->
  Forall
    (fun handler : PCPROPERTY_REQUEST -> M (NTSTATUS * PCPROPERTY_REQUEST) =>
       exists result w',
         handler request w = Done result w' /\ handled_cleanly request w result w')
    [ PropertyHandler_Level plat ks; PropertyHandler_OnOff plat ks;
      PropertyHandler_Tone plat ks; PropertyHandler_CpuResources ks ] /\
  (SIZEOF_NodeRegMap <= Node request ->
   PropertyHandler_Level plat ks request w
   = Done (STATUS_INVALID_PARAMETER, request) w).
Proof.
  intros Hsized Hnode.
  assert (Hrejected : forall status,
             status = STATUS_INVALID_PARAMETER \/ status = STATUS_BUFFER_TOO_SMALL ->
             runs (ret (status, request)) w (handled_cleanly request w)).
  { intros status Hstatus. apply runs_ret, handled_cleanly_rejected; assumption. }
  assert (Hreplied : forall reply,
             runs (ret (STATUS_SUCCESS, reply)) w (handled_cleanly request w)).
  { intros reply. apply runs_ret, handled_cleanly_done, only_cache_refl, Hsized. }
  assert (Hwritten : forall r v,
             0 <= r < CTRL_REG_MAX ->
             runs (ControlRegWrite plat r v >> ret (STATUS_SUCCESS, request)) w
                  (handled_cleanly request w)).
  { intros r v Hr. apply runs_bind.
    eapply runs_weaken; [apply ControlRegWrite_stores; assumption |].
    cbv beta. intros _ w1 (Honly & _). apply runs_ret, handled_cleanly_done, Honly. }
  split.
  - apply List.Forall_cons;
      [| apply List.Forall_cons;
         [| apply List.Forall_cons;
            [| apply List.Forall_cons; [| apply List.Forall_nil]]]].
    + (* PropertyHandler_Level *)
      change (runs (PropertyHandler_Level plat ks request) w (handled_cleanly request w)).
      unfold PropertyHandler_Level.
      destruct (Node request =? ULONG_MINUS_1); [apply Hrejected; left; reflexivity |].
      destruct (SIZEOF_NodeRegMap <=? Node request) eqn:Hin_table;
        [apply Hrejected; left; reflexivity |].
      destruct (ValueSize request <? sizeof_LONG); [apply Hrejected; right; reflexivity |].
      apply Z.leb_gt in Hin_table.
      destruct (NodeRegMap_lookup (Node request) ltac:(lia)) as [map Hmap].
      rewrite Hmap.
      destruct (NodeRegMap_registers _ _ Hmap) as (Hleft & Hright & _).
      destruct (verb_has (Verb request) (KSPROPERTY_TYPE_GET ks)).
      { apply runs_bind.
        eapply runs_known; [apply ControlRegRead_cached; [| exact Hsized] |].
        - match goal with |- context [if ?c then _ else _] => destruct c end; assumption.
        - apply Hreplied. }
      destruct (verb_has (Verb request) (KSPROPERTY_TYPE_SET ks)).
      { match goal with
        | |- runs ((if ?c then _ else _) >> _) _ _ => destruct c
        end; [apply Hwritten, Hright |].
        match goal with
        | |- runs ((if ?c then _ else _) >> _) _ _ => destruct c
        end; [apply Hwritten, Hleft |].
        apply runs_bind, runs_bind.
        eapply runs_weaken; [apply ControlRegWrite_stores; assumption |].
        cbv beta. intros _ w1 (Honly1 & _).
        apply runs_weaken with (P := fun _ w2 => only_cache w w2).
        - apply runs_when; intros _; [| exact Honly1].
          eapply runs_weaken; [apply ControlRegWrite_stores; [assumption | apply Honly1] |].
          cbv beta. intros _ w2 (Honly2 & _). exact (only_cache_trans _ _ _ Honly1 Honly2).
        - intros _ w2 Honly2. apply runs_ret, handled_cleanly_done, Honly2. }
      destruct (verb_has (Verb request) (KSPROPERTY_TYPE_BASICSUPPORT ks));
        [| apply Hrejected; left; reflexivity].
      apply runs_ret, basic_support_range_cleanly, Hsized.
    + (* PropertyHandler_OnOff *)
      change (runs (PropertyHandler_OnOff plat ks request) w (handled_cleanly request w)).
      unfold PropertyHandler_OnOff.
      destruct (Node request =? ULONG_MINUS_1); [apply Hrejected; left; reflexivity |].
      destruct (ValueSize request <? sizeof_BOOL); [apply Hrejected; right; reflexivity |].
      assert (Hreg : 0 <= CTRL_REG_OUTPUT_MODE < CTRL_REG_MAX)
        by (unfold CTRL_REG_OUTPUT_MODE, CTRL_REG_MAX; lia).
      destruct (verb_has (Verb request) (KSPROPERTY_TYPE_GET ks)).
      { apply runs_bind.
        eapply runs_known; [apply ControlRegRead_cached; assumption |].
        apply Hreplied. }
      destruct (verb_has (Verb request) (KSPROPERTY_TYPE_SET ks)).
      { apply runs_bind.
        eapply runs_known; [apply ControlRegRead_cached; assumption |].
        apply Hwritten, Hreg. }
      destruct (verb_has (Verb request) (KSPROPERTY_TYPE_BASICSUPPORT ks));
        [| apply Hrejected; left; reflexivity].
      destruct (sizeof_ULONG <=? ValueSize request);
        [apply Hreplied | apply Hrejected; left; reflexivity].
    + (* PropertyHandler_Tone *)
      change (runs (PropertyHandler_Tone plat ks request) w (handled_cleanly request w)).
      unfold PropertyHandler_Tone.
      destruct (Node request =? ULONG_MINUS_1); [apply Hrejected; left; reflexivity |].
      assert (Htone : forall reg dBMin dBMax,
                 0 <= reg < CTRL_REG_MAX ->
                 runs
                   (if verb_has (Verb request) (KSPROPERTY_TYPE_GET ks)
                    then
                      if ValueSize request <? sizeof_LONG
                      then ret (STATUS_BUFFER_TOO_SMALL, request)
                      else
                        let* val := ControlRegRead reg in
                        ret (STATUS_SUCCESS,
                             set_Value
                               (Value_LONG
                                  (Z.shiftl
                                     (clamp_LONG dBMin dBMax
                                        ((Z.land val CTRL_TONE_MASK - 6) * 3)) 16))
                               sizeof_LONG request)
                    else if verb_has (Verb request) (KSPROPERTY_TYPE_SET ks)
                    then
                      if ValueSize request <? sizeof_LONG
                      then ret (STATUS_BUFFER_TOO_SMALL, request)
                      else
                        ControlRegWrite plat reg
                          (Z.lor CTRL_TONE_FORCED_BITS
                             (Z.land
                                (clamp_LONG 0 0xF
                                   (Z.quot
                                      (clamp_LONG dBMin dBMax
                                         (Z.shiftr (LONG_of (Value request)) 16)) 3 + 6))
                                CTRL_TONE_MASK mod 256)) >>
                        ret (STATUS_SUCCESS, request)
                    else if verb_has (Verb request) (KSPROPERTY_TYPE_BASICSUPPORT ks)
                    then ret (basic_support_range ks STATUS_INVALID_PARAMETER
                                (Z.shiftl dBMin 16) (Z.shiftl dBMax 16) (Z.shiftl 3 16)
                                request)
                    else ret (STATUS_INVALID_PARAMETER, request)) w
                   (handled_cleanly request w)).
      { intros reg dBMin dBMax Hreg.
        destruct (verb_has (Verb request) (KSPROPERTY_TYPE_GET ks)).
        { destruct (ValueSize request <? sizeof_LONG);
            [apply Hrejected; right; reflexivity |].
          apply runs_bind.
          eapply runs_known; [apply ControlRegRead_cached; assumption |].
          apply Hreplied. }
        destruct (verb_has (Verb request) (KSPROPERTY_TYPE_SET ks)).
        { destruct (ValueSize request <? sizeof_LONG);
            [apply Hrejected; right; reflexivity | apply Hwritten, Hreg]. }
        destruct (verb_has (Verb request) (KSPROPERTY_TYPE_BASICSUPPORT ks));
          [| apply Hrejected; left; reflexivity].
        apply runs_ret, basic_support_range_cleanly, Hsized. }
      destruct ((Node request =? NODE_BASS)
                && (PropertyItem_Id request =? KSPROPERTY_AUDIO_BASS ks)).
      { apply Htone. unfold CTRL_REG_BASS, CTRL_REG_MAX. lia. }
      destruct ((Node request =? NODE_TREBLE)
                && (PropertyItem_Id request =? KSPROPERTY_AUDIO_TREBLE ks)).
      { apply Htone. unfold CTRL_REG_TREBLE, CTRL_REG_MAX. lia. }
      apply Hrejected. left. reflexivity.
    + (* PropertyHandler_CpuResources *)
      change (runs (PropertyHandler_CpuResources ks request) w (handled_cleanly request w)).
      unfold PropertyHandler_CpuResources.
      destruct (ValueSize request <? sizeof_LONG); [apply Hrejected; right; reflexivity |].
      destruct (verb_has (Verb request) (KSPROPERTY_TYPE_GET ks)); [apply Hreplied |].
      destruct (verb_has (Verb request) (KSPROPERTY_TYPE_BASICSUPPORT ks)
                && (sizeof_ULONG <=? ValueSize request));
        [apply Hreplied | apply Hrejected; left; reflexivity].
  - intros Houtside. unfold PropertyHandler_Level.
    destruct (Node request =? ULONG_MINUS_1); [reflexivity |].
    replace (SIZEOF_NodeRegMap <=? Node request) with true
      by (symmetry; apply Z.leb_le; exact Houtside).
    reflexivity.
Qed.

Lemma property_handlers_reject_cleanly_witness :
  PropertyHandler_Level idle_card ks_sample
    (mkRequest NODE_MUTE 13 0x2 0 0 2 (Value_LONG 1))
    (adapter_in PowerDeviceD0 None None)
  = Done (STATUS_INVALID_PARAMETER, mkRequest NODE_MUTE 13 0x2 0 0 2 (Value_LONG 1))
         (adapter_in PowerDeviceD0 None None).
Proof.
  apply (proj2 (property_handlers_reject_cleanly idle_card ks_sample
                  (mkRequest NODE_MUTE 13 0x2 0 0 2 (Value_LONG 1))
                  (adapter_in PowerDeviceD0 None None)
                  eq_refl ltac:(discriminate))).
  unfold SIZEOF_NodeRegMap, NODE_MUTE. cbn. lia.
Defined.

(** ** The MIDI input ring buffer *)

Lemma ring_from_length buffer count : forall head,
  length (ring_from buffer head count) = count.
Proof. induction count as [| count IH]; intros head; cbn; [| rewrite IH]; reflexivity. Qed.

Lemma ring_from_push buffer b count : forall head,
  length buffer = Z.to_nat MIDI_INPUT_BUFFER_SIZE ->
  0 <= head < MIDI_INPUT_BUFFER_SIZE ->
  Z.of_nat count < MIDI_INPUT_BUFFER_SIZE ->
  ring_from
    (<[Z.to_nat ((head + Z.of_nat count) mod MIDI_INPUT_BUFFER_SIZE) := b]> buffer)
    head (S count)
  = ring_from buffer head count ++ [b].
Proof.
  unfold MIDI_INPUT_BUFFER_SIZE.
  induction count as [| count IH]; intros head Hlen Hhead Hcount.
  - cbn [ring_from app]. rewrite Z.add_0_r, Z.mod_small by lia.
    rewrite list_lookup_insert_eq by lia. reflexivity.
  - change (ring_from ?buf head (S (S count)))
      with (default 0 (buf !! Z.to_nat head)
            :: ring_from buf ((head + 1) mod 256) (S count)).
    change (ring_from buffer head (S count))
      with (default 0 (buffer !! Z.to_nat head)
            :: ring_from buffer ((head + 1) mod 256) count).
    cbn [app]. f_equal.
    + rewrite list_lookup_insert_ne; [reflexivity |].
      intros Heq. apply Z2Nat.inj in Heq; [| apply Z.mod_pos_bound; lia | lia].
      revert Heq. Z.div_mod_to_equations. lia.
    + replace ((head + Z.of_nat (S count)) mod 256)
        with (((head + 1) mod 256 + Z.of_nat count) mod 256).
      * apply IH; [exact Hlen | apply Z.mod_pos_bound; lia | lia].
      * rewrite Z.add_mod_idemp_l by lia. f_equal. lia.
Qed.

Lemma pending_length this :
  ring_ok this ->
  Z.of_nat (length (pending this))
  = (Midi.m_InputBufferTail this - Midi.m_InputBufferHead this)
    mod MIDI_INPUT_BUFFER_SIZE.
Proof.
  intros _. unfold pending. rewrite ring_from_length.
  apply Z2Nat.id, Z.mod_pos_bound. reflexivity.
Qed.

Lemma pending_full this :
  ring_ok this ->
  (Midi.m_InputBufferTail this + 1) mod MIDI_INPUT_BUFFER_SIZE
  = Midi.m_InputBufferHead this ->
  length (pending this) = Z.to_nat (MIDI_INPUT_BUFFER_SIZE - 1).
Proof.
  intros Hok Hfull. apply Nat2Z.inj. rewrite (pending_length _ Hok).
  destruct Hok as (_ & Hhead & Htail). unfold MIDI_INPUT_BUFFER_SIZE in *.
  revert Hfull. Z.div_mod_to_equations. lia.
Qed.

Lemma pending_push this b this1 :
  ring_ok this ->
  (Midi.m_InputBufferTail this + 1) mod MIDI_INPUT_BUFFER_SIZE
  <> Midi.m_InputBufferHead this ->
  this1 = Midi.set_InputBufferTail
            ((Midi.m_InputBufferTail this + 1) mod MIDI_INPUT_BUFFER_SIZE)
            (Midi.set_InputBuffer
               (<[Z.to_nat (Midi.m_InputBufferTail this) := b]> (Midi.m_InputBuffer this))
               this) ->
  ring_ok this1 /\ pending this1 = pending this ++ [b] /\
  (length (pending this) < Z.to_nat (MIDI_INPUT_BUFFER_SIZE - 1))%nat.
Proof.
  intros (Hlen & Hhead & Htail) Hspace ->.
  unfold MIDI_INPUT_BUFFER_SIZE in *.
  set (count := (Midi.m_InputBufferTail this - Midi.m_InputBufferHead this) mod 256).
  assert (Hcount : 0 <= count < 255).
  { unfold count. revert Hspace. Z.div_mod_to_equations. lia. }
  assert (Htail_is : Midi.m_InputBufferTail this
                     = (Midi.m_InputBufferHead this + Z.of_nat (Z.to_nat count)) mod 256).
  { rewrite Z2Nat.id by lia. unfold count. Z.div_mod_to_equations. lia. }
  split; [| split].
  - split; [| split];
      cbn [Midi.m_InputBuffer Midi.m_InputBufferHead Midi.m_InputBufferTail
           Midi.set_InputBufferTail Midi.set_InputBuffer].
    + rewrite length_insert. exact Hlen.
    + exact Hhead.
    + apply Z.mod_pos_bound. reflexivity.
  - unfold pending, MIDI_INPUT_BUFFER_SIZE.
    cbn [Midi.m_InputBuffer Midi.m_InputBufferHead Midi.m_InputBufferTail
         Midi.set_InputBufferTail Midi.set_InputBuffer].
    fold count.
    replace (Z.to_nat (((Midi.m_InputBufferTail this + 1) mod 256
                        - Midi.m_InputBufferHead this) mod 256))
      with (S (Z.to_nat count)).
    + rewrite Htail_is at 1.
      apply ring_from_push; [exact Hlen | exact Hhead |].
      rewrite Z2Nat.id; unfold MIDI_INPUT_BUFFER_SIZE; lia.
    + rewrite <- Z2Nat.inj_succ by lia. f_equal.
      unfold count. revert Hspace. Z.div_mod_to_equations. lia.
  - unfold pending, MIDI_INPUT_BUFFER_SIZE. rewrite ring_from_length. fold count.
    apply Z2Nat.inj_lt; lia.
Qed.

Lemma ReadMMA_powered_down plat Register w :
  operative (m_PowerState (that w)) = false ->
  ReadMMA plat Register w = Done 0 w.
Proof. intros Hoff. unfold ReadMMA, bind, get. rewrite Hoff. reflexivity. Qed.

Lemma ReadMMA_operative plat Register w :
  operative (m_PowerState (that w)) = true ->
  runs (ReadMMA plat Register) w
    (fun value w' =>
       that w' = that w /\ 0 <= value < 256 /\
       trace w' = trace w ++ mma_read_events Register value).
Proof.
  intros Hon. eapply runs_weaken; [apply ReadMMA_runs |].
  cbv beta. intros value w' (Hthat & Hbyte & Htrace).
  rewrite Hon in Htrace. repeat split; try assumption; lia.
Qed.

Lemma ServiceMidiISR_loop_runs plat remaining : forall this flag w,
  ring_ok this ->
  operative (m_PowerState (that w)) = true ->
  runs (Midi.ServiceMidiISR_loop plat remaining this flag) w
    (fun result w' =>
       that w' = that w /\
       exists polls closing,
         trace w' = trace w ++ isr_events polls closing /\
         (length polls <= remaining)%nat /\
         Forall (fun poll => Z.land (fst poll) MMA_STATUS_RRQ <> 0) polls /\
         match closing with
         | Some status => Z.land status MMA_STATUS_RRQ = 0
         | None => length polls = remaining
         end /\
         queued this (accepted_bytes this (map snd polls)) (fst result) /\
         snd result
         = flag || negb (bool_decide (accepted_bytes this (map snd polls) = []))).
Proof.
  induction remaining as [| remaining IH]; intros this flag w Hok Hon;
    cbn [Midi.ServiceMidiISR_loop].
  - apply runs_ret. split; [reflexivity |].
    exists [], None. cbn [isr_events flat_map app length map fst snd].
    split; [symmetry; apply app_nil_r |]. split; [lia |].
    split; [constructor |]. split; [reflexivity |].
    assert (Hnone : accepted_bytes this [] = []).
    { unfold accepted_bytes. destruct (capturing this); [apply take_nil | reflexivity]. }
    rewrite Hnone. split.
    + split; [exact Hok |]. split; [symmetry; apply app_nil_r |].
      exists (Midi.m_InputBuffer this), (Midi.m_InputBufferTail this).
      destruct this; reflexivity.
    + rewrite orb_false_r. reflexivity.
  - apply runs_bind.
    eapply runs_weaken; [apply ReadMMA_operative, Hon |].
    cbv beta. intros mmaStatus w1 (Hthat1 & _ & Htrace1).
    destruct (Z.land mmaStatus MMA_STATUS_RRQ =? 0) eqn:Hrrq.
    { apply Z.eqb_eq in Hrrq. apply runs_ret. split; [exact Hthat1 |].
      exists [], (Some mmaStatus). cbn [isr_events flat_map app length map fst snd].
      split; [exact Htrace1 |]. split; [lia |].
      split; [constructor |]. split; [exact Hrrq |].
      assert (Hnone : accepted_bytes this [] = []).
      { unfold accepted_bytes. destruct (capturing this); [apply take_nil | reflexivity]. }
      rewrite Hnone. split.
      + split; [exact Hok |]. split; [symmetry; apply app_nil_r |].
        exists (Midi.m_InputBuffer this), (Midi.m_InputBufferTail this).
        destruct this; reflexivity.
      + rewrite orb_false_r. reflexivity. }
    apply Z.eqb_neq in Hrrq.
    assert (Hon1 : operative (m_PowerState (that w1)) = true) by (rewrite Hthat1; exact Hon).
    apply runs_bind.
    eapply runs_weaken; [apply ReadMMA_operative, Hon1 |].
    cbv beta. intros dataByte w2 (Hthat2 & _ & Htrace2).
    assert (Hon2 : operative (m_PowerState (that w2)) = true) by (rewrite Hthat2; exact Hon1).
    assert (Htrace : forall polls closing w',
               trace w' = trace w2 ++ isr_events polls closing ->
               trace w' = trace w ++ isr_events ((mmaStatus, dataByte) :: polls) closing).
    { intros polls closing w' Htrace'. rewrite Htrace', Htrace2, Htrace1.
      unfold isr_events. cbn [flat_map fst snd]. rewrite <- !app_assoc. reflexivity. }
    assert (Hcapturing :
              negb (bool_decide (Midi.m_KSStateInput this = KSSTATE_RUN))
              || (Midi.m_NumCaptureStreams this =? 0)
              = negb (capturing this)).
    { unfold capturing. rewrite negb_andb, negb_involutive. reflexivity. }
    rewrite Hcapturing.
    destruct (capturing this) eqn:Hcapture; cbn [negb].
    2: { (* not running: the byte is discarded *)
      eapply runs_weaken; [apply (IH this flag w2 Hok Hon2) |].
      cbv beta. intros result w3 (Hthat3 & polls & closing & Htrace3 & Hlen & Hall
                                  & Hclosing & Hqueued & Hflag).
      split; [congruence |].
      exists ((mmaStatus, dataByte) :: polls), closing.
      split; [apply Htrace, Htrace3 |]. split; [cbn [length]; lia |].
      split; [constructor; [exact Hrrq | exact Hall] |].
      split; [destruct closing; [exact Hclosing | cbn [length]; lia] |].
      unfold accepted_bytes in *. rewrite Hcapture in *.
      split; [exact Hqueued | exact Hflag]. }
    destruct ((Midi.m_InputBufferTail this + 1) mod MIDI_INPUT_BUFFER_SIZE
              =? Midi.m_InputBufferHead this) eqn:Hfull.
    { (* overflow: the byte is dropped *)
      apply Z.eqb_eq in Hfull.
      pose proof (pending_full this Hok Hfull) as Hlength.
      eapply runs_weaken; [apply (IH this flag w2 Hok Hon2) |].
      cbv beta. intros result w3 (Hthat3 & polls & closing & Htrace3 & Hlen & Hall
                                  & Hclosing & Hqueued & Hflag).
      split; [congruence |].
      exists ((mmaStatus, dataByte) :: polls), closing.
      split; [apply Htrace, Htrace3 |]. split; [cbn [length]; lia |].
      split; [constructor; [exact Hrrq | exact Hall] |].
      split; [destruct closing; [exact Hclosing | cbn [length]; lia] |].
      unfold accepted_bytes in *. rewrite Hcapture in *.
      rewrite Hlength, Nat.sub_diag in *. cbn [map snd take] in *.
      split; [exact Hqueued | exact Hflag]. }
    apply Z.eqb_neq in Hfull.
    destruct (pending_push this dataByte _ Hok Hfull eq_refl)
      as (Hok1 & Hpending1 & Hspace).
    apply runs_bind.
    assert (Hstore : Midi.store_InputBuffer (Midi.m_InputBufferTail this) dataByte this
                     = ret (Midi.set_InputBuffer
                              (<[Z.to_nat (Midi.m_InputBufferTail this) := dataByte]>
                                 (Midi.m_InputBuffer this)) this)).
    { unfold Midi.store_InputBuffer. destruct Hok as (Hlen & _ & Htail).
      rewrite Hlen.
      replace (0 <=? Midi.m_InputBufferTail this) with true
        by (symmetry; apply Z.leb_le; lia).
      replace (Midi.m_InputBufferTail this <? _) with true
        by (symmetry; apply Z.ltb_lt; unfold MIDI_INPUT_BUFFER_SIZE in *; lia).
      reflexivity. }
    rewrite Hstore. apply runs_ret.
    cbn [Midi.m_InputBufferTail Midi.set_InputBuffer].
    match goal with
    | |- runs (Midi.ServiceMidiISR_loop _ _ ?this1 _) _ _ => set (pushed := this1) in *
    end.
    eapply runs_weaken; [apply (IH pushed true w2 Hok1 Hon2) |].
    cbv beta. intros result w3 (Hthat3 & polls & closing & Htrace3 & Hlen & Hall
                                & Hclosing & Hqueued & Hflag).
    split; [congruence |].
    exists ((mmaStatus, dataByte) :: polls), closing.
    split; [apply Htrace, Htrace3 |]. split; [cbn [length]; lia |].
    split; [constructor; [exact Hrrq | exact Hall] |].
    split; [destruct closing; [exact Hclosing | cbn [length]; lia] |].
    assert (Hcapture1 : capturing pushed = true) by exact Hcapture.
    assert (Haccepted :
              accepted_bytes this (map snd ((mmaStatus, dataByte) :: polls))
              = dataByte :: accepted_bytes pushed (map snd polls)).
    { unfold accepted_bytes. rewrite Hcapture, Hcapture1, Hpending1, length_app.
      cbn [map snd length].
      replace (Z.to_nat (MIDI_INPUT_BUFFER_SIZE - 1) - length (pending this))%nat
        with (S (Z.to_nat (MIDI_INPUT_BUFFER_SIZE - 1)
                 - (length (pending this) + 1)))%nat by lia.
      reflexivity. }
    rewrite Haccepted. split.
    + destruct Hqueued as (Hok3 & Hpending3 & buffer & tail & Hshape).
      split; [exact Hok3 |]. split.
      * rewrite Hpending3, Hpending1, <- app_assoc. reflexivity.
      * exists buffer, tail. rewrite Hshape. reflexivity.
    + rewrite Hflag. cbn [orb].
      rewrite (bool_decide_eq_false_2 (dataByte :: _ = [])) by discriminate.
      rewrite orb_true_r. reflexivity.
Qed.

Lemma ServiceMidiISR_loop_powered_down plat remaining this flag w :
  operative (m_PowerState (that w)) = false ->
  Midi.ServiceMidiISR_loop plat remaining this flag w = Done (this, flag) w.
Proof.
  intros Hoff. destruct remaining as [| remaining]; [reflexivity |].
  cbn [Midi.ServiceMidiISR_loop]. unfold bind.
  rewrite (ReadMMA_powered_down plat _ w Hoff). reflexivity.
Qed.

(** X15: what one run of ServiceMidiISR does.  It never faults and leaves
    the adapter object alone.  With the adapter powered down it reads
    nothing and changes nothing.  Otherwise it alternates status and data
    reads of the MMA: at most 16 data bytes, each after a status with RRQ
    set, ending on a status with RRQ clear unless 16 bytes were taken.  While
    the capture stream runs the bytes are queued behind those already
    waiting, in order, up to 255 bytes in the buffer, the rest being dropped;
    otherwise all are discarded.  The port is notified exactly when a byte
    was queued and the port pointer is set. *)
Theorem ServiceMidiISR_queues_received_bytes
    (plat : Platform) (this : Midi.CMiniportMidiUartAdLibGold) (w : World) :
  ring_ok this ->
  exists this' notified w',
    Midi.ServiceMidiISR plat this w = Done (this', notified) w' /\
    that w' = that w /\
    (operative (m_PowerState (that w)) = false ->
     this' = this /\ notified = false /\ w' = w) /\
    (operative (m_PowerState (that w)) = true ->
     exists polls closing,
       trace w' = trace w ++ isr_events polls closing /\
       (length polls <= 16)%nat /\
       Forall (fun poll => Z.land (fst poll) MMA_STATUS_RRQ <> 0) polls /\
       match closing with
       | Some status => Z.land status MMA_STATUS_RRQ = 0
       | None => length polls = 16%nat
       end /\
       queued this (accepted_bytes this (map snd polls)) this' /\
       notified = negb (bool_decide (accepted_bytes this (map snd polls) = []))
                  && Midi.m_Port this).
Proof.
  intros Hok. unfold Midi.ServiceMidiISR.
  destruct (operative (m_PowerState (that w))) eqn:Hpower.
  - destruct (ServiceMidiISR_loop_runs plat 16 this false w Hok Hpower)
      as ([this' flag] & w' & Hloop & Hthat & polls & closing & Htrace & Hlen & Hall
          & Hclosing & Hqueued & Hflag).
    cbn [fst snd] in Hqueued, Hflag.
    exists this', (flag && Midi.m_Port this'), w'.
    split; [unfold bind; rewrite Hloop; reflexivity |].
    split; [exact Hthat |]. split; [discriminate |].
    intros _. exists polls, closing.
    split; [exact Htrace |]. split; [exact Hlen |]. split; [exact Hall |].
    split; [exact Hclosing |]. split; [exact Hqueued |].
    rewrite Hflag. cbn [orb].
    destruct Hqueued as (_ & _ & buffer & tail & ->). reflexivity.
  - exists this, false, w.
    split.
    + unfold bind.
      rewrite (ServiceMidiISR_loop_powered_down plat _ this false w Hpower).
      reflexivity.
    + split; [reflexivity |]. split; [intros _; repeat split | discriminate].
Qed.

Lemma ServiceMidiISR_queues_received_bytes_witness :
  exists this' w',
    Midi.ServiceMidiISR midi_card (midi_with KSSTATE_RUN 1 10 250)
      (adapter_in PowerDeviceD0 None None)
    = Done (this', true) w' /\
    pending (midi_with KSSTATE_RUN 1 10 250) = seqZ 10 240 /\
    pending this' = seqZ 10 240 ++ replicate 15 0x90 /\
    length (read_from ALG_REG_MMA0_DATA (trace w')) = 32%nat.
Proof.
  destruct (ServiceMidiISR_queues_received_bytes midi_card
              (midi_with KSSTATE_RUN 1 10 250) (adapter_in PowerDeviceD0 None None))
    as (this' & notified & w' & Hrun & _).
  { vm_compute. repeat split; congruence. }
  pose proof Hrun as Hresult. vm_compute in Hresult.
  injection Hresult as Hthis Hnotified Hw.
  exists this', w'. rewrite <- Hnotified in Hrun. split; [exact Hrun |].
  rewrite <- Hthis, <- Hw. vm_compute. repeat split.
Defined.

Lemma Read_loop_takes remaining : forall this,
  ring_ok this ->
  exists this',
    Midi.Read_loop remaining this = Some (take remaining (pending this), this') /\
    ring_ok this' /\
    pending this' = drop remaining (pending this) /\
    this' = Midi.set_InputBufferHead (Midi.m_InputBufferHead this') this.
Proof.
  induction remaining as [| remaining IH]; intros this Hok.
  - exists this. cbn [Midi.Read_loop take drop].
    split; [reflexivity |]. split; [exact Hok |]. split; [reflexivity |].
    destruct this; reflexivity.
  - cbn [Midi.Read_loop].
    pose proof Hok as (Hlen & Hhead & Htail).
    unfold MIDI_INPUT_BUFFER_SIZE in Hlen, Hhead, Htail.
    destruct (Midi.m_InputBufferHead this =? Midi.m_InputBufferTail this) eqn:Hempty.
    + apply Z.eqb_eq in Hempty.
      assert (Hnone : pending this = []).
      { unfold pending. rewrite Hempty, Z.sub_diag. reflexivity. }
      exists this. rewrite Hnone. cbn [take drop].
      split; [reflexivity |]. split; [exact Hok |]. split; [reflexivity |].
      destruct this; reflexivity.
    + apply Z.eqb_neq in Hempty.
      replace (0 <=? Midi.m_InputBufferHead this) with true
        by (symmetry; apply Z.leb_le; lia).
      destruct (Midi.m_InputBuffer this !! Z.to_nat (Midi.m_InputBufferHead this))
        as [data |] eqn:Hlookup;
        [| apply lookup_ge_None in Hlookup; lia].
      set (popped := Midi.set_InputBufferHead
                       ((Midi.m_InputBufferHead this + 1) mod MIDI_INPUT_BUFFER_SIZE)
                       this).
      assert (Hok1 : ring_ok popped).
      { split; [exact (proj1 Hok) |]. split; [| exact (proj2 (proj2 Hok))].
        apply Z.mod_pos_bound. reflexivity. }
      assert (Hpending : pending this = data :: pending popped).
      { unfold pending, popped, MIDI_INPUT_BUFFER_SIZE.
        cbn [Midi.m_InputBuffer Midi.m_InputBufferHead Midi.m_InputBufferTail
             Midi.set_InputBufferHead].
        replace (Z.to_nat ((Midi.m_InputBufferTail this - Midi.m_InputBufferHead this)
                           mod 256))
          with (S (Z.to_nat ((Midi.m_InputBufferTail this
                              - (Midi.m_InputBufferHead this + 1) mod 256) mod 256))).
        - cbn [ring_from]. rewrite Hlookup. reflexivity.
        - rewrite <- Z2Nat.inj_succ by (apply Z.mod_pos_bound; lia).
          f_equal. Z.div_mod_to_equations. lia. }
      destruct (IH popped Hok1) as (this' & Hloop & Hok' & Hrest & Hshape).
      exists this'. rewrite Hloop, Hpending. cbn [take drop].
      split; [reflexivity |]. split; [exact Hok' |]. split; [exact Hrest |].
      rewrite Hshape at 1. reflexivity.
Qed.

(** X16: Read hands out the bytes waiting in the ring buffer oldest first.
    On a capture stream it returns STATUS_SUCCESS with the first [Length]
    bytes waiting (all of them when fewer wait), leaves the others waiting in
    their order, moves only the head index, and never reads outside the
    buffer.  On a render stream it returns STATUS_INVALID_DEVICE_REQUEST with
    no bytes and changes nothing.  Together with ServiceMidiISR: bytes come
    out in the order in which they were received. *)
Theorem Midi_Read_oldest_first
    (stream : Midi.CMiniportMidiStreamUartAdLibGold) (Length : Z)
    (this : Midi.CMiniportMidiUartAdLibGold) :
  ring_ok this ->
  (Midi.m_fCapture stream = true ->
   exists this',
     Midi.Read stream Length this
     = Some (STATUS_SUCCESS, take (Z.to_nat Length) (pending this), this') /\
     ring_ok this' /\
     pending this' = drop (Z.to_nat Length) (pending this) /\
     this' = Midi.set_InputBufferHead (Midi.m_InputBufferHead this') this) /\
  (Midi.m_fCapture stream = false ->
   Midi.Read stream Length this = Some (STATUS_INVALID_DEVICE_REQUEST, [], this)).
Proof.
  intros Hok. unfold Midi.Read. split; intros Hcapture; rewrite Hcapture; cbn [negb].
  - destruct (Read_loop_takes (Z.to_nat Length) this Hok)
      as (this' & Hloop & Hok' & Hrest & Hshape).
    exists this'. rewrite Hloop.
    split; [reflexivity |]. split; [exact Hok' |]. split; [exact Hrest | exact Hshape].
  - reflexivity.
Qed.

Lemma Midi_Read_oldest_first_witness :
  exists this',
    Midi.Read (Midi.mkStream true 0) 4 (midi_with KSSTATE_RUN 1 254 3)
    = Some (STATUS_SUCCESS, [254; 255; 0; 1], this') /\
    pending this' = [2].
Proof.
  destruct (Midi_Read_oldest_first (Midi.mkStream true 0) 4
              (midi_with KSSTATE_RUN 1 254 3)) as [Hcapture _].
  { vm_compute. repeat split; congruence. }
  destruct (Hcapture eq_refl) as (this' & Hread & _ & Hrest & _).
  exists this'. split; [exact Hread | exact Hrest].
Defined.

(** ** MIDI output *)

Lemma SynchronizedMidiWrite_loop_runs remaining : forall pMidiData Length count w,
  0 <= count -> Length <= Z.of_nat (length pMidiData) ->
  runs (Midi.SynchronizedMidiWrite_loop remaining pMidiData Length count) w
    (fun written w' =>
       that w' = that w /\
       written = Z.max count (Z.min Length (count + Z.of_nat remaining)) /\
       trace w' = trace w ++
         if operative (m_PowerState (that w))
         then flat_map (mma_write_events MMA_REG_MIDI_DATA)
                (take (Z.to_nat (written - count)) (drop (Z.to_nat count) pMidiData))
         else []).
Proof.
  induction remaining as [| remaining IH]; intros pMidiData Length count w Hcount Hheld;
    cbn [Midi.SynchronizedMidiWrite_loop].
  - apply runs_ret. split; [reflexivity |]. split; [lia |].
    rewrite Z.sub_diag. cbn [Z.to_nat take flat_map].
    destruct (operative (m_PowerState (that w))); symmetry; apply app_nil_r.
  - destruct (count <? Length) eqn:Hmore;
      [apply Z.ltb_lt in Hmore | apply Z.ltb_ge in Hmore].
    + destruct (pMidiData !! Z.to_nat count) as [data |] eqn:Hlookup;
        [| apply lookup_ge_None in Hlookup; lia].
      apply runs_bind.
      eapply runs_weaken; [apply WriteMMA_runs |].
      cbv beta. intros _ w1 (Hthat1 & Htrace1).
      eapply runs_weaken;
        [apply (IH pMidiData Length (count + 1) w1); [lia | exact Hheld] |].
      cbv beta. intros written w2 (Hthat2 & -> & Htrace2).
      split; [congruence |]. split; [lia |].
      rewrite Htrace2, Htrace1, Hthat1, <- app_assoc. f_equal.
      destruct (operative (m_PowerState (that w))); [| reflexivity].
      replace (Z.to_nat (Z.max (count + 1)
                           (Z.min Length (count + 1 + Z.of_nat remaining))
                         - count))
        with (S (Z.to_nat (Z.max (count + 1)
                             (Z.min Length (count + 1 + Z.of_nat remaining))
                           - (count + 1)))) by lia.
      rewrite (drop_S _ _ _ Hlookup). cbn [take flat_map].
      replace (Z.to_nat (count + 1)) with (S (Z.to_nat count)) by lia.
      reflexivity.
    + apply runs_ret. split; [reflexivity |]. split; [lia |].
      rewrite Z.sub_diag. cbn [Z.to_nat take flat_map].
      destruct (operative (m_PowerState (that w))); symmetry; apply app_nil_r.
Qed.

(** X17: Write on a render stream.  With a buffer that holds [Length] bytes,
    [Length] positive, it always returns STATUS_SUCCESS, reports
    min(Length, 16) bytes written and resets the failure counter, so the
    STATUS_IO_DEVICE_ERROR path is never taken.  On an operative adapter
    exactly the first min(Length, 16) bytes go to the MIDI data register, in
    order.  With the adapter powered down nothing reaches the ports, and the
    bytes are reported as written all the same.  A capture stream is turned
    down with STATUS_INVALID_DEVICE_REQUEST, and a null buffer writes
    nothing. *)
Theorem Midi_Write_sends_at_most_16
    (stream : Midi.CMiniportMidiStreamUartAdLibGold) (pMidiData : list Z)
    (Length : Z) (w : World) :
  0 < Length <= Z.of_nat (length pMidiData) ->
  (Midi.m_fCapture stream = false ->
   exists w',
     Midi.Write stream (Some pMidiData) Length w
     = Done (STATUS_SUCCESS, Some (Z.min Length 16), Midi.mkStream false 0) w' /\
     that w' = that w /\
     trace w' = trace w ++
       (if operative (m_PowerState (that w))
        then flat_map (mma_write_events MMA_REG_MIDI_DATA)
               (take (Z.to_nat (Z.min Length 16)) pMidiData)
        else []) /\
     Midi.Write stream None Length w = Done (STATUS_SUCCESS, Some 0, stream) w) /\
  (Midi.m_fCapture stream = true ->
   Midi.Write stream (Some pMidiData) Length w
   = Done (STATUS_INVALID_DEVICE_REQUEST, None, stream) w).
Proof.
  intros [Hpositive Hheld]. split; intros Hcapture.
  - assert (Hrun : runs (Midi.Write stream (Some pMidiData) Length) w
              (fun result w' =>
                 result = (STATUS_SUCCESS, Some (Z.min Length 16),
                           Midi.mkStream false 0) /\
                 that w' = that w /\
                 trace w' = trace w ++
                   (if operative (m_PowerState (that w))
                    then flat_map (mma_write_events MMA_REG_MIDI_DATA)
                           (take (Z.to_nat (Z.min Length 16)) pMidiData)
                    else []))).
    { unfold Midi.Write. rewrite Hcapture.
      replace (Length =? 0) with false by (symmetry; apply Z.eqb_neq; lia).
      cbn [negb default].
      apply runs_bind, runs_get.
      apply runs_bind.
      apply runs_weaken with
        (P := fun result w' =>
                result = (STATUS_SUCCESS, Z.min Length 16) /\
                that w' = that w /\
                trace w' = trace w ++
                  (if operative (m_PowerState (that w))
                   then flat_map (mma_write_events MMA_REG_MIDI_DATA)
                          (take (Z.to_nat (Z.min Length 16)) pMidiData)
                   else [])).
      - assert (Hroutine : runs (Midi.SynchronizedMidiWrite pMidiData Length) w
                  (fun result w' =>
                     result = (STATUS_SUCCESS, Z.min Length 16) /\
                     that w' = that w /\
                     trace w' = trace w ++
                       (if operative (m_PowerState (that w))
                        then flat_map (mma_write_events MMA_REG_MIDI_DATA)
                               (take (Z.to_nat (Z.min Length 16)) pMidiData)
                        else []))).
        { unfold Midi.SynchronizedMidiWrite. apply runs_bind.
          eapply runs_weaken;
            [apply (SynchronizedMidiWrite_loop_runs 16 pMidiData Length 0 w);
             [lia | exact Hheld] |].
          cbv beta. intros written w' (Hthat & -> & Htrace). apply runs_ret.
          replace (Z.max 0 (Z.min Length (0 + Z.of_nat 16))) with (Z.min Length 16)
            in * by lia.
          split; [reflexivity |]. split; [exact Hthat |].
          rewrite Htrace, Z.sub_0_r. reflexivity. }
        destruct (m_pInterruptSync (that w)); exact Hroutine.
      - intros result w' (-> & Hthat & Htrace).
        replace (Z.min Length 16 =? 0) with false by (symmetry; apply Z.eqb_neq; lia).
        apply runs_ret. split; [reflexivity |]. split; assumption. }
    destruct Hrun as (result & w' & Hwrite & -> & Hthat & Htrace).
    exists w'. split; [exact Hwrite |]. split; [exact Hthat |]. split; [exact Htrace |].
    unfold Midi.Write. rewrite Hcapture. reflexivity.
  - unfold Midi.Write. rewrite Hcapture. reflexivity.
Qed.

Lemma Midi_Write_sends_at_most_16_witness :
  exists w',
    Midi.Write (Midi.mkStream false 99) (Some (seqZ 0x90 20)) 20
      (adapter_in PowerDeviceD3 None None)
    = Done (STATUS_SUCCESS, Some 16, Midi.mkStream false 0) w' /\
    trace w' = [].
Proof.
  destruct (Midi_Write_sends_at_most_16 (Midi.mkStream false 99) (seqZ 0x90 20) 20
              (adapter_in PowerDeviceD3 None None)) as [Hrender _].
  { vm_compute. split; [reflexivity | discriminate]. }
  destruct (Hrender eq_refl) as (w' & Hwrite & _ & Htrace & _).
  exists w'. split; [exact Hwrite | exact Htrace].
Defined.

(** ** The dither generator of the wave miniport *)

Lemma checked_on_range (check : Z -> bool) (count : nat) : forall first x,
  holds_from check first count = true ->
  first <= x < first + Z.of_nat count -> check x = true.
Proof.
  induction count as [| count IH]; intros first x Hall Hx; [lia |].
  cbn [holds_from] in Hall. apply andb_prop in Hall as [Hfirst Hrest].
  destruct (Z.eq_dec x first) as [-> | Hne]; [exact Hfirst |].
  apply (IH (first + 1)); [exact Hrest | lia].
Qed.

Lemma no_return_within (seed : Z) (fuel : nat) : forall s,
  (fix returns (fuel : nat) (s : Z) : bool :=
     match fuel with
     | O => false
     | S fuel => let s' := Wave.LfsrNext s in (s' =? seed) || returns fuel s'
     end) fuel s = false ->
  forall k, (0 < k <= fuel)%nat -> Nat.iter k Wave.LfsrNext s <> seed.
Proof.
  induction fuel as [| fuel IH]; intros s Hnone k Hk; [lia |].
  cbv zeta in Hnone. apply orb_false_iff in Hnone as [Hfirst Hrest].
  apply Z.eqb_neq in Hfirst.
  destruct k as [| k]; [lia |]. rewrite Nat.iter_succ_r.
  destruct k as [| k]; [exact Hfirst |].
  apply (IH _ Hrest). lia.
Qed.

(** X18: LfsrNext is a permutation of the 16-bit states that keeps 0 apart:
    its result is a 16-bit value, different states have different
    successors, 0 is followed by 0 and no other state is.  From the seed
    0xACE1 that every stream starts with, the sequence comes back to the seed
    after exactly 65535 steps and not before, so it runs through every
    non-zero state: the generator has maximal length and never sticks. *)
Theorem LfsrNext_maximal_length :
  (forall s, 0 <= Wave.LfsrNext s < 65536) /\
  (forall s1 s2, 0 <= s1 < 65536 -> 0 <= s2 < 65536 ->
                 Wave.LfsrNext s1 = Wave.LfsrNext s2 -> s1 = s2) /\
  (forall s, 0 <= s < 65536 -> (Wave.LfsrNext s = 0 <-> s = 0)) /\
  Nat.iter (Z.to_nat 65535) Wave.LfsrNext 0xACE1 = 0xACE1 /\
  (forall k, (0 < k < Z.to_nat 65535)%nat ->
             Nat.iter k Wave.LfsrNext 0xACE1 <> 0xACE1).
Proof.
  set (prev := fun n : Z =>
                 let upper := Z.land (Z.shiftl n 1) 0xFFFF in
                 Z.lor upper
                   (Z.land (Z.lxor (Z.lxor (Z.lxor (Z.shiftr n 15) (Z.shiftr upper 2))
                                           (Z.shiftr upper 3))
                                   (Z.shiftr upper 5)) 1)).
  assert (Hinverse : forall s, 0 <= s < 65536 -> prev (Wave.LfsrNext s) = s).
  { intros s Hs. apply Z.eqb_eq.
    apply (checked_on_range (fun s => prev (Wave.LfsrNext s) =? s)
             (Z.to_nat 65536) 0);
      [vm_compute; reflexivity | lia]. }
  split; [intros s; apply Z.mod_pos_bound; reflexivity |].
  split; [| split; [| split]].
  - intros s1 s2 Hs1 Hs2 Hsame.
    rewrite <- (Hinverse s1 Hs1), <- (Hinverse s2 Hs2), Hsame. reflexivity.
  - intros s Hs. split; [| intros ->; reflexivity].
    intros Hzero. rewrite <- (Hinverse s Hs), Hzero. reflexivity.
  - vm_compute. reflexivity.
  - intros k Hk.
    apply (no_return_within 0xACE1 (Z.to_nat 65534)); [vm_compute; reflexivity | lia].
Qed.

Lemma LfsrNext_maximal_length_witness :
  Wave.LfsrNext 0xACE1 = 0x5670 /\
  (Wave.LfsrNext 0xACE1 = 0 <-> 0xACE1 = 0) /\
  Nat.iter 2 Wave.LfsrNext 0xACE1 <> 0xACE1.
Proof.
  destruct LfsrNext_maximal_length as (_ & _ & Hzero & _ & Hperiod).
  split; [reflexivity |]. split; [apply Hzero; lia | apply Hperiod; lia].
Defined.

Lemma truncate_to_12_bits dithered :
  -32768 <= dithered <= 32767 ->
  to_SHORT (Z.land dithered 0xFFF0) = 16 * (dithered / 16).
Proof.
  intros Hrange. apply Z.eqb_eq.
  apply (checked_on_range
           (fun d => to_SHORT (Z.land d 0xFFF0) =? 16 * (d / 16))
           (Z.to_nat 65536) (-32768));
    [vm_compute; reflexivity | lia].
Qed.

Lemma DitherSample_truncates (Sample16 Lfsr : Z) :
  -32768 <= Sample16 <= 32767 ->
  exists dithered,
    Wave.DitherSample Sample16 Lfsr
    = (dithered, Wave.LfsrNext (Wave.LfsrNext Lfsr)) /\
    dithered mod 16 = 0 /\
    -32768 <= dithered <= 32752 /\
    Sample16 - 31 <= dithered <= Sample16 + 14.
Proof.
  intros Hsample. unfold Wave.DitherSample.
  assert (Hnibble : forall x, 0 <= Z.land x 0x0F < 16).
  { intros x. change 0x0F with (Z.ones 4). rewrite Z.land_ones by lia.
    apply Z.mod_pos_bound. reflexivity. }
  pose proof (Hnibble Lfsr) as Hr1.
  pose proof (Hnibble (Wave.LfsrNext Lfsr)) as Hr2.
  set (r1 := Z.land Lfsr 0x0F) in *.
  set (r2 := Z.land (Wave.LfsrNext Lfsr) 0x0F) in *.
  set (sum := Sample16 + (r1 - 8) + (r2 - 8)).
  set (clamped := if (if 32767 <? sum then 32767 else sum) <? -32768
                  then -32768
                  else if 32767 <? sum then 32767 else sum).
  assert (Hclamped : -32768 <= clamped <= 32767 /\
                     Sample16 - 16 <= clamped <= Sample16 + 14).
  { unfold clamped, sum.
    destruct (32767 <? Sample16 + (r1 - 8) + (r2 - 8)) eqn:Hhigh;
      [apply Z.ltb_lt in Hhigh | apply Z.ltb_ge in Hhigh];
      match goal with |- context [?a <? ?b] => destruct (a <? b) eqn:Hlow end;
      [apply Z.ltb_lt in Hlow | apply Z.ltb_ge in Hlow
       | apply Z.ltb_lt in Hlow | apply Z.ltb_ge in Hlow]; lia. }
  exists (16 * (clamped / 16)).
  split; [rewrite <- (truncate_to_12_bits clamped) by lia; reflexivity |].
  split; [rewrite Z.mul_comm; apply Z.mod_mul; lia |].
  destruct Hclamped as [Hshort Hnear].
  split; Z.div_mod_to_equations; lia.
Qed.

(** X19: DitherSample keeps a sample within a 12-bit step of where it was.
    For a 16-bit sample the result is a multiple of 16 (the lower four bits
    are clear) in the signed 16-bit range, not more than 31 below and 14
    above the sample; the LFSR is advanced by two steps. *)
Theorem DitherSample_bounds (Sample16 Lfsr : Z) :
  -32768 <= Sample16 <= 32767 ->
  exists dithered,
    Wave.DitherSample Sample16 Lfsr
    = (dithered, Wave.LfsrNext (Wave.LfsrNext Lfsr)) /\
    dithered mod 16 = 0 /\
    Z.land dithered 0x0F = 0 /\
    -32768 <= dithered <= 32752 /\
    Sample16 - 31 <= dithered <= Sample16 + 14.
Proof.
  intros Hsample.
  destruct (DitherSample_truncates Sample16 Lfsr Hsample)
    as (dithered & Hrun & Hstep & Hshort & Hnear).
  exists dithered. split; [exact Hrun |]. split; [exact Hstep |].
  split; [| split; assumption].
  change 0x0F with (Z.ones 4). rewrite Z.land_ones by lia. exact Hstep.
Qed.

Lemma DitherSample_bounds_witness :
  exists dithered,
    Wave.DitherSample 32767 0xACE1
    = (dithered, Wave.LfsrNext (Wave.LfsrNext 0xACE1)) /\
    dithered = 32752.
Proof.
  destruct (DitherSample_bounds 32767 0xACE1 ltac:(lia))
    as (dithered & Hrun & _ & _ & _ & _).
  exists dithered. split; [exact Hrun |].
  vm_compute in Hrun. injection Hrun as <-. reflexivity.
Defined.

(** ** The wave miniport: interrupt and DMA routing, formats *)

Lemma irq_select_spec irqLine :
  let irqSel :=
    if irqLine =? 3 then CTRL_IRQ_SEL_3
    else if irqLine =? 4 then CTRL_IRQ_SEL_4
    else if irqLine =? 5 then CTRL_IRQ_SEL_5
    else if irqLine =? 7 then CTRL_IRQ_SEL_7
    else if irqLine =? 10 then CTRL_IRQ_SEL_10
    else if irqLine =? 11 then CTRL_IRQ_SEL_11
    else if irqLine =? 12 then CTRL_IRQ_SEL_12
    else if irqLine =? 15 then CTRL_IRQ_SEL_15
    else CTRL_IRQ_SEL_7 in
  0 <= irqSel <= 7 /\
  (In irqLine [3; 4; 5; 7; 10; 11; 12; 15] ->
   [3; 4; 5; 7; 10; 11; 12; 15] !! Z.to_nat irqSel = Some irqLine) /\
  (~ In irqLine [3; 4; 5; 7; 10; 11; 12; 15] -> irqSel = CTRL_IRQ_SEL_7).
Proof.
  cbv zeta.
  repeat match goal with
         | |- context [irqLine =? ?n] =>
             destruct (irqLine =? n) eqn:?;
             [match goal with
              | H : (irqLine =? n) = true |- _ =>
                  apply Z.eqb_eq in H; subst irqLine;
                  split; [vm_compute; split; discriminate |];
                  split; [reflexivity | intros Hout; contradiction Hout; cbn; tauto]
              end |]
         end.
  split; [vm_compute; split; discriminate |].
  split; [| reflexivity].
  intros Hin. cbn in Hin.
  repeat match goal with
         | H : (irqLine =? _) = false |- _ => apply Z.eqb_neq in H
         end.
  intuition congruence.
Qed.

(** X20: ConfigureDmaAndIrq writes one Control Chip register, 0x13, and the
    byte it writes routes what it was given.  D7 (DMA enable) and D4 (IRQ
    enable) are set and D3 is clear; D6..D5 hold the DMA channel modulo 4;
    D2..D0 hold the select code of the interrupt line, which maps back to the
    line for lines 3, 4, 5, 7, 10, 11, 12 and 15; any other line gets the
    code of line 7.  With the adapter powered down the byte only reaches the
    shadow cache. *)
Theorem ConfigureDmaAndIrq_routes
    (plat : Platform) (irqLine dmaChan : Z) (w : World) :
  cache_sized w ->
  0 <= dmaChan ->
  exists w' reg13,
    Wave.ConfigureDmaAndIrq plat irqLine dmaChan w = Done tt w' /\
    only_cache w w' /\
    cached (that w') CTRL_REG_IRQ_DMA0 = reg13 /\
    (forall i, 0 <= i -> i <> CTRL_REG_IRQ_DMA0 ->
               cached (that w') i = cached (that w) i) /\
    (operative (m_PowerState (that w)) = false -> trace w' = trace w) /\
    0 <= reg13 < 256 /\
    Z.land reg13 CTRL_DMA0_ENABLE = CTRL_DMA0_ENABLE /\
    Z.land reg13 CTRL_IRQ_ENABLE = CTRL_IRQ_ENABLE /\
    Z.testbit reg13 3 = false /\
    Z.shiftr (Z.land reg13 0x60) CTRL_DMA0_SEL_SHIFT = dmaChan mod 4 /\
    (In irqLine [3; 4; 5; 7; 10; 11; 12; 15] ->
     [3; 4; 5; 7; 10; 11; 12; 15] !! Z.to_nat (Z.land reg13 CTRL_IRQ_SEL_MASK)
     = Some irqLine) /\
    (~ In irqLine [3; 4; 5; 7; 10; 11; 12; 15] ->
     Z.land reg13 CTRL_IRQ_SEL_MASK = CTRL_IRQ_SEL_7).
Proof.
  intros Hsized HdmaChan. unfold Wave.ConfigureDmaAndIrq.
  pose proof (irq_select_spec irqLine) as Hirq. cbv zeta in Hirq.
  set (irqSel := if irqLine =? 3 then CTRL_IRQ_SEL_3 else _) in *.
  destruct Hirq as (Hsel & Hlisted & Hfallback).
  assert (Hdma : Z.land dmaChan 0x03 = dmaChan mod 4).
  { change 0x03 with (Z.ones 2). rewrite Z.land_ones by lia. reflexivity. }
  rewrite Hdma.
  pose proof (Z.mod_pos_bound dmaChan 4 ltac:(lia)) as Hchannel.
  set (channel := dmaChan mod 4) in *.
  set (reg13 := Z.lor (Z.lor (Z.lor CTRL_DMA0_ENABLE
                                    (Z.shiftl channel CTRL_DMA0_SEL_SHIFT mod 256))
                             CTRL_IRQ_ENABLE) irqSel mod 256).
  assert (Hfields :
            0 <= reg13 < 256 /\
            Z.land reg13 CTRL_DMA0_ENABLE = CTRL_DMA0_ENABLE /\
            Z.land reg13 CTRL_IRQ_ENABLE = CTRL_IRQ_ENABLE /\
            Z.testbit reg13 3 = false /\
            Z.shiftr (Z.land reg13 0x60) CTRL_DMA0_SEL_SHIFT = channel /\
            Z.land reg13 CTRL_IRQ_SEL_MASK = irqSel).
  { unfold reg13. clearbody irqSel channel. clear -Hsel Hchannel.
    assert (Hc : channel = 0 \/ channel = 1 \/ channel = 2 \/ channel = 3) by lia.
    assert (Hs : irqSel = 0 \/ irqSel = 1 \/ irqSel = 2 \/ irqSel = 3 \/ irqSel = 4
                 \/ irqSel = 5 \/ irqSel = 6 \/ irqSel = 7) by lia.
    destruct Hc as [-> | [-> | [-> | ->]]];
      destruct Hs as [-> | [-> | [-> | [-> | [-> | [-> | [-> | ->]]]]]]];
      vm_compute; repeat split; congruence. }
  destruct Hfields as (Hbyte & Hdma_on & Hirq_on & Hbit3 & Hchannel_field & Hsel_field).
  destruct (ControlRegWrite_stores plat CTRL_REG_IRQ_DMA0 reg13 w
              ltac:(unfold CTRL_REG_IRQ_DMA0, CTRL_REG_MAX; lia) Hsized)
    as ([] & w' & Hwrite & Honly & Hstored & Hframe & Hquiet).
  exists w', reg13. split; [exact Hwrite |]. split; [exact Honly |].
  split; [exact Hstored |]. split; [exact Hframe |]. split; [exact Hquiet |].
  split; [exact Hbyte |]. split; [exact Hdma_on |]. split; [exact Hirq_on |].
  split; [exact Hbit3 |]. split; [exact Hchannel_field |].
  rewrite Hsel_field. split; assumption.
Qed.

Lemma ConfigureDmaAndIrq_routes_witness :
  exists w',
    Wave.ConfigureDmaAndIrq idle_card 10 1 (adapter_in PowerDeviceD0 None None)
    = Done tt w' /\
    cached (that w') CTRL_REG_IRQ_DMA0 = 0xB4.
Proof.
  destruct (ConfigureDmaAndIrq_routes idle_card 10 1
              (adapter_in PowerDeviceD0 None None) eq_refl ltac:(lia))
    as (w' & reg13 & Hrun & _ & Hstored & _).
  exists w'. split; [exact Hrun |].
  pose proof Hrun as Hresult. vm_compute in Hresult. injection Hresult as <-.
  reflexivity.
Defined.

(** X21: what ValidateFormat lets through, and how SampleRateToFreqBits
    encodes it.  ValidateFormat returns STATUS_SUCCESS or
    STATUS_INVALID_PARAMETER.  A format it accepts is PCM with one or two
    channels, 8 or 16 bits and one of the four hardware rates; for such a
    format SampleRateToFreqBits does not take its fallback: the code it
    returns is the position of the rate in SupportedSampleRates.  For any
    rate the code is between 0 and 3, so it fits the two FREQ bits. *)
Theorem ValidateFormat_then_SampleRateToFreqBits
    (sizeof_KSDATAFORMAT_WAVEFORMATEX : Z) (Format : Wave.KSDATAFORMAT_WAVEFORMATEX) :
  (Wave.ValidateFormat sizeof_KSDATAFORMAT_WAVEFORMATEX Format = STATUS_SUCCESS \/
   Wave.ValidateFormat sizeof_KSDATAFORMAT_WAVEFORMATEX Format
   = STATUS_INVALID_PARAMETER) /\
  (Wave.ValidateFormat sizeof_KSDATAFORMAT_WAVEFORMATEX Format = STATUS_SUCCESS ->
   sizeof_KSDATAFORMAT_WAVEFORMATEX <= Wave.FormatSize Format /\
   Wave.wFormatTag Format = WAVE_FORMAT_PCM /\
   (Wave.nChannels Format = 1 \/ Wave.nChannels Format = 2) /\
   (Wave.wBitsPerSample Format = 8 \/ Wave.wBitsPerSample Format = 16) /\
   Wave.SupportedSampleRates
     !! Z.to_nat (Wave.SampleRateToFreqBits (Wave.nSamplesPerSec Format))
   = Some (Wave.nSamplesPerSec Format)) /\
  (forall SampleRate,
      0 <= Wave.SampleRateToFreqBits SampleRate <= 3 /\
      Z.land (Z.shiftl (Wave.SampleRateToFreqBits SampleRate) MMA_PB_FREQ_SHIFT)
             (Z.lnot MMA_PB_FREQ_MASK) = 0).
Proof.
  assert (Hfailed : STATUS_INVALID_PARAMETER <> STATUS_SUCCESS) by discriminate.
  split; [| split].
  - unfold Wave.ValidateFormat.
    repeat match goal with
           | |- context [if ?c then STATUS_INVALID_PARAMETER else _] =>
               destruct c; [right; reflexivity |]
           end.
    left. reflexivity.
  - unfold Wave.ValidateFormat.
    destruct (Wave.FormatSize Format <? sizeof_KSDATAFORMAT_WAVEFORMATEX) eqn:Hsize;
      cbn [orb]; [intros H; contradiction (Hfailed H) |].
    apply Z.ltb_ge in Hsize.
    match goal with
    | |- context [if ?c then STATUS_INVALID_PARAMETER else _] =>
        destruct c; [intros H; contradiction (Hfailed H) |]
    end.
    destruct (Wave.wFormatTag Format =? WAVE_FORMAT_PCM) eqn:Htag;
      cbn [negb]; [| intros H; contradiction (Hfailed H)].
    apply Z.eqb_eq in Htag.
    destruct ((Wave.nChannels Format <? 1) || (2 <? Wave.nChannels Format)) eqn:Hchannels;
      [intros H; contradiction (Hfailed H) |].
    apply orb_false_iff in Hchannels as [Hlow Hhigh].
    apply Z.ltb_ge in Hlow, Hhigh.
    destruct (negb (Wave.wBitsPerSample Format =? 8)
              && negb (Wave.wBitsPerSample Format =? 16)) eqn:Hbits;
      [intros H; contradiction (Hfailed H) |].
    destruct (Wave.rate_listed Wave.SupportedSampleRates (Wave.nSamplesPerSec Format))
      eqn:Hrate; cbn [negb]; [| intros H; contradiction (Hfailed H)].
    intros _. split; [exact Hsize |]. split; [exact Htag |].
    split; [lia |]. split.
    + apply andb_false_iff in Hbits as [Hbits | Hbits];
        apply negb_false_iff, Z.eqb_eq in Hbits; [left | right]; exact Hbits.
    + unfold Wave.SampleRateToFreqBits. cbn [Wave.rate_listed Wave.SupportedSampleRates] in Hrate.
      destruct (Wave.nSamplesPerSec Format =? 44100) eqn:Hrate0;
        [apply Z.eqb_eq in Hrate0; rewrite Hrate0; reflexivity |].
      destruct (Wave.nSamplesPerSec Format =? 22050) eqn:Hrate1;
        [apply Z.eqb_eq in Hrate1; rewrite Hrate1; reflexivity |].
      destruct (Wave.nSamplesPerSec Format =? 11025) eqn:Hrate2;
        [apply Z.eqb_eq in Hrate2; rewrite Hrate2; reflexivity |].
      destruct (Wave.nSamplesPerSec Format =? 7350) eqn:Hrate3;
        [apply Z.eqb_eq in Hrate3; rewrite Hrate3; reflexivity |].
      discriminate.
  - intros SampleRate. unfold Wave.SampleRateToFreqBits.
    repeat match goal with
           | |- context [SampleRate =? ?n] =>
               destruct (SampleRate =? n); [vm_compute; repeat split; congruence |]
           end.
    vm_compute; repeat split; congruence.
Qed.

Lemma ValidateFormat_then_SampleRateToFreqBits_witness :
  Wave.ValidateFormat 82
    (Wave.mkFormat 82 "KSDATAFORMAT_TYPE_AUDIO" "KSDATAFORMAT_SUBTYPE_PCM"
                   "KSDATAFORMAT_SPECIFIER_WAVEFORMATEX" 1 2 11025 16)
  = STATUS_SUCCESS /\
  Wave.SampleRateToFreqBits 11025 = MMA_FREQ_11025.
Proof.
  split; [reflexivity |].
  destruct (ValidateFormat_then_SampleRateToFreqBits 82
              (Wave.mkFormat 82 "KSDATAFORMAT_TYPE_AUDIO" "KSDATAFORMAT_SUBTYPE_PCM"
                             "KSDATAFORMAT_SPECIFIER_WAVEFORMATEX" 1 2 11025 16))
    as (_ & Haccepted & _).
  destruct (Haccepted eq_refl) as (_ & _ & _ & _ & Hcode).
  reflexivity.
Defined.

(** ** The wave miniport: filling the FIFO *)

Lemma to_SHORT_range x : -32768 <= to_SHORT x <= 32767.
Proof.
  unfold to_SHORT. pose proof (Z.mod_pos_bound x 65536 ltac:(lia)) as Hmod.
  destruct (x mod 65536 <? 32768) eqn:Hlow;
    [apply Z.ltb_lt in Hlow | apply Z.ltb_ge in Hlow]; lia.
Qed.

Lemma FillFifo_loop_runs remaining : forall pBuffer position size lfsr w,
  length pBuffer = Z.to_nat size ->
  size mod 2 = 0 -> position mod 2 = 0 -> 0 <= position < size ->
  runs (Wave.FillFifo_loop remaining pBuffer (Wave.mkPio position size lfsr)) w
    (fun this' w' =>
       that w' = that w /\
       this' = Wave.mkPio ((position + 2 * Z.of_nat remaining) mod size) size
                          (Nat.iter (2 * remaining) Wave.LfsrNext lfsr) /\
       exists samples,
         length samples = remaining /\
         Forall (fun sample => sample mod 16 = 0 /\ -32768 <= sample <= 32752) samples /\
         trace w' = trace w ++
           if operative (m_PowerState (that w))
           then flat_map fifo_pair samples
           else []).
Proof.
  induction remaining as [| remaining IH];
    intros pBuffer position size lfsr w Hlen Hsize_even Hposition_even Hposition;
    cbn [Wave.FillFifo_loop].
  - apply runs_ret. split; [reflexivity |]. split.
    + cbn [Nat.iter Nat.mul Z.of_nat]. rewrite Z.mul_0_r, Z.add_0_r, Z.mod_small by lia.
      reflexivity.
    + exists []. split; [reflexivity |]. split; [constructor |].
      cbn [flat_map]. destruct (operative (m_PowerState (that w)));
        symmetry; apply app_nil_r.
  - cbn [Wave.m_SoftwarePosition Wave.m_DmaBufferSize Wave.m_LfsrState].
    assert (Hnext : position + 2 <= size) by (revert Hsize_even Hposition_even;
                                              Z.div_mod_to_equations; lia).
    apply runs_bind.
    unfold Wave.load_sample.
    replace (0 <=? position) with true by (symmetry; apply Z.leb_le; lia).
    destruct (pBuffer !! Z.to_nat position) as [lo |] eqn:Hlo;
      [| apply lookup_ge_None in Hlo; lia].
    destruct (pBuffer !! Z.to_nat (position + 1)) as [hi |] eqn:Hhi;
      [| apply lookup_ge_None in Hhi; lia].
    apply runs_ret.
    destruct (DitherSample_truncates (to_SHORT (lo + 256 * hi)) lfsr
                (to_SHORT_range _)) as (dithered & Hdither & Hstep & Hshort & _).
    rewrite Hdither.
    apply runs_bind.
    eapply runs_weaken; [apply WriteMMA_runs |].
    cbv beta. intros _ w1 (Hthat1 & Htrace1).
    apply runs_bind.
    eapply runs_weaken; [apply WriteMMA_runs |].
    cbv beta. intros _ w2 (Hthat2 & Htrace2).
    set (position' := if size <=? position + 2 then 0 else position + 2).
    assert (Hposition' : position' mod 2 = 0 /\ 0 <= position' < size /\
                         (position' + 2 * Z.of_nat remaining) mod size
                         = (position + 2 * Z.of_nat (S remaining)) mod size).
    { unfold position'. rewrite Nat2Z.inj_succ.
      destruct (size <=? position + 2) eqn:Hwrap;
        [apply Z.leb_le in Hwrap | apply Z.leb_gt in Hwrap].
      - split; [reflexivity |]. split; [lia |].
        replace (position + 2 * Z.succ (Z.of_nat remaining))
          with (0 + 2 * Z.of_nat remaining + 1 * size) by lia.
        rewrite Z_mod_plus_full. reflexivity.
      - split; [| split; [lia | f_equal; lia]].
        revert Hposition_even. Z.div_mod_to_equations. lia. }
    destruct Hposition' as (Heven' & Hrange' & Hadvance).
    eapply runs_weaken;
      [apply (IH pBuffer position' size (Wave.LfsrNext (Wave.LfsrNext lfsr)) w2
                Hlen Hsize_even Heven' Hrange') |].
    cbv beta. intros this' w3 (Hthat3 & -> & samples & Hcount & Hall & Htrace3).
    split; [congruence |]. split.
    + rewrite Hadvance. f_equal.
      replace (2 * S remaining)%nat with (S (S (2 * remaining))) by lia.
      rewrite !Nat.iter_succ_r. reflexivity.
    + exists (dithered :: samples).
      split; [cbn [length]; rewrite Hcount; reflexivity |].
      split; [constructor; [split; assumption | exact Hall] |].
      rewrite Htrace3, Htrace2, Htrace1, Hthat2, Hthat1.
      destruct (operative (m_PowerState (that w))).
      * cbn [flat_map]. unfold fifo_pair at 2, mma_write_events.
        rewrite <- !app_assoc. reflexivity.
      * rewrite !app_nil_r. reflexivity.
Qed.

(** X22: one call of FillFifo sends one FIFO's worth.  With a buffer of even
    size that the position lies in, on an even offset, it never reads
    outside the buffer; it sends 64 samples, each as two writes of the PCM
    data register, low byte first; every sample sent is a multiple of 16 in
    the signed 16-bit range (12-bit resolution); the position advances by 128
    bytes modulo the buffer size and the LFSR by 128 steps; the adapter
    object is not touched.  With the adapter powered down nothing reaches the
    ports, and position and LFSR advance all the same.  Without a buffer it
    does nothing. *)
Theorem FillFifo_sends_one_fifo
    (pBuffer : list Z) (this : Wave.PioState) (w : World) :
  length pBuffer = Z.to_nat (Wave.m_DmaBufferSize this) ->
  Wave.m_DmaBufferSize this mod 2 = 0 ->
  Wave.m_SoftwarePosition this mod 2 = 0 ->
  0 <= Wave.m_SoftwarePosition this < Wave.m_DmaBufferSize this ->
  exists this' w' samples,
    Wave.FillFifo (Some pBuffer) this w = Done this' w' /\
    that w' = that w /\
    Wave.m_SoftwarePosition this'
    = (Wave.m_SoftwarePosition this + MMA_FIFO_SIZE) mod Wave.m_DmaBufferSize this /\
    Wave.m_DmaBufferSize this' = Wave.m_DmaBufferSize this /\
    Wave.m_LfsrState this' = Nat.iter 128 Wave.LfsrNext (Wave.m_LfsrState this) /\
    length samples = 64%nat /\
    Forall (fun sample => sample mod 16 = 0 /\ -32768 <= sample <= 32752) samples /\
    trace w' = trace w ++
      (if operative (m_PowerState (that w)) then flat_map fifo_pair samples else []) /\
    Wave.FillFifo None this w = Done this w.
Proof.
  intros Hlen Hsize_even Hposition_even Hposition.
  destruct this as [position size lfsr].
  cbn [Wave.m_SoftwarePosition Wave.m_DmaBufferSize Wave.m_LfsrState] in *.
  destruct (FillFifo_loop_runs (Z.to_nat (MMA_FIFO_SIZE / 2)) pBuffer position size
              lfsr w Hlen Hsize_even Hposition_even Hposition)
    as (this' & w' & Hrun & Hthat & -> & samples & Hcount & Hall & Htrace).
  exists (Wave.mkPio ((position + 2 * Z.of_nat (Z.to_nat (MMA_FIFO_SIZE / 2))) mod size)
            size
            (Nat.iter (2 * Z.to_nat (MMA_FIFO_SIZE / 2)) Wave.LfsrNext lfsr)),
    w', samples.
  split; [exact Hrun |]. split; [exact Hthat |].
  split; [reflexivity |]. split; [reflexivity |]. split; [reflexivity |].
  split; [exact Hcount |]. split; [exact Hall |]. split; [exact Htrace | reflexivity].
Qed.

Lemma FillFifo_sends_one_fifo_witness :
  exists this' w',
    Wave.FillFifo (Some (replicate 200 0x7F)) (Wave.mkPio 100 200 0xACE1)
      (adapter_in PowerDeviceD0 None None)
    = Done this' w' /\
    Wave.m_SoftwarePosition this' = 28 /\
    length (written_to ALG_REG_MMA0_DATA (trace w')) = 128%nat.
Proof.
  destruct (FillFifo_sends_one_fifo (replicate 200 0x7F) (Wave.mkPio 100 200 0xACE1)
              (adapter_in PowerDeviceD0 None None))
    as (this' & w' & samples & Hrun & _ & Hposition & _ & _ & _ & _ & _ & _);
    try reflexivity; [cbn; lia |].
  exists this', w'. split; [exact Hrun |]. split; [exact Hposition |].
  pose proof Hrun as Hresult. vm_compute in Hresult. injection Hresult as _ <-.
  vm_compute. reflexivity.
Defined.

(** ** The wave stream: the sampling engine follows the stream state *)

Lemma WriteMMA_operative Register Value w :
  operative (m_PowerState (that w)) = true ->
  runs (WriteMMA Register Value) w
    (fun _ w' =>
       that w' = that w /\
       trace w' = trace w ++ mma_write_events Register Value).
Proof.
  intros Hon. eapply runs_weaken; [apply WriteMMA_runs |].
  cbv beta. intros _ w' (Hthat & Htrace). rewrite Hon in Htrace.
  split; assumption.
Qed.

Lemma mma_state_app reg tr1 tr2 :
  mma_state reg (tr1 ++ tr2) = fold_left (mma_step reg) tr2 (mma_state reg tr1).
Proof. unfold mma_state. apply fold_left_app. Qed.

Lemma mma_write_recorded reg value state :
  snd (fold_left (mma_step reg) (mma_write_events reg value) state) = Some value.
Proof.
  unfold mma_write_events. cbn [fold_left mma_step].
  rewrite Z.eqb_refl. cbn [fst snd].
  change (ALG_REG_MMA0_DATA =? ALG_REG_MMA0_ADDR) with false.
  rewrite Z.eqb_refl. cbn [andb].
  rewrite bool_decide_eq_true_2 by reflexivity. reflexivity.
Qed.

Lemma mma_write_elsewhere reg other value state :
  other <> reg ->
  snd (fold_left (mma_step reg) (mma_write_events other value) state) = snd state.
Proof.
  intros Hother. unfold mma_write_events. cbn [fold_left mma_step].
  rewrite Z.eqb_refl. cbn [fst snd].
  change (ALG_REG_MMA0_DATA =? ALG_REG_MMA0_ADDR) with false.
  rewrite Z.eqb_refl. cbn [andb].
  rewrite bool_decide_eq_false_2 by congruence. reflexivity.
Qed.

Lemma engine_running_after_write tr value :
  engine_running (tr ++ mma_write_events MMA_REG_PLAYBACK value) = Z.testbit value 0.
Proof.
  unfold engine_running. rewrite mma_state_app, mma_write_recorded. reflexivity.
Qed.

Lemma engine_running_after_format tr value format :
  engine_running (tr ++ mma_write_events MMA_REG_PLAYBACK value
                     ++ mma_write_events MMA_REG_FORMAT format)
  = Z.testbit value 0.
Proof.
  unfold engine_running.
  rewrite app_assoc, mma_state_app, mma_write_elsewhere by discriminate.
  rewrite mma_state_app, mma_write_recorded. reflexivity.
Qed.

Lemma playback_command_has_GO rate capture :
  Z.testbit
    (let pbReg := Z.lor MMA_PB_PCM MMA_PB_GO in
     let pbReg := Z.lor pbReg (Z.lor MMA_PB_LEFT MMA_PB_RIGHT) mod 256 in
     let pbReg := Z.lor pbReg (Z.shiftl (Wave.SampleRateToFreqBits rate)
                                        MMA_PB_FREQ_SHIFT) mod 256 in
     if negb capture then Z.lor pbReg MMA_PB_PLAYBACK mod 256 else pbReg) 0 = true.
Proof.
  unfold Wave.SampleRateToFreqBits.
  destruct (rate =? 44100); [destruct capture; reflexivity |].
  destruct (rate =? 22050); [destruct capture; reflexivity |].
  destruct (rate =? 11025); [destruct capture; reflexivity |].
  destruct (rate =? 7350); destruct capture; reflexivity.
Qed.

Lemma FillFifo_prefill dma lfsr w :
  pio_ready dma ->
  runs (Wave.FillFifo (SystemAddress dma) (Wave.mkPio 0 (BufferSize dma) lfsr)) w
    (fun _ w' => that w' = that w).
Proof.
  unfold pio_ready, Wave.FillFifo.
  destruct (SystemAddress dma) as [pBuffer |]; [| intros _; apply runs_ret; reflexivity].
  intros (Hlen & Heven & Hpositive).
  eapply runs_weaken;
    [apply (FillFifo_loop_runs _ pBuffer 0 (BufferSize dma) lfsr w Hlen Heven);
     [reflexivity | lia] |].
  cbv beta. intros this' w' (Hthat & _). exact Hthat.
Qed.

Lemma ProgramMmaStart_runs dma rate this w :
  operative (m_PowerState (that w)) = true ->
  pio_ready dma ->
  runs (WaveStream.ProgramMmaStart dma rate this) w
    (fun result w' =>
       that w' = that w /\
       engine_running (trace w') = true /\
       WaveStream.m_State (fst result) = WaveStream.m_State this /\
       WaveStream.m_16Bit (fst result) = WaveStream.m_16Bit this /\
       WaveStream.m_Capture (fst result) = WaveStream.m_Capture this /\
       snd result = if WaveStream.m_16Bit this
                    then []
                    else [Dma_Start (BufferSize dma) (negb (WaveStream.m_Capture this))]).
Proof.
  intros Hon Hready. unfold WaveStream.ProgramMmaStart.
  apply runs_bind.
  eapply runs_weaken; [apply WriteMMA_operative, Hon |].
  cbv beta. intros _ w1 (Hthat1 & _).
  apply runs_bind, runs_emit, runs_bind.
  eapply runs_weaken; [apply WriteMMA_operative; cbn [that]; rewrite Hthat1; exact Hon |].
  cbv beta. cbn [that]. intros _ w2 (Hthat2 & _).
  apply runs_bind.
  eapply runs_weaken;
    [apply WriteMMA_operative; rewrite Hthat2, Hthat1; exact Hon |].
  cbv beta. intros _ w3 (Hthat3 & _).
  assert (Hon3 : operative (m_PowerState (that w3)) = true)
    by (rewrite Hthat3, Hthat2, Hthat1; exact Hon).
  apply runs_bind.
  apply runs_weaken with
    (P := fun this' w4 =>
            that w4 = that w3 /\
            WaveStream.m_State this' = WaveStream.m_State this /\
            WaveStream.m_16Bit this' = WaveStream.m_16Bit this /\
            WaveStream.m_Capture this' = WaveStream.m_Capture this).
  - destruct (WaveStream.m_16Bit this) eqn:Hdepth;
      [| apply runs_ret; repeat split; assumption].
    cbn [WaveStream.m_Capture WaveStream.set_pio].
    destruct (WaveStream.m_Capture this) eqn:Hcapture; cbn [negb].
    + apply runs_ret. cbn. repeat split; assumption.
    + apply runs_bind. cbn [WaveStream.pio WaveStream.set_pio].
      eapply runs_weaken; [apply FillFifo_prefill, Hready |].
      cbv beta. intros filled w4 Hthat4. apply runs_ret.
      cbn. repeat split; assumption.
  - intros this' w4 (Hthat4 & Hstate & Hdepth & Hcapture).
    apply runs_bind.
    eapply runs_weaken;
      [apply WriteMMA_operative; rewrite Hthat4; exact Hon3 |].
    cbv beta. intros _ w5 (Hthat5 & Htrace5).
    apply runs_ret. cbn [fst snd].
    split; [congruence |].
    split; [rewrite Htrace5, engine_running_after_write;
            apply playback_command_has_GO |].
    split; [exact Hstate |]. split; [exact Hdepth |]. split; [exact Hcapture |].
    rewrite Hdepth, Hcapture. destruct (WaveStream.m_16Bit this); reflexivity.
Qed.

Lemma ProgramMmaStop_runs this w :
  operative (m_PowerState (that w)) = true ->
  runs (WaveStream.ProgramMmaStop this) w
    (fun result w' =>
       that w' = that w /\
       engine_running (trace w') = false /\
       WaveStream.m_State (fst result) = WaveStream.m_State this /\
       WaveStream.m_16Bit (fst result) = WaveStream.m_16Bit this /\
       WaveStream.m_Capture (fst result) = WaveStream.m_Capture this /\
       snd result = if WaveStream.m_16Bit this then [] else [Dma_Stop]).
Proof.
  intros Hon. unfold WaveStream.ProgramMmaStop.
  apply runs_bind.
  eapply runs_weaken; [apply WriteMMA_operative, Hon |].
  cbv beta. intros _ w1 (Hthat1 & _).
  apply runs_bind, runs_emit, runs_bind.
  eapply runs_weaken; [apply WriteMMA_operative; cbn [that]; rewrite Hthat1; exact Hon |].
  cbv beta. cbn [that trace]. intros _ w2 (Hthat2 & Htrace2).
  apply runs_bind.
  eapply runs_weaken;
    [apply WriteMMA_operative; rewrite Hthat2, Hthat1; exact Hon |].
  cbv beta. intros _ w3 (Hthat3 & Htrace3).
  apply runs_ret. cbn [fst snd].
  split; [congruence |].
  split; [rewrite Htrace3, Htrace2, <- app_assoc; apply engine_running_after_format |].
  repeat split. destruct (WaveStream.m_16Bit this); reflexivity.
Qed.

Lemma dma_transferring_app before actions others :
  dma_transferring before (actions ++ others)
  = dma_transferring (dma_transferring before actions) others.
Proof.
  unfold dma_transferring. rewrite last_app.
  destruct (last others) as [[? ? |] |]; reflexivity.
Qed.

Lemma wave_SetState_runs dma rate NewState this w :
  operative (m_PowerState (that w)) = true ->
  pio_ready dma ->
  engine_running (trace w) = bool_decide (WaveStream.m_State this = KSSTATE_RUN) ->
  runs (WaveStream.SetState dma rate NewState this) w
    (fun result w' =>
       fst (fst result) = STATUS_SUCCESS /\
       that w' = that w /\
       WaveStream.m_State (snd (fst result))
       = settled_state (WaveStream.m_State this) [NewState] /\
       WaveStream.m_16Bit (snd (fst result)) = WaveStream.m_16Bit this /\
       WaveStream.m_Capture (snd (fst result)) = WaveStream.m_Capture this /\
       engine_running (trace w')
       = bool_decide (WaveStream.m_State (snd (fst result)) = KSSTATE_RUN) /\
       Forall (fun action =>
                 action = Dma_Stop \/
                 action = Dma_Start (BufferSize dma) (negb (WaveStream.m_Capture this)))
              (snd result) /\
       if WaveStream.m_16Bit this
       then snd result = []
       else dma_transferring (bool_decide (WaveStream.m_State this = KSSTATE_RUN))
                             (snd result)
            = bool_decide (WaveStream.m_State (snd (fst result)) = KSSTATE_RUN)).
Proof.
  intros Hon Hready Hengine.
  destruct this as [capture depth stereo state pio].
  cbn [WaveStream.m_State WaveStream.m_16Bit WaveStream.m_Capture] in *.
  unfold WaveStream.SetState, settled_state.
  cbn [fold_left WaveStream.m_State WaveStream.m_16Bit].
  destruct NewState, state;
    repeat match goal with
           | |- context [bool_decide (?a = ?b)] =>
               let v := eval vm_compute in (bool_decide (a = b)) in
               change (bool_decide (a = b)) with v
           | H : context [bool_decide (?a = ?b)] |- _ =>
               let v := eval vm_compute in (bool_decide (a = b)) in
               change (bool_decide (a = b)) with v in H
           end;
    cbn [negb].
  all: try (apply runs_ret; cbn; repeat split;
            try assumption; try constructor; destruct depth; reflexivity).
  all: apply runs_bind.
  all: try (eapply runs_weaken; [apply ProgramMmaStop_runs, Hon |]).
  all: try (eapply runs_weaken; [apply ProgramMmaStart_runs; [exact Hon | exact Hready] |]).
  all: try (cbv beta;
            intros [this' actions] w'
                   (Hthat & Hrun & Hstate & Hdepth & Hcapture & Hactions);
            destruct this' as [capture' depth' stereo' state' pio'];
            cbn [fst snd WaveStream.m_State WaveStream.m_16Bit
                 WaveStream.m_Capture] in *;
            subst capture' depth' state' actions;
            apply runs_ret;
            cbn [fst snd WaveStream.set_State WaveStream.m_State
                 WaveStream.m_16Bit WaveStream.m_Capture];
            split; [reflexivity |]; split; [exact Hthat |];
            split; [reflexivity |]; split; [reflexivity |];
            split; [reflexivity |]; split; [exact Hrun |];
            split; [| destruct depth; reflexivity];
            destruct depth; cbn [negb];
            [constructor
            | constructor;
              [first [left; reflexivity | right; reflexivity] | constructor]]).
  all: apply runs_bind.
  all: eapply runs_weaken; [apply WriteMMA_operative, Hon |].
  all: cbv beta; intros _ w1 (Hthat1 & Htrace1); apply runs_bind.
  all: eapply runs_weaken;
    [apply WriteMMA_operative; rewrite Hthat1; exact Hon |].
  all: cbv beta; intros _ w2 (Hthat2 & Htrace2).
  all: apply runs_ret, runs_ret.
  all: cbn [fst snd WaveStream.set_State WaveStream.m_State
            WaveStream.m_16Bit WaveStream.m_Capture].
  all: split; [reflexivity |]; split; [congruence |].
  all: split; [reflexivity |]; split; [reflexivity |]; split; [reflexivity |].
  all: split;
    [rewrite Htrace2, Htrace1, <- app_assoc; apply engine_running_after_format |].
  all: split; [| destruct depth; reflexivity].
  all: destruct depth; cbn [negb];
    [constructor | constructor; [left; reflexivity | constructor]].
Qed.

Lemma settled_state_cons initial request requests :
  settled_state initial (request :: requests)
  = settled_state (settled_state initial [request]) requests.
Proof. reflexivity. Qed.

Lemma wave_SetStates_runs dma rate requests :
  pio_ready dma ->
  forall this w,
    operative (m_PowerState (that w)) = true ->
    engine_running (trace w) = bool_decide (WaveStream.m_State this = KSSTATE_RUN) ->
    runs (WaveStream.SetStates dma rate requests this) w
      (fun result w' =>
         that w' = that w /\
         WaveStream.m_State (fst result)
         = settled_state (WaveStream.m_State this) requests /\
         WaveStream.m_16Bit (fst result) = WaveStream.m_16Bit this /\
         WaveStream.m_Capture (fst result) = WaveStream.m_Capture this /\
         engine_running (trace w')
         = bool_decide (WaveStream.m_State (fst result) = KSSTATE_RUN) /\
         Forall (fun action =>
                   action = Dma_Stop \/
                   action = Dma_Start (BufferSize dma)
                                      (negb (WaveStream.m_Capture this)))
                (snd result) /\
         if WaveStream.m_16Bit this
         then snd result = []
         else dma_transferring (bool_decide (WaveStream.m_State this = KSSTATE_RUN))
                               (snd result)
              = bool_decide (WaveStream.m_State (fst result) = KSSTATE_RUN)).
Proof.
  intros Hready.
  induction requests as [| NewState rest IH]; intros this w Hon Hengine.
  - apply runs_ret. cbn [fst snd].
    split; [reflexivity |]. split; [reflexivity |]. split; [reflexivity |].
    split; [reflexivity |]. split; [exact Hengine |]. split; [constructor |].
    destruct (WaveStream.m_16Bit this); reflexivity.
  - cbn [WaveStream.SetStates]. apply runs_bind.
    eapply runs_weaken; [apply wave_SetState_runs; eassumption |].
    cbv beta.
    intros [[status this1] actions1] w1
           (_ & Hthat1 & Hstate1 & Hdepth1 & Hcapture1 & Hengine1 & Hall1 & Hdma1).
    cbn [fst snd] in *.
    apply runs_bind.
    eapply runs_weaken;
      [apply (IH this1 w1); [rewrite Hthat1; exact Hon | exact Hengine1] |].
    cbv beta.
    intros [this2 actions2] w2
           (Hthat2 & Hstate2 & Hdepth2 & Hcapture2 & Hengine2 & Hall2 & Hdma2).
    cbn [fst snd] in *.
    apply runs_ret. cbn [fst snd].
    split; [congruence |].
    split; [rewrite settled_state_cons, <- Hstate1; exact Hstate2 |].
    split; [congruence |]. split; [congruence |]. split; [exact Hengine2 |].
    split.
    + apply Forall_app. split; [exact Hall1 |]. rewrite <- Hcapture1. exact Hall2.
    + rewrite Hdepth1 in Hdma2.
      destruct (WaveStream.m_16Bit this).
      * rewrite Hdma1, Hdma2. reflexivity.
      * rewrite dma_transferring_app, Hdma1. exact Hdma2.
Qed.



(** ** The wave stream on a powered-down adapter *)

Lemma WriteMMA_powered_down Register Value w :
  operative (m_PowerState (that w)) = false ->
  runs (WriteMMA Register Value) w
    (fun _ w' => that w' = that w /\ trace w' = trace w).
Proof.
  intros Hoff. eapply runs_weaken; [apply WriteMMA_runs |].
  cbv beta. intros _ w' (Hthat & Htrace). rewrite Hoff, app_nil_r in Htrace.
  split; assumption.
Qed.

Lemma FillFifo_prefill_powered_down dma lfsr w :
  operative (m_PowerState (that w)) = false ->
  pio_ready dma ->
  runs (Wave.FillFifo (SystemAddress dma) (Wave.mkPio 0 (BufferSize dma) lfsr)) w
    (fun _ w' => that w' = that w /\ trace w' = trace w).
Proof.
  intros Hoff. unfold pio_ready, Wave.FillFifo.
  destruct (SystemAddress dma) as [pBuffer |];
    [| intros _; apply runs_ret; split; reflexivity].
  intros (Hlen & Heven & Hpositive).
  eapply runs_weaken;
    [apply (FillFifo_loop_runs _ pBuffer 0 (BufferSize dma) lfsr w Hlen Heven);
     [reflexivity | lia] |].
  cbv beta. intros this' w' (Hthat & _ & samples & _ & _ & Htrace).
  rewrite Hoff, app_nil_r in Htrace. split; assumption.
Qed.

Lemma ProgramMmaStart_powered_down dma rate this w :
  operative (m_PowerState (that w)) = false ->
  pio_ready dma ->
  runs (WaveStream.ProgramMmaStart dma rate this) w
    (fun result w' =>
       that w' = that w /\
       trace w' = trace w ++ [Stall 1] /\
       WaveStream.m_State (fst result) = WaveStream.m_State this /\
       WaveStream.m_16Bit (fst result) = WaveStream.m_16Bit this /\
       WaveStream.m_Capture (fst result) = WaveStream.m_Capture this /\
       snd result = if WaveStream.m_16Bit this
                    then []
                    else [Dma_Start (BufferSize dma) (negb (WaveStream.m_Capture this))]).
Proof.
  intros Hoff Hready. unfold WaveStream.ProgramMmaStart.
  apply runs_bind.
  eapply runs_weaken; [apply WriteMMA_powered_down, Hoff |].
  cbv beta. intros _ w1 (Hthat1 & Htrace1).
  apply runs_bind, runs_emit, runs_bind.
  eapply runs_weaken;
    [apply WriteMMA_powered_down; cbn [that]; rewrite Hthat1; exact Hoff |].
  cbv beta. cbn [that trace]. intros _ w2 (Hthat2 & Htrace2).
  apply runs_bind.
  eapply runs_weaken;
    [apply WriteMMA_powered_down; rewrite Hthat2, Hthat1; exact Hoff |].
  cbv beta. intros _ w3 (Hthat3 & Htrace3).
  assert (Hoff3 : operative (m_PowerState (that w3)) = false)
    by (rewrite Hthat3, Hthat2, Hthat1; exact Hoff).
  apply runs_bind.
  apply runs_weaken with
    (P := fun this' w4 =>
            that w4 = that w3 /\ trace w4 = trace w3 /\
            WaveStream.m_State this' = WaveStream.m_State this /\
            WaveStream.m_16Bit this' = WaveStream.m_16Bit this /\
            WaveStream.m_Capture this' = WaveStream.m_Capture this).
  - destruct (WaveStream.m_16Bit this) eqn:Hdepth;
      [| apply runs_ret; repeat split; assumption].
    cbn [WaveStream.m_Capture WaveStream.set_pio].
    destruct (WaveStream.m_Capture this) eqn:Hcapture; cbn [negb].
    + apply runs_ret. cbn. repeat split; assumption.
    + apply runs_bind. cbn [WaveStream.pio WaveStream.set_pio].
      eapply runs_weaken; [apply FillFifo_prefill_powered_down; assumption |].
      cbv beta. intros filled w4 (Hthat4 & Htrace4). apply runs_ret.
      cbn. repeat split; assumption.
  - intros this' w4 (Hthat4 & Htrace4 & Hstate & Hdepth & Hcapture).
    apply runs_bind.
    eapply runs_weaken;
      [apply WriteMMA_powered_down; rewrite Hthat4; exact Hoff3 |].
    cbv beta. intros _ w5 (Hthat5 & Htrace5).
    apply runs_ret. cbn [fst snd].
    split; [congruence |].
    split; [rewrite Htrace5, Htrace4, Htrace3, Htrace2, Htrace1; reflexivity |].
    split; [exact Hstate |]. split; [exact Hdepth |]. split; [exact Hcapture |].
    rewrite Hdepth, Hcapture. destruct (WaveStream.m_16Bit this); reflexivity.
Qed.

Lemma ProgramMmaStop_powered_down this w :
  operative (m_PowerState (that w)) = false ->
  runs (WaveStream.ProgramMmaStop this) w
    (fun result w' =>
       that w' = that w /\
       trace w' = trace w ++ [Stall 1] /\
       WaveStream.m_State (fst result) = WaveStream.m_State this /\
       WaveStream.m_16Bit (fst result) = WaveStream.m_16Bit this /\
       WaveStream.m_Capture (fst result) = WaveStream.m_Capture this /\
       snd result = if WaveStream.m_16Bit this then [] else [Dma_Stop]).
Proof.
  intros Hoff. unfold WaveStream.ProgramMmaStop.
  apply runs_bind.
  eapply runs_weaken; [apply WriteMMA_powered_down, Hoff |].
  cbv beta. intros _ w1 (Hthat1 & Htrace1).
  apply runs_bind, runs_emit, runs_bind.
  eapply runs_weaken;
    [apply WriteMMA_powered_down; cbn [that]; rewrite Hthat1; exact Hoff |].
  cbv beta. cbn [that trace]. intros _ w2 (Hthat2 & Htrace2).
  apply runs_bind.
  eapply runs_weaken;
    [apply WriteMMA_powered_down; rewrite Hthat2, Hthat1; exact Hoff |].
  cbv beta. intros _ w3 (Hthat3 & Htrace3).
  apply runs_ret. cbn [fst snd].
  split; [congruence |].
  split; [rewrite Htrace3, Htrace2, Htrace1; reflexivity |].
  repeat split. destruct (WaveStream.m_16Bit this); reflexivity.
Qed.

Lemma engine_running_after_stalls tr stalls :
  engine_running (tr ++ replicate stalls (Stall 1)) = engine_running tr.
Proof.
  unfold engine_running. rewrite mma_state_app.
  induction stalls as [| stalls IH]; [reflexivity | exact IH].
Qed.

Lemma wave_SetState_powered_down dma rate NewState this w :
  operative (m_PowerState (that w)) = false ->
  pio_ready dma ->
  runs (WaveStream.SetState dma rate NewState this) w
    (fun result w' =>
       fst (fst result) = STATUS_SUCCESS /\
       that w' = that w /\
       (exists stalls, trace w' = trace w ++ replicate stalls (Stall 1)) /\
       WaveStream.m_State (snd (fst result))
       = settled_state (WaveStream.m_State this) [NewState] /\
       WaveStream.m_16Bit (snd (fst result)) = WaveStream.m_16Bit this /\
       WaveStream.m_Capture (snd (fst result)) = WaveStream.m_Capture this /\
       if WaveStream.m_16Bit this
       then snd result = []
       else dma_transferring (bool_decide (WaveStream.m_State this = KSSTATE_RUN))
                             (snd result)
            = bool_decide (WaveStream.m_State (snd (fst result)) = KSSTATE_RUN)).
Proof.
  intros Hoff Hready.
  destruct this as [capture depth stereo state pio].
  cbn [WaveStream.m_State WaveStream.m_16Bit WaveStream.m_Capture] in *.
  unfold WaveStream.SetState, settled_state.
  cbn [fold_left WaveStream.m_State WaveStream.m_16Bit].
  destruct NewState, state;
    repeat match goal with
           | |- context [bool_decide (?a = ?b)] =>
               let v := eval vm_compute in (bool_decide (a = b)) in
               change (bool_decide (a = b)) with v
           end;
    cbn [negb].
  all: try (apply runs_ret; cbn [fst snd];
            split; [reflexivity |]; split; [reflexivity |];
            split; [exists 0%nat; symmetry; apply app_nil_r |];
            split; [reflexivity |]; split; [reflexivity |];
            split; [reflexivity |]; destruct depth; reflexivity).
  all: apply runs_bind.
  all: try (eapply runs_weaken; [apply ProgramMmaStop_powered_down, Hoff |]).
  all: try (eapply runs_weaken;
            [apply ProgramMmaStart_powered_down; [exact Hoff | exact Hready] |]).
  all: try (cbv beta;
            intros [this' actions] w'
                   (Hthat & Htrace & Hstate & Hdepth & Hcapture & Hactions);
            destruct this' as [capture' depth' stereo' state' pio'];
            cbn [fst snd WaveStream.m_State WaveStream.m_16Bit
                 WaveStream.m_Capture] in *;
            subst capture' depth' state' actions;
            apply runs_ret;
            cbn [fst snd WaveStream.set_State WaveStream.m_State
                 WaveStream.m_16Bit WaveStream.m_Capture];
            split; [reflexivity |]; split; [exact Hthat |];
            split; [exists 1%nat; exact Htrace |];
            split; [reflexivity |]; split; [reflexivity |];
            split; [reflexivity |]; destruct depth; reflexivity).
  all: apply runs_bind.
  all: eapply runs_weaken; [apply WriteMMA_powered_down, Hoff |].
  all: cbv beta; intros _ w1 (Hthat1 & Htrace1); apply runs_bind.
  all: eapply runs_weaken;
    [apply WriteMMA_powered_down; rewrite Hthat1; exact Hoff |].
  all: cbv beta; intros _ w2 (Hthat2 & Htrace2).
  all: apply runs_ret, runs_ret.
  all: cbn [fst snd WaveStream.set_State WaveStream.m_State
            WaveStream.m_16Bit WaveStream.m_Capture].
  all: split; [reflexivity |]; split; [congruence |].
  all: split;
    [exists 0%nat; rewrite Htrace2, Htrace1; symmetry; apply app_nil_r |].
  all: split; [reflexivity |]; split; [reflexivity |]; split; [reflexivity |].
  all: destruct depth; reflexivity.
Qed.

Lemma wave_SetStates_powered_down dma rate requests :
  pio_ready dma ->
  forall this w,
    operative (m_PowerState (that w)) = false ->
    runs (WaveStream.SetStates dma rate requests this) w
      (fun result w' =>
         that w' = that w /\
         (exists stalls, trace w' = trace w ++ replicate stalls (Stall 1)) /\
         WaveStream.m_State (fst result)
         = settled_state (WaveStream.m_State this) requests /\
         WaveStream.m_16Bit (fst result) = WaveStream.m_16Bit this /\
         if WaveStream.m_16Bit this
         then snd result = []
         else dma_transferring (bool_decide (WaveStream.m_State this = KSSTATE_RUN))
                               (snd result)
              = bool_decide (WaveStream.m_State (fst result) = KSSTATE_RUN)).
Proof.
  intros Hready.
  induction requests as [| NewState rest IH]; intros this w Hoff.
  - apply runs_ret. cbn [fst snd].
    split; [reflexivity |].
    split; [exists 0%nat; symmetry; apply app_nil_r |].
    split; [reflexivity |]. split; [reflexivity |].
    destruct (WaveStream.m_16Bit this); reflexivity.
  - cbn [WaveStream.SetStates]. apply runs_bind.
    eapply runs_weaken; [apply wave_SetState_powered_down; eassumption |].
    cbv beta.
    intros [[status this1] actions1] w1
           (_ & Hthat1 & (stalls1 & Htrace1) & Hstate1 & Hdepth1 & _ & Hdma1).
    cbn [fst snd] in *.
    apply runs_bind.
    eapply runs_weaken; [apply (IH this1 w1); rewrite Hthat1; exact Hoff |].
    cbv beta.
    intros [this2 actions2] w2
           (Hthat2 & (stalls2 & Htrace2) & Hstate2 & Hdepth2 & Hdma2).
    cbn [fst snd] in *.
    apply runs_ret. cbn [fst snd].
    split; [congruence |].
    split.
    { exists (stalls1 + stalls2)%nat.
      rewrite Htrace2, Htrace1, <- app_assoc, replicate_add. reflexivity. }
    split; [rewrite settled_state_cons, <- Hstate1; exact Hstate2 |].
    split; [congruence |].
    rewrite Hdepth1 in Hdma2.
    destruct (WaveStream.m_16Bit this).
    + rewrite Hdma1, Hdma2. reflexivity.
    + rewrite dma_transferring_app, Hdma1. exact Hdma2.
Qed.

(** X24: state requests on a powered-down adapter.  The requests are still
    carried out without a fault: the stream ends in the last state
    requested and, for an 8-bit stream, the DMA channel is started and
    stopped as on an operative adapter; but nothing is written to or read
    from a port (only stalls are added to the trace), so the GO bit last
    written to the playback register stays what it was.  A stream taken to
    RUN this way is in RUN with the sampling engine not started. *)
Theorem wave_state_requests_on_powered_down_adapter
    (dma : DMACHANNEL) (rate : Z) (requests : list KSSTATE)
    (this : WaveStream.CMiniportWaveCyclicStreamAdLibGold) (w : World) :
  operative (m_PowerState (that w)) = false ->
  pio_ready dma ->
  exists this' actions w' stalls,
    WaveStream.SetStates dma rate requests this w = Done (this', actions) w' /\
    that w' = that w /\
    trace w' = trace w ++ replicate stalls (Stall 1) /\
    engine_running (trace w') = engine_running (trace w) /\
    WaveStream.m_State this' = settled_state (WaveStream.m_State this) requests /\
    if WaveStream.m_16Bit this
    then actions = []
    else dma_transferring (bool_decide (WaveStream.m_State this = KSSTATE_RUN))
                          actions
         = bool_decide (WaveStream.m_State this' = KSSTATE_RUN).
Proof.
  intros Hoff Hready.
  destruct (wave_SetStates_powered_down dma rate requests Hready this w Hoff)
    as ([this' actions] & w' & Hrun & Hthat & (stalls & Htrace) & Hstate & _ & Hdma).
  cbn [fst snd] in *.
  exists this', actions, w', stalls.
  split; [exact Hrun |]. split; [exact Hthat |]. split; [exact Htrace |].
  split; [rewrite Htrace; apply engine_running_after_stalls |].
  split; [exact Hstate | exact Hdma].
Qed.

Lemma wave_state_requests_on_powered_down_adapter_witness :
  exists this' actions w',
    WaveStream.SetStates (mkDma 200 None) 22050 [KSSTATE_PAUSE; KSSTATE_RUN]
      (WaveStream.mkStream false false false KSSTATE_STOP (Wave.mkPio 0 0 0xACE1))
      (adapter_in PowerDeviceD3 None None)
    = Done (this', actions) w' /\
    WaveStream.m_State this' = KSSTATE_RUN /\
    dma_transferring false actions = true /\
    engine_running (trace w') = false.
Proof.
  destruct (wave_state_requests_on_powered_down_adapter
              (mkDma 200 None) 22050 [KSSTATE_PAUSE; KSSTATE_RUN]
              (WaveStream.mkStream false false false KSSTATE_STOP
                                   (Wave.mkPio 0 0 0xACE1))
              (adapter_in PowerDeviceD3 None None))
    as (this' & actions & w' & stalls & Hrun & _ & _ & Hrunning & Hstate & Hdma).
  - reflexivity.
  - exact I.
  - cbn [WaveStream.m_16Bit WaveStream.m_State] in Hdma.
    exists this', actions, w'. split; [exact Hrun |].
    split; [exact Hstate |].
    split; [rewrite Hstate in Hdma; exact Hdma |].
    rewrite Hrunning. reflexivity.
Defined.

(** ** The MIDI capture path as a whole *)

Lemma accepted_bytes_sublist this received :
  sublist (accepted_bytes this received) received.
Proof.
  unfold accepted_bytes. destruct (capturing this);
    [apply sublist_take | apply sublist_nil_l].
Qed.

Lemma pending_emptied this :
  pending (Midi.set_InputBufferTail 0 (Midi.set_InputBufferHead 0 this)) = [].
Proof. reflexivity. Qed.

Lemma ring_ok_emptied this :
  ring_ok this ->
  ring_ok (Midi.set_InputBufferTail 0 (Midi.set_InputBufferHead 0 this)).
Proof.
  intros (Hlen & _ & _). split; [exact Hlen |].
  split; unfold MIDI_INPUT_BUFFER_SIZE; cbn; lia.
Qed.

Lemma Midi_SetState_ring stream NewState this :
  ring_ok this ->
  ring_ok (snd (Midi.SetState stream NewState this)) /\
  sublist (pending (snd (Midi.SetState stream NewState this))) (pending this).
Proof.
  intros Hok. unfold Midi.SetState.
  destruct (Midi.m_fCapture stream); cbn [snd]; [| split; [exact Hok | reflexivity]].
  destruct (bool_decide (NewState = KSSTATE_STOP)).
  - split; [apply ring_ok_emptied; exact Hok |].
    rewrite pending_emptied. apply sublist_nil_l.
  - split; [exact Hok | reflexivity].
Qed.

Lemma Midi_Service_ring this :
  ring_ok this ->
  ring_ok (Midi.Service this) /\
  sublist (pending (Midi.Service this)) (pending this).
Proof.
  intros Hok. unfold Midi.Service.
  destruct (Midi.m_NumCaptureStreams this =? 0).
  - split; [apply ring_ok_emptied; exact Hok |].
    rewrite pending_emptied. apply sublist_nil_l.
  - split; [exact Hok | reflexivity].
Qed.

Lemma ServiceMidiISR_ring plat this w :
  ring_ok this ->
  runs (Midi.ServiceMidiISR plat this) w
    (fun result w' =>
       that w' = that w /\
       ring_ok (fst result) /\
       exists polls closing,
         trace w' = trace w ++ isr_events polls closing /\
         sublist (pending (fst result)) (pending this ++ map snd polls)).
Proof.
  intros Hok. unfold Midi.ServiceMidiISR. apply runs_bind.
  destruct (operative (m_PowerState (that w))) eqn:Hpower.
  - eapply runs_weaken; [apply ServiceMidiISR_loop_runs; eassumption |].
    cbv beta.
    intros [this' flag] w'
           (Hthat & polls & closing & Htrace & _ & _ & _ & (Hok' & Hpending & _) & _).
    cbn [fst snd] in *. apply runs_ret. cbn [fst].
    split; [exact Hthat |]. split; [exact Hok' |].
    exists polls, closing. split; [exact Htrace |].
    rewrite Hpending. apply sublist_app; [reflexivity | apply accepted_bytes_sublist].
  - apply runs_known with (a := (this, false)) (w' := w);
      [apply ServiceMidiISR_loop_powered_down; exact Hpower |].
    apply runs_ret. cbn [fst].
    split; [reflexivity |]. split; [exact Hok |].
    exists [], None. split; [symmetry; apply app_nil_r |].
    cbn [map]. rewrite app_nil_r. reflexivity.
Qed.

Lemma capture_session_runs plat stream calls :
  Midi.m_fCapture stream = true ->
  forall this w,
    ring_ok this ->
    runs (capture_session plat stream calls this) w
      (fun result w' =>
         that w' = that w /\
         ring_ok (snd result) /\
         exists isr_runs,
           trace w' = trace w ++ isr_runs_events isr_runs /\
           (length isr_runs <= length calls)%nat /\
           sublist (fst result ++ pending (snd result))
                   (pending this ++ isr_runs_received isr_runs)).
Proof.
  intros Hcapture.
  induction calls as [| call rest IH]; intros this w Hok.
  - apply runs_ret. cbn [fst snd]. split; [reflexivity |]. split; [exact Hok |].
    exists []. split; [symmetry; apply app_nil_r |]. split; [reflexivity |].
    cbn. rewrite app_nil_r. reflexivity.
  - cbn [capture_session]. apply runs_bind.
    apply runs_weaken with
      (P := fun step w1 =>
              that w1 = that w /\
              ring_ok (snd step) /\
              exists isr_runs,
                trace w1 = trace w ++ isr_runs_events isr_runs /\
                (length isr_runs <= 1)%nat /\
                sublist (fst step ++ pending (snd step))
                        (pending this ++ isr_runs_received isr_runs)).
    + destruct call as [| Length | NewState |].
      * apply runs_bind.
        eapply runs_weaken; [apply ServiceMidiISR_ring, Hok |].
        cbv beta.
        intros [this1 notified] w1 (Hthat1 & Hok1 & polls & closing & Htrace1 & Hsub1).
        cbn [fst snd] in *. apply runs_ret. cbn [fst snd app].
        split; [exact Hthat1 |]. split; [exact Hok1 |].
        exists [(polls, closing)].
        unfold isr_runs_events, isr_runs_received.
        cbn [flat_map fst snd length]. rewrite !app_nil_r.
        split; [exact Htrace1 |]. split; [lia | exact Hsub1].
      * unfold Midi.Read. rewrite Hcapture. cbn [negb].
        destruct (Read_loop_takes (Z.to_nat Length) this Hok)
          as (this1 & Hloop & Hok1 & Hpending1 & _).
        rewrite Hloop. apply runs_ret. cbn [fst snd].
        split; [reflexivity |]. split; [exact Hok1 |].
        exists []. split; [symmetry; apply app_nil_r |]. split; [cbn; lia |].
        rewrite Hpending1, take_drop. cbn. rewrite app_nil_r. reflexivity.
      * apply runs_ret. cbn [fst snd app].
        destruct (Midi_SetState_ring stream NewState this Hok) as [Hok1 Hsub1].
        split; [reflexivity |]. split; [exact Hok1 |].
        exists []. split; [symmetry; apply app_nil_r |]. split; [cbn; lia |].
        cbn. rewrite app_nil_r. exact Hsub1.
      * apply runs_ret. cbn [fst snd app].
        destruct (Midi_Service_ring this Hok) as [Hok1 Hsub1].
        split; [reflexivity |]. split; [exact Hok1 |].
        exists []. split; [symmetry; apply app_nil_r |]. split; [cbn; lia |].
        cbn. rewrite app_nil_r. exact Hsub1.
    + intros [bytes1 this1] w1 (Hthat1 & Hok1 & runs1 & Htrace1 & Hcount1 & Hsub1).
      cbn [fst snd] in *. apply runs_bind.
      eapply runs_weaken; [apply (IH this1 w1 Hok1) |].
      cbv beta.
      intros [bytes2 this2] w2 (Hthat2 & Hok2 & runs2 & Htrace2 & Hcount2 & Hsub2).
      cbn [fst snd] in *. apply runs_ret. cbn [fst snd].
      split; [congruence |]. split; [exact Hok2 |].
      exists (runs1 ++ runs2).
      unfold isr_runs_events, isr_runs_received in *.
      rewrite !flat_map_app.
      split; [rewrite Htrace2, Htrace1, <- app_assoc; reflexivity |].
      split; [rewrite length_app; cbn [length]; lia |].
      rewrite <- app_assoc.
      transitivity (bytes1 ++ pending this1 ++ flat_map (fun isr_run => map snd (fst isr_run)) runs2).
      * apply sublist_app; [reflexivity | exact Hsub2].
      * rewrite !app_assoc. apply sublist_app; [exact Hsub1 | reflexivity].
Qed.

(** X25: the MIDI capture path neither invents, nor repeats, nor reorders
    bytes.  Whatever sequence of interrupt services, Reads, state changes
    and port Services a capture stream goes through, nothing faults, the
    adapter object is left alone, the ring buffer indices stay inside the
    buffer, the only port I/O is that of the interrupt services, and the
    bytes handed out by Read, followed by the bytes still waiting, are a
    subsequence of the bytes waiting at the start followed by the data bytes
    the interrupt services read from the hardware. *)
Theorem midi_capture_delivers_in_order
    (plat : Platform) (stream : Midi.CMiniportMidiStreamUartAdLibGold)
    (calls : list MidiCall) (this : Midi.CMiniportMidiUartAdLibGold) (w : World) :
  Midi.m_fCapture stream = true ->
  ring_ok this ->
  exists delivered this' w' isr_runs,
    capture_session plat stream calls this w = Done (delivered, this') w' /\
    that w' = that w /\
    ring_ok this' /\
    trace w' = trace w ++ isr_runs_events isr_runs /\
    (length isr_runs <= length calls)%nat /\
    sublist (delivered ++ pending this')
            (pending this ++ isr_runs_received isr_runs).
Proof.
  intros Hcapture Hok.
  destruct (capture_session_runs plat stream calls Hcapture this w Hok)
    as ([delivered this'] & w' & Hrun & Hthat & Hok' & isr_runs & Htrace & Hcount & Hsub).
  cbn [fst snd] in *.
  exists delivered, this', w', isr_runs.
  repeat (split; [assumption |]). exact Hsub.
Qed.

Lemma midi_capture_delivers_in_order_witness :
  exists this' w',
    capture_session midi_card (Midi.mkStream true 0)
      [Call_ServiceMidiISR; Call_Read 4; Call_ServiceMidiISR; Call_Read 100]
      (midi_with KSSTATE_RUN 1 0 0) (adapter_in PowerDeviceD0 None None)
    = Done (replicate 32 0x90, this') w' /\
    pending this' = [] /\
    length (read_from ALG_REG_MMA0_DATA (trace w')) = 64%nat.
Proof.
  destruct (midi_capture_delivers_in_order midi_card (Midi.mkStream true 0)
              [Call_ServiceMidiISR; Call_Read 4; Call_ServiceMidiISR; Call_Read 100]
              (midi_with KSSTATE_RUN 1 0 0) (adapter_in PowerDeviceD0 None None))
    as (delivered & this' & w' & isr_runs & Hrun & _).
  - reflexivity.
  - vm_compute. repeat split; congruence.
  - pose proof Hrun as Hresult. vm_compute in Hresult.
    injection Hresult as Hdelivered Hthis Hw.
    exists this', w'. split; [rewrite Hrun, <- Hdelivered; reflexivity |].
    rewrite <- Hthis, <- Hw. vm_compute. split; reflexivity.
Defined.

(** ** The wave miniport and its two streams *)

Lemma rate_listed_In rates rate :
  Wave.rate_listed rates rate = true -> In rate rates.
Proof.
  induction rates as [| first rest IH]; cbn [Wave.rate_listed]; [discriminate |].
  destruct (rate =? first) eqn:Hfirst.
  - intros _. left. symmetry. apply Z.eqb_eq. exact Hfirst.
  - intros Hrest. right. apply IH. exact Hrest.
Qed.

Lemma ValidateFormat_listed size Format :
  NT_SUCCESS (Wave.ValidateFormat size Format) = true ->
  In (Wave.nSamplesPerSec Format) Wave.SupportedSampleRates.
Proof.
  unfold Wave.ValidateFormat.
  repeat match goal with
         | |- context [if ?c then STATUS_INVALID_PARAMETER else _] =>
             destruct c eqn:?; [discriminate |]
         end.
  intros _. apply rate_listed_In.
  match goal with
  | H : negb (Wave.rate_listed _ _) = false |- _ =>
      apply negb_false_iff in H; exact H
  end.
Qed.

Lemma WriteMMA_total Register Value w :
  runs (WriteMMA Register Value) w (fun _ w' => that w' = that w).
Proof.
  eapply runs_weaken; [apply WriteMMA_runs |].
  cbv beta. intros _ w' (Hthat & _). exact Hthat.
Qed.

Lemma ProgramMmaStart_total dma rate this w :
  pio_ready dma ->
  runs (WaveStream.ProgramMmaStart dma rate this) w
    (fun result w' =>
       that w' = that w /\
       WaveStream.m_Capture (fst result) = WaveStream.m_Capture this).
Proof.
  intros Hready. destruct (operative (m_PowerState (that w))) eqn:Hpower.
  - eapply runs_weaken; [apply ProgramMmaStart_runs; eassumption |].
    cbv beta. intros result w' (Hthat & _ & _ & _ & Hcapture & _).
    split; assumption.
  - eapply runs_weaken; [apply ProgramMmaStart_powered_down; eassumption |].
    cbv beta. intros result w' (Hthat & _ & _ & _ & Hcapture & _).
    split; assumption.
Qed.

Lemma ProgramMmaStop_total this w :
  runs (WaveStream.ProgramMmaStop this) w
    (fun result w' =>
       that w' = that w /\
       WaveStream.m_Capture (fst result) = WaveStream.m_Capture this).
Proof.
  destruct (operative (m_PowerState (that w))) eqn:Hpower.
  - eapply runs_weaken; [apply ProgramMmaStop_runs; eassumption |].
    cbv beta. intros result w' (Hthat & _ & _ & _ & Hcapture & _).
    split; assumption.
  - eapply runs_weaken; [apply ProgramMmaStop_powered_down; eassumption |].
    cbv beta. intros result w' (Hthat & _ & _ & _ & Hcapture & _).
    split; assumption.
Qed.

Lemma wave_SetState_total dma rate NewState this w :
  pio_ready dma ->
  runs (WaveStream.SetState dma rate NewState this) w
    (fun result w' =>
       that w' = that w /\
       fst (fst result) = STATUS_SUCCESS /\
       WaveStream.m_Capture (snd (fst result)) = WaveStream.m_Capture this).
Proof.
  intros Hready. unfold WaveStream.SetState.
  set (requested := if bool_decide (NewState = KSSTATE_ACQUIRE)
                    then KSSTATE_PAUSE else NewState).
  destruct (negb (bool_decide (WaveStream.m_State this = requested)));
    [| apply runs_ret; repeat split].
  apply runs_bind.
  apply runs_weaken with
    (P := fun result w' =>
            that w' = that w /\
            WaveStream.m_Capture (fst result) = WaveStream.m_Capture this).
  - destruct requested.
    + apply ProgramMmaStop_total.
    + apply runs_ret. split; reflexivity.
    + destruct (bool_decide (WaveStream.m_State this = KSSTATE_RUN));
        [| apply runs_ret; split; reflexivity].
      apply runs_bind.
      eapply runs_weaken; [apply WriteMMA_total |].
      cbv beta. intros _ w1 Hthat1. apply runs_bind.
      eapply runs_weaken; [apply WriteMMA_total |].
      cbv beta. intros _ w2 Hthat2. apply runs_ret.
      split; [congruence | reflexivity].
    + apply ProgramMmaStart_total, Hready.
  - intros [this' actions] w' (Hthat & Hcapture). cbn [fst snd] in *.
    apply runs_ret. cbn [fst snd].
    split; [exact Hthat |]. split; [reflexivity |].
    destruct this'; exact Hcapture.
Qed.

Lemma with_stream_consistent (Capture : bool) stream this device :
  device_consistent device ->
  WaveMiniport.m_CaptureAllocated this
  = (if Capture then bool_decide (is_Some stream)
     else WaveMiniport.m_CaptureAllocated (miniport device)) ->
  WaveMiniport.m_RenderAllocated this
  = (if Capture then WaveMiniport.m_RenderAllocated (miniport device)
     else bool_decide (is_Some stream)) ->
  (forall s, stream = Some s -> WaveStream.m_Capture s = Capture) ->
  In (WaveMiniport.m_SamplingFrequency this) Wave.SupportedSampleRates ->
  device_consistent (with_stream Capture stream this device).
Proof.
  intros (Hcap & Hren & Hcapture & Hrender & _) Hthis_cap Hthis_ren Hdirection Hrate.
  unfold with_stream, device_consistent.
  destruct Capture; cbn [miniport capture_stream render_stream].
  - split; [exact Hthis_cap |]. split; [rewrite Hthis_ren; exact Hren |].
    split; [exact Hdirection |]. split; [exact Hrender | exact Hrate].
  - split; [rewrite Hthis_cap; exact Hcap |]. split; [exact Hthis_ren |].
    split; [exact Hcapture |]. split; [exact Hdirection | exact Hrate].
Qed.

Lemma allocated_of_stream (Capture : bool) device :
  device_consistent device ->
  (if Capture
   then WaveMiniport.m_CaptureAllocated (miniport device)
   else WaveMiniport.m_RenderAllocated (miniport device))
  = bool_decide (is_Some (stream_of Capture device)).
Proof.
  intros (Hcap & Hren & _). unfold stream_of. destruct Capture; assumption.
Qed.

Lemma direction_of_stream (Capture : bool) device stream :
  device_consistent device ->
  stream_of Capture device = Some stream ->
  WaveStream.m_Capture stream = Capture.
Proof.
  intros (_ & _ & Hcapture & Hrender & _). unfold stream_of.
  destruct Capture; [apply Hcapture | apply Hrender].
Qed.

Lemma NewStream_spec size dma allocated Capture DataFormat device :
  device_consistent device ->
  let result :=
    WaveMiniport.NewStream size dma allocated Capture DataFormat (miniport device) in
  match snd (fst result) with
  | Some stream =>
      fst (fst result) = STATUS_SUCCESS /\
      stream_of Capture device = None /\
      stream = snd (WaveMiniport.Init dma Capture DataFormat) /\
      NT_SUCCESS (Wave.ValidateFormat size DataFormat) = true /\
      (stream_of (negb Capture) device <> None ->
       Wave.nSamplesPerSec DataFormat
       = WaveMiniport.m_SamplingFrequency (miniport device)) /\
      snd result
      = (if Capture
         then WaveMiniport.mkMiniport
                true (WaveMiniport.m_RenderAllocated (miniport device))
                (Wave.nSamplesPerSec DataFormat)
         else WaveMiniport.mkMiniport
                (WaveMiniport.m_CaptureAllocated (miniport device)) true
                (Wave.nSamplesPerSec DataFormat))
  | None =>
      NT_SUCCESS (fst (fst result)) = false /\
      snd result = miniport device /\
      (stream_of Capture device <> None ->
       fst (fst result) = STATUS_INVALID_DEVICE_REQUEST)
  end.
Proof.
  intros Hok.
  pose proof (allocated_of_stream true device Hok) as Hcap.
  pose proof (allocated_of_stream false device Hok) as Hren.
  cbv zeta. unfold WaveMiniport.NewStream, WaveMiniport.Init, stream_of in *.
  cbn [negb] in *.
  destruct device as [[captured rendered rate] capture render].
  cbn [miniport capture_stream render_stream WaveMiniport.m_CaptureAllocated
       WaveMiniport.m_RenderAllocated WaveMiniport.m_SamplingFrequency] in *.
  subst captured rendered.
  assert (Hsome : forall s : WaveStream.CMiniportWaveCyclicStreamAdLibGold,
             bool_decide (is_Some (Some s)) = true)
    by (intros s; apply bool_decide_eq_true_2; eexists; reflexivity).
  assert (Hnone : bool_decide
                    (is_Some (@None WaveStream.CMiniportWaveCyclicStreamAdLibGold))
                  = false)
    by (apply bool_decide_eq_false_2; intros [s Hs]; discriminate).
  assert (Hdenied : NT_SUCCESS STATUS_INVALID_DEVICE_REQUEST = false) by reflexivity.
  assert (Hinvalid : NT_SUCCESS STATUS_INVALID_PARAMETER = false) by reflexivity.
  assert (Hshort : NT_SUCCESS STATUS_INSUFFICIENT_RESOURCES = false) by reflexivity.
  assert (Hdone : NT_SUCCESS STATUS_SUCCESS = true) by reflexivity.
  destruct Capture, capture as [capture |], render as [render |];
    rewrite ?Hsome, ?Hnone;
    cbn [orb negb];
    rewrite ?Hdenied, ?Hdone;
    cbn [fst snd].
  all: try (split; [reflexivity |]; split; [reflexivity |];
            intros _; reflexivity).
  all: destruct (NT_SUCCESS (Wave.ValidateFormat size DataFormat)) eqn:Hvalid;
    repeat (progress (cbn [fst snd]; rewrite ?Hvalid, ?Hinvalid, ?Hdone));
    [| split; [first [exact Hvalid | reflexivity] |];
       split; [reflexivity |]; intros Hgone; contradiction Hgone; reflexivity].
  all: try (destruct (rate =? Wave.nSamplesPerSec DataFormat) eqn:Hrate; cbn [negb];
            repeat (progress (cbn [fst snd]; rewrite ?Hvalid, ?Hinvalid, ?Hdone));
            [apply Z.eqb_eq in Hrate |
             split; [reflexivity |]; split; [reflexivity |];
             intros Hgone; contradiction Hgone; reflexivity]).
  all: destruct allocated;
    repeat (progress (cbn [fst snd]; rewrite ?Hvalid, ?Hshort, ?Hdone));
    [| split; [reflexivity |]; split; [reflexivity |];
       intros Hgone; contradiction Hgone; reflexivity].
  all: split; [reflexivity |]; split; [reflexivity |]; split; [reflexivity |].
  all: split; [reflexivity |]; split; [| reflexivity].
  all: try (intros _; symmetry; exact Hrate).
  all: intros Hgone; contradiction Hgone; reflexivity.
Qed.

Lemma stream_flag (Capture : bool) device stream :
  device_consistent device ->
  stream_of Capture device = Some stream ->
  (if Capture
   then WaveMiniport.m_CaptureAllocated (miniport device)
   else WaveMiniport.m_RenderAllocated (miniport device)) = true.
Proof.
  intros Hok Hstream. rewrite (allocated_of_stream Capture device Hok), Hstream.
  apply bool_decide_eq_true_2. eexists. reflexivity.
Qed.

Lemma both_streams_flags device :
  device_consistent device ->
  is_Some (capture_stream device) /\ is_Some (render_stream device) ->
  WaveMiniport.m_CaptureAllocated (miniport device) = true /\
  WaveMiniport.m_RenderAllocated (miniport device) = true.
Proof.
  intros (Hcap & Hren & _) [Hcapture Hrender].
  rewrite Hcap, Hren. split; apply bool_decide_eq_true_2; assumption.
Qed.

Ltac flag_known :=
  first [ reflexivity
        | symmetry; apply bool_decide_eq_true_2; eexists; reflexivity
        | symmetry; apply bool_decide_eq_false_2; intros [? ?]; discriminate ].

Lemma wave_call_runs size dma call device w :
  pio_ready dma ->
  device_consistent device ->
  runs (wave_call size dma call device) w
    (fun result w' =>
       that w' = that w /\
       device_consistent (snd result) /\
       (is_Some (capture_stream device) /\ is_Some (render_stream device) \/
        is_Some (capture_stream (snd result)) /\ is_Some (render_stream (snd result)) ->
        WaveMiniport.m_SamplingFrequency (miniport (snd result))
        = WaveMiniport.m_SamplingFrequency (miniport device))).
Proof.
  intros Hready Hok.
  destruct call as [allocated Capture DataFormat | Capture Format
                   | Capture NewState | Capture];
    cbn [wave_call].
  - pose proof (NewStream_spec size dma allocated Capture DataFormat device Hok) as Hnew.
    cbv zeta in Hnew.
    destruct (WaveMiniport.NewStream size dma allocated Capture DataFormat
                (miniport device)) as [[ntStatus stream] this].
    cbn [fst snd] in Hnew. apply runs_ret. cbn [snd].
    split; [reflexivity |].
    destruct stream as [stream |].
    + destruct Hnew as (_ & Hfree & -> & Hvalid & Hshared & ->).
      split.
      * apply with_stream_consistent; [exact Hok | | | |].
        -- destruct Capture; cbn in *; rewrite ?Hflag; flag_known.
        -- destruct Capture; cbn in *; rewrite ?Hflag; flag_known.
        -- intros s [= <-]. reflexivity.
        -- destruct Capture; cbn; apply (ValidateFormat_listed size); exact Hvalid.
      * assert (Hrate : stream_of (negb Capture) device <> None ->
                        WaveMiniport.m_SamplingFrequency
                          (miniport (with_stream Capture
                                       (Some (WaveMiniport.Init dma Capture DataFormat).2)
                                       (if Capture
                                        then WaveMiniport.mkMiniport true
                                               (WaveMiniport.m_RenderAllocated
                                                  (miniport device))
                                               (Wave.nSamplesPerSec DataFormat)
                                        else WaveMiniport.mkMiniport
                                               (WaveMiniport.m_CaptureAllocated
                                                  (miniport device)) true
                                               (Wave.nSamplesPerSec DataFormat))
                                       device))
                        = WaveMiniport.m_SamplingFrequency (miniport device)).
        { intros Hother. rewrite <- (Hshared Hother).
          destruct Capture; reflexivity. }
        unfold stream_of in Hfree, Hrate.
        intros [[Hcapture Hrender] | [Hcapture Hrender]]; apply Hrate;
          destruct Capture; cbn [negb with_stream capture_stream render_stream] in *;
          try (rewrite Hfree in *);
          try (destruct Hcapture as [s Hs]; congruence);
          try (destruct Hrender as [s Hs]; congruence).
    + destruct Hnew as (_ & -> & _).
      split; [exact Hok |]. intros _. reflexivity.
  - destruct (stream_of Capture device) as [stream |] eqn:Hstream;
      [| apply runs_ret; split; [reflexivity |]; split; [exact Hok |];
         intros _; reflexivity].
    pose proof (stream_flag Capture device stream Hok Hstream) as Hflag.
    pose proof (direction_of_stream Capture device stream Hok Hstream) as Hdirection.
    unfold WaveMiniport.SetFormat.
    destruct (NT_SUCCESS (Wave.ValidateFormat size Format)) eqn:Hvalid.
    + destruct ((WaveMiniport.m_CaptureAllocated (miniport device)
                 && WaveMiniport.m_RenderAllocated (miniport device))
                && negb (WaveMiniport.m_SamplingFrequency (miniport device)
                         =? Wave.nSamplesPerSec Format)) eqn:Hrefused.
      * apply runs_ret. cbn [snd]. split; [reflexivity |].
        split; [| intros _; destruct Capture; reflexivity].
        apply with_stream_consistent; [exact Hok | | | |].
        -- destruct Capture; cbn in *; rewrite ?Hflag; flag_known.
        -- destruct Capture; cbn in *; rewrite ?Hflag; flag_known.
        -- intros s [= <-]. exact Hdirection.
        -- destruct Hok as (_ & _ & _ & _ & Hrate). exact Hrate.
      * apply runs_ret. cbn [snd]. split; [reflexivity |]. split.
        -- apply with_stream_consistent; [exact Hok | | | |].
           ++ destruct Capture; cbn in *; rewrite ?Hflag; flag_known.
           ++ destruct Capture; cbn in *; rewrite ?Hflag; flag_known.
           ++ intros s [= <-]. exact Hdirection.
           ++ cbn. apply (ValidateFormat_listed size). exact Hvalid.
        -- intros Hboth.
           assert (Hflags : WaveMiniport.m_CaptureAllocated (miniport device) = true /\
                            WaveMiniport.m_RenderAllocated (miniport device) = true).
           { destruct Hboth as [Hboth | Hboth].
             - apply both_streams_flags; [exact Hok | exact Hboth].
             - destruct Hok as (Hcap & Hren & _). rewrite Hcap, Hren.
               unfold with_stream in Hboth.
               destruct Capture; cbn [capture_stream render_stream] in Hboth;
                 destruct Hboth as [Hcapture Hrender];
                 unfold stream_of in Hstream; rewrite ?Hstream;
                 split; apply bool_decide_eq_true_2;
                 first [assumption | eexists; reflexivity]. }
           destruct Hflags as [Hcap Hren]. rewrite Hcap, Hren in Hrefused.
           cbn [andb] in Hrefused. apply negb_false_iff, Z.eqb_eq in Hrefused.
           destruct Capture; cbn; symmetry; exact Hrefused.
    + apply runs_ret. cbn [snd]. split; [reflexivity |].
      split; [| intros _; destruct Capture; reflexivity].
      apply with_stream_consistent; [exact Hok | | | |].
      * destruct Capture; cbn in *; rewrite ?Hflag; flag_known.
      * destruct Capture; cbn in *; rewrite ?Hflag; flag_known.
      * intros s [= <-]. exact Hdirection.
      * destruct Hok as (_ & _ & _ & _ & Hrate). exact Hrate.
  - destruct (stream_of Capture device) as [stream |] eqn:Hstream;
      [| apply runs_ret; split; [reflexivity |]; split; [exact Hok |];
         intros _; reflexivity].
    pose proof (stream_flag Capture device stream Hok Hstream) as Hflag.
    pose proof (direction_of_stream Capture device stream Hok Hstream) as Hdirection.
    apply runs_bind.
    eapply runs_weaken; [apply wave_SetState_total, Hready |].
    cbv beta. intros [[ntStatus stream'] actions] w' (Hthat & _ & Hcapture).
    cbn [fst snd] in *. apply runs_ret. cbn [snd].
    split; [exact Hthat |].
    split; [| intros _; destruct Capture; reflexivity].
    apply with_stream_consistent; [exact Hok | | | |].
    + destruct Capture; cbn in *; rewrite ?Hflag; flag_known.
    + destruct Capture; cbn in *; rewrite ?Hflag; flag_known.
    + intros s [= <-]. congruence.
    + destruct Hok as (_ & _ & _ & _ & Hrate). exact Hrate.
  - destruct (stream_of Capture device) as [stream |] eqn:Hstream;
      [| apply runs_ret; split; [reflexivity |]; split; [exact Hok |];
         intros _; reflexivity].
    pose proof (direction_of_stream Capture device stream Hok Hstream) as Hdirection.
    apply runs_bind. unfold WaveMiniport.destroy. apply runs_bind.
    apply runs_weaken with (P := fun _ w' => that w' = that w).
    + destruct (negb (bool_decide (WaveStream.m_State stream = KSSTATE_STOP)));
        [| apply runs_ret; reflexivity].
      eapply runs_weaken; [apply ProgramMmaStop_total |].
      cbv beta. intros result w' (Hthat & _). exact Hthat.
    + intros stopped w' Hthat. apply runs_ret, runs_ret. cbn [fst snd].
      split; [exact Hthat |].
      split; [| intros _; rewrite Hdirection; destruct Capture; reflexivity].
      rewrite Hdirection.
      apply with_stream_consistent; [exact Hok | | | |].
      * destruct Capture; cbn in *; flag_known.
      * destruct Capture; cbn in *; flag_known.
      * intros s [=].
      * destruct Hok as (_ & _ & _ & _ & Hrate). destruct Capture; exact Hrate.
Qed.

Lemma wave_session_runs size dma calls :
  pio_ready dma ->
  forall device w,
    device_consistent device ->
    runs (wave_session size dma calls device) w
      (fun result w' =>
         that w' = that w /\
         length (fst result) = length calls /\
         device_consistent (snd result)).
Proof.
  intros Hready.
  induction calls as [| call rest IH]; intros device w Hok; cbn [wave_session].
  - apply runs_ret. cbn [fst snd].
    split; [reflexivity |]. split; [reflexivity | exact Hok].
  - apply runs_bind.
    eapply runs_weaken; [apply wave_call_runs; eassumption |].
    cbv beta. intros [status device1] w1 (Hthat1 & Hok1 & _). cbn [snd] in *.
    apply runs_bind.
    eapply runs_weaken; [apply (IH device1 w1 Hok1) |].
    cbv beta. intros [statuses device2] w2 (Hthat2 & Hlen2 & Hok2). cbn [fst snd] in *.
    apply runs_ret. cbn [fst snd length].
    split; [congruence |]. split; [rewrite Hlen2; reflexivity | exact Hok2].
Qed.

(** X26: the bookkeeping of the wave miniport's streams.  From a device
    whose flags tell which streams exist (as after the miniport's Init), any
    sequence of NewStream, SetFormat, SetState and stream releases, in any
    power state and with a DMA buffer of even positive size, runs without a
    fault, leaves the adapter object alone and keeps the device consistent:
    at most one stream per direction, the allocation flags telling which
    exist, and the shared sampling frequency one of the four the hardware
    has.  NewStream for a direction that has a stream fails with
    STATUS_INVALID_DEVICE_REQUEST and changes nothing.  No call changes the
    sampling frequency while both streams exist, before or after it. *)
Theorem wave_streams_share_one_rate
    (size : Z) (dma : DMACHANNEL) (calls : list WaveCall)
    (device : WaveDevice) (w : World) :
  pio_ready dma ->
  device_consistent device ->
  (exists statuses device' w',
      wave_session size dma calls device w = Done (statuses, device') w' /\
      that w' = that w /\
      length statuses = length calls /\
      device_consistent device') /\
  (forall allocated Capture DataFormat,
      is_Some (stream_of Capture device) ->
      wave_call size dma (Wave_NewStream allocated Capture DataFormat) device w
      = Done (Some STATUS_INVALID_DEVICE_REQUEST, device) w) /\
  (forall call,
      runs (wave_call size dma call device) w
        (fun result _ =>
           is_Some (capture_stream device) /\ is_Some (render_stream device) \/
           is_Some (capture_stream (snd result)) /\
           is_Some (render_stream (snd result)) ->
           WaveMiniport.m_SamplingFrequency (miniport (snd result))
           = WaveMiniport.m_SamplingFrequency (miniport device))).
Proof.
  intros Hready Hok. split; [| split].
  - destruct (wave_session_runs size dma calls Hready device w Hok)
      as ([statuses device'] & w' & Hrun & Hthat & Hlen & Hok').
    cbn [fst snd] in *. exists statuses, device', w'.
    split; [exact Hrun |]. split; [exact Hthat |]. split; [exact Hlen | exact Hok'].
  - intros allocated Capture DataFormat [stream Hstream].
    pose proof (NewStream_spec size dma allocated Capture DataFormat device Hok) as Hnew.
    cbv zeta in Hnew. cbn [wave_call].
    destruct (WaveMiniport.NewStream size dma allocated Capture DataFormat
                (miniport device)) as [[ntStatus created] this].
    cbn [fst snd] in Hnew.
    destruct created as [created |].
    + destruct Hnew as (_ & Hfree & _). congruence.
    + destruct Hnew as (_ & _ & Hdenied). rewrite Hdenied by congruence.
      reflexivity.
  - intros call.
    eapply runs_weaken; [apply wave_call_runs; eassumption |].
    cbv beta. intros result w' (_ & _ & Hrate). exact Hrate.
Qed.

Lemma wave_streams_share_one_rate_witness :
  exists device' w',
    wave_session 82 (mkDma 200 (Some (replicate 200 0)))
      [ Wave_NewStream true false (pcm_format 22050 16);
        Wave_NewStream true true (pcm_format 44100 16);
        Wave_NewStream true true (pcm_format 22050 8);
        Wave_SetFormat false (pcm_format 11025 16);
        Wave_SetState false KSSTATE_RUN;
        Wave_Release true;
        Wave_SetFormat false (pcm_format 11025 16) ]
      fresh_device (adapter_in PowerDeviceD0 None None)
    = Done ([ Some STATUS_SUCCESS; Some STATUS_INVALID_PARAMETER; Some STATUS_SUCCESS;
              Some STATUS_INVALID_PARAMETER; Some STATUS_SUCCESS; Some STATUS_SUCCESS;
              Some STATUS_SUCCESS ], device') w' /\
    WaveMiniport.m_SamplingFrequency (miniport device') = 11025 /\
    capture_stream device' = None.
Proof.
  destruct (wave_streams_share_one_rate 82 (mkDma 200 (Some (replicate 200 0)))
              [ Wave_NewStream true false (pcm_format 22050 16);
                Wave_NewStream true true (pcm_format 44100 16);
                Wave_NewStream true true (pcm_format 22050 8);
                Wave_SetFormat false (pcm_format 11025 16);
                Wave_SetState false KSSTATE_RUN;
                Wave_Release true;
                Wave_SetFormat false (pcm_format 11025 16) ]
              fresh_device (adapter_in PowerDeviceD0 None None))
    as [(statuses & device' & w' & Hrun & _) _].
  - vm_compute. repeat split; reflexivity.
  - unfold device_consistent, fresh_device.
    cbn [miniport capture_stream render_stream WaveMiniport.m_CaptureAllocated
         WaveMiniport.m_RenderAllocated WaveMiniport.m_SamplingFrequency].
    split; [flag_known |]. split; [flag_known |].
    split; [discriminate |]. split; [discriminate |]. left. reflexivity.
  - pose proof Hrun as Hresult. vm_compute in Hresult.
    injection Hresult as Hstatuses Hdevice Hw.
    exists device', w'. split; [rewrite Hrun, <- Hstatuses; reflexivity |].
    rewrite <- Hdevice. split; reflexivity.
Defined.

(** ** The wave stream: positions and times *)

Lemma to_LONGLONG_small x : 0 <= x < 2 ^ 63 -> to_LONGLONG x = x.
Proof.
  intros Hx. unfold to_LONGLONG. cbv zeta.
  rewrite Z.mod_small by lia.
  destruct (x <? 2 ^ 63) eqn:Hlow; [reflexivity | apply Z.ltb_ge in Hlow; lia].
Qed.

Lemma bytesPerFrame_cases (stereo depth : bool) :
  let frame := to_ULONG (Z.shiftl 1 (Z.b2z stereo + Z.b2z depth)) in
  frame = 2 ^ (Z.b2z stereo + Z.b2z depth) /\
  (frame = 1 \/ frame = 2 \/ frame = 4) /\
  to_ULONG (_100NS_UNITS_PER_SECOND / frame) * frame = _100NS_UNITS_PER_SECOND.
Proof.
  destruct stereo, depth; vm_compute; repeat split; auto.
Qed.

Lemma NormalizePhysicalPosition_exact rate position this :
  0 < rate ->
  0 <= position ->
  _100NS_UNITS_PER_SECOND * position < 2 ^ 63 ->
  WaveStream.NormalizePhysicalPosition rate position this
  = Some (STATUS_SUCCESS,
          _100NS_UNITS_PER_SECOND * position
          / (2 ^ (Z.b2z (WaveStream.m_Stereo this) + Z.b2z (WaveStream.m_16Bit this))
             * rate)).
Proof.
  intros Hrate Hposition Hfits. unfold WaveStream.NormalizePhysicalPosition.
  destruct (bytesPerFrame_cases (WaveStream.m_Stereo this) (WaveStream.m_16Bit this))
    as (Hframe & Hcases & Hexact).
  cbv zeta in *. rewrite <- Hframe.
  set (frame := to_ULONG (Z.shiftl 1 (Z.b2z (WaveStream.m_Stereo this)
                                      + Z.b2z (WaveStream.m_16Bit this)))) in *.
  set (per_byte := to_ULONG (_100NS_UNITS_PER_SECOND / frame)) in *.
  assert (Hframe_pos : 0 < frame) by lia.
  assert (Hper_byte : 0 <= per_byte <= _100NS_UNITS_PER_SECOND).
  { unfold _100NS_UNITS_PER_SECOND in *. nia. }
  replace (frame =? 0) with false by (symmetry; apply Z.eqb_neq; lia).
  replace (rate =? 0) with false by (symmetry; apply Z.eqb_neq; lia).
  cbn [orb]. f_equal. f_equal.
  rewrite to_LONGLONG_small by (split; [nia | nia]).
  rewrite Z.quot_div_nonneg by nia.
  rewrite <- Hexact.
  replace (per_byte * frame * position) with (frame * (per_byte * position)) by ring.
  rewrite Z.div_mul_cancel_l by lia. reflexivity.
Qed.



(** ** The MIDI miniport: power changes *)

Lemma midi_control_after_write tr value :
  midi_control (tr ++ mma_write_events MMA_REG_MIDI_CTRL value) = Some value.
Proof. unfold midi_control. rewrite mma_state_app. apply mma_write_recorded. Qed.

Lemma Midi_PowerChangeState_runs NewState this w :
  runs (Midi.PowerChangeState NewState this) w
    (fun this' w' =>
       that w' = that w /\
       this' = Midi.set_PowerState NewState this /\
       (operative (m_PowerState (that w)) = false -> trace w' = trace w) /\
       (operative (m_PowerState (that w)) = true ->
        (bool_decide (NewState = PowerDeviceD0)
         = bool_decide (Midi.m_PowerState this = PowerDeviceD0) ->
         trace w' = trace w) /\
        (midi_control_settled this (trace w) \/
         bool_decide (NewState = PowerDeviceD0)
         <> bool_decide (Midi.m_PowerState this = PowerDeviceD0) ->
         midi_control_settled this' (trace w')))).
Proof.
  unfold Midi.PowerChangeState, midi_control_settled.
  apply runs_bind.
  destruct (operative (m_PowerState (that w))) eqn:Hpower.
  - destruct (bool_decide (NewState = PowerDeviceD0)) eqn:Hnew,
             (bool_decide (Midi.m_PowerState this = PowerDeviceD0)) eqn:Hold;
      cbn [negb].
    + apply runs_when; [discriminate |]. intros _. apply runs_ret.
      split; [reflexivity |]. split; [reflexivity |]. split; [discriminate |].
      intros _. split; [reflexivity |].
      cbn [Midi.m_PowerState Midi.set_PowerState]. rewrite Hnew.
      intros [Hsettled | Hchanged]; [exact Hsettled | contradiction Hchanged; reflexivity].
    + apply runs_when; [| discriminate]. intros _. apply runs_bind.
      eapply runs_weaken; [apply WriteMMA_operative, Hpower |].
      cbv beta. intros _ w1 (Hthat1 & Htrace1).
      eapply runs_weaken;
        [apply WriteMMA_operative; rewrite Hthat1; exact Hpower |].
      cbv beta. intros _ w2 (Hthat2 & Htrace2). apply runs_ret.
      split; [congruence |]. split; [reflexivity |]. split; [discriminate |].
      intros _. split; [discriminate |]. intros _.
      cbn [Midi.m_PowerState Midi.set_PowerState]. rewrite Hnew, Htrace2.
      apply midi_control_after_write.
    + apply runs_when; [| discriminate]. intros _.
      eapply runs_weaken; [apply WriteMMA_operative, Hpower |].
      cbv beta. intros _ w1 (Hthat1 & Htrace1). apply runs_ret.
      split; [exact Hthat1 |]. split; [reflexivity |]. split; [discriminate |].
      intros _. split; [discriminate |]. intros _.
      cbn [Midi.m_PowerState Midi.set_PowerState]. rewrite Hnew, Htrace1.
      apply midi_control_after_write.
    + apply runs_when; [discriminate |]. intros _. apply runs_ret.
      split; [reflexivity |]. split; [reflexivity |]. split; [discriminate |].
      intros _. split; [reflexivity |].
      cbn [Midi.m_PowerState Midi.set_PowerState]. rewrite Hnew.
      intros [Hsettled | Hchanged]; [exact Hsettled | contradiction Hchanged; reflexivity].
  - apply runs_weaken with (P := fun _ w' => that w' = that w /\ trace w' = trace w).
    + destruct (bool_decide (NewState = PowerDeviceD0)).
      * destruct (negb (bool_decide (Midi.m_PowerState this = PowerDeviceD0)));
          [| apply runs_when; [discriminate |]; intros _; split; reflexivity].
        apply runs_when; [| discriminate]. intros _. apply runs_bind.
        eapply runs_weaken; [apply WriteMMA_powered_down, Hpower |].
        cbv beta. intros _ w1 (Hthat1 & Htrace1).
        eapply runs_weaken;
          [apply WriteMMA_powered_down; rewrite Hthat1; exact Hpower |].
        cbv beta. intros _ w2 (Hthat2 & Htrace2). split; congruence.
      * destruct (bool_decide (Midi.m_PowerState this = PowerDeviceD0));
          [| apply runs_when; [discriminate |]; intros _; split; reflexivity].
        apply runs_when; [| discriminate]. intros _.
        apply WriteMMA_powered_down, Hpower.
    + intros _ w' (Hthat & Htrace). apply runs_ret.
      split; [exact Hthat |]. split; [reflexivity |].
      split; [intros _; exact Htrace | discriminate].
Qed.

Lemma midi_power_requests_runs requests : forall this w,
  runs (midi_power_requests requests this) w
    (fun this' w' =>
       that w' = that w /\
       this' = Midi.set_PowerState (default (Midi.m_PowerState this) (last requests)) this /\
       (operative (m_PowerState (that w)) = false -> trace w' = trace w) /\
       (operative (m_PowerState (that w)) = true ->
        midi_control_settled this (trace w) ->
        midi_control_settled this' (trace w'))).
Proof.
  induction requests as [| NewState rest IH]; intros this w;
    cbn [midi_power_requests].
  - apply runs_ret. split; [reflexivity |].
    split; [destruct this; reflexivity |].
    split; [reflexivity |]. intros _ Hsettled. exact Hsettled.
  - apply runs_bind.
    eapply runs_weaken; [apply Midi_PowerChangeState_runs |].
    cbv beta. intros this1 w1 (Hthat1 & -> & Hoff1 & Hon1).
    eapply runs_weaken; [apply IH |].
    cbv beta. intros this2 w2 (Hthat2 & -> & Hoff2 & Hon2).
    rewrite Hthat1 in Hoff2, Hon2.
    split; [congruence |].
    split.
    { cbn [Midi.m_PowerState Midi.set_PowerState].
      destruct rest as [| next rest]; [reflexivity |].
      change (last (NewState :: next :: rest)) with (last (next :: rest)).
      destruct (last (next :: rest)) as [final |] eqn:Hfinal; [reflexivity |].
      apply last_None in Hfinal. discriminate. }
    split.
    + intros Hoff. rewrite (Hoff2 Hoff). apply Hoff1, Hoff.
    + intros Hon Hsettled. apply (Hon2 Hon).
      apply (Hon1 Hon). left. exact Hsettled.
Qed.

(** X28: the MIDI interrupt sources follow the power state of the miniport.
    A power request never faults, changes nothing of the miniport but its
    power state, which becomes the state requested, and leaves the adapter
    object alone.  On an operative adapter, once the MIDI control register
    agrees with the power state (default control, with the receive interrupt
    enabled, in D0; all four sources masked otherwise), it does so after any
    sequence of power requests, and a request that moves between D0 and a
    low-power state brings the agreement about by itself; a request that
    does not cross that line does no I/O.  With the adapter powered down the
    requests do no I/O at all, so the register keeps its old value. *)
Theorem midi_interrupts_follow_power
    (requests : list DEVICE_POWER_STATE)
    (this : Midi.CMiniportMidiUartAdLibGold) (w : World) :
  (exists this' w',
      midi_power_requests requests this w = Done this' w' /\
      that w' = that w /\
      this' = Midi.set_PowerState (default (Midi.m_PowerState this) (last requests)) this /\
      (operative (m_PowerState (that w)) = false -> trace w' = trace w) /\
      (operative (m_PowerState (that w)) = true ->
       midi_control_settled this (trace w) ->
       midi_control_settled this' (trace w'))) /\
  (forall NewState,
      operative (m_PowerState (that w)) = true ->
      runs (Midi.PowerChangeState NewState this) w
        (fun this' w' =>
           if bool_decide (bool_decide (NewState = PowerDeviceD0)
                           = bool_decide (Midi.m_PowerState this = PowerDeviceD0))
           then trace w' = trace w
           else midi_control_settled this' (trace w'))) /\
  Z.land MMA_MIDI_CTRL_DEFAULT
         (Z.lor (Z.lor MMA_MIDI_MSK_RRQ MMA_MIDI_RCV_RST) MMA_MIDI_TRS_RST) = 0 /\
  Z.land MMA_MIDI_CTRL_MASKED MMA_MIDI_MSK_RRQ = MMA_MIDI_MSK_RRQ.
Proof.
  split; [| split; [| split; reflexivity]].
  - destruct (midi_power_requests_runs requests this w)
      as (this' & w' & Hrun & Hthat & Hthis & Hoff & Hon).
    exists this', w'. repeat (split; [assumption |]). exact Hon.
  - intros NewState Hpower.
    eapply runs_weaken; [apply Midi_PowerChangeState_runs |].
    cbv beta. intros this' w' (_ & _ & _ & Hon).
    destruct (Hon Hpower) as [Hsame Hchanged].
    destruct (bool_decide (bool_decide (NewState = PowerDeviceD0)
                           = bool_decide (Midi.m_PowerState this = PowerDeviceD0)))
      eqn:Hcrossing.
    + apply bool_decide_eq_true_1 in Hcrossing. apply Hsame, Hcrossing.
    + apply bool_decide_eq_false_1 in Hcrossing. apply Hchanged. right. exact Hcrossing.
Qed.

Lemma midi_interrupts_follow_power_witness :
  exists this' w',
    midi_power_requests [PowerDeviceD3; PowerDeviceD0]
      (midi_with KSSTATE_RUN 1 0 0) (adapter_in PowerDeviceD0 None None)
    = Done this' w' /\
    midi_control (trace w') = Some MMA_MIDI_CTRL_DEFAULT /\
    length (written_to ALG_REG_MMA0_DATA (trace w')) = 3%nat.
Proof.
  destruct (midi_interrupts_follow_power [PowerDeviceD3; PowerDeviceD0]
              (midi_with KSSTATE_RUN 1 0 0) (adapter_in PowerDeviceD0 None None))
    as [(this' & w' & Hrun & _) _].
  pose proof Hrun as Hresult. vm_compute in Hresult.
  injection Hresult as Hthis Hw.
  exists this', w'. split; [exact Hrun |].
  rewrite <- Hw. split; reflexivity.
Defined.

(** ** The wave miniport: draining the FIFO *)

Lemma ReadMMA_value plat Register w :
  runs (ReadMMA plat Register) w
    (fun value w' =>
       that w' = that w /\ 0 <= value < 256 /\
       trace w' = trace w ++
         (if operative (m_PowerState (that w))
          then mma_read_events Register value
          else []) /\
       (operative (m_PowerState (that w)) = false -> value = 0)).
Proof.
  destruct (operative (m_PowerState (that w))) eqn:Hpower.
  - eapply runs_weaken; [apply ReadMMA_operative, Hpower |].
    cbv beta. intros value w' (Hthat & Hbyte & Htrace).
    split; [exact Hthat |]. split; [exact Hbyte |]. split; [exact Htrace | discriminate].
  - apply runs_known with (a := 0) (w' := w); [apply ReadMMA_powered_down, Hpower |].
    split; [reflexivity |]. split; [lia |].
    split; [symmetry; apply app_nil_r | reflexivity].
Qed.

Lemma shifted_index_differs position distance size :
  0 <= position < size -> 0 < distance < size ->
  (position + distance) mod size <> position.
Proof.
  intros Hposition Hdistance Hsame.
  destruct (Z_lt_le_dec (position + distance) size) as [Hlow | Hhigh].
  - rewrite Z.mod_small in Hsame by lia. lia.
  - replace (position + distance) with (position + distance - size + 1 * size)
      in Hsame by lia.
    rewrite Z_mod_plus_full, Z.mod_small in Hsame by lia. lia.
Qed.

Lemma DrainFifo_loop_runs plat remaining : forall pBuffer position size lfsr w,
  length pBuffer = Z.to_nat size ->
  size mod 2 = 0 -> position mod 2 = 0 -> 0 <= position < size ->
  runs (Wave.DrainFifo_loop plat remaining pBuffer (Wave.mkPio position size lfsr)) w
    (fun result w' =>
       that w' = that w /\
       snd result = Wave.mkPio ((position + 2 * Z.of_nat remaining) mod size) size lfsr /\
       length (fst result) = length pBuffer /\
       exists pairs,
         length pairs = remaining /\
         Forall (fun pair => 0 <= fst pair < 256 /\ 0 <= snd pair < 256) pairs /\
         trace w' = trace w ++
           (if operative (m_PowerState (that w))
            then flat_map fifo_read_pair pairs
            else []) /\
         (operative (m_PowerState (that w)) = false ->
          Forall (fun pair => pair = (0, 0)) pairs) /\
         (forall k : nat,
             (forall i, 0 <= i < 2 * Z.of_nat remaining ->
                        k <> Z.to_nat ((position + i) mod size)) ->
             fst result !! k = pBuffer !! k) /\
         (2 * Z.of_nat remaining <= size ->
          forall (i : nat) pair,
            pairs !! i = Some pair ->
            fst result !! Z.to_nat ((position + 2 * Z.of_nat i) mod size)
            = Some (fst pair) /\
            fst result !! Z.to_nat ((position + 2 * Z.of_nat i) mod size + 1)
            = Some (snd pair))).
Proof.
  induction remaining as [| remaining IH];
    intros pBuffer position size lfsr w Hlen Hsize_even Hposition_even Hposition;
    cbn [Wave.DrainFifo_loop].
  - apply runs_ret. cbn [fst snd]. split; [reflexivity |]. split.
    { cbn [Z.of_nat]. rewrite Z.mul_0_r, Z.add_0_r, Z.mod_small by lia. reflexivity. }
    split; [reflexivity |].
    exists []. split; [reflexivity |]. split; [constructor |].
    split.
    { cbn [flat_map]. destruct (operative (m_PowerState (that w)));
        symmetry; apply app_nil_r. }
    split; [intros _; constructor |].
    split; [intros k _; reflexivity |].
    intros _ i pair Hpair. rewrite lookup_nil in Hpair. discriminate.
  - cbn [Wave.m_SoftwarePosition Wave.m_DmaBufferSize Wave.m_LfsrState].
    assert (Hnext : position + 2 <= size)
      by (revert Hsize_even Hposition_even; Z.div_mod_to_equations; lia).
    apply runs_bind.
    eapply runs_weaken; [apply ReadMMA_value |].
    cbv beta. intros lo w1 (Hthat1 & Hlo & Htrace1 & Hzero1).
    apply runs_bind.
    eapply runs_weaken; [apply ReadMMA_value |].
    cbv beta. intros hi w2 (Hthat2 & Hhi & Htrace2 & Hzero2).
    rewrite Hthat1 in Htrace2, Hzero2.
    apply runs_bind. unfold Wave.store_pair.
    replace (0 <=? position) with true by (symmetry; apply Z.leb_le; lia).
    replace (position + 1 <? Z.of_nat (length pBuffer)) with true
      by (symmetry; apply Z.ltb_lt; lia).
    cbn [andb]. apply runs_ret.
    set (stored := <[Z.to_nat (position + 1) := hi]>
                     (<[Z.to_nat position := lo]> pBuffer)).
    assert (Hstored : length stored = length pBuffer)
      by (unfold stored; rewrite !length_insert; reflexivity).
    set (position' := if size <=? position + 2 then 0 else position + 2).
    assert (Hposition' : position' mod 2 = 0 /\ 0 <= position' < size /\
                         forall distance,
                           (position' + distance) mod size
                           = (position + (2 + distance)) mod size).
    { unfold position'.
      destruct (size <=? position + 2) eqn:Hwrap;
        [apply Z.leb_le in Hwrap | apply Z.leb_gt in Hwrap].
      - split; [reflexivity |]. split; [lia |]. intros distance.
        replace (position + (2 + distance)) with (0 + distance + 1 * size) by lia.
        rewrite Z_mod_plus_full. reflexivity.
      - split; [| split; [lia | intros distance; f_equal; lia]].
        revert Hposition_even. Z.div_mod_to_equations. lia. }
    destruct Hposition' as (Heven' & Hrange' & Hshift).
    eapply runs_weaken;
      [apply (IH stored position' size lfsr w2); [lia | assumption ..] |].
    cbv beta.
    intros [drained this'] w3
           (Hthat3 & Hthis & Hlength & pairs & Hcount & Hbytes & Htrace3 & Hzero3
            & Hframe & Hplaced).
    cbn [fst snd] in *.
    rewrite Hthat2, Hthat1 in Htrace3, Hzero3.
    split; [congruence |]. split.
    { rewrite Hthis, Hshift. f_equal. f_equal. lia. }
    split; [lia |].
    exists ((lo, hi) :: pairs).
    split; [cbn [length]; rewrite Hcount; reflexivity |].
    split; [constructor; [split; assumption | exact Hbytes] |].
    split.
    { rewrite Htrace3, Htrace2, Htrace1.
      destruct (operative (m_PowerState (that w))).
      - cbn [flat_map fifo_read_pair fst snd]. rewrite <- !app_assoc. reflexivity.
      - rewrite !app_nil_r. reflexivity. }
    split.
    { intros Hoff. constructor; [| apply Hzero3, Hoff].
      rewrite (Hzero1 Hoff), (Hzero2 Hoff). reflexivity. }
    assert (Hstay : forall k : nat,
               k <> Z.to_nat position -> k <> Z.to_nat (position + 1) ->
               stored !! k = pBuffer !! k).
    { intros k Hlow Hhigh. unfold stored.
      rewrite !list_lookup_insert_ne by congruence. reflexivity. }
    split.
    + intros k Hk. rewrite Hframe.
      * apply Hstay.
        -- specialize (Hk 0 ltac:(lia)).
           rewrite Z.add_0_r, Z.mod_small in Hk by lia. exact Hk.
        -- specialize (Hk 1 ltac:(lia)). rewrite Z.mod_small in Hk by lia. exact Hk.
      * intros i Hi. rewrite Hshift. apply Hk. lia.
    + intros Hroom i pair Hpair.
      destruct i as [| i]; cbn [lookup] in Hpair.
      * injection Hpair as <-. cbn [fst snd Z.of_nat].
        rewrite Z.mul_0_r, Z.add_0_r, Z.mod_small by lia.
        assert (Hclear : forall offset, 0 <= offset <= 1 ->
                  forall j, 0 <= j < 2 * Z.of_nat remaining ->
                    Z.to_nat (position + offset)
                    <> Z.to_nat ((position' + j) mod size)).
        { intros offset Hoffset j Hj Hsame.
          pose proof (Z.mod_pos_bound (position' + j) size ltac:(lia)) as Hbound.
          apply Z2Nat.inj in Hsame; [| lia | lia].
          rewrite Hshift in Hsame.
          apply (shifted_index_differs (position + offset) (2 + j - offset) size);
            [lia | lia |].
          replace (position + offset + (2 + j - offset)) with (position + (2 + j))
            by lia.
          symmetry. exact Hsame. }
        split.
        -- rewrite Hframe.
           ++ unfold stored. rewrite list_lookup_insert_ne by lia.
              apply list_lookup_insert_eq. lia.
           ++ intros j Hj. specialize (Hclear 0 ltac:(lia) j Hj).
              rewrite Z.add_0_r in Hclear. exact Hclear.
        -- rewrite Hframe.
           ++ unfold stored. apply list_lookup_insert_eq.
              rewrite length_insert. lia.
           ++ intros j Hj. apply (Hclear 1 ltac:(lia) j Hj).
      * cbn in Hpair.
        destruct (Hplaced ltac:(lia) i pair Hpair) as [Hlow Hhigh].
        rewrite Hshift in Hlow, Hhigh.
        replace (position + 2 * Z.of_nat (S i))
          with (position + (2 + 2 * Z.of_nat i)) by lia.
        split; assumption.
Qed.

(** X29: one call of DrainFifo stores one FIFO's worth.  With a buffer of
    even size that the position lies in, on an even offset, it never writes
    outside the buffer and keeps its length; it reads 64 byte pairs from the
    PCM data register, low byte first; the position advances by 128 bytes
    modulo the buffer size, the LFSR and the adapter object are not
    touched.  Bytes outside the 128 positions from the old position on,
    wrapping at the end, are unchanged, and when the buffer holds at least
    128 bytes the pairs lie there in the order read.  With the adapter
    powered down nothing is read from the ports and zeros are stored.
    Without a buffer it does nothing. *)
Theorem DrainFifo_stores_one_fifo
    (plat : Platform) (pBuffer : list Z) (this : Wave.PioState) (w : World) :
  length pBuffer = Z.to_nat (Wave.m_DmaBufferSize this) ->
  Wave.m_DmaBufferSize this mod 2 = 0 ->
  Wave.m_SoftwarePosition this mod 2 = 0 ->
  0 <= Wave.m_SoftwarePosition this < Wave.m_DmaBufferSize this ->
  exists stored this' w' pairs,
    Wave.DrainFifo plat (Some pBuffer) this w = Done (Some stored, this') w' /\
    that w' = that w /\
    this' = Wave.mkPio ((Wave.m_SoftwarePosition this + MMA_FIFO_SIZE)
                        mod Wave.m_DmaBufferSize this)
                       (Wave.m_DmaBufferSize this) (Wave.m_LfsrState this) /\
    length stored = length pBuffer /\
    length pairs = 64%nat /\
    Forall (fun pair => 0 <= fst pair < 256 /\ 0 <= snd pair < 256) pairs /\
    trace w' = trace w ++
      (if operative (m_PowerState (that w))
       then flat_map fifo_read_pair pairs
       else []) /\
    (operative (m_PowerState (that w)) = false ->
     Forall (fun pair => pair = (0, 0)) pairs) /\
    (forall k : nat,
        (forall i, 0 <= i < MMA_FIFO_SIZE ->
                   k <> Z.to_nat ((Wave.m_SoftwarePosition this + i)
                                  mod Wave.m_DmaBufferSize this)) ->
        stored !! k = pBuffer !! k) /\
    (MMA_FIFO_SIZE <= Wave.m_DmaBufferSize this ->
     forall (i : nat) pair,
       pairs !! i = Some pair ->
       stored !! Z.to_nat ((Wave.m_SoftwarePosition this + 2 * Z.of_nat i)
                           mod Wave.m_DmaBufferSize this)
       = Some (fst pair) /\
       stored !! Z.to_nat ((Wave.m_SoftwarePosition this + 2 * Z.of_nat i)
                           mod Wave.m_DmaBufferSize this + 1)
       = Some (snd pair)) /\
    Wave.DrainFifo plat None this w = Done (None, this) w.
Proof.
  intros Hlen Hsize_even Hposition_even Hposition.
  destruct this as [position size lfsr].
  cbn [Wave.m_SoftwarePosition Wave.m_DmaBufferSize Wave.m_LfsrState] in *.
  destruct (DrainFifo_loop_runs plat (Z.to_nat (MMA_FIFO_SIZE / 2)) pBuffer position
              size lfsr w Hlen Hsize_even Hposition_even Hposition)
    as ([stored this'] & w' & Hrun & Hthat & Hthis & Hlength & pairs & Hcount & Hbytes
        & Htrace & Hzero & Hframe & Hplaced).
  cbn [fst snd] in *.
  exists stored, this', w', pairs.
  split; [unfold Wave.DrainFifo, bind; rewrite Hrun; reflexivity |].
  split; [exact Hthat |]. split; [exact Hthis |]. split; [exact Hlength |].
  split; [exact Hcount |]. split; [exact Hbytes |]. split; [exact Htrace |].
  split; [exact Hzero |]. split; [exact Hframe |].
  split; [exact Hplaced | reflexivity].
Qed.

Lemma DrainFifo_stores_one_fifo_witness :
  exists stored this' w',
    Wave.DrainFifo midi_card (Some (replicate 200 0)) (Wave.mkPio 100 200 0xACE1)
      (adapter_in PowerDeviceD0 None None)
    = Done (Some stored, this') w' /\
    Wave.m_SoftwarePosition this' = 28 /\
    stored !! 150%nat = Some 0x90 /\
    stored !! 50%nat = Some 0 /\
    length (read_from ALG_REG_MMA0_DATA (trace w')) = 128%nat.
Proof.
  destruct (DrainFifo_stores_one_fifo midi_card (replicate 200 0)
              (Wave.mkPio 100 200 0xACE1) (adapter_in PowerDeviceD0 None None))
    as (stored & this' & w' & pairs & Hrun & _).
  - reflexivity.
  - reflexivity.
  - reflexivity.
  - cbn. lia.
  - pose proof Hrun as Hresult. vm_compute in Hresult.
    injection Hresult as Hstored Hthis Hw.
    exists stored, this', w'. split; [exact Hrun |].
    rewrite <- Hstored, <- Hthis, <- Hw. vm_compute. repeat split.
Defined.
